(** * VirtualEngineering: the optimisation driver and the stage models

    A shallow embedding of [vebio/OptimizationFunctions.py] and
    [vebio/RunFunctions.py].

    - Python [float] is IEEE binary64, represented by [spec_float] with the
      operations of the standard library's [SpecFloat] at precision 53.
    - Python objects whose attributes are reached by name ([hasattr],
      [setattr], properties) are attribute dictionaries together with the
      name space of their class; the class name space is obtained by running
      the class body statement by statement.
    - A method is a function from a state to an outcome and a state: an
      exception leaves the state as it was when it was raised.
    - The YAML parameter files are maps from section names to maps from keys
      to values; the result logs are lists of lines.  File names are taken
      relative to the notebook directory; [os.chdir] is recorded in [cwd].
    - [print] is not modelled.
    - Statements about the values of floats read a finite float as the
      rational number it stands for ([F2Q]); the rounding of the four
      operations is derived from the definitions of [SpecFloat]. *)

From Stdlib Require Import ZArith QArith Qabs Qpower List String Bool Lia Lqa.
From Stdlib Require Import SpecFloat.
From stdpp Require Import gmap strings.

Import ListNotations.
Local Open Scope string_scope.
Local Open Scope list_scope.
Local Open Scope Z_scope.

(* ===================================================================== *)
(** ** Python floats *)

Module PyFloat.

Definition prec : Z := 53.
Definition emax : Z := 1024.

Definition float := spec_float.

(** The float nearest to an integer ([float(z)] when it does not
    overflow). *)
Definition of_Z (z : Z) : float := binary_normalize prec emax z 0 false.

Definition add : float -> float -> float := SFadd prec emax.
Definition sub : float -> float -> float := SFsub prec emax.
Definition mul : float -> float -> float := SFmul prec emax.
Definition div : float -> float -> float := SFdiv prec emax.
Definition opp : float -> float := SFopp.
Definition eqb : float -> float -> bool := SFeqb.
Definition succ : float -> float := SFsucc prec emax.
Definition pred : float -> float := SFpred prec emax.

(** A decimal literal [n/d] with [n] and [d] exactly representable: the
    division is correctly rounded, as is Python's reading of a literal. *)
Definition dec (n d : Z) : float := div (of_Z n) (of_Z d).

Definition nan : float := S754_nan.

Definition is_nan (x : float) : bool :=
  match x with S754_nan => true | _ => false end.

Definition is_zero (x : float) : bool :=
  match x with S754_zero _ => true | _ => false end.

(** Zero or finite: neither an infinity nor a NaN. *)
Definition is_finite (x : float) : bool :=
  match x with S754_zero _ | S754_finite _ _ _ => true | _ => false end.

(** Exact comparison of an integer with a float, as Python compares an
    [int] with a [float]; [None] when the float is a NaN. *)
Definition Zcompare (z : Z) (x : float) : option comparison :=
  match x with
  | S754_nan => None
  | S754_infinity s => Some (if s then Gt else Lt)
  | S754_zero _ => Some (z ?= 0)
  | S754_finite s m e =>
      let sm := if s then Z.neg m else Z.pos m in
      Some (match e with
            | Z.neg p => (z * Z.pow 2 (Z.pos p) ?= sm)
            | _ => (z ?= sm * Z.pow 2 e)
            end)
  end.

End PyFloat.

Import PyFloat.

(* ===================================================================== *)
(** ** Python values, f-strings and exceptions *)

#[warnings="-register-all"]
Inductive pyval :=
| PyNone
| PyBool (b : bool)
| PyInt (z : Z)
| PyFloat (f : float)
| PyStr (s : string)
| PyDict (d : gmap string pyval)
| PyMethod (name : string).   (* a method bound to the object holding it *)

(** An f-string is kept as its pieces: literal text and interpolated
    values, the latter before they are formatted. *)
Inductive fpiece :=
| Lit (s : string)
| Val (v : pyval).

Inductive exn :=
| ValueError (msg : list fpiece)
| ZeroDivisionError
| AttributeError (name : string)
| KeyError (key : string)
| IndexError
| TypeError
| OverflowError
| AssertionError
| FileNotFoundError (file : string)
| Unmodelled (what : string).

Inductive outcome (A : Type) :=
| Ret (a : A)
| Raise (e : exn).
Arguments Ret {A} a.
Arguments Raise {A} e.

(** *** Computations over a state [S] that may raise *)

Definition M (S A : Type) : Type := S -> outcome A * S.

Definition ret {S A} (a : A) : M S A := fun s => (Ret a, s).
Definition raise {S A} (e : exn) : M S A := fun s => (Raise e, s).
Definition bind {S A B} (c : M S A) (k : A -> M S B) : M S B :=
  fun s => match c s with
           | (Ret a, s') => k a s'
           | (Raise e, s') => (Raise e, s')
           end.
Definition gets {S A} (f : S -> A) : M S A := fun s => (Ret (f s), s).
Definition modify {S} (f : S -> S) : M S unit := fun s => (Ret tt, f s).
Definition lift {S A} (o : outcome A) : M S A := fun s => (o, s).

Declare Scope py_scope.
Delimit Scope py_scope with py.
Notation "x <- c ;; k" := (bind c (fun x => k))
  (at level 100, c at next level, right associativity) : py_scope.
Notation "c ;;; k" := (bind c (fun _ => k))
  (at level 100, right associativity) : py_scope.
Local Open Scope py_scope.

(** [for x in l: body x]. *)
Fixpoint for_each {S A} (l : list A) (body : A -> M S unit) : M S unit :=
  match l with
  | [] => ret tt
  | x :: l' => body x ;;; for_each l' body
  end.

(** A computation on a part [T] of the state [S]. *)
Definition zoom {S T A} (proj : S -> T) (upd : T -> S -> S) (c : M T A)
  : M S A :=
  fun s => let '(r, t') := c (proj s) in (r, upd t' s).

(* ===================================================================== *)
(** ** Arithmetic on numbers

    [normalize] and [scale_back] are written with the arithmetic operators
    only, so Python runs them on any number type.  The driver calls them
    with floats ([float_Number]), and every statement about the driver is
    made at that instance.  The instance for exact rationals ([Q_Number],
    as [fractions.Fraction] in Python) is the exact reading the round trip
    is compared with: it rounds nothing and nothing about floats follows
    from it. *)

Class Number (A : Type) := {
  num_add : A -> A -> A;
  num_sub : A -> A -> A;
  num_mul : A -> A -> A;
  num_quot : A -> A -> A;      (* the quotient, for a divisor that is not zero *)
  num_is_zero : A -> bool
}.

#[export] Instance float_Number : Number float := {
  num_add := PyFloat.add;
  num_sub := PyFloat.sub;
  num_mul := PyFloat.mul;
  num_quot := PyFloat.div;
  num_is_zero := PyFloat.is_zero
}.

#[export] Instance Q_Number : Number Q := {
  num_add := Qplus;
  num_sub := Qminus;
  num_mul := Qmult;
  num_quot := Qdiv;
  num_is_zero := fun q => Qeq_bool q 0
}.

(** [x / y]: Python raises [ZeroDivisionError] on a zero divisor. *)
Definition truediv {A} `{Number A} (x y : A) : outcome A :=
  if num_is_zero y then Raise ZeroDivisionError else Ret (num_quot x y).

Module Optimization_static.

(** [Optimization.normalize] *)
Definition normalize {A} `{Number A} (value : A) (bounds : A * A)
  : outcome A :=
  let '(lb, ub) := bounds in
  truediv (num_sub value lb) (num_sub ub lb).

(** [Optimization.scale_back] *)
Definition scale_back {A} `{Number A} (value : A) (bounds : A * A) : A :=
  let '(lb, ub) := bounds in
  num_add (num_mul value (num_sub ub lb)) lb.

End Optimization_static.

Import Optimization_static.

(* ===================================================================== *)
(** ** Operators on Python values *)

(** [float(a)] for a number.  Every call site compares [a] with a number
    first, which raises [TypeError] for anything else, so the reading of a
    string is not modelled. *)
Definition py_float (a : pyval) : outcome float :=
  match a with
  | PyFloat f => Ret f
  | PyInt z =>
      let f := of_Z z in
      if is_finite f then Ret f else Raise OverflowError
  | PyBool b => Ret (of_Z (if b then 1 else 0))
  | PyStr _ => Raise (Unmodelled "float(str)")
  | _ => Raise TypeError
  end.

(** The float an operand of mixed arithmetic stands for. *)
Definition as_float (a : pyval) : outcome float :=
  match a with
  | PyFloat f => Ret f
  | PyInt z =>
      let f := of_Z z in
      if is_finite f then Ret f else Raise OverflowError
  | PyBool b => Ret (of_Z (if b then 1 else 0))
  | _ => Raise TypeError
  end.

(** Comparison of two numbers; [None] when a NaN is involved. *)
Definition num_compare (x y : pyval) : outcome (option comparison) :=
  let int_of v := match v with
                  | PyInt z => Some z
                  | PyBool b => Some (if b then 1 else 0)
                  | _ => None
                  end in
  match int_of x, int_of y, x, y with
  | Some a, Some b, _, _ => Ret (Some (a ?= b))
  | Some a, None, _, PyFloat g => Ret (PyFloat.Zcompare a g)
  | None, Some b, PyFloat f, _ => Ret (option_map CompOpp (PyFloat.Zcompare b f))
  | None, None, PyFloat f, PyFloat g => Ret (SFcompare f g)
  | _, _, _, _ => Raise TypeError
  end.

(** [x <= y] *)
Definition py_le (x y : pyval) : outcome bool :=
  match num_compare x y with
  | Ret (Some Lt) | Ret (Some Eq) => Ret true
  | Ret _ => Ret false
  | Raise e => Raise e
  end.

(** [x < y] *)
Definition py_lt (x y : pyval) : outcome bool :=
  match num_compare x y with
  | Ret (Some Lt) => Ret true
  | Ret _ => Ret false
  | Raise e => Raise e
  end.

(** [lo <= a <= hi]: the second comparison is made only if the first
    holds. *)
Definition in_closed (lo hi a : pyval) : outcome bool :=
  match py_le lo a with
  | Ret true => py_le a hi
  | r => r
  end.

(** [lo < a < hi] *)
Definition in_open (lo hi a : pyval) : outcome bool :=
  match py_lt lo a with
  | Ret true => py_lt a hi
  | r => r
  end.

(** [v == 'text'] *)
Definition py_eq_str (v : pyval) (s : string) : bool :=
  match v with PyStr s' => String.eqb s' s | _ => false end.

(** [v is 'text']: two strings of different contents are different
    objects; for equal contents the interned literal is taken. *)
Definition py_is_str (v : pyval) (s : string) : bool := py_eq_str v s.

(** The truth value of an object. *)
Definition truthy (v : pyval) : bool :=
  match v with
  | PyNone => false
  | PyBool b => b
  | PyInt z => negb (z =? 0)
  | PyFloat f => negb (is_zero f)
  | PyStr s => negb (String.eqb s "")
  | PyDict d => negb (bool_decide (d = ∅ :> gmap string pyval)) 
  | PyMethod _ => true
  end.

(** [d[key]] *)
Definition py_getitem (d : pyval) (key : string) : outcome pyval :=
  match d with
  | PyDict m => match m !! key with
                | Some v => Ret v
                | None => Raise (KeyError key)
                end
  | _ => Raise TypeError
  end.

(** [-x] *)
Definition py_neg (x : pyval) : outcome pyval :=
  match x with
  | PyFloat f => Ret (PyFloat (opp f))
  | PyInt z => Ret (PyInt (- z))
  | PyBool b => Ret (PyInt (- (if b then 1 else 0)))
  | _ => Raise TypeError
  end.

(** [np.isnan(x)] *)
Definition np_isnan (x : pyval) : outcome bool :=
  match x with
  | PyFloat f => Ret (is_nan f)
  | PyInt _ | PyBool _ => Ret false
  | _ => Raise TypeError
  end.

(* ===================================================================== *)
(** ** The world: parameter files, result logs, working directory *)

(** A line of a result log.  A data row keeps the numbers it prints and
    the number of digits of its [%.<digits>e] format. *)
Inductive line :=
| Text (s : string)
| Row (digits : nat) (iteration : Z) (values : list float) (objective : float)
| RowPrefix (iteration : Z) (values : list float).   (* a row cut short *)

Record World := {
  yamls : gmap string (gmap string pyval);
  logs : gmap string (list line);
  cwd : string
}.

Definition set_yamls (f : gmap string (gmap string pyval) ->
                          gmap string (gmap string pyval)) (w : World) :=
  {| yamls := f (yamls w); logs := logs w; cwd := cwd w |}.
Definition set_logs (f : gmap string (list line) -> gmap string (list line))
  (w : World) :=
  {| yamls := yamls w; logs := f (logs w); cwd := cwd w |}.

(** [os.chdir(d)] *)
Definition chdir (d : string) : M World unit :=
  modify (fun w => {| yamls := yamls w; logs := logs w; cwd := d |}).

(** [open(file, 'w')] followed by the writing of [ls]. *)
Definition write_log (file : string) (ls : list line) : M World unit :=
  modify (set_logs (insert file ls)).

(** [open(file, 'a')] followed by the writing of [ls]. *)
Definition append_log (file : string) (ls : list line) : M World unit :=
  modify (set_logs (fun m => <[file := default [] (m !! file) ++ ls]> m)).

Module Utilities.

(** Modelled from the spec: [vebio/Utilities.py] is not among the sources.
    [yaml_to_dict] reads the whole persisted document. *)
Definition yaml_to_dict (filename : string) : M World pyval :=
  fun w => match yamls w !! filename with
           | Some d => (Ret (PyDict d), w)
           | None => (Raise (FileNotFoundError filename), w)
           end.

(** Modelled from the spec: [vebio/Utilities.py] is not among the sources.
    [dict_to_yaml] writes the given dictionaries over the file, a later
    one replacing the sections of an earlier one that it names; with
    [merge_with_existing] the sections of the existing document that are
    not named are kept. *)
Definition dict_to_yaml (ds : list pyval) (filename : string)
  (merge_with_existing : bool) : M World unit :=
  fun w =>
    let base : gmap string pyval :=
      if merge_with_existing then default ∅ (yamls w !! filename) else ∅ in
    let step (acc : outcome (gmap string pyval)) (d : pyval) :=
      match acc, d with
      | Ret m, PyDict s => Ret (s ∪ m)
      | Ret _, _ => Raise (Unmodelled "yaml.dump of a scalar")
      | Raise e, _ => Raise e
      end in
    match fold_left step ds (Ret base) with
    | Ret m => (Ret tt, set_yamls (insert filename m) w)
    | Raise e => (Raise e, w)
    end.

End Utilities.

Import Utilities.

(* ===================================================================== *)
(** ** Objects, classes and properties *)

(** The state a method runs in: the attributes of [self] and the world. *)
Definition St : Type := gmap string pyval * World.

(** [self.name] for an instance attribute. *)
Definition self_get (name : string) : M St pyval :=
  fun s => match fst s !! name with
           | Some v => (Ret v, s)
           | None => (Raise (AttributeError name), s)
           end.

(** [self.name = v] for an instance attribute. *)
Definition self_set (name : string) (v : pyval) : M St unit :=
  modify (fun s => (<[name := v]> (fst s), snd s)).

(** [self.name] where [name] is a plain method of the class: the instance
    dictionary comes first, then the function of the class, bound. *)
Definition self_method (name : string) : M St pyval :=
  fun s => (Ret (default (PyMethod name) (fst s !! name)), s).

(** A computation on the world, run from a method. *)
Definition world {T A} (c : M World A) : M (T * World) A :=
  zoom snd (fun w s => (fst s, w)) c.

Record property := {
  fget : option (M St pyval);
  fset : option (pyval -> M St unit)
}.

Inductive member :=
| Function
| Property (p : property).

(** The statements of a class body. *)
Inductive stmt :=
| Def (name : string)                               (* def name(self, ...) *)
| DefProperty (name : string) (f : M St pyval)      (* @property def name *)
| DefSetter (base name : string) (f : pyval -> M St unit).
                                                    (* @base.setter def name *)

(** A name space, the latest binding first. *)
Definition namespace := list (string * member).

Fixpoint ns_lookup (ns : namespace) (name : string) : option member :=
  match ns with
  | [] => None
  | (n, m) :: ns' => if String.eqb n name then Some m else ns_lookup ns' name
  end.

(** One statement of a class body: [def] binds its name; [@property]
    binds a property with a getter only; [@base.setter] looks [base] up,
    copies that property with the new setter and binds the copy to the name
    of the decorated function. *)
Definition exec_stmt (ns : namespace) (s : stmt) : option namespace :=
  match s with
  | Def n => Some ((n, Function) :: ns)
  | DefProperty n f =>
      Some ((n, Property {| fget := Some f; fset := None |}) :: ns)
  | DefSetter b n f =>
      match ns_lookup ns b with
      | Some (Property p) =>
          Some ((n, Property {| fget := fget p; fset := Some f |}) :: ns)
      | _ => None
      end
  end.

Fixpoint exec_body (ns : namespace) (body : list stmt) : option namespace :=
  match body with
  | [] => Some ns
  | s :: body' =>
      match exec_stmt ns s with
      | Some ns' => exec_body ns' body'
      | None => None
      end
  end.

(** [getattr(obj, name)] *)
Definition getattr (ns : namespace) (name : string) : M St pyval :=
  match ns_lookup ns name with
  | Some (Property p) =>
      match fget p with
      | Some g => g
      | None => raise (AttributeError name)
      end
  | Some Function => self_method name
  | None => self_get name
  end.

(** [hasattr(obj, name)]: false exactly when [getattr] raises
    [AttributeError]. *)
Definition hasattr (ns : namespace) (name : string) : M St bool :=
  fun s => match getattr ns name s with
           | (Ret _, s') => (Ret true, s')
           | (Raise (AttributeError _), s') => (Ret false, s')
           | (Raise e, s') => (Raise e, s')
           end.

(** [setattr(obj, name, v)]: a property of the class without a setter
    refuses the assignment. *)
Definition setattr (ns : namespace) (name : string) (v : pyval) : M St unit :=
  match ns_lookup ns name with
  | Some (Property p) =>
      match fset p with
      | Some f => f v
      | None => raise (AttributeError name)
      end
  | _ => self_set name v
  end.

(* ===================================================================== *)
(** ** The collaborators outside the sources *)

(** Modelled from the spec: [vebio/WidgetFunctions.py] is not among the
    sources.  A control exposes [value]; an [OptimizationWidget] wraps an
    inner widget with [value], [min], [max] and [description], and carries
    the [is_control] flag. *)
Record OptimizationWidget := {
  is_control : bool;
  w_min : float;
  w_max : float;
  w_value : float;
  description : string
}.

Inductive widget :=
| Optim (o : OptimizationWidget)
| Plain (value : pyval).

(** A [WidgetCollection]: the items of its [__dict__], in order. *)
Definition WidgetCollection := list (string * widget).

Fixpoint wc_lookup (wc : WidgetCollection) (name : string) : option widget :=
  match wc with
  | [] => None
  | (n, w) :: wc' => if String.eqb n name then Some w else wc_lookup wc' name
  end.

(** [options.name.value] *)
Definition dot_value (wc : WidgetCollection) (name : string) : outcome pyval :=
  match wc_lookup wc name with
  | Some (Plain v) => Ret v
  | Some (Optim _) => Raise (AttributeError "value")
  | None => Raise (AttributeError name)
  end.

(** [options.name.widget.value] *)
Definition dot_widget_value (wc : WidgetCollection) (name : string)
  : outcome float :=
  match wc_lookup wc name with
  | Some (Optim o) => Ret (w_value o)
  | Some (Plain _) => Raise (AttributeError "widget")
  | None => Raise (AttributeError name)
  end.

(** The programs and libraries the stages call: the steam table and its
    interpolation, the stage solvers, the executed scripts, the CFD job
    submission, the NaN check of [vebio/Utilities.py] and the minimiser. *)
Record Externals := {
  check_dict_for_nans : pyval -> outcome bool;
  interp_steam : float -> M World float;
  import_pt : M World unit;
  ptrun_main : string -> M World pyval;
  exec_file : string -> list string -> bool -> M World unit;
  EH_surrogate_main : string -> M World pyval;
  lignocell_EH_main : string -> pyval -> M World pyval;
  bcolumn_surrogate_main : string -> M World pyval;
  run_eh_cfd_simulation : pyval -> M St pyval;
  run_biorector_cfd_simulation : pyval -> M St pyval;
  opt_minimize :
    forall S : Type, (list float -> M S float) -> string -> list float ->
                     list (float * float) -> M S (list float * float)
}.

(** [os.path.join(self.notebookDir, name)]: file names are kept relative
    to the notebook directory. *)
Definition os_path_join (dir name : string) : string := name.

Definition as_str (v : pyval) : outcome string :=
  match v with PyStr s => Ret s | _ => Raise TypeError end.

(** [run_script(filename, *args, verbose=...)] *)
Definition run_script (ext : Externals) (filename : string)
  (args : list string) (verbose : bool) : M World unit :=
  exec_file ext filename args verbose.

(** The common shape of the range-checked setters: the check, the error
    naming the value and the interval, the store, the rewrite of the
    parameter file. *)
Definition checked_setter (check : pyval -> outcome bool) (interval : string)
  (store : float -> M St unit) (input2yaml : bool -> M St unit) (a : pyval)
  : M St unit :=
  ok <- lift (check a) ;;
  if negb ok then
    raise (ValueError [Lit "Value "; Val a;
                       Lit (" is outside allowed interval " +:+ interval)])
  else
    f <- lift (py_float a) ;;
    store f ;;;
    input2yaml true.

(** [params_dict[section] = block; dict_to_yaml(params_dict, ...)] or the
    first writing of the block. *)
Definition persist_block (section : string) (block : gmap string pyval)
  (rewrite merge_first : bool) : M St unit :=
  fname <- self_get "params_filename" ;;
  fname <- lift (as_str fname) ;;
  if rewrite then
    params_dict <- world (yaml_to_dict fname) ;;
    match params_dict with
    | PyDict d =>
        world (dict_to_yaml [PyDict (<[section := PyDict block]> d)] fname false)
    | _ => raise TypeError
    end
  else
    world (dict_to_yaml [PyDict {[section := PyDict block]}] fname merge_first).

(* ===================================================================== *)
(** ** class Feedstock *)

Module Feedstock.

Definition input2yaml (rewrite : bool) : M St unit :=
  x <- self_get "_xylan_solid_fraction" ;;
  g <- self_get "_glucan_solid_fraction" ;;
  p <- self_get "_initial_porosity" ;;
  let fs_input : gmap string pyval :=
    <["xylan_solid_fraction" := x]>
      (<["glucan_solid_fraction" := g]>
         (<["initial_porosity" := p]> ∅)) in
  persist_block "feedstock" fs_input rewrite false.

Definition __init__ (params_filename : string) (fs_options : WidgetCollection)
  : M St unit :=
  self_set "params_filename" (PyStr params_filename) ;;;
  x <- lift (dot_value fs_options "xylan_solid_fraction") ;;
  self_set "_xylan_solid_fraction" x ;;;
  g <- lift (dot_value fs_options "glucan_solid_fraction") ;;
  self_set "_glucan_solid_fraction" g ;;;
  p <- lift (dot_widget_value fs_options "initial_porosity") ;;
  self_set "_initial_porosity" (PyFloat p) ;;;
  input2yaml false.

Definition get_xylan_solid_fraction := self_get "_xylan_solid_fraction".
Definition set_xylan_solid_fraction :=
  checked_setter (in_closed (PyInt 0) (PyInt 1)) "[0, 1]"
    (fun f => self_set "_xylan_solid_fraction" (PyFloat f)) input2yaml.

Definition get_glucan_solid_fraction := self_get "_glucan_solid_fraction".
Definition set_glucan_solid_fraction :=
  checked_setter (in_closed (PyInt 0) (PyInt 1)) "[0, 1]"
    (fun f => self_set "_glucan_solid_fraction" (PyFloat f)) input2yaml.

Definition get_initial_porosity := self_get "_initial_porosity".
Definition set_initial_porosity :=
  checked_setter (in_open (PyInt 0) (PyInt 1)) "(0, 1)"
    (fun f => self_set "_initial_porosity" (PyFloat f)) input2yaml.

(** [run]: nothing to do. *)
Definition run : M St pyval := ret (PyBool false).

Definition body : list stmt := [
  Def "__init__";
  DefProperty "xylan_solid_fraction" get_xylan_solid_fraction;
  DefSetter "xylan_solid_fraction" "xylan_solid_fraction"
    set_xylan_solid_fraction;
  DefProperty "glucan_solid_fraction" get_glucan_solid_fraction;
  DefSetter "glucan_solid_fraction" "glucan_solid_fraction"
    set_glucan_solid_fraction;
  DefProperty "initial_porosity" get_initial_porosity;
  DefSetter "initial_porosity" "initial_porosity" set_initial_porosity;
  Def "input2yaml";
  Def "run" ].

End Feedstock.

(* ===================================================================== *)
(** ** class Pretreatment *)

Module Pretreatment.

Definition kelvin : float := dec 27315 100.     (* 273.15 *)

Definition input2yaml (rewrite : bool) : M St unit :=
  a <- self_get "_initial_acid_conc" ;;
  t <- self_get "_steam_temperature" ;;
  s <- self_get "_initial_solid_fraction" ;;
  b <- self_get "_bulk_steam_conc" ;;
  f <- self_get "_final_time" ;;
  let pt_input : gmap string pyval :=
    <["initial_acid_conc" := a]>
      (<["steam_temperature" := t]>
         (<["initial_solid_fraction" := s]>
            (<["bulk_steam_conc" := b]>
               (<["final_time" := f]> ∅)))) in
  persist_block "pretreatment_input" pt_input rewrite true.

Definition __init__ (ext : Externals) (notebookDir params_filename : string)
  (pt_options : WidgetCollection) : M St unit :=
  self_set "notebookDir" (PyStr notebookDir) ;;;
  self_set "params_filename" (PyStr params_filename) ;;;
  sp <- lift (dot_value pt_options "show_plots") ;;
  self_set "show_plots" sp ;;;
  a <- lift (dot_widget_value pt_options "initial_acid_conc") ;;
  self_set "_initial_acid_conc" (PyFloat a) ;;;
  t <- lift (dot_widget_value pt_options "steam_temperature") ;;
  let steam_temperature := PyFloat.add t kelvin in
  self_set "_steam_temperature" (PyFloat steam_temperature) ;;;
  s <- lift (dot_widget_value pt_options "initial_solid_fraction") ;;
  self_set "_initial_solid_fraction" (PyFloat s) ;;;
  ft <- lift (dot_widget_value pt_options "final_time") ;;
  self_set "_final_time" (PyFloat (PyFloat.mul (of_Z 60) ft)) ;;;
  dens <- world (interp_steam ext steam_temperature) ;;
  let mol_per_ml :=
    PyFloat.div (PyFloat.div dens (dec 1801528 100000)) (of_Z 1000) in
  self_set "_bulk_steam_conc" (PyFloat mol_per_ml) ;;;
  input2yaml false ;;;
  world (chdir "pretreatment_model/test/") ;;;
  world (import_pt ext) ;;;
  world (chdir notebookDir).

Definition get_initial_acid_conc := self_get "_initial_acid_conc".
Definition set_initial_acid_conc :=
  checked_setter (in_closed (PyInt 0) (PyInt 1)) "[0.0, 1.0]"
    (fun f => self_set "_initial_acid_conc" (PyFloat f)) input2yaml.

Definition get_steam_temperature : M St pyval :=
  t <- self_get "_steam_temperature" ;;
  t <- lift (as_float t) ;;
  ret (PyFloat (PyFloat.sub t kelvin)).
Definition set_steam_temperature :=
  checked_setter
    (in_closed (PyFloat (dec 38 10)) (PyFloat (dec 2503 10)))
    "[3.8, 250.3]"
    (fun f => self_set "_steam_temperature" (PyFloat (PyFloat.add f kelvin)))
    input2yaml.

Definition get_initial_solid_fraction := self_get "_initial_solid_fraction".
Definition set_initial_solid_fraction :=
  checked_setter (in_open (PyInt 0) (PyInt 1)) "(0, 1)"
    (fun f => self_set "_initial_solid_fraction" (PyFloat f)) input2yaml.

Definition get_final_time : M St pyval :=
  t <- self_get "_final_time" ;;
  t <- lift (as_float t) ;;
  ret (PyFloat (PyFloat.div t (of_Z 60))).
Definition set_final_time :=
  checked_setter (in_closed (PyInt 1) (PyInt 1440)) "[1, 1440]"
    (fun f => self_set "_final_time" (PyFloat (PyFloat.mul (of_Z 60) f)))
    input2yaml.

Definition get_bulk_steam_conc := self_get "_bulk_steam_conc".
Definition set_bulk_steam_conc :=
  checked_setter (in_open (PyInt 0) (PyInt 1)) "[0, 1]"
    (fun f => self_set "_bulk_steam_conc" (PyFloat f)) input2yaml.

Definition run (ext : Externals) (verbose : pyval) : M St pyval :=
  world (chdir "pretreatment_model/test/") ;;;
  nb <- self_get "notebookDir" ;;
  nb <- lift (as_str nb) ;;
  fname <- self_get "params_filename" ;;
  fname <- lift (as_str fname) ;;
  let path_to_input_file := os_path_join nb fname in
  ve_params <- world (ptrun_main ext path_to_input_file) ;;
  world (dict_to_yaml [ve_params] path_to_input_file false) ;;;
  sp <- self_get "show_plots" ;;
  (if truthy sp then
     world (run_script ext "postprocess.py"
              ["out_*.dat"; "exptdata_150C_1acid.dat"] (truthy verbose))
   else ret tt) ;;;
  world (chdir nb) ;;;
  out <- lift (py_getitem ve_params "pretreatment_output") ;;
  b <- lift (check_dict_for_nans ext out) ;;
  ret (PyBool b).

Definition body : list stmt := [
  Def "__init__";
  DefProperty "initial_acid_conc" get_initial_acid_conc;
  DefSetter "initial_acid_conc" "initial_acid_conc" set_initial_acid_conc;
  DefProperty "steam_temperature" get_steam_temperature;
  DefSetter "steam_temperature" "steam_temperature" set_steam_temperature;
  DefProperty "initial_solid_fraction" get_initial_solid_fraction;
  DefSetter "initial_solid_fraction" "initial_solid_fraction"
    set_initial_solid_fraction;
  DefProperty "final_time" get_final_time;
  DefSetter "final_time" "final_time" set_final_time;
  DefProperty "bulk_steam_conc" get_bulk_steam_conc;
  DefSetter "bulk_steam_conc" "bulk_steam_conc" set_bulk_steam_conc;
  Def "input2yaml";
  Def "run" ].

End Pretreatment.

(* ===================================================================== *)
(** ** class EnzymaticHydrolysis *)

Module EnzymaticHydrolysis.

Definition select_run_function : M St unit :=
  mt <- self_get "_model_type" ;;
  if py_eq_str mt "CFD Simulation" then
    hpc <- self_get "hpc_run" ;;
    (if truthy hpc then ret tt else raise AssertionError) ;;;
    r <- self_method "run_eh_cfd_simulation" ;;
    self_set "run" r
  else if py_eq_str mt "CFD Surrogate" then
    r <- self_method "run_eh_cfd_surrogate" ;;
    self_set "run" r
  else if py_eq_str mt "Lignocellulose Model" then
    r <- self_method "run_eh_lignocellulose_model" ;;
    self_set "run" r
  else ret tt.

Definition input2yaml (rewrite : bool) : M St unit :=
  mt <- self_get "_model_type" ;;
  l <- self_get "_lambda_e" ;;
  f <- self_get "_fis_0" ;;
  t <- self_get "_t_final" ;;
  let eh_input : gmap string pyval :=
    <["model_type" := mt]>
      (<["lambda_e" := l]>
         (<["fis_0" := f]>
            (<["t_final" := t]> ∅))) in
  persist_block "enzymatic_input" eh_input rewrite true.

Definition __init__ (notebookDir params_filename : string)
  (eh_options : WidgetCollection) (hpc_run : bool) : M St unit :=
  self_set "notebookDir" (PyStr notebookDir) ;;;
  self_set "params_filename" (PyStr params_filename) ;;;
  self_set "hpc_run" (PyBool hpc_run) ;;;
  sp <- lift (dot_value eh_options "show_plots") ;;
  self_set "show_plots" sp ;;;
  l <- lift (dot_widget_value eh_options "lambda_e") ;;
  self_set "_lambda_e" (PyFloat (PyFloat.div l (of_Z 1000))) ;;;
  f <- lift (dot_value eh_options "fis_0") ;;
  self_set "_fis_0" f ;;;
  t <- lift (dot_value eh_options "t_final") ;;
  self_set "_t_final" t ;;;
  mt <- lift (dot_value eh_options "model_type") ;;
  self_set "_model_type" mt ;;;
  ve <- world (yaml_to_dict params_filename) ;;
  self_set "ve_params" ve ;;;
  select_run_function ;;;
  input2yaml false.

Definition get_lambda_e : M St pyval :=
  l <- self_get "_lambda_e" ;;
  l <- lift (as_float l) ;;
  ret (PyFloat (PyFloat.mul l (of_Z 1000))).
Definition set_lambda_e :=
  checked_setter (in_closed (PyInt 0) (PyInt 1000)) "[0, 1000]"
    (fun f => self_set "_lambda_e" (PyFloat (PyFloat.div f (of_Z 1000))))
    input2yaml.

Definition get_fis_0 := self_get "_fis_0".
Definition set_fis_0 :=
  checked_setter (in_closed (PyInt 0) (PyInt 1)) "[0, 1]"
    (fun f => self_set "_fis_0" (PyFloat f)) input2yaml.

Definition get_t_final := self_get "_t_final".
Definition set_t_final :=
  checked_setter (in_closed (PyInt 1) (PyInt 24)) "[1, 24]"
    (fun f => self_set "_t_final" (PyFloat f)) input2yaml.

Definition get_model_type := self_get "_model_type".
Definition set_model_type (a : pyval) : M St unit :=
  if negb (py_eq_str a "CFD Simulation" || py_eq_str a "CFD Surrogate"
           || py_eq_str a "Lignocellulose Model") then
    raise (ValueError [Lit "Invalid value. Allowed options: 'CFD Simulation', 'CFD Surrogate', 'Lignocellulose Model'"])
  else
    self_set "_model_type" a ;;;
    input2yaml true ;;;
    select_run_function.

Definition run_eh_cfd_surrogate (ext : Externals) (verbose : pyval)
  : M St pyval :=
  nb <- self_get "notebookDir" ;;
  nb <- lift (as_str nb) ;;
  fname <- self_get "params_filename" ;;
  fname <- lift (as_str fname) ;;
  let path_to_input_file := os_path_join nb fname in
  world (chdir "EH_OpenFOAM/EH_surrogate/") ;;;
  ve_params <- world (EH_surrogate_main ext path_to_input_file) ;;
  world (chdir nb) ;;;
  out <- lift (py_getitem ve_params "enzymatic_output") ;;
  b <- lift (check_dict_for_nans ext out) ;;
  ret (PyBool b).

Definition run_eh_lignocellulose_model (ext : Externals) (verbose : pyval)
  : M St pyval :=
  nb <- self_get "notebookDir" ;;
  nb <- lift (as_str nb) ;;
  fname <- self_get "params_filename" ;;
  fname <- lift (as_str fname) ;;
  let path_to_input_file := os_path_join nb fname in
  world (chdir "two_phase_batch_model/") ;;;
  sp <- self_get "show_plots" ;;
  ve_params <- world (lignocell_EH_main ext path_to_input_file sp) ;;
  world (chdir nb) ;;;
  out <- lift (py_getitem ve_params "enzymatic_output") ;;
  b <- lift (check_dict_for_nans ext out) ;;
  ret (PyBool b).

Definition body : list stmt := [
  Def "__init__";
  DefProperty "lambda_e" get_lambda_e;
  DefSetter "lambda_e" "lambda_e" set_lambda_e;
  DefProperty "fis_0" get_fis_0;
  DefSetter "fis_0" "fis_0" set_fis_0;
  DefProperty "t_final" get_t_final;
  DefSetter "t_final" "t_final" set_t_final;
  DefProperty "model_type" get_model_type;
  DefSetter "model_type" "model_type" set_model_type;
  Def "select_run_function";
  Def "input2yaml";
  Def "get_globalVars";
  Def "run_eh_cfd_simulation";
  Def "run_eh_cfd_surrogate";
  Def "run_eh_lignocellulose_model" ].

End EnzymaticHydrolysis.

(* ===================================================================== *)
(** ** class Bioreactor *)

Module Bioreactor.

Definition input2yaml (rewrite : bool) : M St unit :=
  mt <- self_get "_model_type" ;;
  g <- self_get "_gas_velocity" ;;
  h <- self_get "_column_height" ;;
  d <- self_get "_column_diameter" ;;
  b <- self_get "_bubble_diameter" ;;
  t <- self_get "_t_final" ;;
  let br_input : gmap string pyval :=
    <["model_type" := mt]>
      (<["gas_velocity" := g]>
         (<["column_height" := h]>
            (<["column_diameter" := d]>
               (<["bubble_diameter" := b]>
                  (<["t_final" := t]> ∅))))) in
  persist_block "bioreactor_input" br_input rewrite true.

Definition get_gas_velocity := self_get "_gas_velocity".
Definition set_gas_velocity (a : pyval) : M St unit :=
  mt <- self_get "_model_type" ;;
  (if py_is_str mt "surrogate" then
     ok <- lift (in_closed (PyFloat (dec 1 100)) (PyFloat (dec 1 10)) a) ;;
     if negb ok then
       raise (ValueError [Lit "Value "; Val a;
                          Lit " is outside allowed interval [1, 1e16]"])
     else ret tt
   else
     ok <- lift (py_le (PyFloat (of_Z 0)) a) ;;
     if negb ok then
       raise (ValueError [Lit "Value "; Val a;
                          Lit " is outside allowed interval [1, 1e16]"])
     else ret tt) ;;;
  f <- lift (py_float a) ;;
  self_set "_gas_velocity" (PyFloat f) ;;;
  input2yaml true.

Definition get_column_height := self_get "_column_height".
(** Decorated with [@column_height.setter] but defined as [t_final]. *)
Definition set_column_height :=
  checked_setter (in_closed (PyInt 10) (PyInt 50)) "[1, 1e16]"
    (fun f => self_set "_column_height" (PyFloat f)) input2yaml.

Definition get_column_diameter := self_get "_column_diameter".
Definition set_column_diameter :=
  checked_setter (in_closed (PyInt 1) (PyInt 6)) "[1, 1e16]"
    (fun f => self_set "_column_diameter" (PyFloat f)) input2yaml.

Definition get_bubble_diameter := self_get "_bubble_diameter".
(** Decorated with [@bubble_diameter.setter] but defined as [t_final]. *)
Definition set_bubble_diameter :=
  checked_setter
    (in_closed (PyFloat (dec 3 1000)) (PyFloat (dec 8 1000))) "[1, 1e16]"
    (fun f => self_set "_bubble_diameter" (PyFloat f)) input2yaml.

Definition get_t_final := self_get "_t_final".
Definition set_t_final :=
  checked_setter
    (in_closed (PyInt 1) (PyFloat (of_Z (10 ^ 16)))) "[1, 1e16]"
    (fun f => self_set "_t_final" (PyFloat f)) input2yaml.

Definition get_model_type := self_get "_model_type".

(** [select_run_function] reads [self.model_type], the property whose
    getter is [get_model_type]. *)
Definition select_run_function : M St unit :=
  mt <- get_model_type ;;
  if py_eq_str mt "CFD Simulation" then
    hpc <- self_get "hpc_run" ;;
    (if truthy hpc then ret tt else raise AssertionError) ;;;
    r <- self_method "run_biorector_cfd_simulation" ;;
    self_set "run" r
  else
    mt <- get_model_type ;;
    if py_eq_str mt "CFD Surrogate" then
      r <- self_method "run_biorector_cfd_surrogate" ;;
      self_set "run" r
    else ret tt.

Definition set_model_type (a : pyval) : M St unit :=
  if negb (py_eq_str a "CFD Simulation" || py_eq_str a "CFD Surrogate") then
    raise (ValueError [Lit "Invalid value. Allowed options: 'CFD Simulation', 'CFD Surrogate'"])
  else
    self_set "_model_type" a ;;;
    input2yaml true ;;;
    select_run_function.

Definition __init__ (notebookDir params_filename : string)
  (br_options : WidgetCollection) (hpc_run : bool) : M St unit :=
  self_set "notebookDir" (PyStr notebookDir) ;;;
  self_set "params_filename" (PyStr params_filename) ;;;
  self_set "hpc_run" (PyBool hpc_run) ;;;
  mt <- lift (dot_value br_options "model_type") ;;
  self_set "_model_type" mt ;;;
  g <- lift (dot_value br_options "gas_velocity") ;;
  self_set "_gas_velocity" g ;;;
  h <- lift (dot_value br_options "column_height") ;;
  self_set "_column_height" h ;;;
  d <- lift (dot_value br_options "column_diameter") ;;
  self_set "_column_diameter" d ;;;
  b <- lift (dot_value br_options "bubble_diameter") ;;
  self_set "_bubble_diameter" b ;;;
  t <- lift (dot_value br_options "t_final") ;;
  self_set "_t_final" t ;;;
  input2yaml false ;;;
  select_run_function.

(** [run_biorector_cfd_surrogate]: the branch that waits for the
    enzymatic hydrolysis results ends without a [return]; the value of
    the call is then [None]. *)
Definition run_biorector_cfd_surrogate (ext : Externals) (verbose : pyval)
  : M St pyval :=
  fname <- self_get "params_filename" ;;
  fname <- lift (as_str fname) ;;
  ve_params <- world (yaml_to_dict fname) ;;
  eo <- lift (py_getitem ve_params "enzymatic_output") ;;
  rho_g <- lift (py_getitem eo "rho_g") ;;
  waiting <- lift (np_isnan rho_g) ;;
  if waiting then
    ret PyNone
  else
    world (chdir "bioreactor/bubble_column/surrogate_model") ;;;
    nb <- self_get "notebookDir" ;;
    nb <- lift (as_str nb) ;;
    fname <- self_get "params_filename" ;;
    fname <- lift (as_str fname) ;;
    let path_to_input_file := os_path_join nb fname in
    ve_params <- world (bcolumn_surrogate_main ext path_to_input_file) ;;
    world (chdir nb) ;;;
    out <- lift (py_getitem ve_params "bioreactor_output") ;;
    b <- lift (check_dict_for_nans ext out) ;;
    ret (PyBool b).

Definition body : list stmt := [
  Def "__init__";
  DefProperty "gas_velocity" get_gas_velocity;
  DefSetter "gas_velocity" "gas_velocity" set_gas_velocity;
  DefProperty "column_height" get_column_height;
  DefSetter "column_height" "t_final" set_column_height;
  DefProperty "column_diameter" get_column_diameter;
  DefSetter "column_diameter" "column_diameter" set_column_diameter;
  DefProperty "bubble_diameter" get_bubble_diameter;
  DefSetter "bubble_diameter" "t_final" set_bubble_diameter;
  DefProperty "t_final" get_t_final;
  DefSetter "t_final" "t_final" set_t_final;
  DefProperty "model_type" get_model_type;
  DefSetter "model_type" "model_type" set_model_type;
  Def "select_run_function";
  Def "input2yaml";
  Def "run_biorector_cfd_simulation";
  Def "run_biorector_cfd_surrogate" ].

End Bioreactor.

(* ===================================================================== *)
(** ** Stage objects *)

Inductive class_id := CFeedstock | CPretreatment | CEnzymaticHydrolysis | CBioreactor.

Definition class_body (c : class_id) : list stmt :=
  match c with
  | CFeedstock => Feedstock.body
  | CPretreatment => Pretreatment.body
  | CEnzymaticHydrolysis => EnzymaticHydrolysis.body
  | CBioreactor => Bioreactor.body
  end.

(** The name space of a class after its body has run. *)
Definition class_ns (c : class_id) : namespace :=
  default [] (exec_body [] (class_body c)).

Record Obj := { cls : class_id; attrs : gmap string pyval }.

(** The call of the method [name] of an object of class [c] with the
    argument [verbose]. *)
Definition invoke (ext : Externals) (c : class_id) (name : string)
  (verbose : pyval) : M St pyval :=
  match c with
  | CFeedstock =>
      if String.eqb name "run" then raise TypeError   (* no [verbose] *)
      else raise (Unmodelled name)
  | CPretreatment =>
      if String.eqb name "run" then Pretreatment.run ext verbose
      else raise (Unmodelled name)
  | CEnzymaticHydrolysis =>
      if String.eqb name "run_eh_cfd_simulation"
      then run_eh_cfd_simulation ext verbose
      else if String.eqb name "run_eh_cfd_surrogate"
      then EnzymaticHydrolysis.run_eh_cfd_surrogate ext verbose
      else if String.eqb name "run_eh_lignocellulose_model"
      then EnzymaticHydrolysis.run_eh_lignocellulose_model ext verbose
      else raise (Unmodelled name)
  | CBioreactor =>
      if String.eqb name "run_biorector_cfd_simulation"
      then run_biorector_cfd_simulation ext verbose
      else if String.eqb name "run_biorector_cfd_surrogate"
      then Bioreactor.run_biorector_cfd_surrogate ext verbose
      else raise (Unmodelled name)
  end.

(** [model.run(verbose=verbose)] *)
Definition call_run (ext : Externals) (c : class_id) (verbose : pyval)
  : M St pyval :=
  r <- getattr (class_ns c) "run" ;;
  match r with
  | PyMethod name => invoke ext c name verbose
  | _ => raise TypeError
  end.

(** The construction of an object: [__init__] on an empty dictionary. *)
Definition new (c : class_id) (init : M St unit) : M World Obj :=
  fun w => let '(r, (a, w')) := init (∅, w) in
           match r with
           | Ret _ => (Ret {| cls := c; attrs := a |}, w')
           | Raise e => (Raise e, w')
           end.

(* ===================================================================== *)
(** ** The functions of NumPy the grid sweep uses

    Written after NumPy's own definitions: [linspace] computes
    [arange(0, num) * step + start] with [step = (stop - start) / (num - 1)]
    and then overwrites the last sample with [stop]; [meshgrid] with
    [indexing='ij'] gives arrays whose element at a multi-index is the
    sample of its own axis; [ravel] lists an array in C order. *)

Module numpy.

Record ndarray := { shape : list nat; data : list float }.

Definition size_of (shape : list nat) : nat := fold_right Nat.mul 1%nat shape.

(** [np.arange(0, num)] as floats. *)
Definition arange (num : Z) : list float :=
  map (fun k => of_Z (Z.of_nat k)) (seq 0 (Z.to_nat num)).

(** [y[-1] = x] *)
Fixpoint set_last {A} (y : list A) (x : A) : list A :=
  match y with
  | [] => []
  | [_] => [x]
  | v :: y' => v :: set_last y' x
  end.

(** The sample [linspace] computes from the entry [v] of [arange(0, num)]:
    [v * step + start], or [(v / div) * delta + start] when the step
    underflows to zero, or [v * delta + start] when there is no step. *)
Definition sample (start stop : float) (num : Z) (v : float) : float :=
  let div := num - 1 in
  let delta := PyFloat.sub stop start in
  PyFloat.add
    (if 0 <? div then
       let step := PyFloat.div delta (of_Z div) in
       if PyFloat.eqb step (of_Z 0) then
         PyFloat.mul (PyFloat.div v (of_Z div)) delta
       else PyFloat.mul v step
     else PyFloat.mul v delta)
    start.

(** [np.linspace(start, stop, num)] *)
Definition linspace (start stop : float) (num : Z) : outcome (list float) :=
  if num <? 0 then
    Raise (ValueError [Lit "Number of samples, "; Val (PyInt num);
                       Lit ", must be non-negative."])
  else
    let y := map (sample start stop num) (arange num) in
    Ret (if 1 <? num then set_last y stop else y).

(** The index along axis [i] of the element at position [p] of an array
    of the given shape listed in C order. *)
Definition unravel (shape : list nat) (p i : nat) : nat :=
  ((p / size_of (skipn (S i) shape)) mod nth i shape 1)%nat.

(** [np.meshgrid] of the lists [xs] with [indexing='ij'] *)
Definition meshgrid_ij (xs : list (list float)) : list ndarray :=
  let shape := map (@length float) xs in
  map (fun i =>
         {| shape := shape;
            data := map (fun p => nth (unravel shape p i) (nth i xs []) nan)
                      (seq 0 (size_of shape)) |})
    (seq 0 (length xs)).

(** [a.ravel()] *)
Definition ravel (a : ndarray) : list float := data a.

(** [row[...] = src] for a row of [ncols] entries: equal lengths, or a
    single value that is broadcast. *)
Definition assign_row (ncols : nat) (src : list float)
  : outcome (list float) :=
  if (length src =? ncols)%nat then Ret src
  else match src with
       | [v] => Ret (repeat v ncols)
       | _ => Raise (ValueError [Lit "could not broadcast input array"])
       end.

(** [a.T] for an array of rows with [ncols] columns. *)
Definition transpose (ncols : nat) (rows : list (list float))
  : list (list float) :=
  map (fun j => map (fun r => nth j r nan) rows) (seq 0 ncols).

End numpy.

(* ===================================================================== *)
(** ** class Optimization *)

(** [x in l] and [l.index(x)] for a list of strings. *)
Definition py_in (x : string) (l : list string) : bool :=
  existsb (String.eqb x) l.

Fixpoint py_index (x : string) (l : list string) : outcome Z :=
  match l with
  | [] => Raise (ValueError [Val (PyStr x); Lit " is not in list"])
  | y :: l' =>
      if String.eqb y x then Ret 0
      else match py_index x l' with
           | Ret i => Ret (i + 1)
           | Raise e => Raise e
           end
  end.

Record Optimization := {
  hpc_run : bool;
  notebookDir : string;
  params_filename : string;
  output_names : list string;
  output_name : string;
  objective_name : string;
  n_models : Z;
  models_list : list Obj;     (* FS_model, PT_model, EH_model, BR_model *)
  fn_evals : Z;
  objective_scaling : float;
  x_0 : list float;
  var_names : list string;
  nice_var_names : list string;
  var_bounds : list (float * float);
  var_real_bounds : list (float * float);
  opt_results_file : option string;         (* unset before [scipy_minimize] *)
  opt_result : option (list float * float)
}.

Definition set_models_list (f : list Obj -> list Obj) (o : Optimization) :=
  {| hpc_run := hpc_run o; notebookDir := notebookDir o;
     params_filename := params_filename o; output_names := output_names o;
     output_name := output_name o; objective_name := objective_name o;
     n_models := n_models o; models_list := f (models_list o);
     fn_evals := fn_evals o; objective_scaling := objective_scaling o;
     x_0 := x_0 o; var_names := var_names o;
     nice_var_names := nice_var_names o; var_bounds := var_bounds o;
     var_real_bounds := var_real_bounds o;
     opt_results_file := opt_results_file o; opt_result := opt_result o |}.

Definition set_fn_evals (n : Z) (o : Optimization) :=
  {| hpc_run := hpc_run o; notebookDir := notebookDir o;
     params_filename := params_filename o; output_names := output_names o;
     output_name := output_name o; objective_name := objective_name o;
     n_models := n_models o; models_list := models_list o;
     fn_evals := n; objective_scaling := objective_scaling o;
     x_0 := x_0 o; var_names := var_names o;
     nice_var_names := nice_var_names o; var_bounds := var_bounds o;
     var_real_bounds := var_real_bounds o;
     opt_results_file := opt_results_file o; opt_result := opt_result o |}.

Definition set_objective_scaling (x : float) (o : Optimization) :=
  {| hpc_run := hpc_run o; notebookDir := notebookDir o;
     params_filename := params_filename o; output_names := output_names o;
     output_name := output_name o; objective_name := objective_name o;
     n_models := n_models o; models_list := models_list o;
     fn_evals := fn_evals o; objective_scaling := x;
     x_0 := x_0 o; var_names := var_names o;
     nice_var_names := nice_var_names o; var_bounds := var_bounds o;
     var_real_bounds := var_real_bounds o;
     opt_results_file := opt_results_file o; opt_result := opt_result o |}.

Definition set_opt_results (file : option string)
  (res : option (list float * float)) (o : Optimization) :=
  {| hpc_run := hpc_run o; notebookDir := notebookDir o;
     params_filename := params_filename o; output_names := output_names o;
     output_name := output_name o; objective_name := objective_name o;
     n_models := n_models o; models_list := models_list o;
     fn_evals := fn_evals o; objective_scaling := objective_scaling o;
     x_0 := x_0 o; var_names := var_names o;
     nice_var_names := nice_var_names o; var_bounds := var_bounds o;
     var_real_bounds := var_real_bounds o;
     opt_results_file := file; opt_result := res |}.

(** The state a method of [Optimization] runs in. *)
Definition OS : Type := Optimization * World.

(** A method of the [k]-th model of [models_list], run on that object. *)
Definition on_model {A} (k : nat) (c : class_id -> M St A) : M OS A :=
  fun s =>
    match models_list (fst s) !! k with
    | None => (Raise IndexError, s)
    | Some ob =>
        let '(r, (a', w')) := c (cls ob) (attrs ob, snd s) in
        (r, (set_models_list (<[k := {| cls := cls ob; attrs := a' |}]>) (fst s),
             w'))
    end.

(** The lists [__init__] fills while it walks the controls. *)
Record Controls := {
  c_x_0 : list float;
  c_var_names : list string;
  c_nice_var_names : list string;
  c_var_bounds : list (float * float);
  c_var_real_bounds : list (float * float)
}.

Module Optimization_methods.

Definition the_output_names : list string :=
  ["pretreatment_output"; "enzymatic_output"; "bioreactor_output"].

(** [define_n_models] *)
Definition define_n_models (output_names : list string)
  (output_name : string) : outcome Z :=
  if negb (py_in output_name output_names) then
    Raise (ValueError [Lit "Error: Output dictionary '";
                       Val (PyStr output_name);
                       Lit "' doesn't exist. Check the widget definition"])
  else
    match py_index output_name output_names with
    | Ret i => Ret (i + 1)
    | Raise e => Raise e
    end.

(** The body of the loop over the widgets of a collection. *)
Definition visit_widget (item : string * widget) : M Controls unit :=
  let '(widget_name, widget) := item in
  match widget with
  | Optim o =>
      if is_control o then
        let bounds := (w_min o, w_max o) in
        scaled_value <- lift (normalize (w_value o) bounds) ;;
        modify (fun c =>
          {| c_x_0 := c_x_0 c ++ [scaled_value];
             c_var_names := c_var_names c ++ [widget_name];
             c_nice_var_names := c_nice_var_names c ++ [description o];
             c_var_bounds := c_var_bounds c ++ [(of_Z 0, of_Z 1)];
             c_var_real_bounds := c_var_real_bounds c ++ [bounds] |})
      else ret tt
  | Plain _ => ret tt
  end.

Definition no_controls : Controls :=
  {| c_x_0 := []; c_var_names := []; c_nice_var_names := [];
     c_var_bounds := []; c_var_real_bounds := [] |}.

(** The loops of [__init__] over the three collections. *)
Definition find_controls (fs_options pt_options eh_options : WidgetCollection)
  : M Controls unit :=
  for_each [fs_options; pt_options; eh_options]
    (fun wc => for_each wc visit_widget).

(** The stage models [__init__] builds. *)
Definition init_models (ext : Externals)
  (fs_options pt_options eh_options br_options : WidgetCollection)
  (hpc_run : bool) (notebookDir params_filename : string) (n_models : Z)
  : M World (list Obj) :=
  FS_model <- new CFeedstock (Feedstock.__init__ params_filename fs_options) ;;
  PT_model <- new CPretreatment
                (Pretreatment.__init__ ext notebookDir params_filename
                   pt_options) ;;
  let models_list := [FS_model; PT_model] in
  models_list <-
    (if 1 <? n_models then
       mt <- lift (dot_value eh_options "model_type") ;;
       if py_eq_str mt "CFD Surrogate" then
         EH_model <- new CEnzymaticHydrolysis
                       (EnzymaticHydrolysis.__init__ notebookDir
                          params_filename eh_options hpc_run) ;;
         ret (models_list ++ [EH_model])
       else raise AssertionError
     else ret models_list) ;;
  (if 2 <? n_models then
     mt <- lift (dot_value br_options "model_type") ;;
     if py_eq_str mt "CFD Surrogate" then
       BR_model <- new CBioreactor
                     (Bioreactor.__init__ notebookDir params_filename
                        br_options hpc_run) ;;
       ret (models_list ++ [BR_model])
     else raise AssertionError
   else ret models_list).

(** [Optimization.__init__]; [obj_widjet] is the value of the objective
    widget. *)
Definition __init__ (ext : Externals)
  (fs_options pt_options eh_options br_options : WidgetCollection)
  (obj_widjet : list string) (hpc_run : bool)
  (notebookDir params_filename : string) : M World Optimization :=
  let output_names := the_output_names in
  output_name <- lift (match obj_widjet with
                       | [] => Raise IndexError
                       | x :: _ => Ret x
                       end) ;;
  let objective_name := List.last obj_widjet output_name in
  n_models <- lift (define_n_models output_names output_name) ;;
  models_list <- init_models ext fs_options pt_options eh_options br_options
                   hpc_run notebookDir params_filename n_models ;;
  match find_controls fs_options pt_options eh_options no_controls with
  | (Raise e, _) => raise e
  | (Ret _, c) =>
      if (length (c_x_0 c) =? 0)%nat then
        raise (ValueError [Lit "No controls have been specified, retry with >= 1 control variables."])
      else
        ret {| hpc_run := hpc_run; notebookDir := notebookDir;
               params_filename := params_filename;
               output_names := output_names; output_name := output_name;
               objective_name := objective_name; n_models := n_models;
               models_list := models_list;
               fn_evals := 0; objective_scaling := of_Z 1;
               x_0 := c_x_0 c; var_names := c_var_names c;
               nice_var_names := c_nice_var_names c;
               var_bounds := c_var_bounds c;
               var_real_bounds := c_var_real_bounds c;
               opt_results_file := None; opt_result := None |}
  end.

(** [run_models_with_new_values] *)
Definition run_models_with_new_values (ext : Externals)
  (dimensional_values : list float) (verbose : bool) : M OS pyval :=
  o <- gets fst ;;
  for_each (combine (var_names o) dimensional_values)
    (fun '(var_name, value) =>
       for_each (seq 0 (length (models_list o)))
         (fun k =>
            on_model k (fun c =>
              h <- hasattr (class_ns c) var_name ;;
              if h then setattr (class_ns c) var_name (PyFloat value)
              else ret tt))) ;;;
  world (chdir (notebookDir o)) ;;;
  for_each (skipn 1 (seq 0 (length (models_list o))))
    (fun k => on_model k (fun c => call_run ext c (PyBool verbose)) ;;;
              ret tt) ;;;
  output_dict <- world (yaml_to_dict (params_filename o)) ;;
  out <- lift (py_getitem output_dict (output_name o)) ;;
  obj <- lift (py_getitem out (objective_name o)) ;;
  ret obj.

(** The first loop of [objective_function]: the values scaled back to
    their real ranges. *)
Definition to_dimensional (free_variables : list float)
  (var_real_bounds : list (float * float)) : list float :=
  map (fun '(value, bounds) => scale_back value bounds)
    (combine free_variables var_real_bounds).

(** [objective_function] *)
Definition objective_function (ext : Externals) (free_variables : list float)
  : M OS float :=
  o <- gets fst ;;
  let dimensional_values :=
    to_dimensional free_variables (var_real_bounds o) in
  let v_flag := fn_evals o =? 0 in
  r <- run_models_with_new_values ext dimensional_values v_flag ;;
  obj <- lift (py_neg r) ;;
  o <- gets fst ;;
  (if fn_evals o =? 0 then
     d <- lift (as_float obj) ;;
     s <- lift (truediv (of_Z (-1)) d) ;;
     modify (fun s' => (set_objective_scaling s (fst s'), snd s'))
   else ret tt) ;;;
  modify (fun s => (set_fn_evals (fn_evals (fst s) + 1) (fst s), snd s)) ;;;
  o <- gets fst ;;
  file <- lift (match opt_results_file o with
                | Some f => Ret f
                | None => Raise (AttributeError "opt_results_file")
                end) ;;
  f <- (match as_float obj with
        | Ret f =>
            world (append_log file
                     [Row 15 (fn_evals o) dimensional_values f]) ;;;
            ret f
        | Raise e =>
            world (append_log file
                     [RowPrefix (fn_evals o) dimensional_values]) ;;;
            raise e
        end) ;;
  (* the printed iteration indexes [var_names] by position *)
  (if (length dimensional_values <=? length (var_names o))%nat then ret tt
   else raise IndexError) ;;;
  ret (PyFloat.mul f (objective_scaling o)).

(** [scipy_minimize] *)
Definition scipy_minimize (ext : Externals)
  (objective_fn : list float -> M OS float) (method results_file : string)
  : M OS (list float * float) :=
  modify (fun s => (set_opt_results (Some results_file)
                      (opt_result (fst s)) (fst s), snd s)) ;;;
  o <- gets fst ;;
  world (write_log results_file
           [Text ("# Iteration, "
                  +:+ String.concat "" (map (fun c => c +:+ ", ")
                                          (nice_var_names o))
                  +:+ "Objective")]) ;;;
  res <- opt_minimize ext OS objective_fn method (x_0 o) (var_bounds o) ;;
  modify (fun s => (set_opt_results (opt_results_file (fst s)) (Some res)
                      (fst s), snd s)) ;;;
  ret res.

(** [f'{obj:.9e}'] *)
Definition format_e (obj : pyval) : outcome float :=
  match obj with
  | PyStr _ =>
      Raise (ValueError [Lit "Unknown format code 'e' for object of type 'str'"])
  | _ => as_float obj
  end.

(** The loop of [parameter_grid_sweep] that fills [grid_ravel]. *)
Fixpoint fill_grid_ravel (grid_mesh : list numpy.ndarray) (ncols : nat)
  (rows : list nat) : outcome (list (list float)) :=
  match rows with
  | [] => Ret []
  | i :: rows' =>
      match grid_mesh !! i with
      | None => Raise IndexError
      | Some a =>
          match numpy.assign_row ncols (numpy.ravel a) with
          | Raise e => Raise e
          | Ret r =>
              match fill_grid_ravel grid_mesh ncols rows' with
              | Ret rs => Ret (r :: rs)
              | Raise e => Raise e
              end
          end
      end
  end.

(** [[np.linspace(bound[0], bound[1], nn) for bound in bounds]] *)
Fixpoint make_grid_x (bounds : list (float * float)) (nn : Z)
  : outcome (list (list float)) :=
  match bounds with
  | [] => Ret []
  | bound :: bounds' =>
      match numpy.linspace (fst bound) (snd bound) nn with
      | Raise e => Raise e
      | Ret x =>
          match make_grid_x bounds' nn with
          | Ret xs => Ret (x :: xs)
          | Raise e => Raise e
          end
      end
  end.

(** The parameter grid of [parameter_grid_sweep]: the rows of
    [grid_ravel.T]. *)
Definition make_grid (var_real_bounds : list (float * float))
  (dimension : nat) (nn : Z) : outcome (list (list float)) :=
  match make_grid_x var_real_bounds nn with
  | Raise e => Raise e
  | Ret grid_x =>
      let grid_mesh := numpy.meshgrid_ij grid_x in
      let ncols := nn ^ Z.of_nat dimension in
      if ncols <? 0 then
        Raise (ValueError [Lit "negative dimensions are not allowed"])
      else
        match fill_grid_ravel grid_mesh (Z.to_nat ncols) (seq 0 dimension) with
        | Raise e => Raise e
        | Ret grid_ravel => Ret (numpy.transpose (Z.to_nat ncols) grid_ravel)
        end
  end.

(** The body of the loop of [parameter_grid_sweep] over the grid. *)
Definition sweep_step (ext : Externals) (results_file : string)
  (item : nat * list float) : M OS unit :=
  let '(i, dimensional_values) := item in
  obj <- run_models_with_new_values ext dimensional_values false ;;
  f <- lift (format_e obj) ;;
  world (append_log results_file
           [Row 9 (Z.of_nat i + 1) dimensional_values f]).

(** [parameter_grid_sweep] *)
Definition parameter_grid_sweep (ext : Externals) (nn : Z)
  (results_file : string) : M OS unit :=
  o <- gets fst ;;
  let str_names :=
    String.concat "" (map (fun name => name +:+ ", ") (nice_var_names o)) in
  world (write_log results_file
           [Text ("# Iteration, " +:+ str_names +:+ objective_name o)]) ;;;
  grid <- lift (make_grid (var_real_bounds o) (length (var_names o)) nn) ;;
  world (chdir (notebookDir o)) ;;;
  for_each (combine (seq 0 (length grid)) grid) (sweep_step ext results_file).

End Optimization_methods.

(* ===================================================================== *)
(** ** A notebook session used to run the model

    Stub collaborators: the pretreatment solver reports a given objective
    value under [pretreatment_output], nothing contains a NaN, and the
    minimiser evaluates the objective once at the start vector. *)

Module Session.

Import Optimization_methods.

Definition ctl (c : bool) (lo hi v : float) (d : string) : widget :=
  Optim {| is_control := c; w_min := lo; w_max := hi; w_value := v;
           description := d |}.

(** The feedstock widgets; [porosity] is the flag of the porosity
    control. *)
Definition fs_options (porosity : bool) : WidgetCollection :=
  [("xylan_solid_fraction", Plain (PyFloat (dec 263 1000)));
   ("glucan_solid_fraction", Plain (PyFloat (dec 4 10)));
   ("initial_porosity",
    ctl porosity (of_Z 0) (of_Z 1) (dec 1 2) "Initial Porosity")].

(** The pretreatment widgets; [acid] and [time] are the flags of the acid
    loading and of the final time, [(lo, hi)] the range of the latter. *)
Definition pt_options (acid time : bool) (lo hi : Z) : WidgetCollection :=
  [("initial_acid_conc",
    ctl acid (of_Z 0) (of_Z 1) (dec 1 2) "Acid Loading");
   ("steam_temperature",
    ctl false (of_Z 4) (of_Z 250) (of_Z 150) "Steam Temperature");
   ("initial_solid_fraction",
    ctl false (of_Z 0) (of_Z 1) (dec 745 1000) "Initial FIS");
   ("final_time", ctl time (of_Z lo) (of_Z hi) (of_Z 15) "Final Time");
   ("show_plots", Plain (PyBool false))].

(** The objective a stub solver reports: a constant, or the final time of
    the pretreatment in units of five minutes, negated. *)
Definition constant (v : float) (doc : gmap string pyval) : pyval := PyFloat v.

Definition minus_final_time (doc : gmap string pyval) : pyval :=
  match doc !! "pretreatment_input" with
  | Some (PyDict d) =>
      match d !! "final_time" with
      | Some (PyFloat t) => PyFloat (opp (PyFloat.div t (of_Z 300)))
      | _ => PyNone
      end
  | _ => PyNone
  end.

Definition stub (objective : gmap string pyval -> pyval) : Externals :=
  {| check_dict_for_nans := fun _ => Ret false;
     interp_steam := fun _ => ret (of_Z 2);
     import_pt := ret tt;
     ptrun_main := fun path w =>
       let doc := default ∅ (yamls w !! path) in
       (Ret (PyDict (<["pretreatment_output" :=
                         PyDict {["X_G" := objective doc]}]> doc)), w);
     exec_file := fun _ _ _ => ret tt;
     EH_surrogate_main := fun _ => raise (Unmodelled "EH_surrogate");
     lignocell_EH_main := fun _ _ => raise (Unmodelled "lignocell_EH");
     bcolumn_surrogate_main := fun _ => raise (Unmodelled "bcolumn");
     run_eh_cfd_simulation := fun _ => raise (Unmodelled "EH CFD");
     run_biorector_cfd_simulation := fun _ => raise (Unmodelled "BR CFD");
     opt_minimize := fun S f _ x0 _ => v <- f x0 ;; ret (x0, v) |}.

Definition w0 : World := {| yamls := ∅; logs := ∅; cwd := "/nb" |}.

(** The driver built over the given widgets. *)
Definition build (fs pt : WidgetCollection) : outcome Optimization * World :=
  __init__ (stub (constant (of_Z 0))) fs pt [] []
    ["pretreatment_output"; "X_G"] false "/nb" "params.yaml" w0.

(** A driver without models and controls. *)
Definition blank : Optimization :=
  {| hpc_run := false; notebookDir := "/nb"; params_filename := "params.yaml";
     output_names := the_output_names; output_name := "pretreatment_output";
     objective_name := "X_G"; n_models := 1; models_list := [];
     fn_evals := 0; objective_scaling := of_Z 1; x_0 := []; var_names := [];
     nice_var_names := []; var_bounds := []; var_real_bounds := [];
     opt_results_file := None; opt_result := None |}.

(** The state after construction and after the header of the result log
    has been written ([blank] if the construction fails). *)
Definition started (fs pt : WidgetCollection) : OS :=
  match build fs pt with
  | (Ret o, w) =>
      (set_opt_results (Some "results.csv") None o,
       set_logs (insert "results.csv" []) w)
  | (Raise _, w) => (blank, w)
  end.

(** Two controls: the porosity in [(0, 1)] and the final time in
    [(10, 20)], both at the middle of their range. *)
Definition two_controls : OS :=
  started (fs_options true) (pt_options false true 10 20).

(** Two controls whose ranges are closed: the acid loading in [[0, 1]]
    and the final time in [[10, 20]]. *)
Definition two_closed_controls : OS :=
  started (fs_options false) (pt_options true true 10 20).

(** A bioreactor object and a parameter file whose enzymatic hydrolysis
    output is still the NaN placeholder of the CFD submission. *)
Definition br_attrs : gmap string pyval :=
  <["params_filename" := PyStr "params.yaml"]>
    (<["notebookDir" := PyStr "/nb"]>
       (<["hpc_run" := PyBool false]>
          (<["_model_type" := PyStr "CFD Surrogate"]>
             (<["_gas_velocity" := PyFloat (dec 8 100)]>
                (<["_column_height" := PyFloat (of_Z 40)]>
                   (<["_column_diameter" := PyFloat (of_Z 5)]>
                      (<["_bubble_diameter" := PyFloat (dec 6 1000)]>
                         (<["_t_final" := PyFloat (of_Z 100)]>
                            (<["run" := PyMethod "run_biorector_cfd_surrogate"]>
                               ∅))))))))).

Definition waiting_world : World :=
  {| yamls := {["params.yaml" :=
                  {["enzymatic_output" :=
                      PyDict {["rho_g" := PyFloat nan]}]}]};
     logs := ∅; cwd := "/nb" |}.

End Session.

(* ===================================================================== *)
(** ** Vocabulary of the statements *)

(** The attributes of the driver other than its stage models. *)
Definition config (o : Optimization) : Optimization :=
  set_models_list (fun _ => []) o.

(** A method that changes nothing of the driver but its stage models. *)
Definition keeps_config {A} (m : M OS A) : Prop :=
  forall s, config (fst (snd (m s))) = config (fst s).

(** The range-checked properties whose error names the interval that the
    setter checks: class, property, check, text of the interval. *)
Definition range_checked
  : list (class_id * string * (pyval -> outcome bool) * string) :=
  [ (CFeedstock, "xylan_solid_fraction",
     in_closed (PyInt 0) (PyInt 1), "[0, 1]");
    (CFeedstock, "glucan_solid_fraction",
     in_closed (PyInt 0) (PyInt 1), "[0, 1]");
    (CFeedstock, "initial_porosity", in_open (PyInt 0) (PyInt 1), "(0, 1)");
    (CPretreatment, "initial_acid_conc",
     in_closed (PyInt 0) (PyInt 1), "[0.0, 1.0]");
    (CPretreatment, "steam_temperature",
     in_closed (PyFloat (dec 38 10)) (PyFloat (dec 2503 10)), "[3.8, 250.3]");
    (CPretreatment, "initial_solid_fraction",
     in_open (PyInt 0) (PyInt 1), "(0, 1)");
    (CPretreatment, "final_time",
     in_closed (PyInt 1) (PyInt 1440), "[1, 1440]");
    (CEnzymaticHydrolysis, "lambda_e",
     in_closed (PyInt 0) (PyInt 1000), "[0, 1000]");
    (CEnzymaticHydrolysis, "fis_0", in_closed (PyInt 0) (PyInt 1), "[0, 1]");
    (CEnzymaticHydrolysis, "t_final",
     in_closed (PyInt 1) (PyInt 24), "[1, 24]");
    (CBioreactor, "t_final",
     in_closed (PyInt 1) (PyFloat (of_Z (10 ^ 16))), "[1, 1e16]") ].

(** The message of the error of a range-checked setter. *)
Definition outside_interval (a : pyval) (interval : string) : exn :=
  ValueError [Lit "Value "; Val a;
              Lit (" is outside allowed interval " +:+ interval)].

(** The controls of a collection that are flagged as optimisation
    targets, in order. *)
Definition flagged (items : WidgetCollection)
  : list (string * OptimizationWidget) :=
  flat_map (fun item =>
              match snd item with
              | Optim o => if is_control o then [(fst item, o)] else []
              | Plain _ => []
              end) items.

(** The value persisted under [section] and [key] of a parameter file. *)
Definition persisted (w : World) (file section key : string) : option pyval :=
  match yamls w !! file with
  | Some doc =>
      match doc !! section with
      | Some (PyDict d) => d !! key
      | _ => None
      end
  | None => None
  end.

(** The Cartesian product of lists, the first list varying slowest. *)
Fixpoint cartesian {A} (xs : list (list A)) : list (list A) :=
  match xs with
  | [] => [[]]
  | x :: rest => flat_map (fun a => map (cons a) (cartesian rest)) x
  end.

(** The spacing of [linspace] between the bounds [b] neither overflows
    nor starts from an infinity or a NaN. *)
Definition spacing_finite (b : float * float) (n : Z) : bool :=
  let delta := PyFloat.sub (snd b) (fst b) in
  is_finite (fst b) && is_finite delta
  && is_finite (PyFloat.div delta (of_Z (n - 1)))
  && match of_Z (n - 1) with S754_finite _ _ _ => true | _ => false end.

(** The row of the grid at position [p]: for each axis the sample at the
    index of [p] along that axis. *)
Definition row_at (xs : list (list float)) (p : nat) : list float :=
  map (fun i => nth (numpy.unravel (map (@length float) xs) p i)
                  (nth i xs []) nan)
    (seq 0 (length xs)).

(* ===================================================================== *)
(** ** Floats as numbers

    The rational number a finite float stands for, and the quantities the
    rounding of an operation is measured with. *)

(** The least exponent of a float. *)
Definition emin : Z := 3 - emax - prec.

(** The unit roundoff [2 ^ -53] and half the least positive float. *)
Definition unit_roundoff : Q := 1 # 9007199254740992.
Definition underflow_unit : Q := Eval cbv in (Qred (2 ^ (-1075))%Q).

(** The float a rounded mantissa [m] at exponent [e] is stored as: one bit
    is dropped when the rounding has carried into a 54th bit. *)
Definition pack (s : bool) (m e : Z) : float :=
  match m with
  | Z0 => S754_zero s
  | Zpos p =>
      if m <? 2 ^ prec then
        if e <=? emax - prec then S754_finite s p e else S754_infinity s
      else
        if e + 1 <=? emax - prec then S754_finite s (Z.to_pos (m / 2)) (e + 1)
        else S754_infinity s
  | Zneg _ => S754_nan
  end.

(** [2 ^ e] as a rational. *)
Definition pow2 (e : Z) : Q := (2 ^ e)%Q.

(** The number a float stands for (0 for what is not a number). *)
Definition F2Q (x : float) : Q :=
  match x with
  | S754_finite s m e => (inject_Z (cond_Zopp s (Zpos m)) * pow2 e)%Q
  | _ => 0%Q
  end.

(** A finite binary64 value in normal form, as every finite Python float
    is. *)
Definition finite64 (x : float) : bool :=
  is_finite x && valid_binary prec emax x.

(** The sign of a float as a factor. *)
Definition signQ (s : bool) : Q := if s then (- 1)%Q else 1%Q.

(** The position of [x] between the integers [m] and [m + 1]. *)
Definition inbetween (m : Z) (l : location) (x : Q) : Prop :=
  match l with
  | loc_Exact => (x == inject_Z m)%Q
  | loc_Inexact Lt => (inject_Z m < x /\ x < inject_Z m + (1 # 2))%Q
  | loc_Inexact Eq => (x == inject_Z m + (1 # 2))%Q
  | loc_Inexact Gt => (inject_Z m + (1 # 2) < x /\ x < inject_Z m + 1)%Q
  end.

(* ===================================================================== *)
(** ** Vocabulary of the further properties *)

(** The section of the parameter file a stage persists its block in. *)
Definition block_section (c : class_id) : string :=
  match c with
  | CFeedstock => "feedstock"
  | CPretreatment => "pretreatment_input"
  | CEnzymaticHydrolysis => "enzymatic_input"
  | CBioreactor => "bioreactor_input"
  end.

(** The keys of the block of a stage, each with the attribute it is read
    from, in the order of the dictionary of [input2yaml]. *)
Definition block_keys (c : class_id) : list (string * string) :=
  match c with
  | CFeedstock =>
      [("xylan_solid_fraction", "_xylan_solid_fraction");
       ("glucan_solid_fraction", "_glucan_solid_fraction");
       ("initial_porosity", "_initial_porosity")]
  | CPretreatment =>
      [("initial_acid_conc", "_initial_acid_conc");
       ("steam_temperature", "_steam_temperature");
       ("initial_solid_fraction", "_initial_solid_fraction");
       ("bulk_steam_conc", "_bulk_steam_conc");
       ("final_time", "_final_time")]
  | CEnzymaticHydrolysis =>
      [("model_type", "_model_type");
       ("lambda_e", "_lambda_e");
       ("fis_0", "_fis_0");
       ("t_final", "_t_final")]
  | CBioreactor =>
      [("model_type", "_model_type");
       ("gas_velocity", "_gas_velocity");
       ("column_height", "_column_height");
       ("column_diameter", "_column_diameter");
       ("bubble_diameter", "_bubble_diameter");
       ("t_final", "_t_final")]
  end.

(** The block made of the attributes of an object, if it has them all. *)
Fixpoint block_from (keys : list (string * string)) (a : gmap string pyval)
  : option (gmap string pyval) :=
  match keys with
  | [] => Some ∅
  | (key, attr) :: keys' =>
      match a !! attr, block_from keys' a with
      | Some v, Some m => Some (<[key := v]> m)
      | _, _ => None
      end
  end.

Definition block_of (c : class_id) (a : gmap string pyval)
  : option (gmap string pyval) :=
  block_from (block_keys c) a.

(** [input2yaml] of the class of an object. *)
Definition class_input2yaml (c : class_id) : bool -> M St unit :=
  match c with
  | CFeedstock => Feedstock.input2yaml
  | CPretreatment => Pretreatment.input2yaml
  | CEnzymaticHydrolysis => EnzymaticHydrolysis.input2yaml
  | CBioreactor => Bioreactor.input2yaml
  end.

(** The range-checked properties that can be assigned: class, property,
    check, attribute, the value stored for the float of the argument, and
    the value the getter computes from the stored one. *)
Definition stored_by_setter
  : list (class_id * string * (pyval -> outcome bool) * string
          * (float -> float) * (float -> float)) :=
  [ (CFeedstock, "xylan_solid_fraction", in_closed (PyInt 0) (PyInt 1),
     "_xylan_solid_fraction", fun f => f, fun f => f);
    (CFeedstock, "glucan_solid_fraction", in_closed (PyInt 0) (PyInt 1),
     "_glucan_solid_fraction", fun f => f, fun f => f);
    (CFeedstock, "initial_porosity", in_open (PyInt 0) (PyInt 1),
     "_initial_porosity", fun f => f, fun f => f);
    (CPretreatment, "initial_acid_conc", in_closed (PyInt 0) (PyInt 1),
     "_initial_acid_conc", fun f => f, fun f => f);
    (CPretreatment, "steam_temperature",
     in_closed (PyFloat (dec 38 10)) (PyFloat (dec 2503 10)),
     "_steam_temperature", fun f => PyFloat.add f Pretreatment.kelvin,
     fun t => PyFloat.sub t Pretreatment.kelvin);
    (CPretreatment, "initial_solid_fraction", in_open (PyInt 0) (PyInt 1),
     "_initial_solid_fraction", fun f => f, fun f => f);
    (CPretreatment, "final_time", in_closed (PyInt 1) (PyInt 1440),
     "_final_time", fun f => PyFloat.mul (of_Z 60) f,
     fun t => PyFloat.div t (of_Z 60));
    (CPretreatment, "bulk_steam_conc", in_open (PyInt 0) (PyInt 1),
     "_bulk_steam_conc", fun f => f, fun f => f);
    (CEnzymaticHydrolysis, "lambda_e", in_closed (PyInt 0) (PyInt 1000),
     "_lambda_e", fun f => PyFloat.div f (of_Z 1000),
     fun l => PyFloat.mul l (of_Z 1000));
    (CEnzymaticHydrolysis, "fis_0", in_closed (PyInt 0) (PyInt 1),
     "_fis_0", fun f => f, fun f => f);
    (CEnzymaticHydrolysis, "t_final", in_closed (PyInt 1) (PyInt 24),
     "_t_final", fun f => f, fun f => f);
    (CBioreactor, "column_diameter", in_closed (PyInt 1) (PyInt 6),
     "_column_diameter", fun f => f, fun f => f);
    (CBioreactor, "t_final",
     in_closed (PyInt 1) (PyFloat (of_Z (10 ^ 16))),
     "_t_final", fun f => f, fun f => f) ].

(** A pretreatment object as [__init__] leaves it, and a world whose
    parameter file holds the block of a feedstock. *)
Definition session_pt : gmap string pyval :=
  <["notebookDir" := PyStr "/nb"]>
    (<["params_filename" := PyStr "params.yaml"]>
       (<["show_plots" := PyBool false]>
          (<["_initial_acid_conc" := PyFloat (dec 1 2)]>
             (<["_steam_temperature" :=
                  PyFloat (PyFloat.add (of_Z 150) Pretreatment.kelvin)]>
                (<["_initial_solid_fraction" := PyFloat (dec 745 1000)]>
                   (<["_final_time" := PyFloat (of_Z 900)]>
                      (<["_bulk_steam_conc" := PyFloat (dec 1 10000)]>
                         ∅))))))).

Definition session_world : World :=
  {| yamls := {["params.yaml" :=
                  {["feedstock" :=
                      PyDict {["initial_porosity" := PyFloat (dec 1 2)]}]}]};
     logs := ∅; cwd := "/nb" |}.

(** The method [select_run_function] binds to [run] for a model type. *)
Definition run_variant (c : class_id) (model_type : string) : option string :=
  match c with
  | CEnzymaticHydrolysis =>
      if String.eqb model_type "CFD Simulation"
      then Some "run_eh_cfd_simulation"
      else if String.eqb model_type "CFD Surrogate"
      then Some "run_eh_cfd_surrogate"
      else if String.eqb model_type "Lignocellulose Model"
      then Some "run_eh_lignocellulose_model"
      else None
  | CBioreactor =>
      if String.eqb model_type "CFD Simulation"
      then Some "run_biorector_cfd_simulation"
      else if String.eqb model_type "CFD Surrogate"
      then Some "run_biorector_cfd_surrogate"
      else None
  | _ => None
  end.

(** An enzymatic hydrolysis object as [__init__] leaves it without HPC
    resources. *)
Definition session_eh : gmap string pyval :=
  <["notebookDir" := PyStr "/nb"]>
    (<["params_filename" := PyStr "params.yaml"]>
       (<["hpc_run" := PyBool false]>
          (<["show_plots" := PyBool false]>
             (<["_lambda_e" := PyFloat (dec 3 100)]>
                (<["_fis_0" := PyFloat (dec 5 100)]>
                   (<["_t_final" := PyFloat (of_Z 24)]>
                      (<["_model_type" := PyStr "CFD Surrogate"]>
                         (<["ve_params" := PyDict ∅]>
                            (<["run" := PyMethod "run_eh_cfd_surrogate"]>
                               ∅))))))))).

(** The state right after the construction of the driver over the given
    widgets: no result log has been named yet ([blank] if the construction
    fails). *)
Definition constructed (fs pt : WidgetCollection) : OS :=
  match Session.build fs pt with
  | (Ret o, w) => (o, w)
  | (Raise _, w) => (Session.blank, w)
  end.

(** The enzymatic hydrolysis widgets of a session that optimises over the
    surrogate. *)
Definition eh_options : WidgetCollection :=
  [("model_type", Plain (PyStr "CFD Surrogate"));
   ("lambda_e", Session.ctl false (of_Z 5) (of_Z 300) (of_Z 30)
                  "Enzymatic Load");
   ("fis_0", Plain (PyFloat (dec 5 100)));
   ("t_final", Plain (PyFloat (of_Z 24)));
   ("show_plots", Plain (PyBool false))].

(** The first loop of [run_models_with_new_values]: every value goes to
    every model that has an attribute of the name of its control. *)
Definition assign_new_values (var_names : list string)
  (dimensional_values : list float) (n_objects : nat) : M OS unit :=
  for_each (combine var_names dimensional_values)
    (fun '(var_name, value) =>
       for_each (seq 0 n_objects)
         (fun k =>
            on_model k (fun c =>
              h <- hasattr (class_ns c) var_name ;;
              if h then setattr (class_ns c) var_name (PyFloat value)
              else ret tt))).

(** A feedstock object as [__init__] leaves it. *)
Definition session_fs : gmap string pyval :=
  <["params_filename" := PyStr "params.yaml"]>
    (<["_xylan_solid_fraction" := PyFloat (dec 263 1000)]>
       (<["_glucan_solid_fraction" := PyFloat (dec 4 10)]>
          (<["_initial_porosity" := PyFloat (dec 1 2)]> ∅))).

(** A driver over the given stage models with one control of the given
    name and real bounds, before its first evaluation. *)
Definition session_driver (name : string) (bounds : float * float)
  (output : string) (models : list Obj) : Optimization :=
  {| hpc_run := false; notebookDir := "/nb"; params_filename := "params.yaml";
     output_names := Optimization_methods.the_output_names; output_name := output;
     objective_name := "X_G"; n_models := Z.of_nat (length models) - 1;
     models_list := models;
     fn_evals := 0; objective_scaling := of_Z 1; x_0 := [dec 1 2];
     var_names := [name]; nice_var_names := [name];
     var_bounds := [(of_Z 0, of_Z 1)]; var_real_bounds := [bounds];
     opt_results_file := None; opt_result := None |}.

(** A driver whose objective is an output of the pretreatment and whose
    only control is the enzyme loading of the enzymatic hydrolysis. *)
Definition pretreatment_only : OS :=
  (session_driver "lambda_e" (of_Z 5, of_Z 300) "pretreatment_output"
     [ {| cls := CFeedstock; attrs := session_fs |};
       {| cls := CPretreatment; attrs := session_pt |} ],
   session_world).

(** A driver over the four stages whose only control is named
    [t_final]. *)
Definition four_stages : OS :=
  (session_driver "t_final" (of_Z 1, of_Z 24) "bioreactor_output"
     [ {| cls := CFeedstock; attrs := session_fs |};
       {| cls := CPretreatment; attrs := session_pt |};
       {| cls := CEnzymaticHydrolysis; attrs := session_eh |};
       {| cls := CBioreactor; attrs := Session.br_attrs |} ],
   session_world).

(** The classes of the stage models of a driver, in order. *)
Definition stages (o : Optimization) : list class_id :=
  map cls (models_list o).

(** A method that leaves the aspect [g] of the driver as it was, whether
    it returns or raises. *)
Definition preserves {X A} (g : Optimization -> X) (m : M OS A) : Prop :=
  forall s, g (fst (snd (m s))) = g (fst s).

(** The run methods of the stages that are written in Python: class and
    name of the method. *)
Definition python_runs : list (class_id * string) :=
  [ (CPretreatment, "run");
    (CEnzymaticHydrolysis, "run_eh_cfd_surrogate");
    (CEnzymaticHydrolysis, "run_eh_lignocellulose_model");
    (CBioreactor, "run_biorector_cfd_surrogate") ].

(* --------------------------------------------------------------------- *)
(** ** [EnzymaticHydrolysis.get_globalVars] *)

(** Whether a value is an [int], a [bool] or a [float]. *)
Definition is_number (v : pyval) : bool :=
  match v with
  | PyInt _ | PyBool _ | PyFloat _ => true
  | _ => false
  end.

(** [x op y] for a float [x] and the float operation of [+], [-] or [*]:
    the other operand is converted to a float. *)
Definition float_op (op : float -> float -> float) (x : float) (y : pyval)
  : outcome float :=
  match as_float y with
  | Ret g => Ret (op x g)
  | Raise e => Raise e
  end.

(** [x / y].  Two integers are divided exactly and the quotient rounded
    once; this is the division of their floats when both are below
    [2**53], the only case modelled. *)
Definition py_truediv (x y : pyval) : outcome float :=
  let int_of v := match v with
                  | PyInt z => Some z
                  | PyBool b => Some (if b then 1 else 0)
                  | _ => None
                  end in
  if negb (is_number x && is_number y) then Raise TypeError
  else
    match int_of x, int_of y with
    | Some a, Some b =>
        if b =? 0 then Raise ZeroDivisionError
        else if (Z.abs a <=? 2 ^ 53) && (Z.abs b <=? 2 ^ 53) then
          Ret (PyFloat.div (of_Z a) (of_Z b))
        else Raise (Unmodelled "int / int beyond 2**53")
    | _, _ =>
        match as_float x with
        | Raise e => Raise e
        | Ret f =>
            match as_float y with
            | Raise e => Raise e
            | Ret g => truediv f g
            end
        end
    end.

(** [self.ve_params['pretreatment_output'][key]] *)
Definition pretreatment_output (key : string) : M St pyval :=
  ve <- self_get "ve_params" ;;
  out <- lift (py_getitem ve "pretreatment_output") ;;
  lift (py_getitem out key).

(** [EnzymaticHydrolysis.get_globalVars] *)
Definition get_globalVars : M St pyval :=
  fname <- self_get "params_filename" ;;
  fname <- lift (as_str fname) ;;
  ve <- world (yaml_to_dict fname) ;;
  self_set "ve_params" ve ;;;
  fis0 <- getattr (class_ns CEnzymaticHydrolysis) "fix_0" ;;
  xG0 <- pretreatment_output "X_G" ;;
  xX0 <- pretreatment_output "X_X" ;;
  d <- lift (float_op PyFloat.sub (of_Z 1) xG0) ;;
  XL0 <- lift (float_op PyFloat.sub d xX0) ;;
  conv <- pretreatment_output "conv" ;;
  p <- lift (float_op PyFloat.mul (dec 6 10) conv) ;;
  let yF0 := PyFloat.add (dec 2 10) p in
  lmbdE <- self_get "_lambda_e" ;;
  fis <- self_get "_fis_0" ;;
  fis_pt <- pretreatment_output "fis_0" ;;
  dilution_factor <- lift (py_truediv fis fis_pt) ;;
  rho_x <- pretreatment_output "rho_x" ;;
  rhox0 <- lift (float_op (fun x y => PyFloat.mul y x) dilution_factor rho_x) ;;
  self_set "dilution_factor" (PyFloat dilution_factor) ;;;
  ret (PyDict
         (<["fis0" := fis0]>
            (<["xG0" := xG0]>
               (<["xX0" := xX0]>
                  (<["XL0" := PyFloat XL0]>
                     (<["yF0" := PyFloat yF0]>
                        (<["lmbdE" := lmbdE]>
                           (<["rhog0" := PyFloat (of_Z 0)]>
                              (<["rhox0" := PyFloat rhox0]>
                                 (<["rhosl0" := PyFloat (of_Z 0)]> ∅)))))))))).

(** A method that leaves the attribute [k] of the object as it was, set
    or not. *)
Definition leaves_attribute {A} (k : string) (m : M St A) : Prop :=
  forall s, fst (snd (m s)) !! k = fst s !! k.

(** The collaborators [ext] with another NaN check. *)
Definition with_nan_check (check : pyval -> outcome bool) (ext : Externals)
  : Externals :=
  {| check_dict_for_nans := check;
     interp_steam := interp_steam ext;
     import_pt := import_pt ext;
     ptrun_main := ptrun_main ext;
     exec_file := exec_file ext;
     EH_surrogate_main := EH_surrogate_main ext;
     lignocell_EH_main := lignocell_EH_main ext;
     bcolumn_surrogate_main := bcolumn_surrogate_main ext;
     run_eh_cfd_simulation := run_eh_cfd_simulation ext;
     run_biorector_cfd_simulation := run_biorector_cfd_simulation ext;
     opt_minimize := opt_minimize ext |}.

(** Two runs that end in the same state, both returning or both raising
    the same exception. *)
Definition same_effect {S A} (r1 r2 : outcome A * S) : Prop :=
  snd r1 = snd r2
  /\ match fst r1, fst r2 with
     | Ret _, Ret _ => True
     | Raise e1, Raise e2 => e1 = e2
     | _, _ => False
     end.

(* ===================================================================== *)
(** * Properties *)

Import Optimization_methods.

(** ** Running computations *)

Lemma bind_ret {S A B} (c : M S A) (k : A -> M S B) s a s' :
  c s = (Ret a, s') -> bind c k s = k a s'.
Proof. intros H. unfold bind. now rewrite H. Qed.

Lemma bind_lift_ret {S A B} (a : A) (k : A -> M S B) s :
  bind (lift (Ret a)) k s = k a s.
Proof. reflexivity. Qed.

Lemma world_run {T A} (c : M World A) (t : T) (w : World) :
  world c (t, w) = (fst (c w), (t, snd (c w))).
Proof. unfold world, zoom. simpl. now destruct (c w). Qed.

(** ** The class bodies run to their end *)

Lemma class_bodies_run (c : class_id) :
  exec_body [] (class_body c) <> None.
Proof. destruct c; discriminate. Qed.

(* --------------------------------------------------------------------- *)
(** ** The rounding of the operations on floats

    The four operations of [SpecFloat] round to nearest: the result of an
    operation on finite floats is within [unit_roundoff] of the exact
    result, relatively, up to [underflow_unit] where the result is
    subnormal, as long as it does not overflow. *)

Lemma pow2_pos (e : Z) : (0 < pow2 e)%Q.
Proof. apply Qpower_0_lt. reflexivity. Qed.

Lemma pow2_add (a b : Z) : (pow2 (a + b) == pow2 a * pow2 b)%Q.
Proof. apply Qpower_plus. discriminate. Qed.

Lemma pow2_succ (a : Z) : (pow2 (a + 1) == 2 * pow2 a)%Q.
Proof. rewrite pow2_add. unfold pow2 at 2. simpl. ring. Qed.

Lemma pow2_pred (a : Z) : (pow2 (a - 1) == pow2 a * (1 # 2))%Q.
Proof.
  replace a with ((a - 1) + 1) at 2 by ring. rewrite pow2_succ. field.
Qed.

Lemma pow2_le (a b : Z) : a <= b -> (pow2 a <= pow2 b)%Q.
Proof. intros H. apply Qpower_le_compat_l; [exact H|]. discriminate. Qed.

Lemma pow2_Z (n : Z) : 0 <= n -> (inject_Z (2 ^ n) == pow2 n)%Q.
Proof. intros H. now apply Zpower_Qpower. Qed.

Lemma digits2_log2 (m : positive) :
  Zpos (digits2_pos m) = Z.log2 (Zpos m) + 1.
Proof.
  induction m as [m IH|m IH|]; cbn [digits2_pos]; [| |reflexivity].
  - rewrite Pos2Z.inj_succ, IH.
    change (Z.pos m~1) with (2 * Z.pos m + 1)%Z.
    rewrite Z.log2_succ_double by lia. lia.
  - rewrite Pos2Z.inj_succ, IH.
    change (Z.pos m~0) with (2 * Z.pos m)%Z.
    rewrite Z.log2_double by lia. lia.
Qed.

Lemma Zdigits2_log2 (m : Z) : 0 < m -> Zdigits2 m = Z.log2 m + 1.
Proof. destruct m; try lia. intros _. apply digits2_log2. Qed.

Lemma Zdigits2_bounds (m : Z) :
  0 < m -> 2 ^ (Zdigits2 m - 1) <= m < 2 ^ Zdigits2 m.
Proof.
  intros H. rewrite Zdigits2_log2 by exact H.
  replace (Z.log2 m + 1 - 1) with (Z.log2 m) by ring.
  pose proof (Z.log2_spec m H). replace (Z.log2 m + 1) with (Z.succ (Z.log2 m)) by ring.
  lia.
Qed.

Lemma inject_Z_xO (p : positive) :
  (inject_Z (Z.pos p~0) == 2 * inject_Z (Z.pos p))%Q.
Proof. change (Z.pos p~0) with (2 * Z.pos p). now rewrite inject_Z_mult. Qed.

Lemma inject_Z_xI (p : positive) :
  (inject_Z (Z.pos p~1) == 2 * inject_Z (Z.pos p) + 1)%Q.
Proof.
  change (Z.pos p~1) with (2 * Z.pos p + 1).
  now rewrite inject_Z_plus, inject_Z_mult.
Qed.

(** One step of the shift: the mantissa is halved and the two bits keep
    the position of the number. *)
Lemma shr_1_spec (mrs : shr_record) (x : Q) :
  0 <= shr_m mrs ->
  inbetween (shr_m mrs) (loc_of_shr_record mrs) x ->
  0 <= shr_m (shr_1 mrs)
  /\ shr_m (shr_1 mrs) = shr_m mrs / 2
  /\ inbetween (shr_m (shr_1 mrs)) (loc_of_shr_record (shr_1 mrs)) (x * (1 # 2)).
Proof.
  destruct mrs as [m r s]. cbn [shr_m]. intros Hm Hx.
  destruct m as [|p|p]; [| |lia].
  - cbn [shr_1 shr_m]. split; [lia|]. split; [reflexivity|].
    destruct r, s; cbn [inbetween loc_of_shr_record orb shr_r shr_s] in *;
      change (inject_Z 0) with 0%Q in *; lra.
  - destruct p as [p|p|]; cbn [shr_1 shr_m].
    + split; [lia|]. split; [apply (Z.div_unique _ 2 _ 1); lia|].
      pose proof (inject_Z_xI p) as E.
      destruct r, s; cbn [inbetween loc_of_shr_record orb shr_r shr_s] in *;
        set (q := inject_Z (Z.pos p)) in *; set (q' := inject_Z (Z.pos p~1)) in *;
        clearbody q q'; lra.
    + split; [lia|]. split; [apply (Z.div_unique _ 2 _ 0); lia|].
      pose proof (inject_Z_xO p) as E.
      destruct r, s; cbn [inbetween loc_of_shr_record orb shr_r shr_s] in *;
        set (q := inject_Z (Z.pos p)) in *; set (q' := inject_Z (Z.pos p~0)) in *;
        clearbody q q'; lra.
    + split; [lia|]. split; [reflexivity|].
      destruct r, s; cbn [inbetween loc_of_shr_record orb shr_r shr_s] in *;
        change (inject_Z 0) with 0%Q in *; change (inject_Z 1) with 1%Q in *; lra.
Qed.

Lemma inbetween_ext (m : Z) (l : location) (x y : Q) :
  (x == y)%Q -> inbetween m l x -> inbetween m l y.
Proof.
  intros E. destruct l as [|[]]; cbn; rewrite E; trivial.
Qed.

(** [n] steps of the shift divide by [2 ^ n]. *)
Lemma iter_shr_1_spec (n : positive) :
  forall (mrs : shr_record) (x : Q),
  0 <= shr_m mrs ->
  inbetween (shr_m mrs) (loc_of_shr_record mrs) x ->
  0 <= shr_m (SpecFloat.iter_pos shr_1 n mrs)
  /\ shr_m (SpecFloat.iter_pos shr_1 n mrs) = shr_m mrs / 2 ^ Z.pos n
  /\ inbetween (shr_m (SpecFloat.iter_pos shr_1 n mrs))
       (loc_of_shr_record (SpecFloat.iter_pos shr_1 n mrs)) (x * pow2 (- Z.pos n)).
Proof.
  induction n as [n IH|n IH|]; intros mrs x Hm Hx; cbn [SpecFloat.iter_pos].
  - destruct (shr_1_spec mrs x Hm Hx) as (H1 & E1 & I1).
    destruct (IH _ _ H1 I1) as (H2 & E2 & I2).
    destruct (IH _ _ H2 I2) as (H3 & E3 & I3).
    split; [exact H3|]. split.
    + rewrite E3, E2, E1.
      rewrite !Z.div_div by lia.
      f_equal. rewrite <- Z.pow_add_r by lia.
      change 2 with (2 ^ 1) at 1. rewrite <- Z.pow_add_r by lia.
      f_equal. lia.
    + eapply inbetween_ext; [|exact I3].
      replace (- Z.pos n~1) with (- Z.pos n + (- Z.pos n + -1)) by lia.
      rewrite !pow2_add. change (pow2 (-1)) with (1 # 2)%Q. ring.
  - destruct (IH _ _ Hm Hx) as (H2 & E2 & I2).
    destruct (IH _ _ H2 I2) as (H3 & E3 & I3).
    split; [exact H3|]. split.
    + rewrite E3, E2.
      rewrite !Z.div_div by lia.
      f_equal. rewrite <- Z.pow_add_r by lia.
      f_equal. lia.
    + eapply inbetween_ext; [|exact I3].
      replace (- Z.pos n~0) with (- Z.pos n + - Z.pos n) by lia.
      rewrite !pow2_add. ring.
  - destruct (shr_1_spec mrs x Hm Hx) as (H1 & E1 & I1).
    split; [exact H1|]. split; [exact E1|].
    eapply inbetween_ext; [|exact I1].
    change (pow2 (- 1)) with (1 # 2)%Q. reflexivity.
Qed.

Lemma inject_Z_succ (m : Z) : (inject_Z (m + 1) == inject_Z m + 1)%Q.
Proof. now rewrite inject_Z_plus. Qed.

(** Rounding to nearest moves to a neighbouring integer at most one half
    away, and nowhere when the position is exact. *)
Lemma round_nearest_even_spec (m : Z) (l : location) (x : Q) :
  inbetween m l x ->
  (round_nearest_even m l = m \/ round_nearest_even m l = m + 1)
  /\ (inject_Z (round_nearest_even m l) - (1 # 2) <= x)%Q
  /\ (x <= inject_Z (round_nearest_even m l) + (1 # 2))%Q
  /\ (l = loc_Exact -> round_nearest_even m l = m).
Proof.
  intros H. pose proof (inject_Z_succ m) as E.
  destruct l as [|[]]; cbn [round_nearest_even inbetween] in *.
  - split; [now left|]. set (q := inject_Z m) in *. clearbody q.
    repeat split; lra.
  - destruct (Z.even m).
    + split; [now left|]. set (q := inject_Z m) in *. clearbody q.
      repeat split; try lra; discriminate.
    + split; [now right|].
      set (q := inject_Z m) in *. set (q' := inject_Z (m + 1)) in *.
      clearbody q q'. repeat split; try lra; discriminate.
  - split; [now left|]. set (q := inject_Z m) in *. clearbody q.
    repeat split; try lra; discriminate.
  - split; [now right|].
    set (q := inject_Z m) in *. set (q' := inject_Z (m + 1)) in *.
    clearbody q q'. repeat split; try lra; discriminate.
Qed.

Lemma loc_of_shr_record_of_loc (m : Z) (l : location) :
  loc_of_shr_record (shr_record_of_loc m l) = l
  /\ shr_m (shr_record_of_loc m l) = m.
Proof. now destruct l as [|[]]. Qed.

(** The first shift of a rounding brings the mantissa to the exponent
    [fexp] asks for. *)
Lemma shr_fexp_spec (mx ex : Z) (lx : location) (x : Q) :
  0 <= mx ->
  inbetween mx lx x ->
  ex <= fexp prec emax (Zdigits2 mx + ex) ->
  exists mrs,
    shr_fexp prec emax mx ex lx = (mrs, fexp prec emax (Zdigits2 mx + ex))
    /\ 0 <= shr_m mrs
    /\ shr_m mrs = mx / 2 ^ (fexp prec emax (Zdigits2 mx + ex) - ex)
    /\ inbetween (shr_m mrs) (loc_of_shr_record mrs)
         (x * pow2 (ex - fexp prec emax (Zdigits2 mx + ex)))
    /\ (fexp prec emax (Zdigits2 mx + ex) = ex -> loc_of_shr_record mrs = lx).
Proof.
  intros Hm Hx Hn. unfold shr_fexp.
  set (E := fexp prec emax (Zdigits2 mx + ex)) in *.
  destruct (loc_of_shr_record_of_loc mx lx) as [El Em].
  destruct (E - ex) as [|n|n] eqn:En; [| |lia]; cbn [shr].
  - exists (shr_record_of_loc mx lx). rewrite El, Em.
    split; [f_equal; lia|]. split; [exact Hm|].
    split; [now rewrite Z.div_1_r|]. split; [|reflexivity].
    eapply inbetween_ext; [|exact Hx].
    replace (ex - E) with 0 by lia. change (pow2 0) with 1%Q. ring.
  - destruct (iter_shr_1_spec n (shr_record_of_loc mx lx) x) as (H1 & H2 & H3).
    + now rewrite Em.
    + now rewrite El, Em.
    + exists (SpecFloat.iter_pos shr_1 n (shr_record_of_loc mx lx)).
      split; [f_equal; lia|]. split; [exact H1|].
      split; [now rewrite H2, Em|]. split; [|lia].
      replace (ex - E) with (- Z.pos n) by lia. exact H3.
Qed.

Lemma fexp_eq (e : Z) : fexp prec emax e = Z.max (e - prec) emin.
Proof. reflexivity. Qed.

Lemma Zdigits2_le (m k : Z) : 0 < m -> m < 2 ^ k -> Zdigits2 m <= k.
Proof.
  intros Hm Hk. pose proof (Zdigits2_bounds m Hm) as [Hl _].
  destruct (Z_lt_le_dec k (Zdigits2 m)) as [H|H]; [|exact H].
  assert (0 <= k).
  { destruct (Z_lt_le_dec k 0) as [Hn|Hn]; [|exact Hn].
    rewrite Z.pow_neg_r in Hk by exact Hn. lia. }
  assert (2 ^ k <= 2 ^ (Zdigits2 m - 1)) by (apply Z.pow_le_mono_r; lia).
  lia.
Qed.

Lemma Zdigits2_ge (m k : Z) : 0 < m -> 2 ^ (k - 1) <= m -> k <= Zdigits2 m.
Proof.
  intros Hm Hk. pose proof (Zdigits2_bounds m Hm) as [_ Hu].
  destruct (Z_lt_le_dec (Zdigits2 m) k) as [H|H]; [|exact H].
  assert (0 < Zdigits2 m) by (rewrite Zdigits2_log2 by exact Hm;
                              pose proof (Z.log2_nonneg m); lia).
  assert (2 ^ Zdigits2 m <= 2 ^ (k - 1)) by (apply Z.pow_le_mono_r; lia).
  lia.
Qed.

(** The second shift of a rounding: nothing, or one bit after a carry. *)
Lemma round_second_shift (s : bool) (m1 E : Z) :
  0 <= m1 <= 2 ^ prec -> emin <= E ->
  (let '(mrs, e) := shr_fexp prec emax m1 E loc_Exact in
   match shr_m mrs with
   | Z0 => S754_zero s
   | Zpos m => if e <=? emax - prec then S754_finite s m e else S754_infinity s
   | Zneg _ => S754_nan
   end) = pack s m1 E.
Proof.
  intros [H0 H1] HE. unfold shr_fexp. rewrite fexp_eq.
  destruct (Z.eq_dec m1 (2 ^ prec)) as [->|Hne].
  - change (Zdigits2 (2 ^ prec)) with 54.
    replace (Z.max (54 + E - prec) emin - E) with 1
      by (unfold prec, emin in *; lia).
    reflexivity.
  - destruct m1 as [|p|p]; [| |lia].
    + change (Zdigits2 0) with 0.
      destruct (Z.max (0 + E - prec) emin - E) as [|n|n] eqn:En;
        [reflexivity| |reflexivity].
      unfold prec in En. lia.
    + assert (Hd : Zdigits2 (Z.pos p) <= prec) by (apply Zdigits2_le; lia).
      destruct (Z.max (Zdigits2 (Z.pos p) + E - prec) emin - E) as [|n|n] eqn:En.
      * cbn [shr shr_record_of_loc shr_m pack].
        destruct (Z.ltb_spec (Z.pos p) (2 ^ prec)); [reflexivity|lia].
      * lia.
      * cbn [shr shr_record_of_loc shr_m pack].
        destruct (Z.ltb_spec (Z.pos p) (2 ^ prec)); [reflexivity|lia].
Qed.

Lemma pow2_split (a b : Z) : 0 <= a -> 0 <= b -> 2 ^ (a + b) = 2 ^ a * 2 ^ b.
Proof. intros. now rewrite Z.pow_add_r. Qed.

(** What rounding a nonnegative number returns: the mantissa at the
    exponent [fexp] asks for, rounded to a neighbouring integer and
    stored by [pack]. *)
Lemma binary_round_aux_spec (s : bool) (mx ex : Z) (lx : location) (x : Q) :
  0 <= mx ->
  inbetween mx lx x ->
  ex <= fexp prec emax (Zdigits2 mx + ex) ->
  exists m1 : Z,
    binary_round_aux prec emax s mx ex lx
    = pack s m1 (fexp prec emax (Zdigits2 mx + ex))
    /\ 0 <= m1 <= 2 ^ prec
    /\ (inject_Z m1 - (1 # 2)
        <= x * pow2 (ex - fexp prec emax (Zdigits2 mx + ex)))%Q
    /\ (x * pow2 (ex - fexp prec emax (Zdigits2 mx + ex))
        <= inject_Z m1 + (1 # 2))%Q
    /\ (lx = loc_Exact -> fexp prec emax (Zdigits2 mx + ex) = ex -> m1 = mx)
    /\ (fexp prec emax (Zdigits2 mx + ex) = emin /\ m1 <= 2 ^ (prec - 1)
        \/ 0 < mx
           /\ fexp prec emax (Zdigits2 mx + ex) = Zdigits2 mx + ex - prec
           /\ emin <= Zdigits2 mx + ex - prec
           /\ 2 ^ (prec - 1) <= m1).
Proof.
  intros Hm Hx Hn.
  destruct (shr_fexp_spec mx ex lx x Hm Hx Hn) as (mrs & Hs & H0 & Hm' & Hin & Hl).
  set (E := fexp prec emax (Zdigits2 mx + ex)) in *.
  destruct (round_nearest_even_spec _ _ _ Hin) as (Hr & Hlo & Hhi & Hex).
  set (m1 := round_nearest_even (shr_m mrs) (loc_of_shr_record mrs)) in *.
  assert (HE : emin <= E) by (unfold E; rewrite fexp_eq; lia).
  assert (Hb : E = emin /\ shr_m mrs < 2 ^ (prec - 1)
               \/ 0 < mx /\ E = Zdigits2 mx + ex - prec
                  /\ emin <= Zdigits2 mx + ex - prec
                  /\ 2 ^ (prec - 1) <= shr_m mrs < 2 ^ prec).
  { destruct (Z.eq_dec mx 0) as [->|Hnz].
    - left. split.
      + unfold E in *. rewrite fexp_eq in *. change (Zdigits2 0) with 0 in *.
        unfold prec in *. lia.
      + rewrite Hm'. rewrite Z.div_0_l; [reflexivity|].
        apply Z.pow_nonzero; [lia|]. lia.
    - assert (Hp : 0 < mx) by lia.
      pose proof (Zdigits2_bounds mx Hp) as [Hdl Hdu].
      assert (Hd1 : 1 <= Zdigits2 mx).
      { rewrite Zdigits2_log2 by exact Hp. pose proof (Z.log2_nonneg mx). lia. }
      destruct (Z_lt_le_dec (Zdigits2 mx + ex - prec) emin) as [Hsub|Hnor].
      + left. assert (EE : E = emin) by (unfold E; rewrite fexp_eq; lia).
        split; [exact EE|]. rewrite Hm'.
        apply Z.div_lt_upper_bound; [apply Z.pow_pos_nonneg; lia|].
        rewrite <- pow2_split by (unfold prec; lia).
        eapply Z.lt_le_trans; [exact Hdu|].
        apply Z.pow_le_mono_r; [lia|]. lia.
      + right. assert (EE : E = Zdigits2 mx + ex - prec)
          by (unfold E; rewrite fexp_eq; lia).
        split; [exact Hp|]. split; [exact EE|]. split; [exact Hnor|].
        rewrite Hm'. split.
        * apply Z.div_le_lower_bound; [apply Z.pow_pos_nonneg; lia|].
          rewrite Z.mul_comm, <- pow2_split by (unfold prec; lia).
          eapply Z.le_trans; [|exact Hdl].
          apply Z.pow_le_mono_r; [lia|]. lia.
        * apply Z.div_lt_upper_bound; [apply Z.pow_pos_nonneg; lia|].
          rewrite <- pow2_split by (unfold prec; lia).
          eapply Z.lt_le_trans; [exact Hdu|].
          apply Z.pow_le_mono_r; [lia|]. lia. }
  assert (H52 : 2 ^ (prec - 1) < 2 ^ prec) by reflexivity.
  exists m1. split.
  { unfold binary_round_aux. rewrite Hs. fold m1.
    apply round_second_shift; [|exact HE].
    destruct Hb as [[_ Hb]|(_ & _ & _ & Hb)]; lia. }
  split; [destruct Hb as [[_ Hb]|(_ & _ & _ & Hb)]; lia|].
  split; [exact Hlo|]. split; [exact Hhi|]. split.
  { intros -> EE. unfold m1. rewrite (Hl EE). cbn [round_nearest_even].
    rewrite Hm'. replace (E - ex) with 0 by lia. now rewrite Z.div_1_r. }
  destruct Hb as [[EE Hb]|(Hp & EE & Hnor & Hb)]; [left|right].
  - split; [exact EE|]. lia.
  - repeat split; try assumption. lia.
Qed.

Lemma inbetween_bounds (m : Z) (l : location) (x : Q) :
  inbetween m l x -> (inject_Z m <= x /\ x < inject_Z m + 1)%Q.
Proof.
  destruct l as [|[]]; cbn [inbetween]; intros H;
    set (q := inject_Z m) in *; clearbody q; lra.
Qed.

Lemma unit_roundoff_pow2 : (unit_roundoff == pow2 (- prec))%Q.
Proof. reflexivity. Qed.

Lemma underflow_unit_pow2 : (underflow_unit == pow2 (emin - 1))%Q.
Proof. vm_compute. reflexivity. Qed.

Lemma F2Q_finite (s : bool) (m : positive) (e : Z) :
  (F2Q (S754_finite s m e) == signQ s * (inject_Z (Z.pos m) * pow2 e))%Q.
Proof.
  destruct s; cbn [F2Q cond_Zopp signQ]; [|ring].
  change (- Z.pos m) with (- (Z.pos m)). rewrite inject_Z_opp. ring.
Qed.

(** The number [pack] stores. *)
Lemma pack_value (s : bool) (m1 E : Z) :
  0 <= m1 <= 2 ^ prec ->
  is_finite (pack s m1 E) = true ->
  (F2Q (pack s m1 E) == signQ s * (inject_Z m1 * pow2 E))%Q.
Proof.
  intros [H0 H1] Hf. destruct m1 as [|p|p]; [| |lia].
  - cbn. change (inject_Z 0) with 0%Q. ring.
  - cbn [pack] in *. destruct (Z.ltb_spec (Z.pos p) (2 ^ prec)) as [Hlt|Hge].
    + destruct (E <=? emax - prec); [|discriminate]. apply F2Q_finite.
    + assert (Ep : Z.pos p = 2 ^ prec) by lia. rewrite Ep in *.
      destruct (E + 1 <=? emax - prec); [|discriminate].
      rewrite F2Q_finite. rewrite pow2_succ.
      change (inject_Z (Z.pos (Z.to_pos (2 ^ prec / 2)))) with (inject_Z (2 ^ 52)).
      change (inject_Z (2 ^ prec)) with (inject_Z (2 * 2 ^ 52)).
      rewrite (inject_Z_mult 2). change (inject_Z 2) with 2%Q. ring.
Qed.

(** [pack] stores a float in normal form. *)
Lemma pack_valid (s : bool) (m1 E : Z) :
  0 <= m1 <= 2 ^ prec ->
  E = emin \/ emin <= E /\ 2 ^ (prec - 1) <= m1 ->
  valid_binary prec emax (pack s m1 E) = true.
Proof.
  intros [H0 H1] Hc. destruct m1 as [|p|p]; [reflexivity| |lia].
  cbn [pack]. destruct (Z.ltb_spec (Z.pos p) (2 ^ prec)) as [Hlt|Hge].
  - destruct (Z.leb_spec E (emax - prec)) as [Hle|Hgt]; [|reflexivity].
    cbn [valid_binary]. unfold bounded, canonical_mantissa.
    apply andb_true_intro. split; [|now apply Z.leb_le].
    apply Z.eqb_eq. rewrite fexp_eq.
    change (Z.pos (digits2_pos p)) with (Zdigits2 (Z.pos p)).
    assert (Hd : Zdigits2 (Z.pos p) <= prec) by (apply Zdigits2_le; lia).
    destruct Hc as [->|[HE Hc]]; [lia|].
    assert (prec <= Zdigits2 (Z.pos p)) by (apply Zdigits2_ge; [lia|exact Hc]).
    lia.
  - assert (Ep : Z.pos p = 2 ^ prec) by lia. rewrite Ep.
    destruct (Z.leb_spec (E + 1) (emax - prec)) as [Hle|Hgt]; [|reflexivity].
    cbn [valid_binary]. unfold bounded, canonical_mantissa.
    apply andb_true_intro. split; [|now apply Z.leb_le].
    apply Z.eqb_eq. rewrite fexp_eq.
    change (Z.pos (digits2_pos (Z.to_pos (2 ^ prec / 2)))) with 53.
    assert (emin <= E) by (destruct Hc as [->|[HE _]]; lia).
    unfold prec. lia.
Qed.

(** [pack] overflows only from [2 ^ emax] on. *)
Lemma pack_finite (s : bool) (m1 E : Z) :
  0 <= m1 <= 2 ^ prec ->
  E = emin /\ m1 <= 2 ^ (prec - 1) \/ emin <= E /\ 2 ^ (prec - 1) <= m1 ->
  (inject_Z m1 * pow2 E < pow2 emax)%Q ->
  is_finite (pack s m1 E) = true.
Proof.
  intros [H0 H1] Hc Hv. destruct m1 as [|p|p]; [reflexivity| |lia].
  cbn [pack].
  assert (Hbig : forall m e, 2 ^ (prec - 1) <= m -> emax - prec < e ->
                 (pow2 emax <= inject_Z m * pow2 e)%Q).
  { intros m e Hm He.
    apply Qle_trans with (inject_Z (2 ^ (prec - 1)) * pow2 (emax - prec + 1))%Q.
    - rewrite pow2_Z by (unfold prec; lia). rewrite <- pow2_add.
      apply pow2_le. lia.
    - apply Qle_trans with (inject_Z m * pow2 (emax - prec + 1))%Q.
      + apply Qmult_le_compat_r; [|apply Qlt_le_weak, pow2_pos].
        rewrite <- Zle_Qle. exact Hm.
      + apply Qmult_le_l.
        * apply Qlt_le_trans with (inject_Z (2 ^ (prec - 1))).
          -- reflexivity.
          -- rewrite <- Zle_Qle. exact Hm.
        * apply pow2_le. lia. }
  destruct (Z.ltb_spec (Z.pos p) (2 ^ prec)) as [Hlt|Hge].
  - destruct (Z.leb_spec E (emax - prec)) as [Hle|Hgt]; [reflexivity|].
    exfalso. destruct Hc as [[-> _]|[HE Hc]]; [unfold emin, emax, prec in Hgt; lia|].
    specialize (Hbig _ _ Hc Hgt). lra.
  - destruct (Z.leb_spec (E + 1) (emax - prec)) as [Hle|Hgt]; [reflexivity|].
    exfalso. assert (Ep : Z.pos p = 2 ^ prec) by lia. rewrite Ep in *.
    assert (Hb2 : 2 ^ (prec - 1) <= 2 ^ 52) by reflexivity.
    specialize (Hbig (2 ^ 52) (E + 1) Hb2 Hgt).
    rewrite pow2_succ in Hbig.
    change (inject_Z (2 ^ prec)) with (inject_Z (2 * 2 ^ 52)) in Hv.
    rewrite (inject_Z_mult 2) in Hv. change (inject_Z 2) with 2%Q in Hv.
    set (a := inject_Z (2 ^ 52)) in *. set (b := pow2 E) in *.
    set (c := pow2 emax) in *. clearbody a b c. lra.
Qed.

Lemma half_pow2 (e : Z) : ((1 # 2) * pow2 e == pow2 (e - 1))%Q.
Proof. rewrite pow2_pred. ring. Qed.

(** Rounding is correct: the float returned for the nonnegative number
    [x * 2 ^ ex] with sign [s] is in normal form, is finite when the number
    is below [2 ^ emax], and is then within half a unit in the last place. *)
Lemma round_correct (s : bool) (mx ex : Z) (lx : location) (x : Q) :
  0 <= mx ->
  inbetween mx lx x ->
  ex <= fexp prec emax (Zdigits2 mx + ex) ->
  exists y : Q,
    (0 <= y)%Q
    /\ (y - x * pow2 ex <= unit_roundoff * (x * pow2 ex) + underflow_unit)%Q
    /\ (x * pow2 ex - y <= unit_roundoff * (x * pow2 ex) + underflow_unit)%Q
    /\ (emin <= Zdigits2 mx + ex - prec ->
        (y - x * pow2 ex <= unit_roundoff * (x * pow2 ex))%Q
        /\ (x * pow2 ex - y <= unit_roundoff * (x * pow2 ex))%Q)
    /\ (lx = loc_Exact -> fexp prec emax (Zdigits2 mx + ex) = ex ->
        (y == x * pow2 ex)%Q)
    /\ ((y < pow2 emax)%Q ->
        is_finite (binary_round_aux prec emax s mx ex lx) = true)
    /\ (is_finite (binary_round_aux prec emax s mx ex lx) = true ->
        (F2Q (binary_round_aux prec emax s mx ex lx) == signQ s * y)%Q)
    /\ valid_binary prec emax (binary_round_aux prec emax s mx ex lx) = true.
Proof.
  intros Hm Hx Hn.
  destruct (binary_round_aux_spec s mx ex lx x Hm Hx Hn)
    as (m1 & -> & Hr & Hlo & Hhi & Hex & Hc).
  set (E := fexp prec emax (Zdigits2 mx + ex)) in *.
  assert (HE : emin <= E) by (unfold E; rewrite fexp_eq; lia).
  destruct (inbetween_bounds _ _ _ Hx) as [Hxl _].
  assert (Hx0 : (0 <= x)%Q).
  { apply Qle_trans with (inject_Z mx); [|exact Hxl].
    change 0%Q with (inject_Z 0). now rewrite <- Zle_Qle. }
  assert (HP : (0 < pow2 E)%Q) by apply pow2_pos.
  assert (HA : (x * pow2 ex == x * pow2 (ex - E) * pow2 E)%Q).
  { replace ex with ((ex - E) + E) at 1 by ring. rewrite pow2_add. ring. }
  assert (Hm1 : (0 <= inject_Z m1)%Q).
  { change 0%Q with (inject_Z 0). rewrite <- Zle_Qle. lia. }
  assert (Hhalf : ((1 # 2) * pow2 E == pow2 (E - 1))%Q) by apply half_pow2.
  assert (Hnormal : emin <= Zdigits2 mx + ex - prec ->
                    (pow2 (E - 1) <= unit_roundoff * (x * pow2 ex))%Q).
  { intros Hnor. destruct Hc as [[EE Hc]|(Hp & EE & _ & Hc)].
    - (* the subnormal exponent is the normal one here *)
      assert (EE' : E = Zdigits2 mx + ex - prec)
        by (unfold E in *; rewrite fexp_eq in *; lia).
      destruct (Z.eq_dec mx 0) as [->|Hnz].
      + change (Zdigits2 0) with 0 in *. unfold E in Hn. rewrite fexp_eq in Hn.
        unfold prec in *. lia.
      + pose proof (Zdigits2_bounds mx ltac:(lia)) as [Hdl _].
        apply Qle_trans with (unit_roundoff * (inject_Z (2 ^ (Zdigits2 mx - 1)) * pow2 ex))%Q.
        * assert (1 <= Zdigits2 mx).
          { rewrite Zdigits2_log2 by lia. pose proof (Z.log2_nonneg mx). lia. }
          rewrite pow2_Z by lia. rewrite unit_roundoff_pow2, <- !pow2_add.
          apply pow2_le. unfold prec in *. lia.
        * apply Qmult_le_l; [reflexivity|].
          apply Qmult_le_compat_r; [|apply Qlt_le_weak, pow2_pos].
          apply Qle_trans with (inject_Z mx); [|exact Hxl].
          now rewrite <- Zle_Qle.
    - pose proof (Zdigits2_bounds mx Hp) as [Hdl _].
      apply Qle_trans with (unit_roundoff * (inject_Z (2 ^ (Zdigits2 mx - 1)) * pow2 ex))%Q.
      + assert (1 <= Zdigits2 mx).
        { rewrite Zdigits2_log2 by lia. pose proof (Z.log2_nonneg mx). lia. }
        rewrite pow2_Z by lia. rewrite unit_roundoff_pow2, <- !pow2_add.
        apply pow2_le. unfold prec in *. lia.
      + apply Qmult_le_l; [reflexivity|].
        apply Qmult_le_compat_r; [|apply Qlt_le_weak, pow2_pos].
        apply Qle_trans with (inject_Z mx); [|exact Hxl].
        now rewrite <- Zle_Qle. }
  assert (Hsub : E = emin -> (pow2 (E - 1) == underflow_unit)%Q).
  { intros ->. symmetry. apply underflow_unit_pow2. }
  assert (HuA : (0 <= unit_roundoff * (x * pow2 ex))%Q).
  { apply Qmult_le_0_compat; [discriminate|].
    apply Qmult_le_0_compat; [exact Hx0|apply Qlt_le_weak, pow2_pos]. }
  assert (Heta : (0 <= underflow_unit)%Q) by discriminate.
  assert (Hd1 : (inject_Z m1 * pow2 E - x * pow2 ex <= pow2 (E - 1))%Q).
  { rewrite HA, <- Hhalf.
    set (a := inject_Z m1) in *. set (b := (x * pow2 (ex - E))%Q) in *.
    set (p := pow2 E) in *. clearbody a b p. nra. }
  assert (Hd2 : (x * pow2 ex - inject_Z m1 * pow2 E <= pow2 (E - 1))%Q).
  { rewrite HA, <- Hhalf.
    set (a := inject_Z m1) in *. set (b := (x * pow2 (ex - E))%Q) in *.
    set (p := pow2 E) in *. clearbody a b p. nra. }
  exists (inject_Z m1 * pow2 E)%Q.
  split; [apply Qmult_le_0_compat; [exact Hm1|now apply Qlt_le_weak]|].
  assert (Hrel : emin <= Zdigits2 mx + ex - prec ->
      (inject_Z m1 * pow2 E - x * pow2 ex <= unit_roundoff * (x * pow2 ex))%Q
      /\ (x * pow2 ex - inject_Z m1 * pow2 E <= unit_roundoff * (x * pow2 ex))%Q).
  { intros Hnor. specialize (Hnormal Hnor). split; lra. }
  assert (Hexact : lx = loc_Exact -> E = ex ->
                   (inject_Z m1 * pow2 E == x * pow2 ex)%Q).
  { intros Hl EE. rewrite (Hex Hl EE). rewrite EE. subst lx.
    cbn [inbetween] in Hx. now rewrite <- Hx. }
  split; [|split; [|split; [exact Hrel|split; [exact Hexact|]]]].
  - destruct Hc as [[EE _]|(_ & _ & Hnor & _)].
    + rewrite (Hsub EE) in Hd1. lra.
    + specialize (Hnormal Hnor). lra.
  - destruct Hc as [[EE _]|(_ & _ & Hnor & _)].
    + rewrite (Hsub EE) in Hd2. lra.
    + specialize (Hnormal Hnor). lra.
  - split; [|split].
    + intros Hy. apply pack_finite; [exact Hr| |exact Hy].
      destruct Hc as [[EE Hc]|(_ & EE & Hnor & Hc)]; [now left|right].
      split; [lia|exact Hc].
    + intros Hf. apply pack_value; [exact Hr|exact Hf].
    + apply pack_valid; [exact Hr|].
      destruct Hc as [[EE Hc]|(_ & EE & Hnor & Hc)]; [now left|right].
      split; [lia|exact Hc].
Qed.

Lemma iter_xO (m d : positive) :
  Z.pos (Pos.iter xO m d) = Z.pos m * 2 ^ Z.pos d.
Proof.
  induction d as [|d IH] using Pos.peano_ind.
  - change (Pos.iter xO m 1) with (m~0)%positive. lia.
  - rewrite Pos.iter_succ, Pos2Z.inj_succ, Z.pow_succ_r by lia.
    change (Z.pos (Pos.iter xO m d)~0) with (2 * Z.pos (Pos.iter xO m d)).
    rewrite IH. ring.
Qed.

Lemma Zdigits2_shift (m k : Z) :
  0 < m -> 0 <= k -> Zdigits2 (m * 2 ^ k) = Zdigits2 m + k.
Proof.
  intros Hm Hk.
  assert (0 < m * 2 ^ k) by (apply Z.mul_pos_pos; [lia|apply Z.pow_pos_nonneg; lia]).
  rewrite !Zdigits2_log2 by assumption.
  rewrite Z.log2_mul_pow2 by lia. lia.
Qed.

(** Aligning a mantissa to a lower exponent keeps the number. *)
Lemma shl_align_spec (mx : positive) (ex ex' : Z) :
  Z.pos (fst (shl_align mx ex ex'))
  = Z.pos mx * 2 ^ (ex - snd (shl_align mx ex ex'))
  /\ snd (shl_align mx ex ex') = Z.min ex ex'.
Proof.
  unfold shl_align. destruct (ex' - ex) as [|d|d] eqn:Ed; cbn [fst snd].
  - replace (ex - ex) with 0 by lia. split; lia.
  - replace (ex - ex) with 0 by lia. split; lia.
  - rewrite iter_xO. split; [f_equal; f_equal; lia|lia].
Qed.

Lemma inject_Z_pow2 (m k e : Z) :
  0 <= k ->
  (inject_Z (m * 2 ^ k) * pow2 (e - k) == inject_Z m * pow2 e)%Q.
Proof.
  intros Hk. rewrite inject_Z_mult, pow2_Z by exact Hk.
  replace e with (k + (e - k)) at 2 by ring. rewrite pow2_add. ring.
Qed.

(** [binary_round] rounds the number [mx * 2 ^ ex] correctly, and exactly
    when the exponent [fexp] asks for is not above [ex]. *)
Lemma binary_round_correct (s : bool) (mx : positive) (ex : Z) :
  exists y : Q,
    (0 <= y)%Q
    /\ (y - inject_Z (Z.pos mx) * pow2 ex
        <= unit_roundoff * (inject_Z (Z.pos mx) * pow2 ex) + underflow_unit)%Q
    /\ (inject_Z (Z.pos mx) * pow2 ex - y
        <= unit_roundoff * (inject_Z (Z.pos mx) * pow2 ex) + underflow_unit)%Q
    /\ (emin <= ex ->
        (y - inject_Z (Z.pos mx) * pow2 ex
         <= unit_roundoff * (inject_Z (Z.pos mx) * pow2 ex))%Q
        /\ (inject_Z (Z.pos mx) * pow2 ex - y
            <= unit_roundoff * (inject_Z (Z.pos mx) * pow2 ex))%Q)
    /\ (fexp prec emax (Zdigits2 (Z.pos mx) + ex) <= ex ->
        (y == inject_Z (Z.pos mx) * pow2 ex)%Q)
    /\ ((y < pow2 emax)%Q -> is_finite (binary_round prec emax s mx ex) = true)
    /\ (is_finite (binary_round prec emax s mx ex) = true ->
        (F2Q (binary_round prec emax s mx ex) == signQ s * y)%Q)
    /\ valid_binary prec emax (binary_round prec emax s mx ex) = true.
Proof.
  unfold binary_round.
  change (Z.pos (digits2_pos mx)) with (Zdigits2 (Z.pos mx)).
  set (E := fexp prec emax (Zdigits2 (Z.pos mx) + ex)).
  destruct (shl_align_spec mx ex E) as [Hm He].
  destruct (shl_align mx ex E) as [mz ez]. cbn [fst snd] in Hm, He.
  assert (Hk : 0 <= ex - ez) by lia.
  assert (Hd : Zdigits2 (Z.pos mz) + ez = Zdigits2 (Z.pos mx) + ex).
  { rewrite Hm, Zdigits2_shift by lia. lia. }
  assert (HA : (inject_Z (Z.pos mz) * pow2 ez
                == inject_Z (Z.pos mx) * pow2 ex)%Q).
  { rewrite Hm. replace ez with (ex - (ex - ez)) at 2 by ring.
    now apply inject_Z_pow2. }
  assert (Hin : inbetween (Z.pos mz) loc_Exact (inject_Z (Z.pos mz)))
    by (cbn; reflexivity).
  assert (Hn : ez <= fexp prec emax (Zdigits2 (Z.pos mz) + ez))
    by (rewrite Hd; fold E; lia).
  destruct (round_correct s (Z.pos mz) ez loc_Exact _ ltac:(lia) Hin Hn)
    as (y & Hy0 & Hy1 & Hy2 & Hrel & Hexact & Hfin & Hval & Hvalid).
  rewrite Hd in Hrel, Hexact. fold E in Hexact.
  specialize (Hexact eq_refl). rewrite HA in *.
  assert (HuA : (0 <= unit_roundoff * (inject_Z (Z.pos mx) * pow2 ex))%Q).
  { apply Qmult_le_0_compat; [discriminate|].
    apply Qmult_le_0_compat; [|apply Qlt_le_weak, pow2_pos].
    change 0%Q with (inject_Z 0). now rewrite <- Zle_Qle. }
  exists y.
  split; [exact Hy0|]. split; [exact Hy1|]. split; [exact Hy2|].
  split; [|split; [|split; [exact Hfin|split; [exact Hval|exact Hvalid]]]].
  - intros Hex.
    destruct (Z_lt_le_dec (Zdigits2 (Z.pos mx) + ex - prec) emin) as [Hs|Hnor];
      [|now apply Hrel].
    assert (EE : E = ez) by (unfold E in *; rewrite fexp_eq in *; lia).
    rewrite (Hexact EE). split; lra.
  - intros Hex. apply Hexact. lia.
Qed.

Lemma Qabs_le_iff (x y : Q) : (Qabs x <= y <-> - y <= x /\ x <= y)%Q.
Proof. apply Qabs_Qle_condition. Qed.

Lemma inject_Z_pos_nonneg (p : positive) (e : Z) :
  (0 <= inject_Z (Z.pos p) * pow2 e)%Q.
Proof.
  apply Qmult_le_0_compat; [|apply Qlt_le_weak, pow2_pos].
  change 0%Q with (inject_Z 0). now rewrite <- Zle_Qle.
Qed.

Lemma fexp_small (m e : Z) :
  0 < m < 2 ^ prec -> emin <= e -> fexp prec emax (Zdigits2 m + e) <= e.
Proof.
  intros [H0 H1] He. rewrite fexp_eq.
  assert (Zdigits2 m <= prec) by (apply Zdigits2_le; lia). lia.
Qed.

(** [binary_normalize] rounds the number [m * 2 ^ e] correctly: with a
    relative error of at most [unit_roundoff] when [e] is a float's exponent, and with no
    error when [m] fits the mantissa as well. *)
Lemma binary_normalize_correct (m e : Z) (sz : bool) :
  valid_binary prec emax (binary_normalize prec emax m e sz) = true
  /\ ((Qabs (inject_Z m * pow2 e) * (1 + unit_roundoff) + underflow_unit < pow2 emax)%Q ->
      is_finite (binary_normalize prec emax m e sz) = true)
  /\ (is_finite (binary_normalize prec emax m e sz) = true ->
      (Qabs (F2Q (binary_normalize prec emax m e sz) - inject_Z m * pow2 e)
       <= unit_roundoff * Qabs (inject_Z m * pow2 e) + underflow_unit)%Q
      /\ (emin <= e ->
          (Qabs (F2Q (binary_normalize prec emax m e sz) - inject_Z m * pow2 e)
           <= unit_roundoff * Qabs (inject_Z m * pow2 e))%Q)
      /\ (emin <= e -> Z.abs m < 2 ^ prec ->
          (F2Q (binary_normalize prec emax m e sz) == inject_Z m * pow2 e)%Q)).
Proof.
  destruct m as [|p|p]; cbn [binary_normalize].
  - split; [reflexivity|]. split; [reflexivity|]. intros _.
    change (inject_Z 0) with 0%Q. cbn [F2Q].
    assert (E0 : (0 - 0 * pow2 e == 0)%Q) by ring.
    assert (E1 : (0 * pow2 e == 0)%Q) by ring.
    rewrite E0, E1. change (Qabs 0) with 0%Q.
    split; [|split]; intros; try reflexivity; try discriminate.
  - destruct (binary_round_correct false p e)
      as (y & Hy0 & Hy1 & Hy2 & Hrel & Hexact & Hfin & Hval & Hvalid).
    pose proof (inject_Z_pos_nonneg p e) as HA.
    set (A := (inject_Z (Z.pos p) * pow2 e)%Q) in *.
    rewrite (Qabs_pos A HA).
    split; [exact Hvalid|]. split.
    + intros Hb. apply Hfin. clearbody A. unfold unit_roundoff in *. lra.
    + intros Hf. specialize (Hval Hf). cbn [signQ] in Hval.
      rewrite Hval. split; [|split].
      * apply Qabs_le_iff. clearbody A. split; lra.
      * intros He. destruct (Hrel He). apply Qabs_le_iff.
        clearbody A. split; lra.
      * intros He Hm. rewrite Hexact; [ring|].
        apply fexp_small; [cbn [Z.abs] in Hm; lia|exact He].
  - destruct (binary_round_correct true p e)
      as (y & Hy0 & Hy1 & Hy2 & Hrel & Hexact & Hfin & Hval & Hvalid).
    pose proof (inject_Z_pos_nonneg p e) as HA.
    assert (EV : (inject_Z (Z.neg p) * pow2 e
                  == - (inject_Z (Z.pos p) * pow2 e))%Q).
    { change (Z.neg p) with (- Z.pos p). rewrite inject_Z_opp. ring. }
    rewrite EV.
    set (A := (inject_Z (Z.pos p) * pow2 e)%Q) in *.
    rewrite (Qabs_opp A), (Qabs_pos A HA).
    split; [exact Hvalid|]. split.
    + intros Hb. apply Hfin. clearbody A. unfold unit_roundoff in *. lra.
    + intros Hf. specialize (Hval Hf). cbn [signQ] in Hval.
      rewrite Hval. split; [|split].
      * apply Qabs_le_iff. clearbody A. split; lra.
      * intros He. destruct (Hrel He). apply Qabs_le_iff.
        clearbody A. split; lra.
      * intros He Hm. rewrite Hexact; [ring|].
        apply fexp_small; [cbn [Z.abs] in Hm; lia|exact He].
Qed.

Lemma finite64_split (x : float) :
  finite64 x = true -> is_finite x = true /\ valid_binary prec emax x = true.
Proof. intros H. now apply andb_prop in H. Qed.

Lemma valid_exponent (s : bool) (m : positive) (e : Z) :
  valid_binary prec emax (S754_finite s m e) = true ->
  emin <= e /\ fexp prec emax (Zdigits2 (Z.pos m) + e) = e /\ e <= emax - prec.
Proof.
  cbn [valid_binary]. unfold bounded, canonical_mantissa. intros H.
  apply andb_prop in H as [H1 H2]. apply Z.eqb_eq in H1. apply Z.leb_le in H2.
  change (Z.pos (digits2_pos m)) with (Zdigits2 (Z.pos m)) in H1.
  split; [|split; assumption]. rewrite fexp_eq in H1. lia.
Qed.

Lemma F2Q_align (s : bool) (m : positive) (e ez : Z) :
  ez <= e ->
  (inject_Z (cond_Zopp s (Z.pos m * 2 ^ (e - ez))) * pow2 ez
   == F2Q (S754_finite s m e))%Q.
Proof.
  intros H. rewrite F2Q_finite.
  assert (E : (inject_Z (Z.pos m * 2 ^ (e - ez)) * pow2 ez
               == inject_Z (Z.pos m) * pow2 e)%Q).
  { replace ez with (e - (e - ez)) at 2 by ring. apply inject_Z_pow2. lia. }
  destruct s; cbn [cond_Zopp signQ].
  - rewrite inject_Z_opp, <- E. ring.
  - rewrite E. ring.
Qed.

Lemma F2Q_opp_finite (s : bool) (m : positive) (e : Z) :
  (F2Q (S754_finite (negb s) m e) == - F2Q (S754_finite s m e))%Q.
Proof. rewrite !F2Q_finite. destruct s; cbn [negb signQ]; ring. Qed.

Lemma Qabs_zero_bound (v : Q) : (Qabs (v - v) <= unit_roundoff * Qabs v)%Q.
Proof.
  assert (E : (v - v == 0)%Q) by ring. rewrite E. change (Qabs 0) with 0%Q.
  apply Qmult_le_0_compat; [discriminate|apply Qabs_nonneg].
Qed.

(** Addition of floats is correctly rounded: the sum of two finite floats is
    a float in normal form, finite when the sum of the two numbers is well
    below [2 ^ emax], and then within the relative error [unit_roundoff] of it. *)
Lemma add_correct (x y : float) :
  finite64 x = true -> finite64 y = true ->
  valid_binary prec emax (add x y) = true
  /\ ((Qabs (F2Q x + F2Q y) * (1 + unit_roundoff) + underflow_unit < pow2 emax)%Q ->
      is_finite (add x y) = true)
  /\ (is_finite (add x y) = true ->
      (Qabs (F2Q (add x y) - (F2Q x + F2Q y)) <= unit_roundoff * Qabs (F2Q x + F2Q y))%Q).
Proof.
  intros Hx Hy.
  apply finite64_split in Hx as [Fx Vx]. apply finite64_split in Hy as [Fy Vy].
  destruct x as [sx| | |sx mx ex]; try discriminate;
    destruct y as [sy| | |sy my ey]; try discriminate.
  - assert (E : F2Q (add (S754_zero sx) (S754_zero sy)) = 0%Q)
      by (destruct sx, sy; reflexivity).
    split; [destruct sx, sy; reflexivity|].
    split; [destruct sx, sy; reflexivity|]. intros _. rewrite E.
    cbn [F2Q]. apply (Qabs_zero_bound (0 + 0)).
  - change (add (S754_zero sx) (S754_finite sy my ey)) with (S754_finite sy my ey).
    split; [exact Vy|]. split; [reflexivity|]. intros _.
    cbn [F2Q]. set (v := (inject_Z (cond_Zopp sy (Z.pos my)) * pow2 ey)%Q).
    assert (E : (v - (0 + v) == (0 + v) - (0 + v))%Q) by ring.
    rewrite E. apply Qabs_zero_bound.
  - change (add (S754_finite sx mx ex) (S754_zero sy)) with (S754_finite sx mx ex).
    split; [exact Vx|]. split; [reflexivity|]. intros _.
    cbn [F2Q]. set (v := (inject_Z (cond_Zopp sx (Z.pos mx)) * pow2 ex)%Q).
    assert (E : (v - (v + 0) == (v + 0) - (v + 0))%Q) by ring.
    rewrite E. apply Qabs_zero_bound.
  - destruct (valid_exponent _ _ _ Vx) as (Hex & _ & _).
    destruct (valid_exponent _ _ _ Vy) as (Hey & _ & _).
    unfold add, SFadd.
    destruct (shl_align_spec mx ex (Z.min ex ey)) as [Hm1 He1].
    destruct (shl_align_spec my ey (Z.min ex ey)) as [Hm2 He2].
    rewrite Hm1, Hm2, He1, He2.
    replace (Z.min ex (Z.min ex ey)) with (Z.min ex ey) by lia.
    replace (Z.min ey (Z.min ex ey)) with (Z.min ex ey) by lia.
    set (ez := Z.min ex ey).
    set (S := cond_Zopp sx (Z.pos mx * 2 ^ (ex - ez))
              + cond_Zopp sy (Z.pos my * 2 ^ (ey - ez))).
    assert (EV : (inject_Z S * pow2 ez
                  == F2Q (S754_finite sx mx ex) + F2Q (S754_finite sy my ey))%Q).
    { unfold S. rewrite inject_Z_plus, Qmult_plus_distr_l.
      rewrite !F2Q_align by (unfold ez; lia). reflexivity. }
    destruct (binary_normalize_correct S ez false) as (Hv & Hf & Hb).
    rewrite EV in Hf, Hb.
    split; [exact Hv|]. split; [exact Hf|].
    intros Hfin. apply (Hb Hfin). unfold ez. lia.
Qed.

(** Subtraction of floats is correctly rounded. *)
Lemma sub_correct (x y : float) :
  finite64 x = true -> finite64 y = true ->
  valid_binary prec emax (sub x y) = true
  /\ ((Qabs (F2Q x - F2Q y) * (1 + unit_roundoff) + underflow_unit < pow2 emax)%Q ->
      is_finite (sub x y) = true)
  /\ (is_finite (sub x y) = true ->
      (Qabs (F2Q (sub x y) - (F2Q x - F2Q y)) <= unit_roundoff * Qabs (F2Q x - F2Q y))%Q).
Proof.
  intros Hx Hy.
  apply finite64_split in Hx as [Fx Vx]. apply finite64_split in Hy as [Fy Vy].
  destruct x as [sx| | |sx mx ex]; try discriminate;
    destruct y as [sy| | |sy my ey]; try discriminate.
  - assert (E : F2Q (sub (S754_zero sx) (S754_zero sy)) = 0%Q)
      by (destruct sx, sy; reflexivity).
    split; [destruct sx, sy; reflexivity|].
    split; [destruct sx, sy; reflexivity|]. intros _. rewrite E.
    cbn [F2Q]. apply (Qabs_zero_bound (0 - 0)).
  - change (sub (S754_zero sx) (S754_finite sy my ey))
      with (S754_finite (negb sy) my ey).
    split; [exact Vy|]. split; [reflexivity|]. intros _.
    rewrite F2Q_opp_finite. set (v := F2Q (S754_finite sy my ey)).
    change (F2Q (S754_zero sx)) with 0%Q.
    assert (E : (- v - (0 - v) == (0 - v) - (0 - v))%Q) by ring.
    rewrite E. apply Qabs_zero_bound.
  - change (sub (S754_finite sx mx ex) (S754_zero sy)) with (S754_finite sx mx ex).
    split; [exact Vx|]. split; [reflexivity|]. intros _.
    cbn [F2Q]. set (v := (inject_Z (cond_Zopp sx (Z.pos mx)) * pow2 ex)%Q).
    assert (E : (v - (v - 0) == (v - 0) - (v - 0))%Q) by ring.
    rewrite E. apply Qabs_zero_bound.
  - destruct (valid_exponent _ _ _ Vx) as (Hex & _ & _).
    destruct (valid_exponent _ _ _ Vy) as (Hey & _ & _).
    unfold sub, SFsub.
    destruct (shl_align_spec mx ex (Z.min ex ey)) as [Hm1 He1].
    destruct (shl_align_spec my ey (Z.min ex ey)) as [Hm2 He2].
    rewrite Hm1, Hm2, He1, He2.
    replace (Z.min ex (Z.min ex ey)) with (Z.min ex ey) by lia.
    replace (Z.min ey (Z.min ex ey)) with (Z.min ex ey) by lia.
    set (ez := Z.min ex ey).
    set (S := cond_Zopp sx (Z.pos mx * 2 ^ (ex - ez))
              - cond_Zopp sy (Z.pos my * 2 ^ (ey - ez))).
    assert (EV : (inject_Z S * pow2 ez
                  == F2Q (S754_finite sx mx ex) - F2Q (S754_finite sy my ey))%Q).
    { unfold S.
      rewrite <- !(F2Q_align _ _ _ ez) by (unfold ez; lia).
      set (a := cond_Zopp sx (Z.pos mx * 2 ^ (ex - ez))).
      set (b := cond_Zopp sy (Z.pos my * 2 ^ (ey - ez))).
      replace (a - b) with (a + - b) by ring.
      rewrite inject_Z_plus, inject_Z_opp. ring. }
    destruct (binary_normalize_correct S ez false) as (Hv & Hf & Hb).
    rewrite EV in Hf, Hb.
    split; [exact Hv|]. split; [exact Hf|].
    intros Hfin. apply (Hb Hfin). unfold ez. lia.
Qed.

Lemma signQ_xorb (a b : bool) : (signQ (xorb a b) == signQ a * signQ b)%Q.
Proof. now destruct a, b. Qed.

Lemma Zdigits2_pos (m : positive) : 1 <= Zdigits2 (Z.pos m).
Proof.
  rewrite Zdigits2_log2 by lia. pose proof (Z.log2_nonneg (Z.pos m)). lia.
Qed.

Lemma Zdigits2_mul (a b : positive) :
  Zdigits2 (Z.pos a) + Zdigits2 (Z.pos b) - 1 <= Zdigits2 (Z.pos (a * b)).
Proof.
  pose proof (Zdigits2_bounds (Z.pos a) ltac:(lia)) as [Ha _].
  pose proof (Zdigits2_bounds (Z.pos b) ltac:(lia)) as [Hb _].
  pose proof (Zdigits2_pos a). pose proof (Zdigits2_pos b).
  apply Zdigits2_ge; [lia|].
  replace (Zdigits2 (Z.pos a) + Zdigits2 (Z.pos b) - 1 - 1)
    with ((Zdigits2 (Z.pos a) - 1) + (Zdigits2 (Z.pos b) - 1)) by ring.
  rewrite pow2_split by lia. rewrite Pos2Z.inj_mul.
  apply Z.mul_le_mono_nonneg; try assumption;
    apply Z.pow_nonneg; lia.
Qed.

(** The error bound of a signed result, from the bound of its magnitude. *)
Lemma signed_bound (s : Q) (y A v t : Q) :
  (s == 1 \/ s == - 1)%Q -> (0 <= A)%Q ->
  (y - A <= t)%Q -> (A - y <= t)%Q -> (v == s * A)%Q ->
  (Qabs (s * y - v) <= t /\ Qabs v == A)%Q.
Proof.
  intros Hs HA H1 H2 Hv. rewrite Hv. destruct Hs as [Hs|Hs]; rewrite Hs.
  - split.
    + apply Qabs_le_iff. split; lra.
    + assert (E : (1 * A == A)%Q) by ring. rewrite E. now apply Qabs_pos.
  - split.
    + apply Qabs_le_iff. split; lra.
    + assert (E : (- 1 * A == - A)%Q) by ring. rewrite E, Qabs_opp.
      now apply Qabs_pos.
Qed.

Lemma signQ_cases (s : bool) : (signQ s == 1 \/ signQ s == - 1)%Q.
Proof. destruct s; [right|left]; reflexivity. Qed.

(** Multiplication of floats is correctly rounded. *)
Lemma mul_correct (x y : float) :
  finite64 x = true -> finite64 y = true ->
  valid_binary prec emax (mul x y) = true
  /\ ((Qabs (F2Q x * F2Q y) * (1 + unit_roundoff) + underflow_unit < pow2 emax)%Q ->
      is_finite (mul x y) = true)
  /\ (is_finite (mul x y) = true ->
      (Qabs (F2Q (mul x y) - F2Q x * F2Q y)
       <= unit_roundoff * Qabs (F2Q x * F2Q y) + underflow_unit)%Q).
Proof.
  intros Hx Hy.
  apply finite64_split in Hx as [Fx Vx]. apply finite64_split in Hy as [Fy Vy].
  assert (Hz : forall v : Q, (v == 0)%Q -> (Qabs (0 - v) <= unit_roundoff * Qabs v + underflow_unit)%Q).
  { intros v ->. discriminate. }
  destruct x as [sx| | |sx mx ex]; try discriminate;
    destruct y as [sy| | |sy my ey]; try discriminate.
  - split; [reflexivity|]. split; [reflexivity|]. intros _.
    cbn [mul SFmul F2Q]. apply Hz. ring.
  - split; [reflexivity|]. split; [reflexivity|]. intros _.
    change (F2Q (mul (S754_zero sx) (S754_finite sy my ey))) with 0%Q.
    change (F2Q (S754_zero sx)) with 0%Q. apply Hz. ring.
  - split; [reflexivity|]. split; [reflexivity|]. intros _.
    change (F2Q (mul (S754_finite sx mx ex) (S754_zero sy))) with 0%Q.
    change (F2Q (S754_zero sy)) with 0%Q. apply Hz. ring.
  - destruct (valid_exponent _ _ _ Vx) as (Hex & Hcx & _).
    destruct (valid_exponent _ _ _ Vy) as (Hey & Hcy & _).
    change (mul (S754_finite sx mx ex) (S754_finite sy my ey))
      with (binary_round_aux prec emax (xorb sx sy) (Z.pos (mx * my)) (ex + ey)
              loc_Exact).
    assert (Hin : inbetween (Z.pos (mx * my)) loc_Exact
                    (inject_Z (Z.pos (mx * my)))) by (cbn; reflexivity).
    assert (Hn : ex + ey
                 <= fexp prec emax (Zdigits2 (Z.pos (mx * my)) + (ex + ey))).
    { pose proof (Zdigits2_mul mx my). pose proof (Zdigits2_pos mx).
      pose proof (Zdigits2_pos my).
      rewrite fexp_eq in *. unfold emin, emax, prec in *.
      set (d := Zdigits2 (Z.pos (mx * my))) in *.
      set (dx := Zdigits2 (Z.pos mx)) in *. set (dy := Zdigits2 (Z.pos my)) in *.
      clearbody d dx dy. lia. }
    destruct (round_correct (xorb sx sy) _ _ _ _ (Pos2Z.is_nonneg _) Hin Hn)
      as (z & Hz0 & Hz1 & Hz2 & _ & _ & Hfin & Hval & Hvalid).
    set (A := (inject_Z (Z.pos (mx * my)) * pow2 (ex + ey))%Q) in *.
    assert (HA : (0 <= A)%Q) by apply inject_Z_pos_nonneg.
    assert (EV : (F2Q (S754_finite sx mx ex) * F2Q (S754_finite sy my ey)
                  == signQ (xorb sx sy) * A)%Q).
    { rewrite !F2Q_finite, signQ_xorb. unfold A.
      rewrite Pos2Z.inj_mul, inject_Z_mult, pow2_add. ring. }
    destruct (signed_bound _ z A _ (unit_roundoff * A + underflow_unit) (signQ_cases (xorb sx sy))
                HA Hz1 Hz2 EV) as [Hb Habs].
    split; [exact Hvalid|]. split.
    + intros Hlt. apply Hfin. rewrite Habs in Hlt.
      clearbody A. unfold unit_roundoff in *. lra.
    + intros Hf. rewrite (Hval Hf), Habs. exact Hb.
Qed.

(** The position of the quotient [(q * nb + k) / nb] after [q]. *)
Lemma new_location_spec (nb k q : Z) :
  0 < nb -> 0 <= k < nb ->
  inbetween q (new_location nb k) (inject_Z q + inject_Z k / inject_Z nb).
Proof.
  intros Hnb [Hk0 Hk1].
  assert (HN : (0 < inject_Z nb)%Q).
  { change 0%Q with (inject_Z 0). now rewrite <- Zlt_Qlt. }
  assert (HK0 : (0 <= inject_Z k)%Q).
  { change 0%Q with (inject_Z 0). now rewrite <- Zle_Qle. }
  assert (HK1 : (inject_Z k < inject_Z nb)%Q) by now rewrite <- Zlt_Qlt.
  assert (Hf : (inject_Z k / inject_Z nb * inject_Z nb == inject_Z k)%Q).
  { field. intros E. rewrite E in HN. now apply Qlt_irrefl in HN. }
  assert (H2 : forall a b : Z, (inject_Z (2 * a + b)
                                == 2 * inject_Z a + inject_Z b)%Q).
  { intros a b. now rewrite inject_Z_plus, inject_Z_mult. }
  assert (Hpos : k <> 0 -> (0 < inject_Z k)%Q).
  { intros Hne. change 0%Q with (inject_Z 0). rewrite <- Zlt_Qlt. lia. }
  assert (Hlt : 2 * k < nb ->
                (2 * inject_Z k < inject_Z nb)%Q).
  { intros H. rewrite Zlt_Qlt in H. replace (2 * k) with (2 * k + 0) in H by ring.
    rewrite H2 in H. change (inject_Z 0) with 0%Q in H. lra. }
  assert (Hgt : nb < 2 * k ->
                (inject_Z nb < 2 * inject_Z k)%Q).
  { intros H. rewrite Zlt_Qlt in H. replace (2 * k) with (2 * k + 0) in H by ring.
    rewrite H2 in H. change (inject_Z 0) with 0%Q in H. lra. }
  assert (Heq : 2 * k = nb ->
                (inject_Z nb == 2 * inject_Z k)%Q).
  { intros H. rewrite <- H. replace (2 * k) with (2 * k + 0) by ring.
    rewrite H2. change (inject_Z 0) with 0%Q. ring. }
  set (f := (inject_Z k / inject_Z nb)%Q) in *.
  set (K := inject_Z k) in *. set (N := inject_Z nb) in *.
  set (Q0 := inject_Z q).
  assert (Hzero : k = 0 -> (f == 0)%Q).
  { intros Hz. unfold f, K. rewrite Hz. change (inject_Z 0) with 0%Q.
    unfold Qdiv. ring. }
  unfold new_location.
  destruct (Z.even nb) eqn:Hev.
  - unfold new_location_even. destruct (Z.eqb_spec k 0) as [Hz|Hnz].
    + cbn [inbetween]. fold Q0. rewrite (Hzero Hz). ring.
    + specialize (Hpos Hnz).
      destruct (Z.compare_spec (2 * k) nb) as [Hc|Hc|Hc]; cbn [inbetween];
        fold Q0.
      * specialize (Heq Hc). clearbody f K N Q0. nra.
      * specialize (Hlt Hc). clearbody f K N Q0. split; nra.
      * specialize (Hgt Hc). clearbody f K N Q0. split; nra.
  - unfold new_location_odd. destruct (Z.eqb_spec k 0) as [Hz|Hnz].
    + cbn [inbetween]. fold Q0. rewrite (Hzero Hz). ring.
    + specialize (Hpos Hnz).
      assert (Hodd : 2 * k <> nb).
      { intros E. rewrite <- E in Hev. rewrite Z.even_mul in Hev. discriminate. }
      destruct (Z.compare_spec (2 * k + 1) nb) as [Hc|Hc|Hc]; cbn [inbetween];
        fold Q0.
      * assert (Hc' : 2 * k < nb) by lia.
        specialize (Hlt Hc'). clearbody f K N Q0. split; nra.
      * assert (Hc' : 2 * k < nb) by lia.
        specialize (Hlt Hc'). clearbody f K N Q0. split; nra.
      * assert (Hc' : nb < 2 * k) by lia.
        specialize (Hgt Hc'). clearbody f K N Q0. split; nra.
Qed.

Lemma fexp_mono (a b : Z) : a <= b -> fexp prec emax a <= fexp prec emax b.
Proof. intros H. rewrite !fexp_eq. lia. Qed.

Lemma pow2_nonzero (e : Z) : ~ (pow2 e == 0)%Q.
Proof. intros E. pose proof (pow2_pos e) as H. rewrite E in H. now apply Qlt_irrefl in H. Qed.

Lemma inject_Z_pos_nonzero (p : positive) : ~ (inject_Z (Z.pos p) == 0)%Q.
Proof.
  intros E. assert (H : (0 < inject_Z (Z.pos p))%Q).
  { change 0%Q with (inject_Z 0). now rewrite <- Zlt_Qlt. }
  rewrite E in H. now apply Qlt_irrefl in H.
Qed.

(** The integer quotient a division rounds: it has enough digits for the
    rounding to shift right, and with its position it stands for the exact
    quotient. *)
Lemma SFdiv_core_spec (mx my : positive) (ex ey : Z) :
  exists (q e' : Z) (l : location) (x : Q),
    SFdiv_core_binary prec emax (Z.pos mx) ex (Z.pos my) ey = (q, e', l)
    /\ 0 <= q
    /\ inbetween q l x
    /\ e' <= fexp prec emax (Zdigits2 q + e')
    /\ (x * pow2 e' == (inject_Z (Z.pos mx) * pow2 ex)
                       / (inject_Z (Z.pos my) * pow2 ey))%Q.
Proof.
  unfold SFdiv_core_binary.
  set (d1 := Zdigits2 (Z.pos mx)). set (d2 := Zdigits2 (Z.pos my)).
  set (e' := Z.min (fexp prec emax (d1 + ex - (d2 + ey))) (ex - ey)).
  set (s := ex - ey - e').
  assert (Hs : 0 <= s) by (unfold s, e'; lia).
  assert (Em : match s with
               | 0 => Z.pos mx
               | Z.pos _ => Z.shiftl (Z.pos mx) s
               | Z.neg _ => 0
               end = Z.pos mx * 2 ^ s).
  { destruct s as [|p|p] eqn:Es; [lia| |lia].
    now rewrite Z.shiftl_mul_pow2 by lia. }
  rewrite Em. set (m' := Z.pos mx * 2 ^ s).
  pose proof (Z_div_mod m' (Z.pos my) ltac:(lia)) as Hdiv.
  destruct (Z.div_eucl m' (Z.pos my)) as [q r]. destruct Hdiv as [Hq Hr].
  assert (Hm' : 2 ^ (d1 + s - 1) <= m' < 2 ^ (d1 + s)).
  { pose proof (Zdigits2_bounds (Z.pos mx) ltac:(lia)) as [Hl Hu]. fold d1 in Hl, Hu.
    pose proof (Zdigits2_pos mx) as Hd1. fold d1 in Hd1.
    assert (0 < 2 ^ s) by (apply Z.pow_pos_nonneg; lia).
    unfold m'. replace (d1 + s - 1) with ((d1 - 1) + s) by ring.
    rewrite !pow2_split by lia. split; nia. }
  pose proof (Zdigits2_bounds (Z.pos my) ltac:(lia)) as [Hl2 Hu2].
  fold d2 in Hl2, Hu2.
  pose proof (Zdigits2_pos mx) as Hd1. fold d1 in Hd1.
  pose proof (Zdigits2_pos my) as Hd2. fold d2 in Hd2.
  assert (Hq0 : 0 <= q) by nia.
  exists q, e', (new_location (Z.pos my) r),
    (inject_Z q + inject_Z r / inject_Z (Z.pos my))%Q.
  split; [reflexivity|]. split; [exact Hq0|].
  split; [apply new_location_spec; lia|]. split.
  - apply Z.le_trans with (fexp prec emax (d1 + ex - (d2 + ey)));
      [unfold e'; lia|].
    apply fexp_mono.
    assert (Hdq : d1 + s - d2 <= Zdigits2 q); [|unfold s in Hdq; lia].
    destruct (Z.eq_dec q 0) as [->|Hqn].
    + change (Zdigits2 0) with 0.
      assert (Hlt : 2 ^ (d1 + s - 1) < 2 ^ d2) by lia.
      apply Z.pow_lt_mono_r_iff in Hlt; lia.
    + apply Zdigits2_ge; [lia|].
      destruct (Z_lt_le_dec (d1 + s - d2 - 1) 0) as [Hneg|Hnn].
      * rewrite Z.pow_neg_r by exact Hneg. lia.
      * destruct (Z_lt_le_dec q (2 ^ (d1 + s - d2 - 1))) as [Hlt|Hge];
          [exfalso|exact Hge].
        assert (Hp : 2 ^ (d1 + s - 1) = 2 ^ (d1 + s - d2 - 1) * 2 ^ d2).
        { rewrite <- pow2_split by lia. f_equal. ring. }
        assert (0 < 2 ^ (d1 + s - d2 - 1)) by (apply Z.pow_pos_nonneg; lia).
        nia.
  - assert (Ny := inject_Z_pos_nonzero my).
    assert (Npy := pow2_nonzero ey).
    assert (E1 : (inject_Z q + inject_Z r / inject_Z (Z.pos my)
                  == inject_Z m' / inject_Z (Z.pos my))%Q).
    { rewrite Hq, inject_Z_plus, inject_Z_mult. field. exact Ny. }
    rewrite E1. unfold m'. rewrite inject_Z_mult, pow2_Z by exact Hs.
    assert (E2 : (pow2 ex == pow2 s * pow2 e' * pow2 ey)%Q).
    { replace ex with (s + e' + ey) at 1 by (unfold s; ring).
      now rewrite !pow2_add. }
    rewrite E2. field. split; assumption.
Qed.

Lemma signQ_nonzero (s : bool) : ~ (signQ s == 0)%Q.
Proof. destruct s; discriminate. Qed.

Lemma signQ_inv (s : bool) : (/ signQ s == signQ s)%Q.
Proof. destruct s; reflexivity. Qed.

(** Division of floats is correctly rounded. *)
Lemma div_correct (x y : float) :
  is_finite x = true -> is_finite y = true -> is_zero y = false ->
  valid_binary prec emax (div x y) = true
  /\ ((Qabs (F2Q x / F2Q y) * (1 + unit_roundoff) + underflow_unit < pow2 emax)%Q ->
      is_finite (div x y) = true)
  /\ (is_finite (div x y) = true ->
      (Qabs (F2Q (div x y) - F2Q x / F2Q y)
       <= unit_roundoff * Qabs (F2Q x / F2Q y) + underflow_unit)%Q).
Proof.
  intros Fx Fy Zy.
  destruct x as [sx| | |sx mx ex]; try discriminate;
    destruct y as [sy| | |sy my ey]; try discriminate.
  - split; [reflexivity|]. split; [reflexivity|]. intros _.
    change (F2Q (div (S754_zero sx) (S754_finite sy my ey))) with 0%Q.
    change (F2Q (S754_zero sx)) with 0%Q.
    assert (E : (0 / F2Q (S754_finite sy my ey) == 0)%Q)
      by (unfold Qdiv; ring).
    rewrite E. discriminate.
  - destruct (SFdiv_core_spec mx my ex ey)
      as (q & e' & l & x & Hcore & Hq & Hin & Hn & Hx).
    unfold div, SFdiv. rewrite Hcore.
    destruct (round_correct (xorb sx sy) q e' l x Hq Hin Hn)
      as (z & Hz0 & Hz1 & Hz2 & _ & _ & Hfin & Hval & Hvalid).
    set (A := (x * pow2 e')%Q) in *.
    assert (HA : (0 <= A)%Q).
    { destruct (inbetween_bounds _ _ _ Hin) as [Hxl _].
      apply Qmult_le_0_compat; [|apply Qlt_le_weak, pow2_pos].
      apply Qle_trans with (inject_Z q); [|exact Hxl].
      change 0%Q with (inject_Z 0). now rewrite <- Zle_Qle. }
    assert (EV : (F2Q (S754_finite sx mx ex) / F2Q (S754_finite sy my ey)
                  == signQ (xorb sx sy) * A)%Q).
    { rewrite !F2Q_finite, signQ_xorb. rewrite Hx.
      rewrite <- (signQ_inv sy) at 2. field.
      split; [|split]; [apply pow2_nonzero|apply inject_Z_pos_nonzero
                       |apply signQ_nonzero]. }
    destruct (signed_bound _ z A _ (unit_roundoff * A + underflow_unit) (signQ_cases (xorb sx sy))
                HA Hz1 Hz2 EV) as [Hb Habs].
    split; [exact Hvalid|]. split.
    + intros Hlt. apply Hfin. rewrite Habs in Hlt.
      clearbody A. unfold unit_roundoff in *. lra.
    + intros Hf. rewrite (Hval Hf), Habs. exact Hb.
Qed.

Lemma finite64_intro (x : float) :
  is_finite x = true -> valid_binary prec emax x = true -> finite64 x = true.
Proof. intros H1 H2. unfold finite64. now rewrite H1, H2. Qed.

Lemma pow2_emax : (pow2 emax == 4 * pow2 1022)%Q.
Proof. change emax with (1022 + 1 + 1). rewrite !pow2_succ. ring. Qed.

Lemma pow2_1022_ge_1 : (1 <= pow2 1022)%Q.
Proof. change 1%Q with (pow2 0). apply pow2_le. lia. Qed.

Lemma nonzero_float (x : float) :
  is_finite x = true -> ~ (F2Q x == 0)%Q -> is_zero x = false.
Proof. destruct x; try discriminate; [|reflexivity]. intros _ H. now elim H. Qed.

(** Both bounds of an absolute value. *)
Lemma Qabs_bounds (x : Q) : (0 <= Qabs x /\ - Qabs x <= x /\ x <= Qabs x)%Q.
Proof.
  split; [apply Qabs_nonneg|]. apply Qabs_le_iff. apply Qle_refl.
Qed.

(** The round trip in binary64. *)
Lemma roundtrip_float (lb ub v : float) :
  finite64 lb = true -> finite64 ub = true -> finite64 v = true ->
  (Qabs (F2Q lb) <= pow2 1022)%Q -> (Qabs (F2Q ub) <= pow2 1022)%Q ->
  (F2Q lb < F2Q ub)%Q -> (F2Q lb <= F2Q v)%Q -> (F2Q v <= F2Q ub)%Q ->
  is_zero (sub ub lb) = false
  /\ finite64 (add (mul (div (sub v lb) (sub ub lb)) (sub ub lb)) lb) = true
  /\ (Qabs (F2Q (add (mul (div (sub v lb) (sub ub lb)) (sub ub lb)) lb) - F2Q v)
      <= unit_roundoff * (Qabs (F2Q v) + 5 * (F2Q ub - F2Q lb)) + 2 * underflow_unit)%Q.
Proof.
  intros Flb Fub Fv HL HU Hlt Hlo Hhi.
  pose proof pow2_emax as HE. pose proof pow2_1022_ge_1 as HB.
  apply Qabs_le_iff in HL, HU.
  set (L := F2Q lb) in *. set (U := F2Q ub) in *. set (V := F2Q v) in *.
  set (B := pow2 1022) in *.
  (* the numerator *)
  destruct (sub_correct v lb Fv Flb) as (Hv1 & Hf1 & Hb1). fold V L in Hf1, Hb1.
  assert (Ha : (0 <= V - L)%Q) by lra.
  rewrite (Qabs_pos (V - L) Ha) in Hf1, Hb1.
  assert (Fn : is_finite (sub v lb) = true).
  { apply Hf1. rewrite HE. clearbody L U V B. unfold unit_roundoff, underflow_unit. lra. }
  specialize (Hb1 Fn). apply Qabs_le_iff in Hb1.
  set (N := F2Q (sub v lb)) in *.
  (* the denominator *)
  destruct (sub_correct ub lb Fub Flb) as (Hv2 & Hf2 & Hb2). fold U L in Hf2, Hb2.
  assert (HD : (0 <= U - L)%Q) by lra.
  rewrite (Qabs_pos (U - L) HD) in Hf2, Hb2.
  assert (Fd : is_finite (sub ub lb) = true).
  { apply Hf2. rewrite HE. clearbody L U V B. unfold unit_roundoff, underflow_unit. lra. }
  specialize (Hb2 Fd). apply Qabs_le_iff in Hb2.
  set (Dd := F2Q (sub ub lb)) in *.
  assert (HDd : (0 < Dd)%Q) by (clearbody L U V B N Dd; unfold unit_roundoff in *; lra).
  assert (Zd : is_zero (sub ub lb) = false).
  { apply nonzero_float; [exact Fd|]. fold Dd. intros E. rewrite E in HDd.
    now apply Qlt_irrefl in HDd. }
  split; [exact Zd|].
  (* the quotient *)
  destruct (div_correct (sub v lb) (sub ub lb) Fn Fd Zd) as (Hv3 & Hf3 & Hb3).
  fold N Dd in Hf3, Hb3.
  assert (Hr : (N / Dd * Dd == N)%Q).
  { field. intros E. rewrite E in HDd. now apply Qlt_irrefl in HDd. }
  assert (Hr0 : (0 <= N / Dd)%Q).
  { apply Qle_shift_div_l; [exact HDd|].
    clearbody L U V B N Dd. unfold unit_roundoff in *. lra. }
  assert (Hr2 : (N / Dd <= 2)%Q).
  { apply Qle_shift_div_r; [exact HDd|].
    clearbody L U V B N Dd. unfold unit_roundoff in *. lra. }
  rewrite (Qabs_pos (N / Dd) Hr0) in Hf3, Hb3.
  set (r := (N / Dd)%Q) in *.
  assert (Fx : is_finite (div (sub v lb) (sub ub lb)) = true).
  { apply Hf3. rewrite HE. clearbody L U V B N Dd r. unfold unit_roundoff, underflow_unit. lra. }
  specialize (Hb3 Fx). apply Qabs_le_iff in Hb3.
  set (x := div (sub v lb) (sub ub lb)) in *. set (X := F2Q x) in *.
  (* the product *)
  destruct (mul_correct x (sub ub lb) (finite64_intro _ Fx Hv3)
              (finite64_intro _ Fd Hv2)) as (Hv4 & Hf4 & Hb4).
  fold X Dd in Hf4, Hb4.
  assert (Hup : (X * Dd <= N + unit_roundoff * N + underflow_unit * Dd)%Q).
  { assert (E : (N + unit_roundoff * N + underflow_unit * Dd == (r + unit_roundoff * r + underflow_unit) * Dd)%Q)
      by (rewrite <- Hr; ring).
    rewrite E. apply Qmult_le_compat_r; [|now apply Qlt_le_weak].
    clearbody L U V B N Dd r X. lra. }
  assert (Hdn : (N - unit_roundoff * N - underflow_unit * Dd <= X * Dd)%Q).
  { assert (E : (N - unit_roundoff * N - underflow_unit * Dd == (r - unit_roundoff * r - underflow_unit) * Dd)%Q)
      by (rewrite <- Hr; ring).
    rewrite E. apply Qmult_le_compat_r; [|now apply Qlt_le_weak].
    clearbody L U V B N Dd r X. lra. }
  set (XD := (X * Dd)%Q) in *.
  assert (HAX : (Qabs XD <= N + unit_roundoff * N + underflow_unit * Dd)%Q).
  { apply Qabs_le_iff. clearbody L U V B N Dd r X XD. unfold unit_roundoff, underflow_unit in *.
    split; lra. }
  pose proof (Qabs_nonneg XD) as HAX0.
  set (AX := Qabs XD) in *.
  assert (Fp : is_finite (mul x (sub ub lb)) = true).
  { apply Hf4. rewrite HE. clearbody L U V B N Dd r X XD AX.
    unfold unit_roundoff, underflow_unit in *. lra. }
  specialize (Hb4 Fp). apply Qabs_le_iff in Hb4.
  set (p := mul x (sub ub lb)) in *. set (P := F2Q p) in *.
  (* the sum *)
  destruct (add_correct p lb (finite64_intro _ Fp Hv4) Flb) as (Hv5 & Hf5 & Hb5).
  fold P L in Hf5, Hb5.
  destruct (Qabs_bounds V) as (HAV0 & HAV1 & HAV2).
  assert (HAVB : (Qabs V <= B)%Q).
  { apply Qabs_le_iff. clearbody L U V B. split; lra. }
  set (AV := Qabs V) in *.
  assert (HAS : (Qabs (P + L)
                 <= AV + (unit_roundoff * AX + underflow_unit + unit_roundoff * N + underflow_unit * Dd + unit_roundoff * (V - L)))%Q).
  { apply Qabs_le_iff. clearbody L U V B N Dd r X XD AX P AV.
    unfold unit_roundoff, underflow_unit in *. split; lra. }
  pose proof (Qabs_nonneg (P + L)) as HAS0.
  set (AS := Qabs (P + L)) in *.
  assert (Fy : is_finite (add p lb) = true).
  { apply Hf5. rewrite HE. clearbody L U V B N Dd r X XD AX P AV AS.
    unfold unit_roundoff, underflow_unit in *. lra. }
  specialize (Hb5 Fy). apply Qabs_le_iff in Hb5.
  split; [exact (finite64_intro _ Fy Hv5)|].
  set (Y := F2Q (add p lb)) in *.
  apply Qabs_le_iff. clearbody L U V B N Dd r X XD AX P AV AS Y.
  unfold unit_roundoff, underflow_unit in *. split; lra.
Qed.

Lemma Qabs_inject_Z (z : Z) : (Qabs (inject_Z z) == inject_Z (Z.abs z))%Q.
Proof. destruct z; reflexivity. Qed.

(** Integers below [2 ^ 53] are floats. *)
Lemma of_Z_exact (z : Z) :
  Z.abs z < 2 ^ prec ->
  finite64 (of_Z z) = true /\ (F2Q (of_Z z) == inject_Z z)%Q.
Proof.
  intros Hz. unfold of_Z.
  destruct (binary_normalize_correct z 0 false) as (Hv & Hf & Hb).
  assert (E : (inject_Z z * pow2 0 == inject_Z z)%Q)
    by (change (pow2 0) with 1%Q; ring).
  rewrite E in Hf, Hb.
  assert (Hfin : is_finite (binary_normalize prec emax z 0 false) = true).
  { apply Hf. rewrite Qabs_inject_Z.
    assert (Hle : (inject_Z (Z.abs z) <= inject_Z (2 ^ prec))%Q)
      by (rewrite <- Zle_Qle; lia).
    change (inject_Z (2 ^ prec)) with (9007199254740992 # 1)%Q in Hle.
    pose proof pow2_emax as HE. pose proof pow2_1022_ge_1 as HB.
    assert (H53 : (9007199254740992 * 2 <= pow2 1022)%Q).
    { change (9007199254740992 * 2)%Q with (pow2 54). apply pow2_le. lia. }
    rewrite HE. set (a := inject_Z (Z.abs z)) in *. set (B := pow2 1022) in *.
    clearbody a B. unfold unit_roundoff, underflow_unit. lra. }
  split; [now apply finite64_intro|].
  destruct (Hb Hfin) as (_ & _ & Hex). apply Hex; [unfold emin, emax, prec; lia|].
  exact Hz.
Qed.

Lemma eqb_zero_float (x : float) :
  is_finite x = true -> PyFloat.eqb x (of_Z 0) = is_zero x.
Proof. destruct x as [s|s| |s m e]; try discriminate; now destruct s. Qed.

Lemma F2Q_zero (x : float) : is_zero x = true -> F2Q x = 0%Q.
Proof. now destruct x. Qed.

(** Scaling by a factor in [[0, 1]] keeps a bound. *)
Lemma Qabs_scale (t y b : Q) :
  (0 <= t)%Q -> (t <= 1)%Q -> (Qabs y <= b)%Q -> (Qabs (t * y) <= b)%Q.
Proof.
  intros H0 H1 Hy. rewrite Qabs_Qmult, (Qabs_pos t H0).
  pose proof (Qabs_nonneg y) as Hn. set (a := Qabs y) in *. clearbody a.
  nra.
Qed.

(** A bound of a product from bounds of the factors. *)
Lemma Qabs_mult_bound (x y c d : Q) :
  (Qabs x <= c)%Q -> (Qabs y <= d)%Q -> (Qabs (x * y) <= c * d)%Q.
Proof.
  intros Hx Hy. rewrite Qabs_Qmult.
  pose proof (Qabs_nonneg x) as Hx0. pose proof (Qabs_nonneg y) as Hy0.
  set (a := Qabs x) in *. set (b := Qabs y) in *. clearbody a b. nra.
Qed.

(** The samples of [linspace] are evenly spaced within the rounding error. *)
Lemma sample_correct (lb ub : float) (n j : Z) :
  finite64 lb = true -> finite64 ub = true ->
  (Qabs (F2Q lb) <= pow2 1022)%Q -> (Qabs (F2Q ub) <= pow2 1022)%Q ->
  2 <= n <= 2 ^ prec -> 0 <= j < n - 1 ->
  finite64 (numpy.sample lb ub n (of_Z j)) = true
  /\ (Qabs (F2Q (numpy.sample lb ub n (of_Z j))
            - (F2Q lb + inject_Z j / inject_Z (n - 1) * (F2Q ub - F2Q lb)))
      <= unit_roundoff * (Qabs (F2Q lb) + 5 * Qabs (F2Q ub - F2Q lb))
         + 2 * (inject_Z j + 1) * underflow_unit)%Q.
Proof.
  intros Flb Fub HL HU Hn Hj.
  pose proof pow2_emax as HE. pose proof pow2_1022_ge_1 as HB.
  assert (HL' := HL). assert (HU' := HU).
  apply Qabs_le_iff in HL', HU'.
  set (L := F2Q lb) in *. set (U := F2Q ub) in *. set (B := pow2 1022) in *.
  pose proof (Qabs_nonneg L) as HAL0. set (AL := Qabs L) in *.
  (* the integers *)
  destruct (of_Z_exact (n - 1) ltac:(lia)) as [Fm Em].
  destruct (of_Z_exact j ltac:(lia)) as [Fj Ej].
  set (m := inject_Z (n - 1)) in *. set (J := inject_Z j) in *.
  assert (Hm1 : (1 <= m)%Q).
  { unfold m. change 1%Q with (inject_Z 1). rewrite <- Zle_Qle. lia. }
  assert (HJ0 : (0 <= J)%Q).
  { unfold J. change 0%Q with (inject_Z 0). rewrite <- Zle_Qle. lia. }
  assert (HJm : (J <= m)%Q) by (unfold J, m; rewrite <- Zle_Qle; lia).
  assert (Hm53 : (m <= 9007199254740992)%Q).
  { unfold m. change (9007199254740992)%Q with (inject_Z (2 ^ prec)).
    rewrite <- Zle_Qle. lia. }
  assert (Hmnz : ~ (m == 0)%Q) by (intros E; rewrite E in Hm1; lra).
  set (t := (J / m)%Q).
  assert (Ht : (t * m == J)%Q) by (unfold t; field; exact Hmnz).
  assert (Ht0 : (0 <= t)%Q) by (apply Qle_shift_div_l; lra).
  assert (Ht1 : (t <= 1)%Q) by (apply Qle_shift_div_r; lra).
  (* the difference of the bounds *)
  destruct (sub_correct ub lb Fub Flb) as (Hv2 & Hf2 & Hb2). fold U L in Hf2, Hb2.
  assert (HAD : (Qabs (U - L) <= 2 * B)%Q).
  { apply Qabs_le_iff. clearbody L U B AL. split; lra. }
  pose proof (Qabs_nonneg (U - L)) as HAD0.
  set (AD := Qabs (U - L)) in *.
  assert (Fd : is_finite (sub ub lb) = true).
  { apply Hf2. rewrite HE. clearbody L U B AL AD. unfold unit_roundoff, underflow_unit. lra. }
  specialize (Hb2 Fd).
  set (Dd := F2Q (sub ub lb)) in *.
  assert (HADd : (Qabs Dd <= (1 + unit_roundoff) * AD)%Q).
  { destruct (Qabs_bounds (U - L)) as (_ & H1 & H2). fold AD in H1, H2.
    apply Qabs_le_iff in Hb2. apply Qabs_le_iff.
    clearbody L U B AL AD Dd. unfold unit_roundoff in *. split; lra. }
  pose proof (Qabs_nonneg Dd) as HADd0.
  set (ADd := Qabs Dd) in *.
  assert (Hz : (Qabs (t * (Dd - (U - L))) <= unit_roundoff * AD)%Q)
    by now apply Qabs_scale.
  assert (HtD : (Qabs (t * (U - L)) <= AD)%Q)
    by (apply Qabs_scale; [exact Ht0|exact Ht1|apply Qle_refl]).
  set (tD := (t * (U - L))%Q) in *. set (z := (t * (Dd - (U - L)))%Q) in *.
  assert (EtDd : (t * Dd == tD + z)%Q) by (unfold tD, z; ring).
  apply Qabs_le_iff in Hz, HtD.
  unfold numpy.sample. destruct (Z.ltb_spec 0 (n - 1)) as [_|]; [|lia].
  (* the step *)
  assert (Zm : is_zero (of_Z (n - 1)) = false).
  { apply nonzero_float; [now apply finite64_split in Fm|].
    rewrite Em. exact Hmnz. }
  destruct (div_correct (sub ub lb) (of_Z (n - 1)) Fd
              (proj1 (finite64_split _ Fm)) Zm) as (Hv3 & Hf3 & Hb3).
  fold Dd in Hf3, Hb3. rewrite Em in Hf3, Hb3.
  assert (Hs0 : (Dd / m * m == Dd)%Q) by (field; exact Hmnz).
  assert (HAs : (Qabs (Dd / m) * m == ADd)%Q).
  { unfold ADd. rewrite <- Hs0 at 2. rewrite Qabs_Qmult.
    rewrite (Qabs_pos m) by lra. reflexivity. }
  pose proof (Qabs_nonneg (Dd / m)) as HAs0.
  set (s0 := (Dd / m)%Q) in *. set (As := Qabs s0) in *.
  assert (HAsle : (As <= ADd)%Q).
  { rewrite <- HAs. clearbody As m. nra. }
  assert (HJAs : (J * As <= ADd)%Q).
  { rewrite <- HAs. clearbody As m J. nra. }
  assert (Fs : is_finite (div (sub ub lb) (of_Z (n - 1))) = true).
  { apply Hf3. rewrite HE. clearbody L U B AL AD Dd ADd m s0 As.
    unfold unit_roundoff, underflow_unit in *. lra. }
  specialize (Hb3 Fs).
  set (step := div (sub ub lb) (of_Z (n - 1))) in *.
  set (S := F2Q step) in *.
  rewrite (eqb_zero_float step Fs).
  assert (Hfinal : forall q : float,
             finite64 q = true ->
             (Qabs (F2Q q - tD)
              <= unit_roundoff * ((39 # 10) * AD) + (1 + unit_roundoff) * J * underflow_unit + underflow_unit)%Q ->
             finite64 (add q lb) = true
             /\ (Qabs (F2Q (add q lb) - (L + t * (U - L)))
                 <= unit_roundoff * (AL + 5 * AD) + 2 * (J + 1) * underflow_unit)%Q).
  { intros q Fq Hq. fold tD.
    destruct (add_correct q lb Fq Flb) as (Hv5 & Hf5 & Hb5). fold L in Hf5, Hb5.
    set (Q0 := F2Q q) in *. apply Qabs_le_iff in Hq.
    assert (HAS : (Qabs (Q0 + L)
                   <= AL + AD
                      + (unit_roundoff * ((39 # 10) * AD) + (1 + unit_roundoff) * J * underflow_unit + underflow_unit))%Q).
    { destruct (Qabs_bounds L) as (_ & H1 & H2). fold AL in H1, H2.
      apply Qabs_le_iff.
      clearbody L U B AL AD Dd ADd m s0 As S tD z J Q0.
      unfold unit_roundoff, underflow_unit in *. split; lra. }
    pose proof (Qabs_nonneg (Q0 + L)) as HAS0.
    set (AS := Qabs (Q0 + L)) in *.
    assert (Fy : is_finite (add q lb) = true).
    { apply Hf5. rewrite HE.
      clearbody L U B AL AD Dd ADd m s0 As S tD z J Q0 AS.
      unfold unit_roundoff, underflow_unit in *. lra. }
    specialize (Hb5 Fy). apply Qabs_le_iff in Hb5.
    split; [exact (finite64_intro _ Fy Hv5)|].
    set (Y := F2Q (add q lb)) in *.
    apply Qabs_le_iff.
    clearbody L U B AL AD Dd ADd m s0 As S tD z J Q0 AS Y.
    unfold unit_roundoff, underflow_unit in *. split; lra. }
  destruct (is_zero step) eqn:Zs.
  - (* the step has underflowed: [(j / div) * delta] *)
    assert (ES : S = 0%Q) by (apply F2Q_zero; exact Zs).
    rewrite ES in Hb3. apply Qabs_le_iff in Hb3.
    assert (HAs2 : (As <= 2 * underflow_unit)%Q).
    { destruct (Qabs_bounds s0) as (_ & H1 & H2). fold As in H1, H2.
      destruct (Qlt_le_dec s0 0) as [Hneg|Hpos].
      - assert (E : (As == - s0)%Q) by (apply Qabs_neg; lra).
        clearbody L U B AL AD Dd ADd m s0 As S tD z J. unfold unit_roundoff, underflow_unit in *. lra.
      - assert (E : (As == s0)%Q) by (apply Qabs_pos; lra).
        clearbody L U B AL AD Dd ADd m s0 As S tD z J. unfold unit_roundoff, underflow_unit in *. lra. }
    assert (HADd2 : (ADd <= 2 * underflow_unit * 9007199254740992)%Q).
    { rewrite <- HAs. apply Qle_trans with (2 * underflow_unit * m)%Q.
      - apply Qmult_le_compat_r; [exact HAs2|lra].
      - apply Qmult_le_l; [reflexivity|exact Hm53]. }
    destruct (div_correct (of_Z j) (of_Z (n - 1))
                (proj1 (finite64_split _ Fj))
                (proj1 (finite64_split _ Fm)) Zm) as (Hv4 & Hf4 & Hb4).
    rewrite Ej, Em in Hf4, Hb4. fold J m t in Hf4, Hb4.
    rewrite (Qabs_pos t Ht0) in Hf4, Hb4.
    assert (Fr : is_finite (div (of_Z j) (of_Z (n - 1))) = true).
    { apply Hf4. rewrite HE. clearbody L U B AL AD Dd ADd m s0 As S tD z J t.
      unfold unit_roundoff, underflow_unit in *. lra. }
    specialize (Hb4 Fr).
    set (r := div (of_Z j) (of_Z (n - 1))) in *. set (R := F2Q r) in *.
    assert (Hw : (Qabs ((R - t) * Dd) <= (unit_roundoff + underflow_unit) * ADd)%Q).
    { apply Qabs_mult_bound; [|apply Qle_refl].
      eapply Qle_trans; [exact Hb4|].
      clearbody L U B AL AD Dd ADd m s0 As S tD z J t. unfold unit_roundoff, underflow_unit in *. lra. }
    set (w := ((R - t) * Dd)%Q) in *.
    assert (ERD : (R * Dd == tD + z + w)%Q) by (unfold w; rewrite <- EtDd; ring).
    destruct (mul_correct r (sub ub lb) (finite64_intro _ Fr Hv4)
                (finite64_intro _ Fd Hv2)) as (Hv5 & Hf5 & Hb5).
    fold R Dd in Hf5, Hb5. rewrite ERD in Hf5, Hb5.
    apply Qabs_le_iff in Hw.
    assert (HARD : (Qabs (tD + z + w) <= AD + unit_roundoff * AD + (unit_roundoff + underflow_unit) * ADd)%Q).
    { apply Qabs_le_iff.
      clearbody L U B AL AD Dd ADd m s0 As S tD z J t R w.
      unfold unit_roundoff, underflow_unit in *. split; lra. }
    pose proof (Qabs_nonneg (tD + z + w)) as HARD0.
    set (ARD := Qabs (tD + z + w)) in *.
    assert (Fq : is_finite (mul r (sub ub lb)) = true).
    { apply Hf5. rewrite HE.
      clearbody L U B AL AD Dd ADd m s0 As S tD z J t R w ARD.
      unfold unit_roundoff, underflow_unit in *. lra. }
    specialize (Hb5 Fq). apply Qabs_le_iff in Hb5.
    apply Hfinal; [exact (finite64_intro _ Fq Hv5)|].
    set (Q0 := F2Q (mul r (sub ub lb))) in *.
    apply Qabs_le_iff.
    clearbody L U B AL AD Dd ADd m s0 As S tD z J t R w ARD Q0.
    unfold unit_roundoff, underflow_unit in *. split; lra.
  - (* the usual case: [j * step] *)
    destruct (mul_correct (of_Z j) step Fj (finite64_intro _ Fs Hv3))
      as (Hv4 & Hf4 & Hb4).
    rewrite Ej in Hf4, Hb4. fold J S in Hf4, Hb4.
    assert (HJAs0 : (0 <= J * As)%Q) by (apply Qmult_le_0_compat; assumption).
    assert (Hw : (Qabs (J * (S - s0)) <= unit_roundoff * (J * As) + J * underflow_unit)%Q).
    { rewrite Qabs_Qmult, (Qabs_pos J HJ0).
      assert (E : (unit_roundoff * (J * As) + J * underflow_unit == J * (unit_roundoff * As + underflow_unit))%Q) by ring.
      rewrite E, (Qmult_comm J (Qabs (S - s0))), (Qmult_comm J (unit_roundoff * As + underflow_unit)).
      apply Qmult_le_compat_r; [exact Hb3|exact HJ0]. }
    set (w := (J * (S - s0))%Q) in *.
    assert (EJS : (J * S == tD + z + w)%Q).
    { unfold w. rewrite <- EtDd. unfold t, s0. field. exact Hmnz. }
    rewrite EJS in Hf4, Hb4.
    apply Qabs_le_iff in Hw.
    set (JAs := (J * As)%Q) in *.
    assert (HAJS : (Qabs (tD + z + w)
                    <= AD + unit_roundoff * AD + unit_roundoff * JAs + J * underflow_unit)%Q).
    { apply Qabs_le_iff.
      clearbody L U B AL AD Dd ADd m s0 As S tD z J t w JAs.
      unfold unit_roundoff, underflow_unit in *. split; lra. }
    pose proof (Qabs_nonneg (tD + z + w)) as HAJS0.
    set (AJS := Qabs (tD + z + w)) in *.
    assert (Fq : is_finite (mul (of_Z j) step) = true).
    { apply Hf4. rewrite HE.
      clearbody L U B AL AD Dd ADd m s0 As S tD z J t w JAs AJS.
      unfold unit_roundoff, underflow_unit in *. lra. }
    specialize (Hb4 Fq). apply Qabs_le_iff in Hb4.
    apply Hfinal; [exact (finite64_intro _ Fq Hv4)|].
    set (Q0 := F2Q (mul (of_Z j) step)) in *.
    apply Qabs_le_iff.
    clearbody L U B AL AD Dd ADd m s0 As S tD z J t w JAs AJS Q0.
    unfold unit_roundoff, underflow_unit in *. split; lra.
Qed.

(* --------------------------------------------------------------------- *)
(** ** Scaling *)

(** The round trip in binary64: [scale_back] of [normalize] is a finite
    float within the rounding error of four operations of the value. *)
Lemma roundtrip_in_binary64 (lb ub v : float) :
  finite64 lb = true -> finite64 ub = true -> finite64 v = true ->
  (Qabs (F2Q lb) <= pow2 1022)%Q -> (Qabs (F2Q ub) <= pow2 1022)%Q ->
  (F2Q lb < F2Q ub)%Q -> (F2Q lb <= F2Q v)%Q -> (F2Q v <= F2Q ub)%Q ->
  exists x : float,
    normalize v (lb, ub) = Ret x
    /\ finite64 (scale_back x (lb, ub)) = true
    /\ (Qabs (F2Q (scale_back x (lb, ub)) - F2Q v)
        <= unit_roundoff * (Qabs (F2Q v) + 5 * (F2Q ub - F2Q lb))
           + 2 * underflow_unit)%Q.
Proof.
  intros Flb Fub Fv HL HU Hlt Hlo Hhi.
  destruct (roundtrip_float lb ub v Flb Fub Fv HL HU Hlt Hlo Hhi)
    as (Hz & Hf & Hb).
  exists (PyFloat.div (PyFloat.sub v lb) (PyFloat.sub ub lb)).
  unfold normalize, truediv, scale_back.
  cbn [num_is_zero num_sub num_add num_mul num_quot float_Number].
  rewrite Hz. split; [reflexivity|]. split; assumption.
Qed.

(** The round trip over the rationals, where nothing is rounded. *)
Lemma roundtrip_in_rationals (lb ub v : Q) :
  (lb < ub)%Q ->
  exists x : Q,
    normalize v (lb, ub) = Ret x /\ (scale_back x (lb, ub) == v)%Q.
Proof.
  intros Hlt.
  assert (Hnz : ~ (ub - lb == 0)%Q).
  { intros H. apply Qlt_minus_iff in Hlt. unfold Qminus in H.
    rewrite H in Hlt. now apply Qlt_irrefl in Hlt. }
  exists ((v - lb) / (ub - lb))%Q. split.
  - unfold normalize, truediv. simpl.
    destruct (Qeq_bool (ub - lb) 0) eqn:E; [|reflexivity].
    apply Qeq_bool_iff in E. contradiction.
  - unfold scale_back. simpl. now field.
Qed.

(** C2, as the code has it.  In binary64, for finite bounds [lb < ub] of
    magnitude at most [2 ^ 1022] and a finite value [v] between them,
    [normalize] returns a float [x] and [scale_back x] is a finite float
    within [2 ^ -53 * (|v| + 5 * (ub - lb)) + 2 ^ -1074] of [v]; over the
    rationals, for any [lb < ub] and [v] between them, the round trip
    returns [v] itself. *)
Theorem scale_back_normalize_roundtrip :
  (forall lb ub v : float,
      finite64 lb = true -> finite64 ub = true -> finite64 v = true ->
      (Qabs (F2Q lb) <= pow2 1022)%Q -> (Qabs (F2Q ub) <= pow2 1022)%Q ->
      (F2Q lb < F2Q ub)%Q -> (F2Q lb <= F2Q v)%Q -> (F2Q v <= F2Q ub)%Q ->
      exists x : float,
        normalize v (lb, ub) = Ret x
        /\ finite64 (scale_back x (lb, ub)) = true
        /\ (Qabs (F2Q (scale_back x (lb, ub)) - F2Q v)
            <= unit_roundoff * (Qabs (F2Q v) + 5 * (F2Q ub - F2Q lb))
               + 2 * underflow_unit)%Q)
  /\ (forall lb ub v : Q,
         (lb < ub)%Q -> (lb <= v)%Q -> (v <= ub)%Q ->
         exists x : Q,
           normalize v (lb, ub) = Ret x /\ (scale_back x (lb, ub) == v)%Q).
Proof.
  split.
  - exact roundtrip_in_binary64.
  - intros lb ub v Hlt _ _. now apply roundtrip_in_rationals.
Qed.

Lemma scale_back_normalize_roundtrip_witness :
  (exists x : float,
      normalize (dec 1 10) (of_Z 0, dec 7 10) = Ret x
      /\ finite64 (scale_back x (of_Z 0, dec 7 10)) = true
      /\ (Qabs (F2Q (scale_back x (of_Z 0, dec 7 10)) - F2Q (dec 1 10))
          <= unit_roundoff
             * (Qabs (F2Q (dec 1 10)) + 5 * (F2Q (dec 7 10) - F2Q (of_Z 0)))
             + 2 * underflow_unit)%Q)
  /\ (exists x : Q,
         normalize (15 # 1) (10 # 1, 20 # 1) = Ret x
         /\ (scale_back x (10 # 1, 20 # 1) == 15 # 1)%Q).
Proof.
  split.
  - apply (proj1 scale_back_normalize_roundtrip (of_Z 0) (dec 7 10) (dec 1 10));
      [reflexivity | reflexivity | reflexivity
      | vm_compute; discriminate | vm_compute; discriminate
      | vm_compute; reflexivity
      | vm_compute; discriminate | vm_compute; discriminate].
  - apply (proj2 scale_back_normalize_roundtrip (10 # 1) (20 # 1) (15 # 1));
      unfold Qlt, Qle; simpl; lia.
Defined.

(** The scaling of a value of the session in floating point: 15.0 in
    [(10, 20)] is 0.5 and back; the bounds go to 0.0 and 1.0. *)
Example scaling_in_floats :
  normalize (of_Z 15) (of_Z 10, of_Z 20) = Ret (dec 1 2)
  /\ scale_back (dec 1 2) (of_Z 10, of_Z 20) = of_Z 15
  /\ normalize (of_Z 10) (of_Z 10, of_Z 20) = Ret (of_Z 0)
  /\ normalize (of_Z 20) (of_Z 10, of_Z 20) = Ret (of_Z 1).
Proof. repeat split. Qed.

(** C2 as stated fails in floating point when the difference of the bounds
    overflows: with the finite bounds [-1e308 < 1e308] and the value 0.0
    between them, [ub - lb] is infinite, [normalize] returns [1e308 / inf],
    a zero, and [scale_back] of it is [0.0 * inf + lb], a NaN, which is
    within no tolerance of 0.0.  Where nothing overflows the round trip
    can still be off by a rounding error: the upper bound 0.9 of
    [(0.2, 0.9)] goes to 1.0 and comes back as the float below 0.9. *)
Lemma roundtrip_of_overflowing_bounds_is_nan :
  let lb := PyFloat.opp (of_Z (10 ^ 308)) in
  let ub := of_Z (10 ^ 308) in
  let v := of_Z 0 in
  finite64 lb = true /\ finite64 ub = true /\ finite64 v = true
  /\ SFltb lb ub = true /\ SFleb lb v = true /\ SFleb v ub = true
  /\ is_finite (PyFloat.sub ub lb) = false
  /\ normalize v (lb, ub) = Ret (S754_zero false)
  /\ scale_back (S754_zero false) (lb, ub) = nan
  /\ normalize (dec 9 10) (dec 2 10, dec 9 10) = Ret (of_Z 1)
  /\ scale_back (of_Z 1) (dec 2 10, dec 9 10) = PyFloat.pred (dec 9 10).
Proof. vm_compute. repeat split. Qed.

(* --------------------------------------------------------------------- *)
(** ** The number of models *)

(** C3: [define_n_models] gives 1, 2 and 3 for the three output
    dictionaries in their order, and for any other name raises a
    [ValueError] whose message interpolates that name. *)
Theorem define_n_models_by_category (s : string) :
  define_n_models the_output_names "pretreatment_output" = Ret 1
  /\ define_n_models the_output_names "enzymatic_output" = Ret 2
  /\ define_n_models the_output_names "bioreactor_output" = Ret 3
  /\ define_n_models the_output_names s =
       if String.eqb s "pretreatment_output" then Ret 1
       else if String.eqb s "enzymatic_output" then Ret 2
       else if String.eqb s "bioreactor_output" then Ret 3
       else Raise (ValueError
                     [Lit "Error: Output dictionary '"; Val (PyStr s);
                      Lit "' doesn't exist. Check the widget definition"]).
Proof.
  repeat split; try reflexivity.
  unfold define_n_models, the_output_names, py_in.
  cbn [existsb py_index].
  rewrite (String.eqb_sym "pretreatment_output" s),
          (String.eqb_sym "enzymatic_output" s),
          (String.eqb_sym "bioreactor_output" s).
  destruct (String.eqb s "pretreatment_output"); [reflexivity|].
  destruct (String.eqb s "enzymatic_output"); [reflexivity|].
  destruct (String.eqb s "bioreactor_output"); reflexivity.
Qed.

(* --------------------------------------------------------------------- *)
(** ** The properties of Bioreactor *)

(** C9: in the name space of [Bioreactor] the properties [column_height]
    and [bubble_diameter] have a getter and no setter, so assigning to
    either raises [AttributeError] and changes nothing, whatever the object
    and the value; their decorated setters were bound to [t_final], which
    the later [t_final] property replaces. *)
Theorem Bioreactor_column_height_bubble_diameter_not_settable
  (s : St) (v : pyval) :
  setattr (class_ns CBioreactor) "column_height" v s
  = (Raise (AttributeError "column_height"), s)
  /\ setattr (class_ns CBioreactor) "bubble_diameter" v s
     = (Raise (AttributeError "bubble_diameter"), s)
  /\ getattr (class_ns CBioreactor) "column_height" s
     = self_get "_column_height" s
  /\ getattr (class_ns CBioreactor) "bubble_diameter" s
     = self_get "_bubble_diameter" s
  /\ setattr (class_ns CBioreactor) "t_final" v s = Bioreactor.set_t_final v s.
Proof. repeat split. Qed.

(* --------------------------------------------------------------------- *)
(** ** The bioreactor surrogate while the CFD results are missing *)

(** C10: when [rho_g] of the persisted [enzymatic_output] is a NaN,
    [run_biorector_cfd_surrogate] calls no collaborator, leaves the object
    and the world as they are and returns [None], which is neither
    [True] nor [False]. *)
Theorem run_biorector_cfd_surrogate_returns_None_on_nan
  (ext : Externals) (verbose : pyval) (a : gmap string pyval) (w : World)
  (fname : string) (doc eo : gmap string pyval) :
  a !! "params_filename" = Some (PyStr fname) ->
  yamls w !! fname = Some doc ->
  doc !! "enzymatic_output" = Some (PyDict eo) ->
  eo !! "rho_g" = Some (PyFloat nan) ->
  Bioreactor.run_biorector_cfd_surrogate ext verbose (a, w)
  = (Ret PyNone, (a, w))
  /\ forall b : bool, PyNone <> PyBool b.
Proof.
  intros Ha Hw Hd He. split; [|discriminate].
  unfold Bioreactor.run_biorector_cfd_surrogate.
  unfold bind at 1. unfold self_get at 1. simpl. rewrite Ha.
  unfold bind at 1. simpl.
  unfold bind at 1. rewrite world_run. unfold yaml_to_dict. rewrite Hw. simpl.
  unfold bind at 1. simpl. rewrite Hd.
  unfold bind at 1. simpl. rewrite He.
  reflexivity.
Qed.

Lemma run_biorector_cfd_surrogate_returns_None_on_nan_witness :
  Bioreactor.run_biorector_cfd_surrogate (Session.stub (Session.constant nan)) (PyBool true)
    (Session.br_attrs, Session.waiting_world)
  = (Ret PyNone, (Session.br_attrs, Session.waiting_world))
  /\ forall b : bool, PyNone <> PyBool b.
Proof.
  apply (run_biorector_cfd_surrogate_returns_None_on_nan
           (Session.stub (Session.constant nan)) (PyBool true) Session.br_attrs
           Session.waiting_world "params.yaml"
           {["enzymatic_output" := PyDict {["rho_g" := PyFloat nan]}]}
           {["rho_g" := PyFloat nan]});
    reflexivity.
Defined.

(* --------------------------------------------------------------------- *)
(** ** What the pipeline leaves untouched

    [run_models_with_new_values] changes the stage models and the world;
    every other attribute of the driver keeps its value. *)

Lemma keeps_ret {A} (a : A) : keeps_config (ret a).
Proof. now intros s. Qed.

Lemma keeps_raise {A} (e : exn) : keeps_config (@raise OS A e).
Proof. now intros s. Qed.

Lemma keeps_lift {A} (x : outcome A) : keeps_config (lift x).
Proof. now intros s. Qed.

Lemma keeps_gets {A} (f : OS -> A) : keeps_config (gets f).
Proof. now intros s. Qed.

Lemma keeps_world {A} (c : M World A) : keeps_config (world c).
Proof. intros [o w]. now rewrite world_run. Qed.

Lemma keeps_on_model {A} (k : nat) (c : class_id -> M St A) :
  keeps_config (on_model k c).
Proof.
  intros [o w]. unfold on_model. simpl.
  destruct (models_list o !! k) as [ob|]; [|reflexivity].
  destruct (c (cls ob) (attrs ob, w)) as [r [a' w']]. reflexivity.
Qed.

Lemma keeps_bind {A B} (m : M OS A) (k : A -> M OS B) :
  keeps_config m -> (forall a, keeps_config (k a)) -> keeps_config (bind m k).
Proof.
  intros Hm Hk s. unfold bind. specialize (Hm s).
  destruct (m s) as [[a|e] s1]; simpl in *; [|exact Hm].
  now rewrite Hk.
Qed.

Lemma keeps_for_each {A} (l : list A) (body : A -> M OS unit) :
  (forall x, keeps_config (body x)) -> keeps_config (for_each l body).
Proof.
  intros Hb. induction l as [|x l IH]; simpl.
  - apply keeps_ret.
  - apply keeps_bind; [apply Hb | intros _; exact IH].
Qed.

Lemma keeps_if {A} (b : bool) (m1 m2 : M OS A) :
  keeps_config m1 -> keeps_config m2 -> keeps_config (if b then m1 else m2).
Proof. now destruct b. Qed.

Create HintDb keeps.
#[export] Hint Resolve keeps_ret keeps_raise keeps_lift keeps_gets keeps_world
  keeps_on_model keeps_for_each keeps_if : keeps.

Lemma run_models_keeps_config ext dims verbose :
  keeps_config (run_models_with_new_values ext dims verbose).
Proof.
  unfold run_models_with_new_values.
  repeat (first [ apply keeps_bind; [|intros ?]
                | apply keeps_for_each; intros ?
                | match goal with |- keeps_config (let '(_, _) := ?p in _) =>
                    destruct p end
                | solve [auto with keeps] ]).
Qed.

Lemma config_fields (o o' : Optimization) :
  config o' = config o ->
  fn_evals o' = fn_evals o
  /\ objective_scaling o' = objective_scaling o
  /\ opt_results_file o' = opt_results_file o
  /\ var_names o' = var_names o
  /\ var_real_bounds o' = var_real_bounds o.
Proof.
  intros H.
  pose proof (f_equal fn_evals H). pose proof (f_equal objective_scaling H).
  pose proof (f_equal opt_results_file H). pose proof (f_equal var_names H).
  pose proof (f_equal var_real_bounds H). auto.
Qed.

(** The value and the final state of a call of [objective_function] whose
    pipeline returns the number [r]. *)
Lemma objective_function_eq ext fv o w file r obj f s1 :
  opt_results_file o = Some file ->
  run_models_with_new_values ext (to_dimensional fv (var_real_bounds o))
    (fn_evals o =? 0) (o, w) = (Ret r, s1) ->
  py_neg r = Ret obj ->
  as_float obj = Ret f ->
  (fn_evals o = 0 -> is_zero f = false) ->
  (length (to_dimensional fv (var_real_bounds o)) <= length (var_names o))%nat ->
  objective_function ext fv (o, w) =
    let scaling :=
      if fn_evals o =? 0 then PyFloat.div (of_Z (-1)) f
      else objective_scaling o in
    let n := fn_evals o + 1 in
    let o1 :=
      if fn_evals o =? 0 then set_objective_scaling scaling (fst s1)
      else fst s1 in
    (Ret (PyFloat.mul f scaling),
     (set_fn_evals n o1,
      set_logs (fun m =>
                  <[file := default [] (m !! file)
                            ++ [Row 15 n (to_dimensional fv (var_real_bounds o))
                                  f]]> m)
        (snd s1))).
Proof.
  intros Hfile Hrun Hneg Hf Hnz Hlen.
  pose proof (run_models_keeps_config ext
                (to_dimensional fv (var_real_bounds o)) (fn_evals o =? 0)
                (o, w)) as Hk.
  rewrite Hrun in Hk. simpl in Hk.
  destruct (config_fields _ _ Hk) as (Hn & Hs & Hfl & Hv & Hb).
  destruct s1 as [o1 w1]. simpl in *.
  unfold objective_function.
  unfold bind at 1. unfold gets at 1. cbn [fst snd].
  rewrite (bind_ret _ _ _ _ _ Hrun).
  rewrite Hneg. rewrite bind_lift_ret.
  unfold bind at 1. unfold gets at 1. cbn [fst snd].
  rewrite Hn.
  destruct (fn_evals o =? 0) eqn:E.
  - apply Z.eqb_eq in E. specialize (Hnz E).
    rewrite Hf.
    unfold bind at 1. rewrite bind_lift_ret.
    unfold truediv. cbn [num_is_zero float_Number]. rewrite Hnz.
    rewrite bind_lift_ret.
    unfold modify at 1. cbn [fst snd].
    unfold bind at 1. unfold modify at 1. cbn [fst snd].
    unfold bind at 1. unfold gets at 1. cbn [fst snd].
    cbn [opt_results_file set_fn_evals set_objective_scaling].
    rewrite Hfl, Hfile. rewrite bind_lift_ret.
    unfold bind at 1. unfold bind at 1. rewrite world_run. cbn [fst snd].
    unfold ret at 1.
    cbn [var_names set_fn_evals set_objective_scaling fn_evals
         objective_scaling].
    rewrite Hv.
    apply Nat.leb_le in Hlen. rewrite Hlen.
    unfold bind at 1. unfold ret at 1.
    rewrite Hn, E. reflexivity.
  - unfold bind at 1. unfold ret at 1.
    unfold bind at 1. unfold modify at 1. cbn [fst snd].
    unfold bind at 1. unfold gets at 1. cbn [fst snd].
    cbn [opt_results_file set_fn_evals].
    rewrite Hfl, Hfile. rewrite bind_lift_ret.
    rewrite Hf.
    unfold bind at 1. unfold bind at 1. rewrite world_run. cbn [fst snd].
    unfold ret at 1.
    cbn [var_names set_fn_evals fn_evals objective_scaling].
    rewrite Hv.
    apply Nat.leb_le in Hlen. rewrite Hlen.
    unfold bind at 1. unfold ret at 1.
    rewrite Hn, Hs. reflexivity.
Qed.

(* --------------------------------------------------------------------- *)
(** ** The objective evaluator *)

Lemma to_dimensional_length fv bounds :
  (length (to_dimensional fv bounds) <= length bounds)%nat.
Proof.
  unfold to_dimensional. rewrite length_map, length_combine. lia.
Qed.

(** The dimensional values keep the order of the controls. *)
Lemma to_dimensional_lookup (fv : list float) (bounds : list (float * float))
  (i : nat) (v : float) (b : float * float) :
  fv !! i = Some v -> bounds !! i = Some b ->
  to_dimensional fv bounds !! i = Some (scale_back v b).
Proof.
  revert bounds i. induction fv as [|x fv IH]; intros [|y bounds] [|i] Hv Hb;
    try discriminate; simpl in *.
  - now inversion Hv; inversion Hb.
  - now apply IH.
Qed.

(** C1 as the code has it: from an evaluation count of 0, a first call
    whose pipeline returns -4.0 sets [objective_scaling] to -0.25 (the
    objective is negated before [-1.0 / obj]) and returns -1.0; a second
    call whose pipeline returns -2.0 returns -0.5. *)
Theorem objective_function_first_two_calls
  (ext : Externals) (fv1 fv2 : list float) (o : Optimization) (w : World)
  (file : string) (s1 : OS) :
  fn_evals o = 0 ->
  opt_results_file o = Some file ->
  (length (var_real_bounds o) <= length (var_names o))%nat ->
  run_models_with_new_values ext (to_dimensional fv1 (var_real_bounds o)) true
    (o, w) = (Ret (PyFloat (of_Z (-4))), s1) ->
  let call1 := objective_function ext fv1 (o, w) in
  fst call1 = Ret (of_Z (-1))
  /\ objective_scaling (fst (snd call1)) = dec (-1) 4
  /\ fn_evals (fst (snd call1)) = 1
  /\ forall s2 : OS,
      run_models_with_new_values ext
        (to_dimensional fv2 (var_real_bounds (fst (snd call1)))) false
        (snd call1) = (Ret (PyFloat (of_Z (-2))), s2) ->
      fst (objective_function ext fv2 (snd call1)) = Ret (dec (-1) 2).
Proof.
  intros Hn Hfile Hlen Hrun call1.
  assert (Hlen1 : (length (to_dimensional fv1 (var_real_bounds o))
                   <= length (var_names o))%nat).
  { pose proof (to_dimensional_length fv1 (var_real_bounds o)). lia. }
  pose proof (objective_function_eq ext fv1 o w file (PyFloat (of_Z (-4)))
                (PyFloat (of_Z 4)) (of_Z 4) s1 Hfile) as E1.
  rewrite Hn in E1. change (0 =? 0) with true in E1.
  specialize (E1 Hrun eq_refl eq_refl (fun _ => eq_refl) Hlen1).
  cbn zeta iota in E1. fold call1 in E1.
  pose proof (run_models_keeps_config ext
                (to_dimensional fv1 (var_real_bounds o)) true (o, w)) as Hk.
  rewrite Hrun in Hk. cbn [fst snd] in Hk.
  destruct (config_fields _ _ Hk) as (_ & _ & Hfl & Hv & Hb).
  rewrite E1. cbn [fst snd]. repeat split.
  intros s2 Hrun2.
  match goal with |- fst (objective_function _ _ (?o', ?w')) = _ =>
    pose proof (objective_function_eq ext fv2 o' w' file (PyFloat (of_Z (-2)))
                  (PyFloat (of_Z 2)) (of_Z 2) s2) as E2
  end.
  cbn [opt_results_file set_fn_evals set_objective_scaling fn_evals
       var_real_bounds var_names objective_scaling] in E2.
  rewrite Hv, Hb in E2.
  specialize (E2 (eq_trans Hfl Hfile)).
  cbn [var_real_bounds set_fn_evals set_objective_scaling] in Hrun2.
  rewrite Hb in Hrun2.
  specialize (E2 Hrun2 eq_refl eq_refl (fun _ => eq_refl)).
  rewrite E2.
  - reflexivity.
  - pose proof (to_dimensional_length fv2 (var_real_bounds o)). lia.
Qed.

Lemma objective_function_first_two_calls_witness :
  let ext := Session.stub Session.minus_final_time in
  let s := Session.two_controls in
  let call1 := objective_function ext [dec 1 2; of_Z 1] (fst s, snd s) in
  fst call1 = Ret (of_Z (-1))
  /\ objective_scaling (fst (snd call1)) = dec (-1) 4
  /\ fn_evals (fst (snd call1)) = 1
  /\ forall s2 : OS,
      run_models_with_new_values ext
        (to_dimensional [dec 1 2; of_Z 0]
           (var_real_bounds (fst (snd call1)))) false
        (snd call1) = (Ret (PyFloat (of_Z (-2))), s2) ->
      fst (objective_function ext [dec 1 2; of_Z 0] (snd call1))
      = Ret (dec (-1) 2).
Proof.
  intros ext s.
  apply (objective_function_first_two_calls ext [dec 1 2; of_Z 1]
           [dec 1 2; of_Z 0] (fst s) (snd s) "results.csv"
           (snd (run_models_with_new_values ext
                   (to_dimensional [dec 1 2; of_Z 1]
                      (var_real_bounds (fst s))) true (fst s, snd s)))).
  - vm_compute. reflexivity.
  - vm_compute. reflexivity.
  - vm_compute. lia.
  - vm_compute. reflexivity.
Defined.

(** The second call of the session above does meet a pipeline value of
    -2.0 and returns -0.5. *)
Example second_call_of_the_session :
  let ext := Session.stub Session.minus_final_time in
  let call1 :=
    objective_function ext [dec 1 2; of_Z 1] Session.two_controls in
  fst (run_models_with_new_values ext [dec 1 2; of_Z 10] false (snd call1))
  = Ret (PyFloat (of_Z (-2)))
  /\ fst (objective_function ext [dec 1 2; of_Z 0] (snd call1))
     = Ret (dec (-1) 2).
Proof. vm_compute. split; reflexivity. Qed.

(** C1 as stated fails: after a first call whose pipeline returns -4.0
    the scaling factor is not 0.25. *)
Lemma objective_scaling_after_minus_four_is_not_a_quarter :
  let ext := Session.stub (Session.constant (of_Z (-4))) in
  let s := Session.two_controls in
  fn_evals (fst s) = 0
  /\ fst (run_models_with_new_values ext
            (to_dimensional (x_0 (fst s)) (var_real_bounds (fst s))) true s)
     = Ret (PyFloat (of_Z (-4)))
  /\ fst (objective_function ext (x_0 (fst s)) s) = Ret (of_Z (-1))
  /\ objective_scaling (fst (snd (objective_function ext (x_0 (fst s)) s)))
     <> dec 1 4.
Proof. vm_compute. repeat split. discriminate. Qed.

(** C5: a call of [objective_function] whose pipeline returns a number
    [r] appends one row to the result log: the evaluation count after the
    increment (the count starts at 0, so the rows are numbered from 1 and
    each call numbers its row one higher), the dimensional values in the
    order of the controls (the [i]-th is the [i]-th free variable scaled
    back with the [i]-th bounds), and [-r] before it is scaled.  In the session
    with the controls in [(0, 1)] and [(10, 20)] at 0.5 and a pipeline
    value of 2.0, the dimensional values are [(0.5, 15.0)], the row is
    [1, 0.5, 15.0, -2.0] and the scaling factor becomes 0.5. *)
Theorem objective_function_appends_one_row :
  (forall (ext : Externals) (fv : list float) (o : Optimization) (w : World)
          (file : string) (r obj : pyval) (f : float) (s1 : OS),
      opt_results_file o = Some file ->
      run_models_with_new_values ext (to_dimensional fv (var_real_bounds o))
        (fn_evals o =? 0) (o, w) = (Ret r, s1) ->
      py_neg r = Ret obj ->
      as_float obj = Ret f ->
      (fn_evals o = 0 -> is_zero f = false) ->
      (length (var_real_bounds o) <= length (var_names o))%nat ->
      exists (x : float) (s2 : OS),
        objective_function ext fv (o, w) = (Ret x, s2)
        /\ fn_evals (fst s2) = fn_evals o + 1
        /\ logs (snd s2) !! file
           = Some (default [] (logs (snd s1) !! file)
                   ++ [Row 15 (fn_evals o + 1)
                         (to_dimensional fv (var_real_bounds o)) f])
        /\ forall file', file' <> file ->
                         logs (snd s2) !! file' = logs (snd s1) !! file')
  /\ (let ext := Session.stub (Session.constant (of_Z 2)) in
      let s := Session.two_controls in
      let call := objective_function ext (x_0 (fst s)) s in
      x_0 (fst s) = [dec 1 2; dec 1 2]
      /\ var_real_bounds (fst s) = [(of_Z 0, of_Z 1); (of_Z 10, of_Z 20)]
      /\ to_dimensional (x_0 (fst s)) (var_real_bounds (fst s))
         = [dec 1 2; of_Z 15]
      /\ fst (run_models_with_new_values ext [dec 1 2; of_Z 15] true s)
         = Ret (PyFloat (of_Z 2))
      /\ logs (snd s) !! "results.csv" = Some []
      /\ logs (snd (snd call)) !! "results.csv"
         = Some [Row 15 1 [dec 1 2; of_Z 15] (of_Z (-2))]
      /\ objective_scaling (fst (snd call)) = dec 1 2)
  /\ (forall (fv : list float) (bounds : list (float * float)) (i : nat)
             (v : float) (b : float * float),
         fv !! i = Some v -> bounds !! i = Some b ->
         to_dimensional fv bounds !! i = Some (scale_back v b)).
Proof.
  split; [|split; [|exact to_dimensional_lookup]].
  - intros ext fv o w file r obj f s1 Hfile Hrun Hneg Hf Hnz Hlen.
    assert (Hlen' : (length (to_dimensional fv (var_real_bounds o))
                     <= length (var_names o))%nat).
    { pose proof (to_dimensional_length fv (var_real_bounds o)). lia. }
    rewrite (objective_function_eq ext fv o w file r obj f s1
               Hfile Hrun Hneg Hf Hnz Hlen').
    cbn zeta. eexists. eexists. split; [reflexivity|]. cbn [fst snd].
    split; [|split].
    + now destruct (fn_evals o =? 0).
    + cbn [logs set_logs]. now rewrite lookup_insert_eq.
    + intros file' Hne. cbn [logs set_logs]. now rewrite lookup_insert_ne.
  - vm_compute. repeat split.
Qed.

Lemma objective_function_appends_one_row_witness :
  let ext := Session.stub (Session.constant (of_Z 2)) in
  let s := Session.two_controls in
  let fv := [dec 1 2; dec 1 2] in
  let s1 := snd (run_models_with_new_values ext
                   (to_dimensional fv (var_real_bounds (fst s))) true
                   (fst s, snd s)) in
  exists (x : float) (s2 : OS),
    objective_function ext fv (fst s, snd s) = (Ret x, s2)
    /\ fn_evals (fst s2) = fn_evals (fst s) + 1
    /\ logs (snd s2) !! "results.csv"
       = Some (default [] (logs (snd s1) !! "results.csv")
               ++ [Row 15 (fn_evals (fst s) + 1)
                     (to_dimensional fv (var_real_bounds (fst s)))
                     (of_Z (-2))])
    /\ forall file', file' <> "results.csv" ->
                     logs (snd s2) !! file' = logs (snd s1) !! file'.
Proof.
  intros ext s fv s1.
  apply (proj1 objective_function_appends_one_row ext fv (fst s) (snd s)
           "results.csv" (PyFloat (of_Z 2)) (PyFloat (of_Z (-2)))
           (of_Z (-2)) s1).
  - vm_compute. reflexivity.
  - vm_compute. reflexivity.
  - vm_compute. reflexivity.
  - vm_compute. reflexivity.
  - intros _. vm_compute. reflexivity.
  - vm_compute. lia.
Defined.

(* --------------------------------------------------------------------- *)
(** ** The range-checked setters *)

Lemma checked_setter_rejects check interval store i2y a s :
  check a = Ret false ->
  checked_setter check interval store i2y a s
  = (Raise (outside_interval a interval), s).
Proof. intros H. unfold checked_setter. now rewrite H. Qed.

(** A value that fails the check of one of the setters of [range_checked]
    is refused with a [ValueError] naming the value and the interval; the
    object and the world, parameter files included, stay as they were. *)
Lemma range_checked_setters_reject :
  Forall (fun '(c, name, check, interval) =>
            forall (a : pyval) (s : St),
              check a = Ret false ->
              setattr (class_ns c) name a s
              = (Raise (outside_interval a interval), s))
    range_checked.
Proof.
  repeat constructor; intros a s H;
    exact (checked_setter_rejects _ _ _ _ a s H).
Qed.

(** One unit in the last place beyond either end of [[0, 1]] is outside. *)
Example xylan_solid_fraction_one_ulp_outside (s : St) :
  setattr (class_ns CFeedstock) "xylan_solid_fraction"
    (PyFloat (succ (of_Z 1))) s
  = (Raise (outside_interval (PyFloat (succ (of_Z 1))) "[0, 1]"), s)
  /\ setattr (class_ns CFeedstock) "xylan_solid_fraction"
       (PyFloat (pred (of_Z 0))) s
     = (Raise (outside_interval (PyFloat (pred (of_Z 0))) "[0, 1]"), s).
Proof. split; now apply checked_setter_rejects. Qed.

(** C6 for the setters of Bioreactor: [column_diameter] refuses 7.0 with an
    error that names [[1, 1e16]], an interval 7.0 lies in; assigning 100.0
    to [column_height] raises [AttributeError], although the function
    decorated as its setter would refuse the value with a [ValueError];
    [gas_velocity] names [[1, 1e16]] too and yet stores and persists 0.5,
    which lies outside it. *)
Theorem Bioreactor_setters_name_another_interval (s : St) :
  let a := PyFloat (of_Z 7) in
  let h := PyFloat (of_Z 100) in
  let g := PyFloat (dec 1 2) in
  let after :=
    setattr (class_ns CBioreactor) "gas_velocity" g
      (Session.br_attrs, Session.waiting_world) in
  setattr (class_ns CBioreactor) "column_diameter" a s
  = (Raise (ValueError [Lit "Value "; Val a;
                        Lit " is outside allowed interval [1, 1e16]"]), s)
  /\ in_closed (PyInt 1) (PyFloat (of_Z (10 ^ 16))) a = Ret true
  /\ setattr (class_ns CBioreactor) "column_height" h s
     = (Raise (AttributeError "column_height"), s)
  /\ Bioreactor.set_column_height h s
     = (Raise (outside_interval h "[1, 1e16]"), s)
  /\ in_closed (PyInt 1) (PyFloat (of_Z (10 ^ 16))) g = Ret false
  /\ fst after = Ret tt
  /\ fst (snd after) !! "_gas_velocity" = Some g
  /\ persisted (snd (snd after)) "params.yaml" "bioreactor_input"
       "gas_velocity" = Some g.
Proof.
  repeat split.
Qed.

(* --------------------------------------------------------------------- *)
(** ** The construction of the driver *)

(** The difference of two equal finite floats is a zero. *)
Lemma sub_equal_is_zero (x y : float) :
  PyFloat.eqb x y = true -> is_finite x = true ->
  is_zero (PyFloat.sub x y) = true.
Proof.
  unfold PyFloat.eqb, SFeqb, PyFloat.sub.
  destruct x as [sx|sx| |sx mx ex], y as [sy|sy| |sy my ey];
    simpl; try discriminate; try (now destruct sx, sy).
  intros H _.
  assert (E : sx = sy /\ ex = ey /\ mx = my).
  { change PosDef.Pos.compare_cont with Pos.compare_cont in H.
    rewrite Pos.compare_cont_spec in H. simpl in H.
    destruct sx, sy; try discriminate;
      destruct (Z.compare_spec ex ey); try discriminate;
      destruct (Pos.compare_spec mx my); try discriminate; auto. }
  destruct E as (-> & -> & ->).
  now rewrite Z.sub_diag.
Qed.

Lemma for_each_app {S A} (l1 l2 : list A) (body : A -> M S unit) (s : S) :
  for_each (l1 ++ l2) body s = bind (for_each l1 body)
                                 (fun _ => for_each l2 body) s.
Proof.
  revert s. induction l1 as [|x l1 IH]; intros s; simpl.
  - reflexivity.
  - unfold bind. destruct (body x s) as [[[]|e] s1]; [|reflexivity].
    rewrite IH. reflexivity.
Qed.

(** The two loops of [find_controls] visit the widgets of the three
    collections one after the other. *)
Lemma find_controls_flat fs pt eh c :
  find_controls fs pt eh c = for_each (fs ++ pt ++ eh) visit_widget c.
Proof.
  unfold find_controls. simpl. rewrite for_each_app. unfold bind.
  destruct (for_each fs visit_widget c) as [[[]|e] c1]; [|reflexivity].
  rewrite for_each_app. unfold bind.
  destruct (for_each pt visit_widget c1) as [[[]|e] c2]; [|reflexivity].
  destruct (for_each eh visit_widget c2) as [[[]|e] c3]; reflexivity.
Qed.

(** Only the flagged controls matter to the walk. *)
Lemma for_each_flagged items c :
  for_each items visit_widget c
  = for_each (flagged items) (fun '(n, o) => visit_widget (n, Optim o)) c.
Proof.
  revert c. induction items as [|[n wd] items IH]; intros c; [reflexivity|].
  cbn [for_each]. unfold flagged. cbn [flat_map fst snd].
  fold (flagged items). unfold bind.
  destruct wd as [o|v].
  - destruct (is_control o) eqn:E.
    + cbn [app for_each]. unfold bind.
      destruct (visit_widget (n, Optim o) c) as [[[]|e] c1];
        [apply IH|reflexivity].
    + assert (H : visit_widget (n, Optim o) c = (Ret tt, c))
        by (unfold visit_widget; now rewrite E).
      rewrite H. apply IH.
  - change (visit_widget (n, Plain v) c) with (Ret tt, c). apply IH.
Qed.

Lemma for_each_raises {S A} (l : list A) (body : A -> M S unit) (x : A) :
  In x l -> (forall s, exists e s', body x s = (Raise e, s')) ->
  forall s, exists e s', for_each l body s = (Raise e, s').
Proof.
  intros Hin Hx. induction l as [|y l IH]; [contradiction|].
  intros s. simpl. unfold bind.
  destruct (body y s) as [[[]|e] s1] eqn:E.
  - destruct Hin as [->|Hin].
    + destruct (Hx s) as (e & s' & He). congruence.
    + apply (IH Hin).
  - eauto.
Qed.

(** The stages of [__init__], one after the other. *)
Lemma init_stages ext fs pt eh br objw hpc nb pf w :
  __init__ ext fs pt eh br objw hpc nb pf w =
  match objw with
  | [] => (Raise IndexError, w)
  | out :: _ =>
      match define_n_models the_output_names out with
      | Raise e => (Raise e, w)
      | Ret n =>
          match init_models ext fs pt eh br hpc nb pf n w with
          | (Raise e, w1) => (Raise e, w1)
          | (Ret models, w1) =>
              match find_controls fs pt eh no_controls with
              | (Raise e, _) => (Raise e, w1)
              | (Ret _, c) =>
                  if (length (c_x_0 c) =? 0)%nat then
                    (Raise (ValueError [Lit "No controls have been specified, retry with >= 1 control variables."]), w1)
                  else
                    (Ret {| hpc_run := hpc; notebookDir := nb;
                            params_filename := pf;
                            output_names := the_output_names;
                            output_name := out;
                            objective_name := List.last objw out;
                            n_models := n; models_list := models;
                            fn_evals := 0; objective_scaling := of_Z 1;
                            x_0 := c_x_0 c; var_names := c_var_names c;
                            nice_var_names := c_nice_var_names c;
                            var_bounds := c_var_bounds c;
                            var_real_bounds := c_var_real_bounds c;
                            opt_results_file := None; opt_result := None |},
                     w1)
              end
          end
      end
  end.
Proof.
  unfold __init__, bind, lift.
  destruct objw as [|out objw']; [reflexivity|].
  destruct (define_n_models the_output_names out) as [n|e]; [|reflexivity].
  destruct (init_models ext fs pt eh br hpc nb pf n w) as [[models|e] w1];
    [|reflexivity].
  destruct (find_controls fs pt eh no_controls) as [[[]|e] c]; [|reflexivity].
  destruct (length (c_x_0 c) =? 0)%nat; reflexivity.
Qed.

(** C7: if a flagged control of the feedstock, pretreatment or enzymatic
    hydrolysis widgets has equal finite bounds, [__init__] ends in an
    exception ([normalize] divides by zero), so no driver exists to
    evaluate anything. *)
Theorem init_fails_on_degenerate_bounds
  (ext : Externals) (fs pt eh br : WidgetCollection) (objw : list string)
  (hpc : bool) (nb pf : string) (w : World)
  (name : string) (o : OptimizationWidget) :
  In (name, Optim o) (fs ++ pt ++ eh) ->
  is_control o = true ->
  PyFloat.eqb (w_max o) (w_min o) = true ->
  is_finite (w_max o) = true ->
  normalize (w_value o) (w_min o, w_max o) = Raise ZeroDivisionError
  /\ exists e : exn, fst (__init__ ext fs pt eh br objw hpc nb pf w) = Raise e.
Proof.
  intros Hin Hc Heq Hfin.
  assert (Hn : normalize (w_value o) (w_min o, w_max o)
               = Raise ZeroDivisionError).
  { unfold normalize, truediv. cbn [num_is_zero num_sub float_Number].
    now rewrite (sub_equal_is_zero _ _ Heq Hfin). }
  split; [exact Hn|].
  rewrite init_stages.
  destruct objw as [|out objw']; [eauto|].
  destruct (define_n_models the_output_names out) as [n|e]; [|eauto].
  destruct (init_models ext fs pt eh br hpc nb pf n w) as [[models|e] w1];
    [|eauto].
  rewrite find_controls_flat.
  destruct (for_each_raises (fs ++ pt ++ eh) visit_widget (name, Optim o) Hin)
    with (s := no_controls) as (e & c & He).
  - intros c. unfold visit_widget. rewrite Hc, Hn. eauto.
  - rewrite He. eauto.
Qed.

Lemma init_fails_on_degenerate_bounds_witness :
  let fs := Session.fs_options false in
  let pt := Session.pt_options false true 15 15 in
  normalize (of_Z 15) (of_Z 15, of_Z 15) = Raise ZeroDivisionError
  /\ exists e : exn,
      fst (__init__ (Session.stub (Session.constant (of_Z 0))) fs pt [] []
             ["pretreatment_output"; "X_G"] false "/nb" "params.yaml"
             Session.w0) = Raise e.
Proof.
  intros fs pt.
  apply (init_fails_on_degenerate_bounds
           (Session.stub (Session.constant (of_Z 0))) fs pt [] []
           ["pretreatment_output"; "X_G"] false "/nb" "params.yaml" Session.w0
           "final_time"
           {| is_control := true; w_min := of_Z 15; w_max := of_Z 15;
              w_value := of_Z 15; description := "Final Time" |}).
  - simpl. right. right. right. right. right. right. left. reflexivity.
  - reflexivity.
  - reflexivity.
  - reflexivity.
Defined.

Lemma flagged_is_control items n o :
  In (n, o) (flagged items) -> is_control o = true.
Proof.
  unfold flagged. rewrite in_flat_map. intros ([n' wd] & _ & H).
  cbn [fst snd] in H. destruct wd as [o'|v]; [|contradiction].
  destruct (is_control o') eqn:E; [|contradiction].
  destruct H as [H|[]]. now inversion H; subst.
Qed.

(** C8: without a flagged control among the feedstock, pretreatment and
    enzymatic hydrolysis widgets [__init__] never returns, and once the
    stage models are built the exception is the [ValueError] that asks for
    a control; with exactly one flagged control, of a range that is not
    empty, it returns a driver whose vector [x_0] has length 1. *)
Theorem init_needs_a_flagged_control :
  (forall (ext : Externals) (fs pt eh br : WidgetCollection)
          (objw : list string) (hpc : bool) (nb pf : string) (w : World),
      flagged (fs ++ pt ++ eh) = [] ->
      (exists e : exn,
          fst (__init__ ext fs pt eh br objw hpc nb pf w) = Raise e)
      /\ forall out rest n models w1,
          objw = out :: rest ->
          define_n_models the_output_names out = Ret n ->
          init_models ext fs pt eh br hpc nb pf n w = (Ret models, w1) ->
          __init__ ext fs pt eh br objw hpc nb pf w
          = (Raise (ValueError [Lit "No controls have been specified, retry with >= 1 control variables."]),
             w1))
  /\ (forall (ext : Externals) (fs pt eh br : WidgetCollection)
             (objw : list string) (hpc : bool) (nb pf : string) (w : World)
             (name : string) (o : OptimizationWidget)
             out rest n models w1,
         flagged (fs ++ pt ++ eh) = [(name, o)] ->
         is_zero (PyFloat.sub (w_max o) (w_min o)) = false ->
         objw = out :: rest ->
         define_n_models the_output_names out = Ret n ->
         init_models ext fs pt eh br hpc nb pf n w = (Ret models, w1) ->
         exists opt : Optimization,
           __init__ ext fs pt eh br objw hpc nb pf w = (Ret opt, w1)
           /\ length (x_0 opt) = 1%nat
           /\ var_names opt = [name]
           /\ var_real_bounds opt = [(w_min o, w_max o)]).
Proof.
  split.
  - intros ext fs pt eh br objw hpc nb pf w Hflag.
    assert (Hwalk : find_controls fs pt eh no_controls = (Ret tt, no_controls)).
    { rewrite find_controls_flat, for_each_flagged, Hflag. reflexivity. }
    split.
    + rewrite init_stages, Hwalk.
      destruct objw as [|out objw']; [eauto|].
      destruct (define_n_models the_output_names out) as [n|e]; [|eauto].
      destruct (init_models ext fs pt eh br hpc nb pf n w)
        as [[models|e] w1]; simpl; eauto.
    + intros out rest n models w1 -> Hn Hm.
      rewrite init_stages, Hn, Hm, Hwalk. reflexivity.
  - intros ext fs pt eh br objw hpc nb pf w name o out rest n models w1
      Hflag Hnz -> Hn Hm.
    assert (Hc : is_control o = true).
    { apply (flagged_is_control (fs ++ pt ++ eh) name). rewrite Hflag.
      now left. }
    assert (Hwalk : exists c,
               find_controls fs pt eh no_controls = (Ret tt, c)
               /\ length (c_x_0 c) = 1%nat /\ c_var_names c = [name]
               /\ c_var_real_bounds c = [(w_min o, w_max o)]).
    { rewrite find_controls_flat, for_each_flagged, Hflag.
      cbn [for_each]. unfold bind, visit_widget. rewrite Hc.
      unfold normalize, truediv. cbn [num_is_zero num_sub float_Number].
      rewrite Hnz. eexists. split; [reflexivity|]. repeat split. }
    destruct Hwalk as (c & Hwalk & Hlen & Hnames & Hbounds).
    rewrite init_stages, Hn, Hm, Hwalk, Hlen. cbn [Nat.eqb].
    eexists. split; [reflexivity|]. cbn [x_0 var_names var_real_bounds].
    auto.
Qed.

Lemma init_needs_a_flagged_control_witness :
  let ext := Session.stub (Session.constant (of_Z 0)) in
  let fs := Session.fs_options false in
  let none := Session.pt_options false false 10 20 in
  let one := Session.pt_options false true 10 20 in
  let objw := ["pretreatment_output"; "X_G"] in
  (exists e : exn,
      fst (__init__ ext fs none [] [] objw false "/nb" "params.yaml"
             Session.w0) = Raise e)
  /\ exists opt : Optimization,
      __init__ ext fs one [] [] objw false "/nb" "params.yaml" Session.w0
      = (Ret opt,
         snd (init_models ext fs one [] [] false "/nb" "params.yaml" 1
                Session.w0))
      /\ length (x_0 opt) = 1%nat
      /\ var_names opt = ["final_time"]
      /\ var_real_bounds opt = [(of_Z 10, of_Z 20)].
Proof.
  intros ext fs none one objw. split.
  - apply (proj1 init_needs_a_flagged_control ext fs none [] [] objw false
             "/nb" "params.yaml" Session.w0).
    reflexivity.
  - apply (proj2 init_needs_a_flagged_control ext fs one [] [] objw false
             "/nb" "params.yaml" Session.w0 "final_time"
             {| is_control := true; w_min := of_Z 10; w_max := of_Z 20;
                w_value := of_Z 15; description := "Final Time" |}
             "pretreatment_output" ["X_G"] 1
             (match fst (init_models ext fs one [] [] false "/nb"
                           "params.yaml" 1 Session.w0) with
              | Ret m => m
              | Raise _ => []
              end)).
    + reflexivity.
    + reflexivity.
    + reflexivity.
    + reflexivity.
    + vm_compute. reflexivity.
Defined.

(* --------------------------------------------------------------------- *)
(** ** The lists of a constructed driver *)

Lemma for_each_invariant {S A} (P : S -> Prop) (l : list A)
  (body : A -> M S unit) :
  (forall x s, P s -> P (snd (body x s))) ->
  forall s, P s -> P (snd (for_each l body s)).
Proof.
  intros Hb. induction l as [|x l IH]; intros s Hs; [exact Hs|].
  cbn [for_each]. unfold bind. specialize (Hb x s Hs).
  destruct (body x s) as [[[]|e] s1]; [apply IH|]; exact Hb.
Qed.

(** [__init__] keeps one name, one display name, one pair of normalised
    bounds and one pair of real bounds per entry of [x_0]. *)
Lemma init_lists_agree ext fs pt eh br objw hpc nb pf w opt w1 :
  __init__ ext fs pt eh br objw hpc nb pf w = (Ret opt, w1) ->
  length (var_names opt) = length (x_0 opt)
  /\ length (nice_var_names opt) = length (x_0 opt)
  /\ length (var_bounds opt) = length (x_0 opt)
  /\ length (var_real_bounds opt) = length (x_0 opt)
  /\ fn_evals opt = 0
  /\ objective_scaling opt = of_Z 1.
Proof.
  rewrite init_stages.
  destruct objw as [|out objw']; [discriminate|].
  destruct (define_n_models the_output_names out) as [n|e]; [|discriminate].
  destruct (init_models ext fs pt eh br hpc nb pf n w) as [[models|e] w0];
    [|discriminate].
  pose proof (for_each_invariant
                (fun c => length (c_var_names c) = length (c_x_0 c)
                          /\ length (c_nice_var_names c) = length (c_x_0 c)
                          /\ length (c_var_bounds c) = length (c_x_0 c)
                          /\ length (c_var_real_bounds c) = length (c_x_0 c))
                (fs ++ pt ++ eh) visit_widget) as Hinv.
  rewrite find_controls_flat.
  specialize (Hinv ltac:(
    intros [nm [o|v]] c (H1 & H2 & H3 & H4); cbn [visit_widget];
    [ destruct (is_control o); [|now repeat split];
      unfold bind, lift;
      destruct (normalize (w_value o) (w_min o, w_max o));
      [ cbn [modify snd c_x_0 c_var_names c_nice_var_names c_var_bounds
               c_var_real_bounds];
        rewrite !length_app; cbn [length]; lia
      | now repeat split ]
    | now repeat split ]) no_controls ltac:(now repeat split)).
  destruct (for_each (fs ++ pt ++ eh) visit_widget no_controls)
    as [[[]|e] c]; [|discriminate].
  cbn [snd] in Hinv.
  destruct (length (c_x_0 c) =? 0)%nat; [discriminate|].
  intros [= <- _]. cbn. tauto.
Qed.

(* --------------------------------------------------------------------- *)
(** ** The parameter grid *)

Local Open Scope nat_scope.

Lemma seq_blocks (n m : nat) :
  seq 0 (n * m)
  = flat_map (fun a => map (fun r => a * m + r) (seq 0 m)) (seq 0 n).
Proof.
  induction n as [|n IH]; [reflexivity|].
  rewrite seq_S, flat_map_app. cbn [flat_map]. rewrite app_nil_r, <- IH.
  replace (S n * m) with (n * m + m) by lia.
  rewrite seq_app. f_equal.
  cbn [Nat.add]. clear IH. generalize (n * m) as k. intros k.
  rewrite <- (Nat.add_0_r k) at 1.
  generalize 0 as j. induction m as [|m IHm]; intros j; [reflexivity|].
  cbn [seq map]. f_equal. rewrite <- IHm. f_equal. lia.
Qed.

Lemma map_nth_seq {A} (x : list A) (d : A) :
  map (fun a => nth a x d) (seq 0 (length x)) = x.
Proof.
  induction x as [|v x IH]; [reflexivity|].
  cbn [length seq map nth]. f_equal.
  rewrite <- seq_shift, map_map. exact IH.
Qed.

Lemma map_via_seq {A B} (g : A -> B) (x : list A) (d : A) :
  map g x = map (fun i => g (nth i x d)) (seq 0 (length x)).
Proof.
  now rewrite <- (map_map (fun i => nth i x d) g), map_nth_seq.
Qed.

Lemma size_of_app (l1 l2 : list nat) :
  numpy.size_of (l1 ++ l2) = numpy.size_of l1 * numpy.size_of l2.
Proof.
  unfold numpy.size_of. induction l1 as [|a l1 IH]; simpl; [lia|].
  rewrite IH. lia.
Qed.

(** The index along an axis does not see the blocks of an outer axis. *)
Lemma unravel_block (shape : list nat) (a r i : nat) :
  i < length shape -> r < numpy.size_of shape ->
  numpy.unravel shape (a * numpy.size_of shape + r) i
  = numpy.unravel shape r i.
Proof.
  intros Hi Hr. unfold numpy.unravel.
  set (q := numpy.size_of (skipn (S i) shape)).
  set (k := nth i shape 1).
  assert (Hm : numpy.size_of shape
               = numpy.size_of (firstn i shape) * k * q).
  { rewrite <- (firstn_skipn i shape) at 1. rewrite size_of_app.
    rewrite <- Nat.mul_assoc. f_equal.
    destruct (skipn i shape) as [|k' tl] eqn:E.
    - apply (f_equal (@length nat)) in E. rewrite length_skipn in E.
      simpl in E. lia.
    - assert (Hk : k = k').
      { unfold k. rewrite <- (firstn_skipn i shape), E.
        rewrite app_nth2; rewrite length_firstn; [|lia].
        replace (i - Nat.min i (length shape)) with 0 by lia. reflexivity. }
      assert (Hq : q = numpy.size_of tl).
      { unfold q. replace (S i) with (1 + i) by lia.
        rewrite <- skipn_skipn, E. reflexivity. }
      rewrite Hk, Hq. reflexivity. }
  assert (Hq : q <> 0) by (intros E; rewrite E in Hm; lia).
  assert (Hk : k <> 0) by (intros E; rewrite E in Hm; lia).
  rewrite Hm.
  replace (a * (numpy.size_of (firstn i shape) * k * q) + r)
    with (r + (a * numpy.size_of (firstn i shape) * k) * q) by lia.
  rewrite Nat.div_add by exact Hq.
  replace (r / q + a * numpy.size_of (firstn i shape) * k)
    with (r / q + (a * numpy.size_of (firstn i shape)) * k) by lia.
  now rewrite Nat.Div0.mod_add.
Qed.

Lemma row_at_cons (x : list float) (rest : list (list float)) (a r : nat) :
  a < length x -> r < numpy.size_of (map (@length float) rest) ->
  row_at (x :: rest) (a * numpy.size_of (map (@length float) rest) + r)
  = nth a x nan :: row_at rest r.
Proof.
  intros Ha Hr. unfold row_at. cbn [length seq map].
  set (m := numpy.size_of (map (@length float) rest)) in *.
  f_equal.
  - f_equal. unfold numpy.unravel. cbn [skipn nth]. rewrite drop_0. fold m.
    rewrite Nat.div_add_l by lia. rewrite (Nat.div_small r m) by lia.
    rewrite Nat.add_0_r. now apply Nat.mod_small.
  - rewrite <- seq_shift, map_map. apply map_ext_in. intros i Hi.
    apply in_seq in Hi. cbn [nth]. f_equal.
    change (numpy.unravel (length x :: map (@length float) rest)
              (a * m + r) (S i))
      with (numpy.unravel (map (@length float) rest) (a * m + r) i).
    apply unravel_block; [rewrite length_map; lia | exact Hr].
Qed.

(** The rows of the grid in the order of their positions are the
    Cartesian product of the axes, the first axis varying slowest. *)
Lemma rows_are_cartesian (xs : list (list float)) :
  map (row_at xs) (seq 0 (numpy.size_of (map (@length float) xs)))
  = cartesian xs.
Proof.
  induction xs as [|x rest IH]; [reflexivity|].
  cbn [map cartesian]. rewrite <- IH.
  change (numpy.size_of (length x :: map (@length float) rest))
    with (length x * numpy.size_of (map (@length float) rest)).
  set (m := numpy.size_of (map (@length float) rest)).
  rewrite seq_blocks, flat_map_concat_map, concat_map, map_map.
  rewrite (flat_map_concat_map _ x).
  rewrite (map_via_seq _ x nan).
  f_equal. apply map_ext_in. intros a Ha. apply in_seq in Ha.
  rewrite !map_map. apply map_ext_in. intros r Hr. apply in_seq in Hr.
  apply row_at_cons; lia.
Qed.

Lemma cartesian_length {A} (xs : list (list A)) :
  length (cartesian xs) = numpy.size_of (map (@length A) xs).
Proof.
  induction xs as [|x rest IH]; [reflexivity|].
  cbn [cartesian map]. 
  change (numpy.size_of (length x :: map (@length A) rest))
    with (length x * numpy.size_of (map (@length A) rest)).
  rewrite <- IH. clear IH.
  induction x as [|a x IHx]; [reflexivity|].
  cbn [flat_map length]. rewrite length_app, length_map, IHx. lia.
Qed.

Lemma nth_map_seq {B} (f : nat -> B) (n j : nat) (d : B) :
  j < n -> nth j (map f (seq 0 n)) d = f j.
Proof.
  intros H. rewrite (nth_indep _ d (f 0)) by (rewrite length_map, length_seq; lia).
  rewrite map_nth, seq_nth by lia. reflexivity.
Qed.

Lemma meshgrid_data_length (xs : list (list float)) (a : numpy.ndarray) :
  In a (numpy.meshgrid_ij xs) ->
  length (numpy.data a) = numpy.size_of (map (@length float) xs).
Proof.
  unfold numpy.meshgrid_ij. rewrite in_map_iff. intros (i & <- & _).
  cbn [numpy.data]. now rewrite length_map, length_seq.
Qed.

(** The loop that fills [grid_ravel] copies the ravelled meshes. *)
Lemma fill_grid_ravel_copies (pre gm : list numpy.ndarray) (ncols : nat) :
  (forall a, In a gm -> length (numpy.data a) = ncols) ->
  fill_grid_ravel (pre ++ gm) ncols (seq (length pre) (length gm))
  = Ret (map numpy.data gm).
Proof.
  revert pre. induction gm as [|a gm IH]; intros pre H; [reflexivity|].
  cbn [length seq fill_grid_ravel map].
  rewrite list_lookup_middle by reflexivity.
  unfold numpy.assign_row, numpy.ravel.
  rewrite (H a (or_introl eq_refl)), Nat.eqb_refl.
  replace (pre ++ a :: gm) with ((pre ++ [a]) ++ gm)
    by now rewrite <- app_assoc.
  replace (S (length pre)) with (length (pre ++ [a]))
    by (rewrite length_app; simpl; lia).
  rewrite IH; [reflexivity|]. intros b Hb. apply H. now right.
Qed.

(** The transposed [grid_ravel] lists the rows of the grid by position. *)
Lemma transpose_meshgrid (xs : list (list float)) :
  numpy.transpose (numpy.size_of (map (@length float) xs))
    (map numpy.data (numpy.meshgrid_ij xs))
  = map (row_at xs) (seq 0 (numpy.size_of (map (@length float) xs))).
Proof.
  unfold numpy.transpose. apply map_ext_in. intros j Hj. apply in_seq in Hj.
  unfold numpy.meshgrid_ij, row_at. rewrite !map_map. cbn [numpy.data].
  apply map_ext. intros i.
  apply (nth_map_seq
           (fun p => nth (numpy.unravel (map (@length float) xs) p i)
                       (nth i xs []) nan)).
  lia.
Qed.

Lemma size_of_constant (l : list nat) (n : nat) :
  Forall (fun k => k = n) l -> numpy.size_of l = n ^ length l.
Proof.
  induction 1 as [|k l -> _ IH]; [reflexivity|].
  cbn [length Nat.pow]. rewrite <- IH. reflexivity.
Qed.

Lemma set_last_length {A} (y : list A) (x : A) :
  length (numpy.set_last y x) = length y.
Proof.
  induction y as [|v [|v' y] IH]; try reflexivity.
  cbn [numpy.set_last length] in *. now rewrite IH.
Qed.

Lemma set_last_last {A} (y : list A) (x d : A) :
  y <> [] -> List.last (numpy.set_last y x) d = x.
Proof.
  induction y as [|v [|v' y] IH]; intros H; [contradiction|reflexivity|].
  change (numpy.set_last (v :: v' :: y) x)
    with (v :: numpy.set_last (v' :: y) x).
  specialize (IH ltac:(discriminate)).
  destruct (numpy.set_last (v' :: y) x) eqn:E; [|exact IH].
  apply (f_equal (@length A)) in E. rewrite set_last_length in E.
  discriminate.
Qed.

Lemma arange_length (n : Z) : length (numpy.arange n) = Z.to_nat n.
Proof. unfold numpy.arange. now rewrite length_map, length_seq. Qed.

(** [linspace] gives [num] samples. *)
Lemma linspace_length (start stop : float) (n : Z) :
  (0 <= n)%Z ->
  exists y, numpy.linspace start stop n = Ret y /\ length y = Z.to_nat n.
Proof.
  intros Hn. unfold numpy.linspace.
  destruct (Z.ltb_spec n 0); [lia|].
  eexists. split; [reflexivity|].
  destruct (1 <? n)%Z; rewrite ?set_last_length, length_map;
    apply arange_length.
Qed.

Lemma make_grid_x_axes (bounds : list (float * float)) (n : Z) :
  (0 <= n)%Z ->
  exists xs, make_grid_x bounds n = Ret xs
             /\ Forall2 (fun b x => numpy.linspace (fst b) (snd b) n = Ret x)
                  bounds xs.
Proof.
  intros Hn. induction bounds as [|b bounds (xs & IH & Hall)].
  - exists []. split; [reflexivity|constructor].
  - destruct (linspace_length (fst b) (snd b) n Hn) as (y & Hy & _).
    exists (y :: xs). cbn [make_grid_x]. rewrite Hy, IH.
    split; [reflexivity|]. now constructor.
Qed.

(** The grid of the sweep is the Cartesian product of its axes. *)
Lemma make_grid_is_cartesian (bounds : list (float * float)) (n : Z)
  (xs : list (list float)) :
  (0 <= n)%Z ->
  make_grid_x bounds n = Ret xs ->
  Forall2 (fun b x => numpy.linspace (fst b) (snd b) n = Ret x) bounds xs ->
  make_grid bounds (length bounds) n = Ret (cartesian xs)
  /\ Z.of_nat (length (cartesian xs)) = (n ^ Z.of_nat (length bounds))%Z.
Proof.
  intros Hn Hx Hall.
  assert (Hlen : Forall (fun k => k = Z.to_nat n) (map (@length float) xs)).
  { clear Hx. induction Hall as [|b x bounds xs Hb _ IH]; constructor; auto.
    destruct (linspace_length (fst b) (snd b) n Hn) as (y & Hy & Hl).
    congruence. }
  assert (Hd : length xs = length bounds)
    by (symmetry; eapply Forall2_length; eauto).
  assert (Hsize : numpy.size_of (map (@length float) xs)
                  = Z.to_nat (n ^ Z.of_nat (length bounds))).
  { rewrite (size_of_constant _ _ Hlen), length_map, Hd.
    rewrite <- (Z2Nat.id n) at 2 by lia.
    rewrite <- Nat2Z.inj_pow, Nat2Z.id. reflexivity. }
  split.
  - unfold make_grid. rewrite Hx.
    destruct (Z.ltb_spec (n ^ Z.of_nat (length bounds)) 0) as [Hneg|_].
    { pose proof (Z.pow_nonneg n (Z.of_nat (length bounds)) Hn). lia. }
    rewrite <- Hsize, <- Hd.
    replace (length xs) with (length (numpy.meshgrid_ij xs))
      by (unfold numpy.meshgrid_ij; now rewrite length_map, length_seq).
    rewrite (fill_grid_ravel_copies [] (numpy.meshgrid_ij xs))
      by (apply meshgrid_data_length).
    now rewrite transpose_meshgrid, rows_are_cartesian.
  - rewrite cartesian_length, Hsize, Z2Nat.id; [reflexivity|].
    now apply Z.pow_nonneg.
Qed.

Lemma cartesian_nonempty {A} (xs : list (list A)) :
  Forall (fun x => x <> []) xs -> cartesian xs <> [].
Proof.
  induction 1 as [|x xs Hx _ IH]; [discriminate|].
  destruct x as [|a x]; [contradiction|]. cbn [cartesian flat_map].
  destruct (cartesian xs); [contradiction|discriminate].
Qed.

(** The first row of the product takes the first sample of every axis. *)
Lemma cartesian_first (xs : list (list float)) :
  Forall (fun x => x <> []) xs ->
  hd [] (cartesian xs) = map (hd nan) xs.
Proof.
  induction 1 as [|x xs Hx Hxs IH]; [reflexivity|].
  destruct x as [|a x]; [contradiction|]. cbn [cartesian flat_map map hd].
  pose proof (cartesian_nonempty xs Hxs).
  destruct (cartesian xs) as [|r rs]; [contradiction|].
  cbn [map app hd] in *. now rewrite IH.
Qed.

Lemma last_app_nonempty {A} (l1 l2 : list A) (d : A) :
  l2 <> [] -> List.last (l1 ++ l2) d = List.last l2 d.
Proof.
  intros H. induction l1 as [|a l1 IH]; [reflexivity|].
  cbn [app List.last]. rewrite IH.
  destruct (l1 ++ l2) eqn:E; [|reflexivity].
  apply app_eq_nil in E. now destruct E.
Qed.

Lemma last_map_cons {A} (a : A) (l : list (list A)) :
  l <> [] -> List.last (map (cons a) l) [] = a :: List.last l [].
Proof.
  induction l as [|r [|r' l] IH]; intros H; [contradiction|reflexivity|].
  specialize (IH ltac:(discriminate)). exact IH.
Qed.

(** The last row of the product takes the last sample of every axis. *)
Lemma cartesian_last (xs : list (list float)) :
  Forall (fun x => x <> []) xs ->
  List.last (cartesian xs) [] = map (fun x => List.last x nan) xs.
Proof.
  induction 1 as [|x xs Hx Hxs IH]; [reflexivity|].
  cbn [cartesian map]. rewrite <- IH.
  pose proof (cartesian_nonempty xs Hxs) as Hne.
  rewrite (app_removelast_last nan Hx) at 1.
  rewrite flat_map_app. cbn [flat_map]. rewrite app_nil_r.
  rewrite last_app_nonempty.
  - now apply last_map_cons.
  - destruct (cartesian xs); [contradiction|discriminate].
Qed.

Lemma set_last_nth {A} (y : list A) (x d : A) (j : nat) :
  j < length y - 1 -> nth j (numpy.set_last y x) d = nth j y d.
Proof.
  revert j. induction y as [|v [|v' y] IH]; intros j Hj;
    [reflexivity | simpl in Hj; lia |].
  change (numpy.set_last (v :: v' :: y) x)
    with (v :: numpy.set_last (v' :: y) x).
  destruct j as [|j]; [reflexivity|]. cbn [nth]. apply IH.
  cbn [length] in *. lia.
Qed.

Lemma arange_nth (n : Z) (j : nat) (d : float) :
  j < Z.to_nat n -> nth j (numpy.arange n) d = of_Z (Z.of_nat j).
Proof.
  intros H. unfold numpy.arange.
  now apply (nth_map_seq (fun k => of_Z (Z.of_nat k))).
Qed.

(** The samples of [linspace] for two points or more: [num] of them, the
    last one the upper bound itself, the others computed from their
    index. *)
Lemma linspace_samples (start stop : float) (n : Z) (y : list float) :
  (2 <= n)%Z -> numpy.linspace start stop n = Ret y ->
  length y = Z.to_nat n
  /\ List.last y nan = stop
  /\ forall j, j < Z.to_nat n - 1 ->
               nth j y nan = numpy.sample start stop n (of_Z (Z.of_nat j)).
Proof.
  intros Hn. unfold numpy.linspace.
  destruct (Z.ltb_spec n 0); [lia|].
  destruct (Z.ltb_spec 1 n); [|lia].
  intros [= <-].
  assert (Hl : length (map (numpy.sample start stop n) (numpy.arange n))
               = Z.to_nat n) by now rewrite length_map, arange_length.
  split; [|split].
  - now rewrite set_last_length.
  - apply set_last_last. intros E. rewrite E in Hl. simpl in Hl. lia.
  - intros j Hj. rewrite set_last_nth by lia.
    rewrite (nth_indep _ nan (numpy.sample start stop n nan)) by lia.
    rewrite map_nth. f_equal. apply arange_nth. lia.
Qed.

Lemma eqb_same_finite (x : float) :
  is_finite x = true -> PyFloat.eqb x x = true.
Proof.
  unfold PyFloat.eqb, SFeqb.
  destruct x as [s|s| |s m e]; try discriminate; [reflexivity|].
  intros _. cbn [SFcompare].
  change PosDef.Pos.compare_cont with Pos.compare_cont.
  rewrite Z.compare_refl, Pos.compare_cont_refl. now destruct s.
Qed.

Lemma add_zero_l (s : bool) (x : float) :
  is_finite x = true -> PyFloat.eqb (PyFloat.add (S754_zero s) x) x = true.
Proof.
  destruct x as [sx|sx| |sx m e]; try discriminate; intros _.
  - now destruct s, sx.
  - now apply eqb_same_finite.
Qed.

(** Without overflow the first sample of [linspace] equals the lower
    bound. *)
Lemma sample_at_zero (start stop : float) (n : Z) :
  (2 <= n)%Z -> spacing_finite (start, stop) n = true ->
  PyFloat.eqb (numpy.sample start stop n (of_Z 0)) start = true.
Proof.
  intros Hn. unfold spacing_finite, numpy.sample. cbn [fst snd].
  destruct (Z.ltb_spec 0 (n - 1)) as [_|]; [|lia].
  change (of_Z 0) with (S754_zero false).
  intros H. apply andb_prop in H as [H Hfd]. apply andb_prop in H as [H Hstep].
  apply andb_prop in H as [Hstart Hdelta].
  destruct (of_Z (n - 1)) as [| | |sd md ed]; try discriminate.
  destruct (PyFloat.eqb _ (S754_zero false)).
  - cbn [PyFloat.div SFdiv].
    destruct (PyFloat.sub stop start) as [sq|sq| |sq mq eq]; try discriminate;
      now apply add_zero_l.
  - destruct (PyFloat.div _ _) as [sq|sq| |sq mq eq]; try discriminate;
      now apply add_zero_l.
Qed.

(** One step of the sweep writes the value of the pipeline as it is. *)
Lemma sweep_step_eq ext file (i : nat) dims s r f s1 :
  run_models_with_new_values ext dims false s = (Ret r, s1) ->
  format_e r = Ret f ->
  sweep_step ext file (i, dims) s
  = (Ret tt,
     (fst s1,
      set_logs (fun m => <[file := default [] (m !! file)
                                   ++ [Row 9 (Z.of_nat i + 1) dims f]]> m)
        (snd s1))).
Proof.
  intros Hrun Hf. unfold sweep_step.
  rewrite (bind_ret _ _ _ _ _ Hrun). rewrite Hf, bind_lift_ret.
  destruct s1 as [o1 w1]. now rewrite world_run.
Qed.

Local Close Scope nat_scope.

Lemma axis_ends (b : float * float) (x : list float) (n : Z) :
  2 <= n -> numpy.linspace (fst b) (snd b) n = Ret x ->
  x <> []
  /\ List.last x nan = snd b
  /\ (spacing_finite b n = true -> PyFloat.eqb (hd nan x) (fst b) = true).
Proof.
  intros Hn Hx.
  destruct (linspace_samples _ _ _ _ Hn Hx) as (Hl & Hlast & Hnth).
  split; [|split; [exact Hlast|]].
  - intros ->. simpl in Hl. lia.
  - intros Hfin. destruct x as [|v x]; [simpl in Hl; lia|].
    specialize (Hnth 0%nat ltac:(lia)). cbn [nth hd] in *. rewrite Hnth.
    destruct b as [lb ub]. now apply sample_at_zero.
Qed.

Lemma axes_ends (bounds : list (float * float)) (xs : list (list float))
  (n : Z) :
  2 <= n ->
  Forall2 (fun b x => numpy.linspace (fst b) (snd b) n = Ret x) bounds xs ->
  Forall (fun x => x <> []) xs
  /\ map (fun x => List.last x nan) xs = map snd bounds
  /\ (forallb (fun b => spacing_finite b n) bounds = true ->
      Forall2 (fun v b => PyFloat.eqb v (fst b) = true)
        (map (hd nan) xs) bounds).
Proof.
  intros Hn. induction 1 as [|b x bounds xs Hb _ (IH1 & IH2 & IH3)].
  - repeat split; constructor.
  - destruct (axis_ends b x n Hn Hb) as (Hne & Hlast & Hfirst).
    split; [|split].
    + now constructor.
    + cbn [map]. now rewrite Hlast, IH2.
    + cbn [forallb map]. intros H. apply andb_prop in H as [H1 H2].
      constructor; auto.
Qed.

Lemma nth_last_index {A} (l : list A) (d : A) :
  nth (length l - 1) l d = List.last l d.
Proof.
  induction l as [|a [|b l] IH]; [reflexivity|reflexivity|].
  replace (length (a :: b :: l) - 1)%nat with (S (length (b :: l) - 1))
    by (cbn [length]; lia).
  exact IH.
Qed.

Lemma sub_finite_operands (a b : float) :
  is_finite (PyFloat.sub a b) = true ->
  is_finite a = true /\ is_finite b = true.
Proof.
  destruct a as [sa|sa| |sa ma ea], b as [sb|sb| |sb mb eb];
    try (destruct sa, sb); try discriminate; now split.
Qed.

(** The only sample of [linspace] with one point equals the lower bound,
    when the difference of the bounds does not overflow. *)
Lemma sample_of_one_point (start stop : float) :
  is_finite (PyFloat.sub stop start) = true ->
  PyFloat.eqb (numpy.sample start stop 1 (of_Z 0)) start = true.
Proof.
  intros Hd. destruct (sub_finite_operands _ _ Hd) as [_ Hs].
  unfold numpy.sample. change (0 <? 1 - 1) with false. cbv iota.
  change (of_Z 0) with (S754_zero false).
  destruct (PyFloat.sub stop start) as [sd|sd| |sd md ed]; try discriminate;
    now apply add_zero_l.
Qed.

Lemma linspace_one_point (start stop : float) :
  numpy.linspace start stop 1 = Ret [numpy.sample start stop 1 (of_Z 0)].
Proof. reflexivity. Qed.

Lemma cartesian_singletons {A} (l : list A) :
  cartesian (map (fun a => [a]) l) = [l].
Proof.
  induction l as [|a l IH]; [reflexivity|].
  cbn [map cartesian flat_map]. rewrite IH. reflexivity.
Qed.

(** The grid of one point per control: one row, the lower bounds. *)
Lemma grid_of_one_point (bounds : list (float * float)) :
  forallb (fun b => is_finite (PyFloat.sub (snd b) (fst b))) bounds = true ->
  exists row : list float,
    make_grid bounds (length bounds) 1 = Ret [row]
    /\ Forall2 (fun v b => PyFloat.eqb v (fst b) = true) row bounds.
Proof.
  intros Hfin.
  set (row := map (fun b => numpy.sample (fst b) (snd b) 1 (of_Z 0)) bounds).
  assert (Hxs : make_grid_x bounds 1 = Ret (map (fun a => [a]) row)).
  { unfold row. clear. induction bounds as [|b bounds IH]; [reflexivity|].
    cbn [make_grid_x map]. rewrite linspace_one_point, IH. reflexivity. }
  assert (Hall : Forall2 (fun b x => numpy.linspace (fst b) (snd b) 1 = Ret x)
                   bounds (map (fun a => [a]) row)).
  { unfold row. clear. induction bounds as [|b bounds IH]; constructor; trivial. }
  destruct (make_grid_is_cartesian bounds 1 _ ltac:(lia) Hxs Hall) as [Hgrid _].
  rewrite cartesian_singletons in Hgrid.
  exists row. split; [exact Hgrid|].
  unfold row. clear -Hfin. induction bounds as [|b bounds IH]; [constructor|].
  cbn [forallb] in Hfin. apply andb_prop in Hfin as [H1 H2].
  cbn [map]. constructor; [|now apply IH].
  now apply sample_of_one_point.
Qed.

(** The samples of an axis are evenly spaced: sample [j] of [n] is a
    finite float within the rounding error of [lb + j (ub - lb) / (n - 1)],
    and the last one is [ub] itself. *)
Lemma axis_evenly_spaced (b : float * float) (x : list float) (n : Z)
  (j : nat) :
  2 <= n <= 2 ^ 53 ->
  numpy.linspace (fst b) (snd b) n = Ret x ->
  finite64 (fst b) = true -> finite64 (snd b) = true ->
  (Qabs (F2Q (fst b)) <= pow2 1022)%Q ->
  (Qabs (F2Q (snd b)) <= pow2 1022)%Q ->
  (j < Z.to_nat n)%nat ->
  finite64 (nth j x nan) = true
  /\ (Qabs (F2Q (nth j x nan)
            - (F2Q (fst b)
               + inject_Z (Z.of_nat j) / inject_Z (n - 1)
                 * (F2Q (snd b) - F2Q (fst b))))
      <= unit_roundoff
         * (Qabs (F2Q (fst b)) + 5 * Qabs (F2Q (snd b) - F2Q (fst b)))
         + 2 * (inject_Z (Z.of_nat j) + 1) * underflow_unit)%Q.
Proof.
  intros Hn Hx Flb Fub HL HU Hj.
  destruct (linspace_samples _ _ _ _ (proj1 Hn) Hx) as (Hlen & Hlast & Hnth).
  destruct (Nat.eq_dec j (Z.to_nat n - 1)%nat) as [->|Hne].
  - rewrite <- Hlen, nth_last_index, Hlast. split; [exact Fub|].
    assert (Em : Z.of_nat (Z.to_nat n - 1)%nat = n - 1) by lia.
    rewrite Hlen, Em.
    assert (Hm : ~ (inject_Z (n - 1) == 0)%Q).
    { change 0%Q with (inject_Z 0). rewrite inject_Z_injective. lia. }
    assert (E : (F2Q (snd b)
                 - (F2Q (fst b)
                    + inject_Z (n - 1) / inject_Z (n - 1)
                      * (F2Q (snd b) - F2Q (fst b))) == 0)%Q)
      by (field; exact Hm).
    rewrite E. change (Qabs 0) with 0%Q.
    assert (H0 : (0 <= inject_Z (n - 1))%Q)
      by (change 0%Q with (inject_Z 0); rewrite <- Zle_Qle; lia).
    pose proof (Qabs_nonneg (F2Q (fst b))) as H1.
    pose proof (Qabs_nonneg (F2Q (snd b) - F2Q (fst b))) as H2.
    set (m := inject_Z (n - 1)) in *. set (a := Qabs (F2Q (fst b))) in *.
    set (d := Qabs (F2Q (snd b) - F2Q (fst b))) in *. clearbody m a d.
    unfold unit_roundoff, underflow_unit.
    apply Qle_trans with (0 + 0)%Q; [discriminate|].
    apply Qplus_le_compat.
    + apply Qmult_le_0_compat; [discriminate|lra].
    + apply Qmult_le_0_compat; [lra|discriminate].
  - rewrite (Hnth j ltac:(lia)).
    apply (sample_correct (fst b) (snd b) n (Z.of_nat j)); trivial; lia.
Qed.
(** For finite bounds of magnitude at most [2 ^ 1022] and at most
    [2 ^ 53] points the spacing of [linspace] does not overflow. *)
Lemma spacing_finite_bounded (lb ub : float) (n : Z) :
  finite64 lb = true -> finite64 ub = true ->
  (Qabs (F2Q lb) <= pow2 1022)%Q -> (Qabs (F2Q ub) <= pow2 1022)%Q ->
  2 <= n <= 2 ^ 53 ->
  spacing_finite (lb, ub) n = true.
Proof.
  intros Flb Fub HL HU Hn.
  pose proof pow2_emax as HE. pose proof pow2_1022_ge_1 as HB.
  apply Qabs_le_iff in HL, HU.
  assert (Hp : Z.abs (n - 1) < 2 ^ prec)
    by (change (2 ^ prec) with (2 ^ 53); lia).
  destruct (of_Z_exact (n - 1) Hp) as [Fm Em].
  assert (Hm1 : (1 <= inject_Z (n - 1))%Q).
  { change 1%Q with (inject_Z 1). rewrite <- Zle_Qle. lia. }
  assert (Hmnz : ~ (inject_Z (n - 1) == 0)%Q)
    by (intros E; rewrite E in Hm1; lra).
  assert (Zm : is_zero (of_Z (n - 1)) = false).
  { apply nonzero_float; [now apply finite64_split in Fm|].
    rewrite Em. exact Hmnz. }
  destruct (sub_correct ub lb Fub Flb) as (Hv2 & Hf2 & Hb2).
  assert (HAD : (Qabs (F2Q ub - F2Q lb) <= 2 * pow2 1022)%Q).
  { apply Qabs_le_iff. set (L := F2Q lb) in *. set (U := F2Q ub) in *.
    set (B := pow2 1022) in *. clearbody L U B. split; lra. }
  pose proof (Qabs_nonneg (F2Q ub - F2Q lb)) as HAD0.
  set (AD := Qabs (F2Q ub - F2Q lb)) in *. set (B := pow2 1022) in *.
  assert (Fd : is_finite (PyFloat.sub ub lb) = true).
  { apply Hf2. rewrite HE. clearbody AD B.
    unfold unit_roundoff, underflow_unit. lra. }
  specialize (Hb2 Fd).
  destruct (div_correct (PyFloat.sub ub lb) (of_Z (n - 1)) Fd
              (proj1 (finite64_split _ Fm)) Zm) as (_ & Hf3 & _).
  rewrite Em in Hf3.
  set (Dd := F2Q (PyFloat.sub ub lb)) in *. set (m := inject_Z (n - 1)) in *.
  assert (HADd : (Qabs Dd <= (1 + unit_roundoff) * AD)%Q).
  { destruct (Qabs_bounds (F2Q ub - F2Q lb)) as (_ & H1 & H2).
    fold AD in H1, H2. apply Qabs_le_iff in Hb2. apply Qabs_le_iff.
    set (D := (F2Q ub - F2Q lb)%Q) in *.
    clearbody AD B Dd D. unfold unit_roundoff in *. split; lra. }
  assert (HAs : (Qabs (Dd / m) <= Qabs Dd)%Q).
  { assert (E : (Dd == Dd / m * m)%Q) by (field; exact Hmnz).
    rewrite E at 2. rewrite Qabs_Qmult, (Qabs_pos m) by lra.
    pose proof (Qabs_nonneg (Dd / m)) as H0.
    set (a := Qabs (Dd / m)) in *. clearbody a m. nra. }
  assert (Fs : is_finite (PyFloat.div (PyFloat.sub ub lb) (of_Z (n - 1))) = true).
  { apply Hf3. rewrite HE.
    pose proof (Qabs_nonneg (Dd / m)) as H0.
    set (a := Qabs (Dd / m)) in *. set (b := Qabs Dd) in *.
    clearbody AD B a b. unfold unit_roundoff, underflow_unit in *. lra. }
  unfold spacing_finite. cbn [fst snd].
  rewrite (proj1 (finite64_split _ Flb)), Fd, Fs. cbn [andb].
  destruct (of_Z (n - 1)) as [| | |]; try discriminate; reflexivity.
Qed.

Lemma axes_evenly_spaced (bounds : list (float * float))
  (xs : list (list float)) (n : Z) :
  2 <= n <= 2 ^ 53 ->
  Forall2 (fun b x => numpy.linspace (fst b) (snd b) n = Ret x) bounds xs ->
  Forall2 (fun b x =>
             finite64 (fst b) = true -> finite64 (snd b) = true ->
             (Qabs (F2Q (fst b)) <= pow2 1022)%Q ->
             (Qabs (F2Q (snd b)) <= pow2 1022)%Q ->
             forall j : nat,
               (j < Z.to_nat n)%nat ->
               finite64 (nth j x nan) = true
               /\ (Qabs (F2Q (nth j x nan)
                         - (F2Q (fst b)
                            + inject_Z (Z.of_nat j) / inject_Z (n - 1)
                              * (F2Q (snd b) - F2Q (fst b))))
                   <= unit_roundoff
                      * (Qabs (F2Q (fst b))
                         + 5 * Qabs (F2Q (snd b) - F2Q (fst b)))
                      + 2 * (inject_Z (Z.of_nat j) + 1) * underflow_unit)%Q)
    bounds xs.
Proof.
  intros Hn. induction 1 as [|b x bounds xs Hb _ IH]; constructor; trivial.
  intros Flb Fub HL HU j Hj. now apply (axis_evenly_spaced b x n j).
Qed.

(** C4 as the code has it.  For [n >= 2] points and any list of bounds
    the grid of [parameter_grid_sweep] is the Cartesian product of the
    [linspace] axes in row-major order (the first control varying slowest),
    with [n ^ d] rows; every axis has [n] samples, computed from their
    index, the last one the upper bound itself; the last row is the upper
    bounds, and the first row equals the lower bounds when the spacing does
    not overflow.  The samples are evenly spaced up to rounding: for
    [n <= 2 ^ 53] and finite bounds of magnitude at most [2 ^ 1022], sample
    [j] of an axis is a finite float within
    [2 ^ -53 * (|lb| + 5 |ub - lb|) + 2 (j + 1) * 2 ^ -1075] of
    [lb + j (ub - lb) / (n - 1)], and for such bounds the spacing does not
    overflow.  Each step of the sweep logs the value of the pipeline as it
    is returned, and leaves the evaluation count and the scaling factor
    alone; the sweep of a driver with as many names as bounds is the loop
    of these steps over the rows, in their order.  For [n = 1] the grid is
    one row, which equals the lower bounds when no difference [ub - lb]
    overflows. *)
Theorem parameter_grid_sweep_enumerates_the_grid :
  (forall (bounds : list (float * float)) (n : Z),
      2 <= n ->
      exists (xs grid : list (list float)),
        make_grid_x bounds n = Ret xs
        /\ make_grid bounds (length bounds) n = Ret grid
        /\ grid = cartesian xs
        /\ Z.of_nat (length grid) = n ^ Z.of_nat (length bounds)
        /\ Forall2 (fun b x =>
                      length x = Z.to_nat n
                      /\ List.last x nan = snd b
                      /\ forall j : nat,
                          (j < Z.to_nat n - 1)%nat ->
                          nth j x nan
                          = numpy.sample (fst b) (snd b) n (of_Z (Z.of_nat j)))
             bounds xs
        /\ List.last grid [] = map snd bounds
        /\ (forallb (fun b => spacing_finite b n) bounds = true ->
            Forall2 (fun v b => PyFloat.eqb v (fst b) = true)
              (hd [] grid) bounds)
        /\ (n <= 2 ^ 53 ->
            Forall2 (fun b x =>
                       finite64 (fst b) = true -> finite64 (snd b) = true ->
                       (Qabs (F2Q (fst b)) <= pow2 1022)%Q ->
                       (Qabs (F2Q (snd b)) <= pow2 1022)%Q ->
                       forall j : nat,
                         (j < Z.to_nat n)%nat ->
                         finite64 (nth j x nan) = true
                         /\ (Qabs (F2Q (nth j x nan)
                                   - (F2Q (fst b)
                                      + inject_Z (Z.of_nat j)
                                        / inject_Z (n - 1)
                                        * (F2Q (snd b) - F2Q (fst b))))
                             <= unit_roundoff
                                * (Qabs (F2Q (fst b))
                                   + 5 * Qabs (F2Q (snd b) - F2Q (fst b)))
                                + 2 * (inject_Z (Z.of_nat j) + 1)
                                  * underflow_unit)%Q)
              bounds xs))
  /\ (forall (ext : Externals) (file : string) (i : nat) (dims : list float)
             (s s1 : OS) (x : float),
         run_models_with_new_values ext dims false s = (Ret (PyFloat x), s1) ->
         exists w2 : World,
           sweep_step ext file (i, dims) s = (Ret tt, (fst s1, w2))
           /\ logs w2 !! file
              = Some (default [] (logs (snd s1) !! file)
                      ++ [Row 9 (Z.of_nat i + 1) dims x])
           /\ objective_scaling (fst s1) = objective_scaling (fst s)
           /\ fn_evals (fst s1) = fn_evals (fst s))
  /\ (forall (ext : Externals) (n : Z) (file : string) (o : Optimization)
             (w : World),
         2 <= n ->
         length (var_names o) = length (var_real_bounds o) ->
         exists (xs : list (list float)) (w1 : World),
           make_grid_x (var_real_bounds o) n = Ret xs
           /\ parameter_grid_sweep ext n file (o, w)
              = for_each (combine (seq 0 (length (cartesian xs)))
                            (cartesian xs))
                  (sweep_step ext file) (o, w1))
  /\ (forall bounds : list (float * float),
         forallb (fun b => is_finite (PyFloat.sub (snd b) (fst b))) bounds
         = true ->
         exists row : list float,
           make_grid bounds (length bounds) 1 = Ret [row]
           /\ Forall2 (fun v b => PyFloat.eqb v (fst b) = true) row bounds)
  /\ (forall (lb ub : float) (n : Z),
         finite64 lb = true -> finite64 ub = true ->
         (Qabs (F2Q lb) <= pow2 1022)%Q -> (Qabs (F2Q ub) <= pow2 1022)%Q ->
         2 <= n <= 2 ^ 53 ->
         spacing_finite (lb, ub) n = true).
Proof.
  split; [|split; [|split; [|split]]].
  - intros bounds n Hn.
    destruct (make_grid_x_axes bounds n ltac:(lia)) as (xs & Hxs & Hall).
    destruct (make_grid_is_cartesian bounds n xs ltac:(lia) Hxs Hall)
      as (Hgrid & Hlen).
    destruct (axes_ends bounds xs n Hn Hall) as (Hne & Hlast & Hfirst).
    exists xs, (cartesian xs). repeat split; trivial.
    + clear -Hn Hall. induction Hall as [|b x bounds xs Hb _ IH];
        constructor; trivial.
      destruct (linspace_samples _ _ _ _ Hn Hb) as (H1 & H2 & H3). auto.
    + now rewrite cartesian_last.
    + rewrite cartesian_first by exact Hne. exact Hfirst.
    + intros Hn'. apply axes_evenly_spaced; [lia|exact Hall].
  - intros ext file i dims s s1 x Hrun.
    rewrite (sweep_step_eq ext file i dims s (PyFloat x) x s1 Hrun eq_refl).
    eexists. split; [reflexivity|].
    pose proof (run_models_keeps_config ext dims false s) as Hk.
    rewrite Hrun in Hk. cbn [fst snd] in Hk.
    destruct (config_fields _ _ Hk) as (Hfn & Hsc & _).
    cbn [logs set_logs]. rewrite lookup_insert_eq. auto.
  - intros ext n file o w Hn Hd.
    destruct (make_grid_x_axes (var_real_bounds o) n ltac:(lia))
      as (xs & Hxs & Hall).
    destruct (make_grid_is_cartesian _ n xs ltac:(lia) Hxs Hall)
      as (Hgrid & _).
    rewrite <- Hd in Hgrid. exists xs.
    unfold parameter_grid_sweep.
    unfold bind at 1. unfold gets at 1. cbn [fst snd].
    unfold bind at 1. rewrite world_run. cbn [fst snd].
    rewrite Hgrid, bind_lift_ret.
    unfold bind at 1. rewrite world_run. cbn [fst snd].
    eexists. split; [exact Hxs|reflexivity].
  - exact grid_of_one_point.
  - exact spacing_finite_bounded.
Qed.

Lemma parameter_grid_sweep_enumerates_the_grid_witness :
  let bounds := [(of_Z 0, of_Z 1); (of_Z 10, of_Z 20)] in
  (exists (xs grid : list (list float)),
      make_grid_x bounds 3 = Ret xs
      /\ make_grid bounds (length bounds) 3 = Ret grid
      /\ grid = cartesian xs
      /\ Z.of_nat (length grid) = 3 ^ Z.of_nat (length bounds)
      /\ Forall2 (fun b x =>
                    length x = Z.to_nat 3
                    /\ List.last x nan = snd b
                    /\ forall j : nat,
                        (j < Z.to_nat 3 - 1)%nat ->
                        nth j x nan
                        = numpy.sample (fst b) (snd b) 3 (of_Z (Z.of_nat j)))
           bounds xs
      /\ List.last grid [] = map snd bounds
      /\ (forallb (fun b => spacing_finite b 3) bounds = true ->
          Forall2 (fun v b => PyFloat.eqb v (fst b) = true) (hd [] grid) bounds)
      /\ (3 <= 2 ^ 53 ->
          Forall2 (fun b x =>
                     finite64 (fst b) = true -> finite64 (snd b) = true ->
                     (Qabs (F2Q (fst b)) <= pow2 1022)%Q ->
                     (Qabs (F2Q (snd b)) <= pow2 1022)%Q ->
                     forall j : nat,
                       (j < Z.to_nat 3)%nat ->
                       finite64 (nth j x nan) = true
                       /\ (Qabs (F2Q (nth j x nan)
                                 - (F2Q (fst b)
                                    + inject_Z (Z.of_nat j)
                                      / inject_Z (3 - 1)
                                      * (F2Q (snd b) - F2Q (fst b))))
                           <= unit_roundoff
                              * (Qabs (F2Q (fst b))
                                 + 5 * Qabs (F2Q (snd b) - F2Q (fst b)))
                              + 2 * (inject_Z (Z.of_nat j) + 1)
                                * underflow_unit)%Q)
            bounds xs))
  /\ (exists row : list float,
         make_grid bounds (length bounds) 1 = Ret [row]
         /\ Forall2 (fun v b => PyFloat.eqb v (fst b) = true) row bounds)
  /\ spacing_finite (of_Z 10, of_Z 20) 3 = true.
Proof.
  intros bounds. split; [|split].
  - apply (proj1 parameter_grid_sweep_enumerates_the_grid bounds 3). lia.
  - apply (proj1 (proj2 (proj2 (proj2
             parameter_grid_sweep_enumerates_the_grid))) bounds).
    reflexivity.
  - apply (proj2 (proj2 (proj2 (proj2
             parameter_grid_sweep_enumerates_the_grid))) (of_Z 10) (of_Z 20) 3);
      [reflexivity | reflexivity
      | vm_compute; discriminate | vm_compute; discriminate | lia].
Defined.

(** The grid and the log of the sweep over the acid loading in [[0, 1]]
    and the final time in [[10, 20]] with three points each and a pipeline
    value of 2.0: nine rows, numbered from 1, from both lower bounds to both
    upper bounds, the second control varying fastest. *)
Example sweep_of_three_points :
  let ext := Session.stub (Session.constant (of_Z 2)) in
  let s := Session.two_closed_controls in
  let done := parameter_grid_sweep ext 3 "sweep_params.cvs" s in
  let h : float := dec 1 2 in
  var_real_bounds (fst s) = [(of_Z 0, of_Z 1); (of_Z 10, of_Z 20)]
  /\ fst done = Ret tt
  /\ logs (snd (snd done)) !! "sweep_params.cvs"
     = Some [Text "# Iteration, Acid Loading, Final Time, X_G";
             Row 9 1 [of_Z 0; of_Z 10] (of_Z 2);
             Row 9 2 [of_Z 0; of_Z 15] (of_Z 2);
             Row 9 3 [of_Z 0; of_Z 20] (of_Z 2);
             Row 9 4 [h; of_Z 10] (of_Z 2);
             Row 9 5 [h; of_Z 15] (of_Z 2);
             Row 9 6 [h; of_Z 20] (of_Z 2);
             Row 9 7 [of_Z 1; of_Z 10] (of_Z 2);
             Row 9 8 [of_Z 1; of_Z 15] (of_Z 2);
             Row 9 9 [of_Z 1; of_Z 20] (of_Z 2)]
  /\ objective_scaling (fst (snd done)) = of_Z 1
  /\ fn_evals (fst (snd done)) = 0.
Proof. vm_compute. repeat split. Qed.

(** C4 as stated fails at [n = 1] and for bounds whose difference
    overflows.  [linspace] with one point gives the lower bound only, so
    the single row of the grid is the lower bounds and not the upper
    bounds.  For the finite bounds [-1e308] and [1e308] the difference
    [ub - lb] is infinite: with one point the single row is a NaN, and with
    three points the axis is a NaN, an infinity and the upper bound, so
    the first row is not the lower bound and the points are not evenly
    spaced. *)
Lemma grid_of_one_point_or_of_overflowing_bounds :
  let bounds := [(of_Z 0, of_Z 1); (of_Z 10, of_Z 20)] in
  let wide := [(PyFloat.opp (of_Z (10 ^ 308)), of_Z (10 ^ 308))] in
  make_grid bounds (length bounds) 1 = Ret [[of_Z 0; of_Z 10]]
  /\ List.last [[of_Z 0; of_Z 10]] [] <> map snd bounds
  /\ numpy.linspace (of_Z 0) (of_Z 1) 1 = Ret [of_Z 0]
  /\ forallb (fun b => is_finite (fst b) && is_finite (snd b)) wide = true
  /\ make_grid wide (length wide) 1 = Ret [[nan]]
  /\ make_grid wide (length wide) 3
     = Ret [[nan]; [S754_infinity false]; [of_Z (10 ^ 308)]].
Proof. vm_compute. repeat split. discriminate. Qed.

(* ===================================================================== *)
(** * Further properties *)

(* --------------------------------------------------------------------- *)
(** ** The two scalings in floating point *)

(** X2: in binary64 [scale_back] computes [lb + x (ub - lb)] up to
    rounding.  For finite bounds [lb <= ub] of magnitude at most
    [2 ^ 1022] and a finite [x] in [[0, 1]] the result is a finite float
    within [2 ^ -53 * (|lb| + 4 (ub - lb)) + 2 ^ -1074] of that number, and
    so within the same distance of the interval [[lb, ub]]. *)
Theorem scale_back_unit_interval (lb ub x : float) :
  finite64 lb = true -> finite64 ub = true -> finite64 x = true ->
  (Qabs (F2Q lb) <= pow2 1022)%Q -> (Qabs (F2Q ub) <= pow2 1022)%Q ->
  (F2Q lb <= F2Q ub)%Q -> (0 <= F2Q x)%Q -> (F2Q x <= 1)%Q ->
  let tol := (unit_roundoff * (Qabs (F2Q lb) + 4 * (F2Q ub - F2Q lb))
              + 2 * underflow_unit)%Q in
  finite64 (scale_back x (lb, ub)) = true
  /\ (Qabs (F2Q (scale_back x (lb, ub))
            - (F2Q lb + F2Q x * (F2Q ub - F2Q lb))) <= tol)%Q
  /\ (F2Q lb - tol <= F2Q (scale_back x (lb, ub)))%Q
  /\ (F2Q (scale_back x (lb, ub)) <= F2Q ub + tol)%Q.
Proof.
  intros Flb Fub Fx HL HU Hle Hx0 Hx1 tol. unfold tol. clear tol.
  unfold scale_back. cbn [num_sub num_add num_mul float_Number].
  pose proof pow2_emax as HE. pose proof pow2_1022_ge_1 as HB.
  assert (HL' := HL). apply Qabs_le_iff in HL', HU.
  set (L := F2Q lb) in *. set (U := F2Q ub) in *. set (X := F2Q x) in *.
  set (B := pow2 1022) in *.
  pose proof (Qabs_nonneg L) as HAL0. set (AL := Qabs L) in *.
  (* the difference of the bounds *)
  destruct (sub_correct ub lb Fub Flb) as (Hv1 & Hf1 & Hb1). fold U L in Hf1, Hb1.
  assert (HD : (0 <= U - L)%Q) by lra.
  rewrite (Qabs_pos (U - L) HD) in Hf1, Hb1.
  assert (Fd : is_finite (PyFloat.sub ub lb) = true).
  { apply Hf1. rewrite HE. clearbody L U X B AL.
    unfold unit_roundoff, underflow_unit. lra. }
  specialize (Hb1 Fd).
  set (Dd := F2Q (PyFloat.sub ub lb)) in *.
  assert (Hz : (Qabs (X * (Dd - (U - L))) <= unit_roundoff * (U - L))%Q)
    by now apply Qabs_scale.
  assert (HXD : (0 <= X * (U - L) /\ X * (U - L) <= U - L)%Q).
  { set (D := (U - L)%Q) in *. clearbody D X. split; nra. }
  set (XD := (X * (U - L))%Q) in *. set (z := (X * (Dd - (U - L)))%Q) in *.
  assert (EXD : (X * Dd == XD + z)%Q) by (unfold XD, z; ring).
  apply Qabs_le_iff in Hz.
  (* the product *)
  destruct (mul_correct x (PyFloat.sub ub lb) Fx (finite64_intro _ Fd Hv1))
    as (Hv2 & Hf2 & Hb2).
  fold X Dd in Hf2, Hb2. rewrite EXD in Hf2, Hb2.
  assert (HAP : (Qabs (XD + z) <= (1 + unit_roundoff) * (U - L))%Q).
  { apply Qabs_le_iff. clearbody L U X B AL Dd XD z.
    unfold unit_roundoff in *. split; lra. }
  pose proof (Qabs_nonneg (XD + z)) as HAP0.
  set (AP := Qabs (XD + z)) in *.
  assert (Fp : is_finite (PyFloat.mul x (PyFloat.sub ub lb)) = true).
  { apply Hf2. rewrite HE. clearbody L U X B AL Dd XD z AP.
    unfold unit_roundoff, underflow_unit in *. lra. }
  specialize (Hb2 Fp). apply Qabs_le_iff in Hb2.
  set (p := PyFloat.mul x (PyFloat.sub ub lb)) in *. set (P := F2Q p) in *.
  (* the sum *)
  destruct (add_correct p lb (finite64_intro _ Fp Hv2) Flb) as (Hv3 & Hf3 & Hb3).
  fold P L in Hf3, Hb3.
  assert (HAS : (Qabs (P + L)
                 <= AL + (U - L) + (unit_roundoff * (3 * (U - L))
                                    + underflow_unit))%Q).
  { destruct (Qabs_bounds L) as (_ & H1 & H2). fold AL in H1, H2.
    apply Qabs_le_iff. clearbody L U X B AL Dd XD z AP P.
    unfold unit_roundoff, underflow_unit in *. split; lra. }
  pose proof (Qabs_nonneg (P + L)) as HAS0.
  set (AS := Qabs (P + L)) in *.
  assert (Fy : is_finite (PyFloat.add p lb) = true).
  { apply Hf3. rewrite HE. clearbody L U X B AL Dd XD z AP P AS.
    unfold unit_roundoff, underflow_unit in *. lra. }
  specialize (Hb3 Fy). apply Qabs_le_iff in Hb3.
  split; [exact (finite64_intro _ Fy Hv3)|].
  set (Y := F2Q (PyFloat.add p lb)) in *.
  assert (Hmain : (Qabs (Y - (L + XD))
                   <= unit_roundoff * (AL + 4 * (U - L))
                      + 2 * underflow_unit)%Q).
  { apply Qabs_le_iff. clearbody L U X B AL Dd XD z AP P AS Y.
    unfold unit_roundoff, underflow_unit in *. split; lra. }
  split; [exact Hmain|].
  apply Qabs_le_iff in Hmain.
  clearbody L U X B AL Dd XD z AP P AS Y.
  unfold unit_roundoff, underflow_unit in *. split; lra.
Qed.

Lemma scale_back_unit_interval_witness :
  let lb := of_Z 10 in
  let ub := of_Z 20 in
  let x := dec 1 4 in
  let tol := (unit_roundoff * (Qabs (F2Q lb) + 4 * (F2Q ub - F2Q lb))
              + 2 * underflow_unit)%Q in
  finite64 (scale_back x (lb, ub)) = true
  /\ (Qabs (F2Q (scale_back x (lb, ub))
            - (F2Q lb + F2Q x * (F2Q ub - F2Q lb))) <= tol)%Q
  /\ (F2Q lb - tol <= F2Q (scale_back x (lb, ub)))%Q
  /\ (F2Q (scale_back x (lb, ub)) <= F2Q ub + tol)%Q.
Proof.
  apply (scale_back_unit_interval (of_Z 10) (of_Z 20) (dec 1 4));
    [reflexivity | reflexivity | reflexivity
    | vm_compute; discriminate | vm_compute; discriminate
    | vm_compute; discriminate | vm_compute; discriminate
    | vm_compute; discriminate].
Defined.

(** X3: in floating point the lower bound goes to zero and zero comes
    back to the lower bound: for a finite lower bound and a difference of
    the bounds that is finite and not zero, [normalize] of the lower bound
    is a zero and [scale_back] of 0.0 equals the lower bound. *)
Theorem lower_bound_is_exact_in_floats (lb ub : float) :
  is_finite lb = true ->
  is_finite (PyFloat.sub ub lb) = true ->
  is_zero (PyFloat.sub ub lb) = false ->
  (exists z : float,
      normalize lb (lb, ub) = Ret z /\ is_zero z = true)
  /\ PyFloat.eqb (scale_back (of_Z 0) (lb, ub)) lb = true.
Proof.
  intros Hlb Hfin Hnz. split.
  - unfold normalize, truediv. cbn [num_is_zero num_sub num_quot float_Number].
    rewrite Hnz. eexists. split; [reflexivity|].
    pose proof (sub_equal_is_zero lb lb (eqb_same_finite lb Hlb) Hlb) as Hz.
    destruct (PyFloat.sub lb lb) as [s| | |]; try discriminate.
    destruct (PyFloat.sub ub lb) as [s'|s'| |s' m e]; try discriminate;
      reflexivity.
  - unfold scale_back.
    cbn [num_sub num_add num_mul float_Number].
    change (of_Z 0) with (S754_zero false).
    destruct (PyFloat.sub ub lb) as [s'|s'| |s' m e]; try discriminate.
    now apply add_zero_l.
Qed.

Lemma lower_bound_is_exact_in_floats_witness :
  (exists z : float,
      normalize (of_Z 10) (of_Z 10, of_Z 20) = Ret z /\ is_zero z = true)
  /\ PyFloat.eqb (scale_back (of_Z 0) (of_Z 10, of_Z 20)) (of_Z 10) = true.
Proof.
  apply (lower_bound_is_exact_in_floats (of_Z 10) (of_Z 20)); reflexivity.
Defined.

(* --------------------------------------------------------------------- *)
(** ** The setters that accept their value *)

Lemma checked_setter_accepts check interval store i2y a f s :
  check a = Ret true -> py_float a = Ret f ->
  checked_setter check interval store i2y a s
  = bind (store f) (fun _ => i2y true) s.
Proof. intros Hc Hf. unfold checked_setter. now rewrite Hc, Hf. Qed.

(** What [persist_block] does with [rewrite=True]: the section is
    replaced in the document read from the file, or the reading fails. *)
Lemma persist_block_rewrite section block merge a w fname :
  a !! "params_filename" = Some (PyStr fname) ->
  persist_block section block true merge (a, w)
  = match yamls w !! fname with
    | Some doc =>
        (Ret tt,
         (a, set_yamls (insert fname (<[section := PyDict block]> doc)) w))
    | None => (Raise (FileNotFoundError fname), (a, w))
    end.
Proof.
  intros Hp. unfold persist_block.
  unfold bind at 1. unfold self_get at 1. cbn [fst]. rewrite Hp.
  unfold bind at 1. cbn [lift as_str].
  unfold bind at 1. rewrite world_run. unfold yaml_to_dict.
  destruct (yamls w !! fname) as [doc|]; [|reflexivity].
  cbn [fst snd]. rewrite world_run. unfold dict_to_yaml.
  cbn [fold_left fst snd]. now rewrite (right_id_L ∅ (∪)).
Qed.

(** [input2yaml(rewrite=True)] of every stage: the block of the current
    attributes replaces the section of the stage. *)
Lemma input2yaml_rewrite (c : class_id) a w fname block :
  a !! "params_filename" = Some (PyStr fname) ->
  block_of c a = Some block ->
  class_input2yaml c true (a, w)
  = match yamls w !! fname with
    | Some doc =>
        (Ret tt,
         (a, set_yamls (insert fname (<[block_section c := PyDict block]> doc))
               w))
    | None => (Raise (FileNotFoundError fname), (a, w))
    end.
Proof.
  intros Hp Hb. unfold block_of in Hb.
  destruct c; cbn [block_keys block_from] in Hb;
    repeat match type of Hb with
      | context [?m !! ?k] =>
          let E := fresh "E" in
          destruct (m !! k) eqn:E; [|discriminate]
      end;
    injection Hb as <-;
    cbn [class_input2yaml];
    unfold Feedstock.input2yaml, Pretreatment.input2yaml,
      EnzymaticHydrolysis.input2yaml, Bioreactor.input2yaml;
    repeat (unfold bind at 1; unfold self_get at 1; cbn [fst];
            match goal with
            | E : a !! ?k = Some _ |- context [a !! ?k] => rewrite E
            end);
    exact (persist_block_rewrite _ _ _ a w fname Hp).
Qed.

Lemma block_from_lookup keys (a b : gmap string pyval) key attr :
  NoDup (map fst keys) -> block_from keys a = Some b ->
  In (key, attr) keys -> b !! key = a !! attr.
Proof.
  revert b. induction keys as [|[k at'] keys IH]; intros b Hnd Hb Hin;
    [contradiction|].
  cbn [block_from] in Hb. cbn [map fst] in Hnd. inversion Hnd; subst.
  destruct (a !! at') as [v|] eqn:Ea; [|discriminate].
  destruct (block_from keys a) as [m|]; [|discriminate].
  injection Hb as <-. destruct Hin as [[= -> ->]|Hin].
  - now rewrite lookup_insert_eq.
  - rewrite lookup_insert_ne; [now apply IH|].
    intros ->. apply H1. apply list_elem_of_In, in_map_iff.
    now exists (key, attr).
Qed.

Lemma block_keys_distinct (c : class_id) : NoDup (map fst (block_keys c)).
Proof.
  destruct c; compute_done.
Qed.

(** [input2yaml(rewrite=True)] of a stage whose attributes and parameter
    file are there: the object stays as it is and every key of the block
    holds the value of its attribute. *)
Lemma input2yaml_persists_the_block
  (c : class_id) (a : gmap string pyval) (w : World) (fname : string)
  (doc block : gmap string pyval) :
  a !! "params_filename" = Some (PyStr fname) ->
  yamls w !! fname = Some doc ->
  block_of c a = Some block ->
  exists w' : World,
    class_input2yaml c true (a, w) = (Ret tt, (a, w'))
    /\ (forall key attr, In (key, attr) (block_keys c) ->
                         persisted w' fname (block_section c) key = a !! attr).
Proof.
  intros Hp Hy Hb. rewrite (input2yaml_rewrite c a w fname block Hp Hb), Hy.
  eexists. split; [reflexivity|].
  intros key attr Hin. unfold persisted. cbn [yamls set_yamls].
  rewrite !lookup_insert_eq.
  exact (block_from_lookup _ a block key attr (block_keys_distinct c) Hb Hin).
Qed.

(** X5: [input2yaml(rewrite=True)] of any stage whose attributes and
    parameter file are there succeeds, leaves the object alone, and changes
    the parameter file in the section of the stage only: afterwards every
    key of the block holds the current value of its attribute, every other
    section, every other file and the logs are as before. *)
Theorem input2yaml_rewrites_only_its_section
  (c : class_id) (a : gmap string pyval) (w : World) (fname : string)
  (doc block : gmap string pyval) :
  a !! "params_filename" = Some (PyStr fname) ->
  yamls w !! fname = Some doc ->
  block_of c a = Some block ->
  exists w' : World,
    class_input2yaml c true (a, w) = (Ret tt, (a, w'))
    /\ (forall key attr, In (key, attr) (block_keys c) ->
                         persisted w' fname (block_section c) key = a !! attr)
    /\ (forall sec key, sec <> block_section c ->
                        persisted w' fname sec key = persisted w fname sec key)
    /\ (forall file, file <> fname -> yamls w' !! file = yamls w !! file)
    /\ logs w' = logs w /\ cwd w' = cwd w.
Proof.
  intros Hp Hy Hb. rewrite (input2yaml_rewrite c a w fname block Hp Hb), Hy.
  eexists. split; [reflexivity|]. repeat split.
  - intros key attr Hin. unfold persisted. cbn [yamls set_yamls].
    rewrite !lookup_insert_eq.
    exact (block_from_lookup _ a block key attr (block_keys_distinct c) Hb Hin).
  - intros sec key Hne. unfold persisted. cbn [yamls set_yamls].
    rewrite lookup_insert_eq, Hy. now rewrite lookup_insert_ne.
  - intros file Hne. cbn [yamls set_yamls]. now rewrite lookup_insert_ne.
Qed.

Lemma self_get_some (name : string) (v : pyval) (s : St) :
  fst s !! name = Some v -> self_get name s = (Ret v, s).
Proof. intros H. unfold self_get. now rewrite H. Qed.

Lemma converting_getter (attr : string) (g : float -> float) (x : float)
  (s : St) :
  fst s !! attr = Some (PyFloat x) ->
  (t <- self_get attr ;; t <- lift (as_float t) ;; ret (PyFloat (g t))) s
  = (Ret (PyFloat (g x)), s).
Proof.
  intros H. now rewrite (bind_ret _ _ _ _ _ (self_get_some attr _ s H)).
Qed.

(** The assignment of an accepted value: the store, then the rewrite of
    the parameter file. *)
Lemma setter_runs (c : class_id) (name : string)
  (check : pyval -> outcome bool) (attr : string) (conv back : float -> float)
  (a : pyval) (f : float) (s : St) :
  In (c, name, check, attr, conv, back) stored_by_setter ->
  check a = Ret true -> py_float a = Ret f ->
  setattr (class_ns c) name a s
  = class_input2yaml c true (<[attr := PyFloat (conv f)]> (fst s), snd s)
  /\ attr <> "params_filename"
  /\ In (name, attr) (block_keys c)
  /\ (forall s' : St,
         fst s' !! attr = Some (PyFloat (conv f)) ->
         getattr (class_ns c) name s' = (Ret (PyFloat (back (conv f))), s')).
Proof.
  intros Hin Hc Hf. cbn [stored_by_setter In] in Hin.
  repeat (destruct Hin as [Hin|Hin];
          [ injection Hin as <- <- <- <- <- <-;
            split; [exact (checked_setter_accepts _ _ _ _ a f s Hc Hf)|];
            split; [discriminate|];
            split; [cbn; tauto|];
            intros s' Hs';
            first [ exact (self_get_some _ _ s' Hs')
                  | exact (converting_getter _ _ _ s' Hs') ]
          | ]).
  contradiction.
Qed.

(** X4: a value that passes the check of a range-checked setter is stored
    as a float (converted to the unit of the stage where the setter
    converts), the getter of the property computes its value from the
    stored one, and the parameter file holds the stored value under the
    name of the property in the section of the stage. *)
Theorem accepted_value_is_stored_and_persisted
  (c : class_id) (name : string) (check : pyval -> outcome bool)
  (attr : string) (conv back : float -> float)
  (a : pyval) (f : float) (attrs : gmap string pyval) (w : World)
  (fname : string) (doc block : gmap string pyval) :
  In (c, name, check, attr, conv, back) stored_by_setter ->
  check a = Ret true ->
  py_float a = Ret f ->
  attrs !! "params_filename" = Some (PyStr fname) ->
  yamls w !! fname = Some doc ->
  block_of c (<[attr := PyFloat (conv f)]> attrs) = Some block ->
  exists w' : World,
    let s' := (<[attr := PyFloat (conv f)]> attrs, w') in
    setattr (class_ns c) name a (attrs, w) = (Ret tt, s')
    /\ getattr (class_ns c) name s' = (Ret (PyFloat (back (conv f))), s')
    /\ persisted w' fname (block_section c) name = Some (PyFloat (conv f)).
Proof.
  intros Hin Hc Hf Hp Hy Hb.
  destruct (setter_runs c name check attr conv back a f (attrs, w) Hin Hc Hf)
    as (Hset & Hne & Hkey & Hget).
  cbn [fst snd] in Hset.
  assert (Hp' : <[attr := PyFloat (conv f)]> attrs !! "params_filename"
                = Some (PyStr fname)) by now rewrite lookup_insert_ne.
  destruct (input2yaml_persists_the_block c _ w fname doc block
              Hp' Hy Hb) as (w' & Hrun & Hkeys).
  exists w'. cbn zeta. rewrite Hset, Hrun. split; [reflexivity|]. split.
  - apply Hget. cbn [fst]. now rewrite lookup_insert_eq.
  - rewrite (Hkeys name attr Hkey). now rewrite lookup_insert_eq.
Qed.

(** X6: if the parameter file is not there, the setter raises what the
    reading of the file raises, after the new value has been stored: the
    attribute is changed although the assignment failed. *)
Theorem failed_rewrite_keeps_the_new_value
  (c : class_id) (name : string) (check : pyval -> outcome bool)
  (attr : string) (conv back : float -> float)
  (a : pyval) (f : float) (attrs : gmap string pyval) (w : World)
  (fname : string) (block : gmap string pyval) :
  In (c, name, check, attr, conv, back) stored_by_setter ->
  check a = Ret true ->
  py_float a = Ret f ->
  attrs !! "params_filename" = Some (PyStr fname) ->
  yamls w !! fname = None ->
  block_of c (<[attr := PyFloat (conv f)]> attrs) = Some block ->
  setattr (class_ns c) name a (attrs, w)
  = (Raise (FileNotFoundError fname),
     (<[attr := PyFloat (conv f)]> attrs, w)).
Proof.
  intros Hin Hc Hf Hp Hy Hb.
  destruct (setter_runs c name check attr conv back a f (attrs, w) Hin Hc Hf)
    as (Hset & Hne & _).
  cbn [fst snd] in Hset. rewrite Hset.
  rewrite (input2yaml_rewrite c _ w fname block); trivial.
  - now rewrite Hy.
  - now rewrite lookup_insert_ne.
Qed.

Lemma accepted_value_is_stored_and_persisted_witness :
  let a := PyFloat (of_Z 150) in
  let stored := PyFloat.add (of_Z 150) Pretreatment.kelvin in
  exists w' : World,
    let s' := (<["_steam_temperature" := PyFloat stored]> session_pt, w') in
    setattr (class_ns CPretreatment) "steam_temperature" a
      (session_pt, session_world) = (Ret tt, s')
    /\ getattr (class_ns CPretreatment) "steam_temperature" s'
       = (Ret (PyFloat (PyFloat.sub stored Pretreatment.kelvin)), s')
    /\ persisted w' "params.yaml" (block_section CPretreatment)
         "steam_temperature" = Some (PyFloat stored).
Proof.
  intros a stored.
  apply (accepted_value_is_stored_and_persisted CPretreatment
           "steam_temperature"
           (in_closed (PyFloat (dec 38 10)) (PyFloat (dec 2503 10)))
           "_steam_temperature"
           (fun f => PyFloat.add f Pretreatment.kelvin)
           (fun t => PyFloat.sub t Pretreatment.kelvin)
           a (of_Z 150) session_pt session_world "params.yaml"
           (default ∅ (yamls session_world !! "params.yaml"))
           (default ∅ (block_of CPretreatment
                         (<["_steam_temperature" := PyFloat stored]>
                            session_pt)))).
  - cbn [stored_by_setter In]. tauto.
  - reflexivity.
  - reflexivity.
  - reflexivity.
  - reflexivity.
  - reflexivity.
Defined.

Lemma failed_rewrite_keeps_the_new_value_witness :
  setattr (class_ns CPretreatment) "final_time" (PyInt 30)
    (session_pt, Session.w0)
  = (Raise (FileNotFoundError "params.yaml"),
     (<["_final_time" := PyFloat (PyFloat.mul (of_Z 60) (of_Z 30))]>
        session_pt, Session.w0)).
Proof.
  apply (failed_rewrite_keeps_the_new_value CPretreatment "final_time"
           (in_closed (PyInt 1) (PyInt 1440)) "_final_time"
           (fun f => PyFloat.mul (of_Z 60) f)
           (fun t => PyFloat.div t (of_Z 60))
           (PyInt 30) (of_Z 30) session_pt Session.w0 "params.yaml"
           (default ∅ (block_of CPretreatment
                         (<["_final_time" :=
                              PyFloat (PyFloat.mul (of_Z 60) (of_Z 30))]>
                            session_pt)))).
  - cbn [stored_by_setter In]. tauto.
  - reflexivity.
  - reflexivity.
  - reflexivity.
  - reflexivity.
  - reflexivity.
Defined.

Lemma input2yaml_rewrites_only_its_section_witness :
  exists w' : World,
    class_input2yaml CPretreatment true (session_pt, session_world)
    = (Ret tt, (session_pt, w'))
    /\ (forall key attr,
           In (key, attr) (block_keys CPretreatment) ->
           persisted w' "params.yaml" (block_section CPretreatment) key
           = session_pt !! attr)
    /\ (forall sec key,
           sec <> block_section CPretreatment ->
           persisted w' "params.yaml" sec key
           = persisted session_world "params.yaml" sec key)
    /\ (forall file, file <> "params.yaml" ->
                     yamls w' !! file = yamls session_world !! file)
    /\ logs w' = logs session_world /\ cwd w' = cwd session_world.
Proof.
  apply (input2yaml_rewrites_only_its_section CPretreatment session_pt
           session_world "params.yaml"
           (default ∅ (yamls session_world !! "params.yaml"))
           (default ∅ (block_of CPretreatment session_pt))).
  - reflexivity.
  - reflexivity.
  - reflexivity.
Defined.

(** X7: no range-checked setter takes a NaN, a string or [None]: a NaN
    fails every comparison and is refused with the [ValueError] of the
    range, a string or [None] cannot be compared with a number and raises
    [TypeError]; the object and the world are left as they were. *)
Theorem setters_refuse_nan_and_non_numbers
  (c : class_id) (name : string) (check : pyval -> outcome bool)
  (attr : string) (conv back : float -> float) (s : St) :
  In (c, name, check, attr, conv, back) stored_by_setter ->
  (exists msg : list fpiece,
      setattr (class_ns c) name (PyFloat nan) s = (Raise (ValueError msg), s)
      /\ In (Val (PyFloat nan)) msg)
  /\ (forall t : string,
         setattr (class_ns c) name (PyStr t) s = (Raise TypeError, s))
  /\ setattr (class_ns c) name PyNone s = (Raise TypeError, s).
Proof.
  intros Hin. cbn [stored_by_setter In] in Hin.
  repeat (destruct Hin as [Hin|Hin];
          [ injection Hin as <- <- <- <- <- <-;
            split; [eexists; split; [reflexivity|cbn; tauto]|];
            split; [intros t|]; reflexivity
          | ]).
  contradiction.
Qed.

Lemma setters_refuse_nan_and_non_numbers_witness :
  (exists msg : list fpiece,
      setattr (class_ns CEnzymaticHydrolysis) "lambda_e" (PyFloat nan)
        (session_pt, session_world)
      = (Raise (ValueError msg), (session_pt, session_world))
      /\ In (Val (PyFloat nan)) msg)
  /\ (forall t : string,
         setattr (class_ns CEnzymaticHydrolysis) "lambda_e" (PyStr t)
           (session_pt, session_world)
         = (Raise TypeError, (session_pt, session_world)))
  /\ setattr (class_ns CEnzymaticHydrolysis) "lambda_e" PyNone
       (session_pt, session_world)
     = (Raise TypeError, (session_pt, session_world)).
Proof.
  apply (setters_refuse_nan_and_non_numbers CEnzymaticHydrolysis "lambda_e"
           (in_closed (PyInt 0) (PyInt 1000)) "_lambda_e"
           (fun f => PyFloat.div f (of_Z 1000))
           (fun l => PyFloat.mul l (of_Z 1000))).
  cbn [stored_by_setter In]. tauto.
Defined.

(* --------------------------------------------------------------------- *)
(** ** The gas velocity and the model type *)

(** X8: unless the model type is the very string ['surrogate'], which the
    setter of the model type never admits, the setter of [gas_velocity]
    checks [0.0 <= a] only: every such number, however large, is stored
    and persisted, and the range [[0.01, 0.1]] is never looked at. *)
Theorem gas_velocity_checks_the_sign_only
  (a mt : pyval) (f : float) (attrs : gmap string pyval) (w : World)
  (fname : string) (doc block : gmap string pyval) :
  attrs !! "_model_type" = Some mt ->
  py_is_str mt "surrogate" = false ->
  py_le (PyFloat (of_Z 0)) a = Ret true ->
  py_float a = Ret f ->
  attrs !! "params_filename" = Some (PyStr fname) ->
  yamls w !! fname = Some doc ->
  block_of CBioreactor (<["_gas_velocity" := PyFloat f]> attrs) = Some block ->
  exists w' : World,
    setattr (class_ns CBioreactor) "gas_velocity" a (attrs, w)
    = (Ret tt, (<["_gas_velocity" := PyFloat f]> attrs, w'))
    /\ persisted w' fname "bioreactor_input" "gas_velocity" = Some (PyFloat f).
Proof.
  intros Hmt Hs Hle Hf Hp Hy Hb.
  assert (Hp' : <["_gas_velocity" := PyFloat f]> attrs !! "params_filename"
                = Some (PyStr fname)) by now rewrite lookup_insert_ne.
  destruct (input2yaml_persists_the_block CBioreactor _ w fname doc
              block Hp' Hy Hb) as (w' & Hrun & Hkeys).
  exists w'. split.
  - change (setattr (class_ns CBioreactor) "gas_velocity" a (attrs, w))
      with (Bioreactor.set_gas_velocity a (attrs, w)).
    unfold Bioreactor.set_gas_velocity.
    rewrite (bind_ret _ _ _ _ _ (self_get_some "_model_type" mt (attrs, w) Hmt)).
    rewrite Hs, Hle. unfold bind at 1. unfold bind at 1. cbn [lift negb ret].
    rewrite Hf. unfold bind at 1. cbn [lift].
    unfold bind at 1. unfold self_set at 1, modify at 1. cbn [fst snd].
    exact Hrun.
  - change "bioreactor_input" with (block_section CBioreactor).
    rewrite (Hkeys "gas_velocity" "_gas_velocity") by (cbn; tauto).
    now rewrite lookup_insert_eq.
Qed.

Lemma gas_velocity_checks_the_sign_only_witness :
  exists w' : World,
    setattr (class_ns CBioreactor) "gas_velocity"
      (PyFloat (S754_infinity false))
      (Session.br_attrs, Session.waiting_world)
    = (Ret tt,
       (<["_gas_velocity" := PyFloat (S754_infinity false)]> Session.br_attrs,
        w'))
    /\ persisted w' "params.yaml" "bioreactor_input" "gas_velocity"
       = Some (PyFloat (S754_infinity false)).
Proof.
  apply (gas_velocity_checks_the_sign_only (PyFloat (S754_infinity false))
           (PyStr "CFD Surrogate") (S754_infinity false) Session.br_attrs
           Session.waiting_world "params.yaml"
           {["enzymatic_output" := PyDict {["rho_g" := PyFloat nan]}]}
           (default ∅ (block_of CBioreactor
                         (<["_gas_velocity" := PyFloat (S754_infinity false)]>
                            Session.br_attrs))));
    reflexivity.
Defined.

Lemma self_set_run (name : string) (v : pyval) (s : St) :
  self_set name v s = (Ret tt, (<[name := v]> (fst s), snd s)).
Proof. reflexivity. Qed.

Lemma self_method_unbound (name : string) (s : St) :
  fst s !! name = None -> self_method name s = (Ret (PyMethod name), s).
Proof. intros H. unfold self_method. now rewrite H. Qed.

(** What the setters of [model_type] do with a string that has a run
    variant, up to the choice of the run function. *)
Lemma model_type_setter_runs (c : class_id) (mt m : string)
  (attrs : gmap string pyval) (w : World) (fname : string)
  (doc block : gmap string pyval) :
  run_variant c mt = Some m ->
  attrs !! "params_filename" = Some (PyStr fname) ->
  yamls w !! fname = Some doc ->
  block_of c (<["_model_type" := PyStr mt]> attrs) = Some block ->
  exists w' : World,
    setattr (class_ns c) "model_type" (PyStr mt) (attrs, w)
    = match c with
      | CEnzymaticHydrolysis => EnzymaticHydrolysis.select_run_function
      | _ => Bioreactor.select_run_function
      end (<["_model_type" := PyStr mt]> attrs, w')
    /\ persisted w' fname (block_section c) "model_type" = Some (PyStr mt)
    /\ (c = CEnzymaticHydrolysis \/ c = CBioreactor).
Proof.
  intros Hv Hp Hy Hb.
  assert (Hp' : <["_model_type" := PyStr mt]> attrs !! "params_filename"
                = Some (PyStr fname)) by now rewrite lookup_insert_ne.
  destruct (input2yaml_persists_the_block c _ w fname doc block
              Hp' Hy Hb) as (w' & Hrun & Hkeys).
  exists w'.
  assert (Hper : persisted w' fname (block_section c) "model_type"
                 = Some (PyStr mt)).
  { destruct c; try discriminate;
      rewrite (Hkeys "model_type" "_model_type") by (cbn; tauto);
      now rewrite lookup_insert_eq. }
  destruct c; try discriminate; (split; [|split; [exact Hper|tauto]]).
  - change (setattr (class_ns CEnzymaticHydrolysis) "model_type" (PyStr mt)
              (attrs, w))
      with (EnzymaticHydrolysis.set_model_type (PyStr mt) (attrs, w)).
    unfold EnzymaticHydrolysis.set_model_type. cbn [py_eq_str].
    cbn [run_variant] in Hv.
    assert (Hin : (mt =? "CFD Simulation")%string
                  || (mt =? "CFD Surrogate")%string
                  || (mt =? "Lignocellulose Model")%string = true).
    { destruct (mt =? "CFD Simulation")%string; [reflexivity|].
      destruct (mt =? "CFD Surrogate")%string; [reflexivity|].
      destruct (mt =? "Lignocellulose Model")%string;
        [reflexivity|discriminate]. }
    rewrite Hin. cbn [negb].
    unfold bind at 1. rewrite self_set_run. cbn [fst snd].
    unfold bind at 1. cbn [class_input2yaml] in Hrun. rewrite Hrun.
    reflexivity.
  - change (setattr (class_ns CBioreactor) "model_type" (PyStr mt) (attrs, w))
      with (Bioreactor.set_model_type (PyStr mt) (attrs, w)).
    unfold Bioreactor.set_model_type. cbn [py_eq_str].
    cbn [run_variant] in Hv.
    assert (Hin : (mt =? "CFD Simulation")%string
                  || (mt =? "CFD Surrogate")%string = true).
    { destruct (mt =? "CFD Simulation")%string; [reflexivity|].
      destruct (mt =? "CFD Surrogate")%string; [reflexivity|discriminate]. }
    rewrite Hin. cbn [negb].
    unfold bind at 1. rewrite self_set_run. cbn [fst snd].
    unfold bind at 1. cbn [class_input2yaml] in Hrun. rewrite Hrun.
    reflexivity.
Qed.

(** The choice of the run function for a model type that has one. *)
Lemma select_run_function_binds (c : class_id) (mt m : string) (hpc : pyval)
  (a : gmap string pyval) (w : World) :
  c = CEnzymaticHydrolysis \/ c = CBioreactor ->
  run_variant c mt = Some m ->
  a !! "_model_type" = Some (PyStr mt) ->
  a !! "hpc_run" = Some hpc ->
  a !! m = None ->
  match c with
  | CEnzymaticHydrolysis => EnzymaticHydrolysis.select_run_function
  | _ => Bioreactor.select_run_function
  end (a, w)
  = if (mt =? "CFD Simulation")%string && negb (truthy hpc)
    then (Raise AssertionError, (a, w))
    else (Ret tt, (<["run" := PyMethod m]> a, w)).
Proof.
  intros [-> | ->] Hv Hmt Hh Hm; cbn [run_variant] in Hv.
  - unfold EnzymaticHydrolysis.select_run_function.
    rewrite (bind_ret _ _ _ _ _ (self_get_some "_model_type" _ (a, w) Hmt)).
    cbn [py_eq_str].
    destruct (mt =? "CFD Simulation")%string.
    + injection Hv as <-.
      rewrite (bind_ret _ _ _ _ _ (self_get_some "hpc_run" _ (a, w) Hh)).
      destruct (truthy hpc); [|reflexivity]. cbn [andb negb].
      unfold bind at 1. unfold ret at 1.
      rewrite (bind_ret _ _ _ _ _
                 (self_method_unbound "run_eh_cfd_simulation" (a, w) Hm)).
      reflexivity.
    + cbn [andb].
      destruct (mt =? "CFD Surrogate")%string.
      * injection Hv as <-.
        rewrite (bind_ret _ _ _ _ _
                   (self_method_unbound "run_eh_cfd_surrogate" (a, w) Hm)).
        reflexivity.
      * destruct (mt =? "Lignocellulose Model")%string; [|discriminate].
        injection Hv as <-.
        rewrite (bind_ret _ _ _ _ _
                   (self_method_unbound "run_eh_lignocellulose_model" (a, w)
                      Hm)).
        reflexivity.
  - unfold Bioreactor.select_run_function, Bioreactor.get_model_type.
    rewrite (bind_ret _ _ _ _ _ (self_get_some "_model_type" _ (a, w) Hmt)).
    cbn [py_eq_str].
    destruct (mt =? "CFD Simulation")%string.
    + injection Hv as <-.
      rewrite (bind_ret _ _ _ _ _ (self_get_some "hpc_run" _ (a, w) Hh)).
      destruct (truthy hpc); [|reflexivity]. cbn [andb negb].
      unfold bind at 1. unfold ret at 1.
      rewrite (bind_ret _ _ _ _ _
                 (self_method_unbound "run_biorector_cfd_simulation" (a, w)
                    Hm)).
      reflexivity.
    + cbn [andb].
      rewrite (bind_ret _ _ _ _ _ (self_get_some "_model_type" _ (a, w) Hmt)).
      cbn [py_eq_str].
      destruct (mt =? "CFD Surrogate")%string; [|discriminate].
      injection Hv as <-.
      rewrite (bind_ret _ _ _ _ _
                 (self_method_unbound "run_biorector_cfd_surrogate" (a, w) Hm)).
      reflexivity.
Qed.

Lemma call_run_bound (ext : Externals) (c : class_id) (m : string)
  (verbose : pyval) (a : gmap string pyval) (w : World) :
  c = CEnzymaticHydrolysis \/ c = CBioreactor ->
  a !! "run" = Some (PyMethod m) ->
  call_run ext c verbose (a, w) = invoke ext c m verbose (a, w).
Proof.
  intros [-> | ->] Hr; unfold call_run;
    (replace (getattr (class_ns _) "run") with (self_get "run")
      by reflexivity);
    now rewrite (bind_ret _ _ _ _ _ (self_get_some "run" _ (a, w) Hr)).
Qed.

(** X9: assigning to [model_type] of an enzymatic-hydrolysis or bioreactor
    object a name that has a run variant (with HPC resources when the name
    is 'CFD Simulation') succeeds, stores the name, writes it under
    [model_type] in the block of the class in the parameter file, and
    rebinds [run]: the next [model.run(verbose)] is the call of the
    variant of that name. *)
Theorem model_type_selects_the_run_function (ext : Externals) (c : class_id)
  (mt m : string) (hpc : pyval) (attrs : gmap string pyval) (w : World)
  (fname : string) (doc block : gmap string pyval) :
  run_variant c mt = Some m ->
  attrs !! "hpc_run" = Some hpc ->
  (mt = "CFD Simulation" -> truthy hpc = true) ->
  attrs !! m = None ->
  attrs !! "params_filename" = Some (PyStr fname) ->
  yamls w !! fname = Some doc ->
  block_of c (<["_model_type" := PyStr mt]> attrs) = Some block ->
  exists w' : World,
    let attrs' := <["run" := PyMethod m]> (<["_model_type" := PyStr mt]> attrs)
    in
    setattr (class_ns c) "model_type" (PyStr mt) (attrs, w)
    = (Ret tt, (attrs', w'))
    /\ getattr (class_ns c) "model_type" (attrs', w')
       = (Ret (PyStr mt), (attrs', w'))
    /\ persisted w' fname (block_section c) "model_type" = Some (PyStr mt)
    /\ forall verbose : pyval,
         call_run ext c verbose (attrs', w')
         = invoke ext c m verbose (attrs', w').
Proof.
  intros Hv Hh Hhpc Hm Hp Hy Hb.
  destruct (model_type_setter_runs c mt m attrs w fname doc block Hv Hp Hy Hb)
    as (w' & Hset & Hper & Hc).
  assert (Hne : m <> "_model_type").
  { intros ->. destruct Hc as [-> | ->]; cbn [run_variant] in Hv;
      repeat match type of Hv with
             | (if ?b then _ else _) = _ => destruct b
             end; discriminate. }
  exists w'. cbn zeta.
  assert (H1 : <["_model_type" := PyStr mt]> attrs !! "_model_type"
               = Some (PyStr mt)) by apply lookup_insert_eq.
  assert (H2 : <["_model_type" := PyStr mt]> attrs !! "hpc_run" = Some hpc)
    by now rewrite lookup_insert_ne.
  assert (H3 : <["_model_type" := PyStr mt]> attrs !! m = None)
    by (rewrite lookup_insert_ne; [exact Hm|congruence]).
  rewrite Hset, (select_run_function_binds c mt m hpc _ w' Hc Hv H1 H2 H3).
  assert (Hok : (mt =? "CFD Simulation")%string && negb (truthy hpc) = false).
  { destruct (String.eqb_spec mt "CFD Simulation") as [E|]; [|reflexivity].
    now rewrite (Hhpc E). }
  rewrite Hok. repeat split.
  - assert (Hg : <["run" := PyMethod m]> (<["_model_type" := PyStr mt]> attrs)
                 !! "_model_type" = Some (PyStr mt)).
    { rewrite lookup_insert_ne by discriminate. apply lookup_insert_eq. }
    destruct Hc as [-> | ->];
      exact (self_get_some "_model_type" _ (_, w') Hg).
  - exact Hper.
  - intros verbose. apply call_run_bound; [exact Hc|apply lookup_insert_eq].
Qed.

(** X10: assigning 'CFD Simulation' to [model_type] of an object whose
    [hpc_run] is false raises [AssertionError], but only after the new name
    was stored and written to the parameter file: the object then reports
    'CFD Simulation' while [run] is still the variant bound before. *)
Theorem model_type_without_hpc_fails_half_way (ext : Externals)
  (c : class_id) (old : string) (hpc : pyval) (attrs : gmap string pyval)
  (w : World) (fname : string) (doc block : gmap string pyval) :
  c = CEnzymaticHydrolysis \/ c = CBioreactor ->
  attrs !! "hpc_run" = Some hpc ->
  truthy hpc = false ->
  attrs !! "run" = Some (PyMethod old) ->
  attrs !! "params_filename" = Some (PyStr fname) ->
  yamls w !! fname = Some doc ->
  block_of c (<["_model_type" := PyStr "CFD Simulation"]> attrs) = Some block ->
  exists w' : World,
    let attrs' := <["_model_type" := PyStr "CFD Simulation"]> attrs in
    setattr (class_ns c) "model_type" (PyStr "CFD Simulation") (attrs, w)
    = (Raise AssertionError, (attrs', w'))
    /\ getattr (class_ns c) "model_type" (attrs', w')
       = (Ret (PyStr "CFD Simulation"), (attrs', w'))
    /\ persisted w' fname (block_section c) "model_type"
       = Some (PyStr "CFD Simulation")
    /\ forall verbose : pyval,
         call_run ext c verbose (attrs', w')
         = invoke ext c old verbose (attrs', w').
Proof.
  intros Hc Hh Hhpc Hr Hp Hy Hb.
  assert (Hv : exists m, run_variant c "CFD Simulation" = Some m)
    by (destruct Hc as [-> | ->]; eexists; reflexivity).
  destruct Hv as (m & Hv).
  destruct (model_type_setter_runs c _ m attrs w fname doc block Hv Hp Hy Hb)
    as (w' & Hset & Hper & _).
  set (attrs' := <["_model_type" := PyStr "CFD Simulation"]> attrs).
  assert (H1 : attrs' !! "_model_type" = Some (PyStr "CFD Simulation"))
    by apply lookup_insert_eq.
  assert (H2 : attrs' !! "hpc_run" = Some hpc)
    by (unfold attrs'; now rewrite lookup_insert_ne).
  assert (H3 : attrs' !! "run" = Some (PyMethod old))
    by (unfold attrs'; now rewrite lookup_insert_ne).
  exists w'. cbn zeta. rewrite Hset. repeat split.
  - destruct Hc as [-> | ->].
    + unfold EnzymaticHydrolysis.select_run_function.
      rewrite (bind_ret _ _ _ _ _ (self_get_some "_model_type" _ (_, w') H1)).
      cbn [py_eq_str String.eqb Ascii.eqb Bool.eqb].
      rewrite (bind_ret _ _ _ _ _ (self_get_some "hpc_run" hpc (_, w') H2)).
      now rewrite Hhpc.
    + unfold Bioreactor.select_run_function, Bioreactor.get_model_type.
      rewrite (bind_ret _ _ _ _ _ (self_get_some "_model_type" _ (_, w') H1)).
      cbn [py_eq_str String.eqb Ascii.eqb Bool.eqb].
      rewrite (bind_ret _ _ _ _ _ (self_get_some "hpc_run" hpc (_, w') H2)).
      now rewrite Hhpc.
  - destruct Hc as [-> | ->];
      exact (self_get_some "_model_type" _ (_, w') H1).
  - exact Hper.
  - intros verbose. now apply call_run_bound.
Qed.

(** X11: the [model_type] setters accept nothing but the names of the run
    variants of their class: any other value, a string or not, raises
    [ValueError] and changes neither the object nor the files. *)
Theorem model_type_refuses_other_names (c : class_id) (a : pyval) (s : St) :
  c = CEnzymaticHydrolysis \/ c = CBioreactor ->
  (forall mt : string, a = PyStr mt -> run_variant c mt = None) ->
  exists msg : list fpiece,
    setattr (class_ns c) "model_type" a s = (Raise (ValueError msg), s).
Proof.
  intros Hc Hno.
  assert (Hf : forall name : string,
             (exists m, run_variant c name = Some m) ->
             py_eq_str a name = false).
  { intros name (m & Hm). destruct a; try reflexivity. cbn [py_eq_str].
    destruct (String.eqb_spec s0 name) as [-> |]; [|reflexivity].
    rewrite (Hno name eq_refl) in Hm. discriminate. }
  destruct Hc as [-> | ->]; eexists.
  - change (setattr (class_ns CEnzymaticHydrolysis) "model_type" a s)
      with (EnzymaticHydrolysis.set_model_type a s).
    unfold EnzymaticHydrolysis.set_model_type.
    rewrite !Hf by (eexists; reflexivity). reflexivity.
  - change (setattr (class_ns CBioreactor) "model_type" a s)
      with (Bioreactor.set_model_type a s).
    unfold Bioreactor.set_model_type.
    rewrite !Hf by (eexists; reflexivity). reflexivity.
Qed.

Lemma model_type_selects_the_run_function_witness :
  exists w' : World,
    let attrs' := <["run" := PyMethod "run_eh_lignocellulose_model"]>
                    (<["_model_type" := PyStr "Lignocellulose Model"]>
                       session_eh) in
    setattr (class_ns CEnzymaticHydrolysis) "model_type"
      (PyStr "Lignocellulose Model") (session_eh, session_world)
    = (Ret tt, (attrs', w'))
    /\ getattr (class_ns CEnzymaticHydrolysis) "model_type" (attrs', w')
       = (Ret (PyStr "Lignocellulose Model"), (attrs', w'))
    /\ persisted w' "params.yaml" (block_section CEnzymaticHydrolysis)
         "model_type" = Some (PyStr "Lignocellulose Model")
    /\ forall verbose : pyval,
         call_run (Session.stub Session.minus_final_time) CEnzymaticHydrolysis verbose (attrs', w')
         = invoke (Session.stub Session.minus_final_time) CEnzymaticHydrolysis
             "run_eh_lignocellulose_model" verbose (attrs', w').
Proof.
  apply (model_type_selects_the_run_function (Session.stub Session.minus_final_time)
           CEnzymaticHydrolysis "Lignocellulose Model"
           "run_eh_lignocellulose_model" (PyBool false) session_eh
           session_world "params.yaml"
           (default ∅ (yamls session_world !! "params.yaml"))
           (default ∅ (block_of CEnzymaticHydrolysis
                         (<["_model_type" := PyStr "Lignocellulose Model"]>
                            session_eh)))).
  - reflexivity.
  - reflexivity.
  - discriminate.
  - reflexivity.
  - reflexivity.
  - reflexivity.
  - reflexivity.
Defined.

Lemma model_type_without_hpc_fails_half_way_witness :
  exists w' : World,
    let attrs' := <["_model_type" := PyStr "CFD Simulation"]> session_eh in
    setattr (class_ns CEnzymaticHydrolysis) "model_type"
      (PyStr "CFD Simulation") (session_eh, session_world)
    = (Raise AssertionError, (attrs', w'))
    /\ getattr (class_ns CEnzymaticHydrolysis) "model_type" (attrs', w')
       = (Ret (PyStr "CFD Simulation"), (attrs', w'))
    /\ persisted w' "params.yaml" (block_section CEnzymaticHydrolysis)
         "model_type" = Some (PyStr "CFD Simulation")
    /\ forall verbose : pyval,
         call_run (Session.stub Session.minus_final_time) CEnzymaticHydrolysis verbose (attrs', w')
         = invoke (Session.stub Session.minus_final_time) CEnzymaticHydrolysis "run_eh_cfd_surrogate"
             verbose (attrs', w').
Proof.
  apply (model_type_without_hpc_fails_half_way (Session.stub Session.minus_final_time)
           CEnzymaticHydrolysis "run_eh_cfd_surrogate" (PyBool false)
           session_eh session_world "params.yaml"
           (default ∅ (yamls session_world !! "params.yaml"))
           (default ∅ (block_of CEnzymaticHydrolysis
                         (<["_model_type" := PyStr "CFD Simulation"]>
                            session_eh)))).
  - now left.
  - reflexivity.
  - reflexivity.
  - reflexivity.
  - reflexivity.
  - reflexivity.
  - reflexivity.
Defined.

Lemma model_type_refuses_other_names_witness :
  exists msg : list fpiece,
    setattr (class_ns CBioreactor) "model_type"
      (PyStr "Lignocellulose Model") (session_eh, session_world)
    = (Raise (ValueError msg), (session_eh, session_world)).
Proof.
  apply (model_type_refuses_other_names CBioreactor
           (PyStr "Lignocellulose Model") (session_eh, session_world)).
  - now right.
  - intros mt [= <-]. reflexivity.
Defined.

(* --------------------------------------------------------------------- *)
(** ** Failing evaluations of the objective *)

(** X12: if the pipeline of the first evaluation returns a zero, the
    division [-1.0/obj] raises [ZeroDivisionError] before the evaluation is
    counted or logged: the state is the one the pipeline left. *)
Theorem first_objective_zero_is_not_counted (ext : Externals)
  (fv : list float) (o : Optimization) (w : World) (r obj : pyval)
  (f : float) (s1 : OS) :
  fn_evals o = 0 ->
  run_models_with_new_values ext (to_dimensional fv (var_real_bounds o))
    true (o, w) = (Ret r, s1) ->
  py_neg r = Ret obj ->
  as_float obj = Ret f ->
  is_zero f = true ->
  objective_function ext fv (o, w) = (Raise ZeroDivisionError, s1)
  /\ fn_evals (fst s1) = 0
  /\ objective_scaling (fst s1) = objective_scaling o.
Proof.
  intros Hn Hrun Hneg Hf Hz.
  pose proof (run_models_keeps_config ext
                (to_dimensional fv (var_real_bounds o)) true (o, w)) as Hk.
  rewrite Hrun in Hk. cbn [fst snd] in Hk.
  destruct (config_fields _ _ Hk) as (Hn1 & Hs1 & _).
  split; [|split; congruence].
  unfold objective_function.
  unfold bind at 1. unfold gets at 1. cbn [fst snd].
  rewrite Hn. change (0 =? 0) with true.
  rewrite (bind_ret _ _ _ _ _ Hrun).
  rewrite Hneg, bind_lift_ret.
  unfold bind at 1. unfold gets at 1. cbn [fst snd].
  rewrite Hn1, Hn. change (0 =? 0) with true.
  rewrite Hf.
  unfold bind at 1. rewrite bind_lift_ret.
  unfold truediv. cbn [num_is_zero float_Number]. rewrite Hz.
  reflexivity.
Qed.

Local Ltac fields_agree :=
  cbn; repeat split; try congruence; try (right; congruence);
  try (left; congruence); try (intros; congruence).

(** X13: whatever a call of [objective_function] does, returning or
    raising, it leaves the controls of the driver as they were (names,
    bounds, starting point, result file), raises the evaluation count by
    one or not at all, and changes the scaling of the objective only if
    the count was zero. *)
Theorem objective_function_fixes_the_scaling_once (ext : Externals)
  (fv : list float) (s : OS) :
  let o := fst s in
  let o' := fst (snd (objective_function ext fv s)) in
  var_names o' = var_names o
  /\ var_real_bounds o' = var_real_bounds o
  /\ var_bounds o' = var_bounds o
  /\ x_0 o' = x_0 o
  /\ opt_results_file o' = opt_results_file o
  /\ (fn_evals o' = fn_evals o \/ fn_evals o' = fn_evals o + 1)
  /\ (fn_evals o <> 0 -> objective_scaling o' = objective_scaling o).
Proof.
  destruct s as [o w]. cbn zeta. cbn [fst].
  pose proof (run_models_keeps_config ext
                (to_dimensional fv (var_real_bounds o)) (fn_evals o =? 0)
                (o, w)) as Hk.
  cbn [fst] in Hk.
  remember (objective_function ext fv (o, w)) as res eqn:Hres.
  unfold objective_function in Hres.
  unfold bind at 1 in Hres. unfold gets at 1 in Hres. cbn [fst snd] in Hres.
  unfold bind at 1 in Hres.
  destruct (run_models_with_new_values ext _ _ (o, w)) as [[r|e] [o1 w1]];
    cbn [fst snd] in Hk;
    pose proof (f_equal var_names Hk) as H1;
    pose proof (f_equal var_real_bounds Hk) as H2;
    pose proof (f_equal var_bounds Hk) as H3;
    pose proof (f_equal x_0 Hk) as H4;
    pose proof (f_equal opt_results_file Hk) as H5;
    pose proof (f_equal fn_evals Hk) as H6;
    pose proof (f_equal objective_scaling Hk) as H7;
    cbn in H1, H2, H3, H4, H5, H6, H7;
    [|subst res; fields_agree].
  unfold bind at 1 in Hres.
  destruct (py_neg r) as [obj|e]; cbn [lift fst snd] in Hres;
    [|subst res; fields_agree].
  unfold bind at 1 in Hres. unfold gets at 1 in Hres.
  cbn [fst snd] in Hres. rewrite H6 in Hres.
  unfold bind at 1 in Hres.
  destruct (fn_evals o =? 0) eqn:E.
  - apply Z.eqb_eq in E.
    unfold bind at 1 in Hres.
    destruct (as_float obj) as [d|e]; cbn [lift fst snd] in Hres;
      [|subst res; fields_agree].
    unfold bind at 1 in Hres.
    destruct (truediv (of_Z (-1)) d) as [sc|e]; cbn [lift fst snd] in Hres;
      [|subst res; fields_agree].
    unfold modify at 1 in Hres. cbn [fst snd] in Hres.
    unfold bind at 1 in Hres. unfold modify at 1 in Hres.
    cbn [fst snd] in Hres.
    unfold bind at 1 in Hres. unfold gets at 1 in Hres.
    cbn [fst snd] in Hres.
    cbn [opt_results_file set_fn_evals set_objective_scaling] in Hres.
    unfold bind at 1 in Hres.
    destruct (opt_results_file o1) as [file|] eqn:Ef; cbn [lift fst snd] in Hres;
      [|subst res; fields_agree].
    unfold bind at 1 in Hres. unfold bind at 1 in Hres.
    rewrite world_run in Hres. cbn [fst snd append_log] in Hres.
    unfold ret at 1 in Hres.
    match type of Hres with
    | context [if ?b then _ else _] => destruct b
    end; subst res; fields_agree.
  - apply Z.eqb_neq in E.
    unfold ret at 1 in Hres.
    unfold bind at 1 in Hres. unfold modify at 1 in Hres.
    cbn [fst snd] in Hres.
    unfold bind at 1 in Hres. unfold gets at 1 in Hres.
    cbn [fst snd] in Hres.
    cbn [opt_results_file set_fn_evals] in Hres.
    unfold bind at 1 in Hres.
    destruct (opt_results_file o1) as [file|] eqn:Ef; cbn [lift fst snd] in Hres;
      [|subst res; fields_agree].
    destruct (as_float obj) as [d|e].
    + unfold bind at 1 in Hres. unfold bind at 1 in Hres.
      rewrite world_run in Hres. cbn [fst snd append_log] in Hres.
      unfold ret at 1 in Hres.
      match type of Hres with
      | context [if ?b then _ else _] => destruct b
      end; subst res; fields_agree.
    + unfold bind at 1 in Hres. unfold bind at 1 in Hres.
      rewrite world_run in Hres. cbn [fst snd append_log] in Hres.
      subst res; fields_agree.
Qed.

(** X14: before [scipy_minimize] has named a result file the driver has
    no attribute [opt_results_file]: an evaluation whose pipeline returns a
    number then raises [AttributeError], after the evaluation was counted
    and, in the first one, the scaling set; nothing is logged. *)
Theorem objective_function_needs_a_result_file (ext : Externals)
  (fv : list float) (o : Optimization) (w : World) (r obj : pyval)
  (f : float) (s1 : OS) :
  opt_results_file o = None ->
  run_models_with_new_values ext (to_dimensional fv (var_real_bounds o))
    (fn_evals o =? 0) (o, w) = (Ret r, s1) ->
  py_neg r = Ret obj ->
  as_float obj = Ret f ->
  (fn_evals o = 0 -> is_zero f = false) ->
  exists o2 : Optimization,
    objective_function ext fv (o, w)
    = (Raise (AttributeError "opt_results_file"), (o2, snd s1))
    /\ fn_evals o2 = fn_evals o + 1
    /\ objective_scaling o2
       = (if fn_evals o =? 0 then PyFloat.div (of_Z (-1)) f
          else objective_scaling o).
Proof.
  intros Hfile Hrun Hneg Hf Hnz.
  pose proof (run_models_keeps_config ext
                (to_dimensional fv (var_real_bounds o)) (fn_evals o =? 0)
                (o, w)) as Hk.
  rewrite Hrun in Hk. cbn [fst snd] in Hk.
  destruct (config_fields _ _ Hk) as (Hn & Hs & Hfl & _).
  destruct s1 as [o1 w1]. cbn [fst snd] in *.
  unfold objective_function.
  unfold bind at 1. unfold gets at 1. cbn [fst snd].
  rewrite (bind_ret _ _ _ _ _ Hrun).
  rewrite Hneg, bind_lift_ret.
  unfold bind at 1. unfold gets at 1. cbn [fst snd].
  rewrite Hn.
  destruct (fn_evals o =? 0) eqn:E.
  - apply Z.eqb_eq in E. specialize (Hnz E).
    rewrite Hf.
    unfold bind at 1. rewrite bind_lift_ret.
    unfold truediv. cbn [num_is_zero float_Number]. rewrite Hnz.
    rewrite bind_lift_ret.
    unfold modify at 1. cbn [fst snd].
    unfold bind at 1. unfold modify at 1. cbn [fst snd].
    unfold bind at 1. unfold gets at 1. cbn [fst snd].
    cbn [opt_results_file set_fn_evals set_objective_scaling].
    rewrite Hfl, Hfile.
    eexists. split; [reflexivity|]. cbn. split; [congruence|reflexivity].
  - unfold bind at 1. unfold ret at 1.
    unfold bind at 1. unfold modify at 1. cbn [fst snd].
    unfold bind at 1. unfold gets at 1. cbn [fst snd].
    cbn [opt_results_file set_fn_evals].
    rewrite Hfl, Hfile.
    eexists. split; [reflexivity|]. cbn. split; congruence.
Qed.

Lemma first_objective_zero_is_not_counted_witness :
  let ext := Session.stub (Session.constant (of_Z 0)) in
  let s := Session.two_controls in
  let fv := [dec 1 2; dec 1 2] in
  let s1 := snd (run_models_with_new_values ext
                   (to_dimensional fv (var_real_bounds (fst s))) true
                   (fst s, snd s)) in
  objective_function ext fv (fst s, snd s) = (Raise ZeroDivisionError, s1)
  /\ fn_evals (fst s1) = 0
  /\ objective_scaling (fst s1) = objective_scaling (fst s).
Proof.
  intros ext s fv s1.
  apply (first_objective_zero_is_not_counted ext fv (fst s) (snd s)
           (PyFloat (of_Z 0)) (PyFloat (opp (of_Z 0))) (opp (of_Z 0)) s1).
  - vm_compute. reflexivity.
  - vm_compute. reflexivity.
  - reflexivity.
  - reflexivity.
  - reflexivity.
Defined.

Lemma objective_function_needs_a_result_file_witness :
  let ext := Session.stub (Session.constant (of_Z 2)) in
  let s := constructed (Session.fs_options true)
             (Session.pt_options false true 10 20) in
  let fv := [dec 1 2; dec 1 2] in
  let s1 := snd (run_models_with_new_values ext
                   (to_dimensional fv (var_real_bounds (fst s))) true
                   (fst s, snd s)) in
  exists o2 : Optimization,
    objective_function ext fv (fst s, snd s)
    = (Raise (AttributeError "opt_results_file"), (o2, snd s1))
    /\ fn_evals o2 = fn_evals (fst s) + 1
    /\ objective_scaling o2
       = (if fn_evals (fst s) =? 0 then PyFloat.div (of_Z (-1)) (of_Z (-2))
          else objective_scaling (fst s)).
Proof.
  intros ext s fv s1.
  apply (objective_function_needs_a_result_file ext fv (fst s) (snd s)
           (PyFloat (of_Z 2)) (PyFloat (of_Z (-2))) (of_Z (-2)) s1).
  - vm_compute. reflexivity.
  - vm_compute. reflexivity.
  - reflexivity.
  - reflexivity.
  - reflexivity.
Defined.

(* --------------------------------------------------------------------- *)
(** ** The controls of a constructed driver *)

(** The walk over flagged controls whose ranges are not empty. *)
Lemma visit_flagged (fl : list (string * OptimizationWidget)) (c : Controls) :
  (forall n o, In (n, o) fl ->
     is_control o = true
     /\ is_zero (PyFloat.sub (w_max o) (w_min o)) = false) ->
  exists c' : Controls,
    for_each fl (fun '(n, o) => visit_widget (n, Optim o)) c = (Ret tt, c')
    /\ map Ret (c_x_0 c')
       = map Ret (c_x_0 c)
         ++ map (fun '(_, o) => normalize (w_value o) (w_min o, w_max o)) fl
    /\ c_var_names c' = c_var_names c ++ map fst fl
    /\ c_nice_var_names c'
       = c_nice_var_names c ++ map (fun '(_, o) => description o) fl
    /\ c_var_bounds c'
       = c_var_bounds c ++ map (fun _ => (of_Z 0, of_Z 1)) fl
    /\ c_var_real_bounds c'
       = c_var_real_bounds c ++ map (fun '(_, o) => (w_min o, w_max o)) fl.
Proof.
  revert c. induction fl as [|[n o] fl IH]; intros c Hfl.
  - exists c. cbn [for_each map]. rewrite !app_nil_r. now repeat split.
  - destruct (Hfl n o (or_introl eq_refl)) as (Hc & Hz).
    assert (Hn : normalize (w_value o) (w_min o, w_max o)
                 = Ret (PyFloat.div (PyFloat.sub (w_value o) (w_min o))
                          (PyFloat.sub (w_max o) (w_min o)))).
    { unfold normalize, truediv.
      cbn [num_is_zero num_sub num_quot float_Number]. now rewrite Hz. }
    cbn [for_each]. unfold bind at 1.
    unfold visit_widget at 1. rewrite Hc, Hn. rewrite bind_lift_ret.
    unfold modify at 1.
    match goal with
    | |- context [for_each fl _ ?c1] =>
        destruct (IH c1 (fun n' o' H => Hfl n' o' (or_intror H)))
          as (c' & Hrun & Hx & Hnames & Hnice & Hb & Hrb)
    end.
    exists c'. split; [exact Hrun|].
    cbn [c_x_0 c_var_names c_nice_var_names c_var_bounds c_var_real_bounds]
      in Hx, Hnames, Hnice, Hb, Hrb.
    rewrite Hx, Hnames, Hnice, Hb, Hrb. cbn [map fst].
    rewrite map_app, Hn, <- !app_assoc. now repeat split.
Qed.

(** X15: when the stage models can be built and the flagged controls of
    the feedstock, pretreatment and enzymatic hydrolysis widgets are at
    least one and all have a range that is not empty, [__init__] returns a
    driver whose lists follow these controls in the order of the widgets:
    their names, descriptions and real bounds, the normalised bounds
    [(0.0, 1.0)], and as starting point their values normalised.  The
    count of evaluations starts at 0, the scaling at 1.0 and no result
    file is named.  The bioreactor widgets are never searched, whatever
    their flags. *)
Theorem init_collects_the_flagged_controls (ext : Externals)
  (fs pt eh br : WidgetCollection) (objw : list string) (hpc : bool)
  (nb pf : string) (w : World) (out : string) (rest : list string) (n : Z)
  (models : list Obj) (w1 : World) :
  objw = out :: rest ->
  define_n_models the_output_names out = Ret n ->
  init_models ext fs pt eh br hpc nb pf n w = (Ret models, w1) ->
  flagged (fs ++ pt ++ eh) <> [] ->
  (forall name o, In (name, o) (flagged (fs ++ pt ++ eh)) ->
                  is_zero (PyFloat.sub (w_max o) (w_min o)) = false) ->
  exists opt : Optimization,
    __init__ ext fs pt eh br objw hpc nb pf w = (Ret opt, w1)
    /\ models_list opt = models
    /\ var_names opt = map fst (flagged (fs ++ pt ++ eh))
    /\ nice_var_names opt
       = map (fun '(_, o) => description o) (flagged (fs ++ pt ++ eh))
    /\ var_real_bounds opt
       = map (fun '(_, o) => (w_min o, w_max o)) (flagged (fs ++ pt ++ eh))
    /\ var_bounds opt
       = map (fun _ => (of_Z 0, of_Z 1)) (flagged (fs ++ pt ++ eh))
    /\ map Ret (x_0 opt)
       = map (fun '(_, o) => normalize (w_value o) (w_min o, w_max o))
           (flagged (fs ++ pt ++ eh))
    /\ fn_evals opt = 0
    /\ objective_scaling opt = of_Z 1
    /\ opt_results_file opt = None
    /\ output_name opt = out
    /\ objective_name opt = List.last objw out.
Proof.
  intros -> Hn Hm Hne Hz.
  rewrite init_stages, Hn, Hm, find_controls_flat, for_each_flagged.
  destruct (visit_flagged (flagged (fs ++ pt ++ eh)) no_controls)
    as (c & Hrun & Hx & Hnames & Hnice & Hb & Hrb).
  { intros name o Hin. split; [exact (flagged_is_control _ _ _ Hin)|].
    exact (Hz name o Hin). }
  rewrite Hrun. cbn [no_controls c_x_0 c_var_names c_nice_var_names
                     c_var_bounds c_var_real_bounds app map]
    in Hx, Hnames, Hnice, Hb, Hrb.
  assert (Hlen : (length (c_x_0 c) =? 0)%nat = false).
  { apply Nat.eqb_neq. intros H0.
    apply (f_equal (@length _)) in Hx. rewrite !length_map, H0 in Hx.
    destruct (flagged (fs ++ pt ++ eh)); [congruence|discriminate]. }
  rewrite Hlen. eexists. split; [reflexivity|].
  cbn [models_list var_names nice_var_names var_real_bounds var_bounds x_0
       fn_evals objective_scaling opt_results_file output_name
       objective_name].
  now repeat split.
Qed.

Lemma init_collects_the_flagged_controls_witness :
  let ext := Session.stub (Session.constant (of_Z 0)) in
  let fs := Session.fs_options true in
  let pt := Session.pt_options false true 10 20 in
  let br := [("t_final", Session.ctl true (of_Z 1) (of_Z 100) (of_Z 50)
                           "Final Time")] in
  let objw := ["pretreatment_output"; "X_G"] in
  let fl := flagged (fs ++ pt ++ []) in
  exists opt : Optimization,
    __init__ ext fs pt [] br objw false "/nb" "params.yaml" Session.w0
    = (Ret opt,
       snd (init_models ext fs pt [] br false "/nb" "params.yaml" 1
              Session.w0))
    /\ models_list opt
       = match fst (init_models ext fs pt [] br false "/nb" "params.yaml" 1
                      Session.w0) with
         | Ret m => m
         | Raise _ => []
         end
    /\ var_names opt = map fst fl
    /\ nice_var_names opt = map (fun '(_, o) => description o) fl
    /\ var_real_bounds opt = map (fun '(_, o) => (w_min o, w_max o)) fl
    /\ var_bounds opt = map (fun _ => (of_Z 0, of_Z 1)) fl
    /\ map Ret (x_0 opt)
       = map (fun '(_, o) => normalize (w_value o) (w_min o, w_max o)) fl
    /\ fn_evals opt = 0
    /\ objective_scaling opt = of_Z 1
    /\ opt_results_file opt = None
    /\ output_name opt = "pretreatment_output"
    /\ objective_name opt = List.last objw "pretreatment_output".
Proof.
  intros ext fs pt br objw fl.
  apply (init_collects_the_flagged_controls ext fs pt [] br objw false "/nb"
           "params.yaml" Session.w0 "pretreatment_output" ["X_G"] 1).
  - reflexivity.
  - reflexivity.
  - vm_compute. reflexivity.
  - discriminate.
  - intros name o [H|[H|[]]]; injection H as <- <-; reflexivity.
Defined.

(* --------------------------------------------------------------------- *)
(** ** The stages of a constructed driver *)

Lemma bind_self_set {B} (name : string) (v : pyval) (k : unit -> M St B)
  (s : St) :
  bind (self_set name v) k s = k tt (<[name := v]> (fst s), snd s).
Proof. reflexivity. Qed.

(** Writing the block of a stage to the parameter file leaves the
    attributes of the object alone. *)
Lemma persist_block_keeps_attrs (section : string)
  (block : gmap string pyval) (rewrite merge_first : bool) (s : St) :
  fst (snd (persist_block section block rewrite merge_first s)) = fst s.
Proof.
  destruct s as [a w]. unfold persist_block, bind, self_get, lift.
  cbn [fst snd].
  destruct (a !! "params_filename") as [v|]; [|reflexivity].
  destruct (as_str v) as [fname|e]; [|reflexivity].
  destruct rewrite.
  - rewrite world_run. cbn [fst snd].
    destruct (yaml_to_dict fname w) as [[[]|e] w1]; cbn [fst snd];
      try reflexivity; now rewrite world_run.
  - now rewrite world_run.
Qed.

Lemma input2yaml_keeps_attrs (c : class_id) (rewrite : bool) (s : St) :
  fst (snd (class_input2yaml c rewrite s)) = fst s.
Proof.
  destruct s as [a w].
  destruct c; cbn [class_input2yaml];
    unfold Feedstock.input2yaml, Pretreatment.input2yaml,
      EnzymaticHydrolysis.input2yaml, Bioreactor.input2yaml;
    repeat (unfold bind at 1; unfold self_get at 1; cbn [fst snd];
            match goal with
            | |- context [a !! ?k] => destruct (a !! k); [|reflexivity]
            end);
    apply persist_block_keeps_attrs.
Qed.

(** An enzymatic hydrolysis object built for the surrogate runs the
    surrogate. *)
Lemma EnzymaticHydrolysis_init_binds (nb pf : string)
  (eh : WidgetCollection) (hpc : bool) (w : World)
  (a : gmap string pyval) (w1 : World) :
  dot_value eh "model_type" = Ret (PyStr "CFD Surrogate") ->
  EnzymaticHydrolysis.__init__ nb pf eh hpc (∅, w) = (Ret tt, (a, w1)) ->
  a !! "run" = Some (PyMethod "run_eh_cfd_surrogate")
  /\ a !! "_model_type" = Some (PyStr "CFD Surrogate").
Proof.
  intros Hmt H. unfold EnzymaticHydrolysis.__init__ in H.
  rewrite !bind_self_set in H. cbn [fst snd] in H.
  unfold bind at 1 in H.
  destruct (dot_value eh "show_plots") as [sp|e]; cbn [lift] in H;
    [|discriminate].
  rewrite bind_self_set in H. cbn [fst snd] in H.
  unfold bind at 1 in H.
  destruct (dot_widget_value eh "lambda_e") as [l|e]; cbn [lift] in H;
    [|discriminate].
  rewrite bind_self_set in H. cbn [fst snd] in H.
  unfold bind at 1 in H.
  destruct (dot_value eh "fis_0") as [f|e]; cbn [lift] in H; [|discriminate].
  rewrite bind_self_set in H. cbn [fst snd] in H.
  unfold bind at 1 in H.
  destruct (dot_value eh "t_final") as [t|e]; cbn [lift] in H;
    [|discriminate].
  rewrite bind_self_set in H. cbn [fst snd] in H.
  rewrite Hmt, bind_lift_ret in H.
  rewrite bind_self_set in H. cbn [fst snd] in H.
  unfold bind at 1 in H. rewrite world_run in H. cbn [fst snd] in H.
  destruct (yaml_to_dict pf w) as [[ve|e] w'] eqn:Ey; cbn [fst snd] in H;
    [|discriminate].
  rewrite bind_self_set in H. cbn [fst snd] in H.
  unfold bind at 1 in H.
  match type of H with
  | context [EnzymaticHydrolysis.select_run_function (?a0, _)] =>
      rewrite (select_run_function_binds CEnzymaticHydrolysis "CFD Surrogate"
                 "run_eh_cfd_surrogate" (PyBool hpc) a0 w'
                 (or_introl eq_refl) eq_refl) in H;
        [|repeat (rewrite lookup_insert_ne by discriminate);
          first [apply lookup_insert_eq|apply lookup_empty] ..]
  end.
  cbn [String.eqb Ascii.eqb Bool.eqb andb] in H.
  match type of H with
  | context [EnzymaticHydrolysis.input2yaml false ?s0] =>
      pose proof (input2yaml_keeps_attrs CEnzymaticHydrolysis false s0) as Hk;
        cbn [class_input2yaml fst] in Hk;
        destruct (EnzymaticHydrolysis.input2yaml false s0) as [r [a' w2]]
  end.
  cbn [fst snd] in Hk. injection H as _ <- _. subst a'.
  split; [apply lookup_insert_eq|].
  repeat (rewrite lookup_insert_ne by discriminate). apply lookup_insert_eq.
Qed.

(** A bioreactor object built for the surrogate runs the surrogate. *)
Lemma Bioreactor_init_binds (nb pf : string) (br : WidgetCollection)
  (hpc : bool) (w : World) (a : gmap string pyval) (w1 : World) :
  dot_value br "model_type" = Ret (PyStr "CFD Surrogate") ->
  Bioreactor.__init__ nb pf br hpc (∅, w) = (Ret tt, (a, w1)) ->
  a !! "run" = Some (PyMethod "run_biorector_cfd_surrogate")
  /\ a !! "_model_type" = Some (PyStr "CFD Surrogate").
Proof.
  intros Hmt H. unfold Bioreactor.__init__ in H.
  rewrite !bind_self_set in H. cbn [fst snd] in H.
  rewrite Hmt, bind_lift_ret in H.
  rewrite bind_self_set in H. cbn [fst snd] in H.
  unfold bind at 1 in H.
  destruct (dot_value br "gas_velocity") as [g|e]; cbn [lift] in H;
    [|discriminate].
  rewrite bind_self_set in H. cbn [fst snd] in H.
  unfold bind at 1 in H.
  destruct (dot_value br "column_height") as [h|e]; cbn [lift] in H;
    [|discriminate].
  rewrite bind_self_set in H. cbn [fst snd] in H.
  unfold bind at 1 in H.
  destruct (dot_value br "column_diameter") as [d|e]; cbn [lift] in H;
    [|discriminate].
  rewrite bind_self_set in H. cbn [fst snd] in H.
  unfold bind at 1 in H.
  destruct (dot_value br "bubble_diameter") as [b|e]; cbn [lift] in H;
    [|discriminate].
  rewrite bind_self_set in H. cbn [fst snd] in H.
  unfold bind at 1 in H.
  destruct (dot_value br "t_final") as [t|e]; cbn [lift] in H;
    [|discriminate].
  rewrite bind_self_set in H. cbn [fst snd] in H.
  unfold bind at 1 in H.
  match type of H with
  | context [Bioreactor.input2yaml false ?s0] =>
      pose proof (input2yaml_keeps_attrs CBioreactor false s0) as Hk;
        cbn [class_input2yaml fst] in Hk;
        destruct (Bioreactor.input2yaml false s0) as [[[]|e] [a' w2]];
        [|discriminate]
  end.
  cbn [fst snd] in Hk. subst a'.
  match type of H with
  | context [Bioreactor.select_run_function (?a0, _)] =>
      rewrite (select_run_function_binds CBioreactor "CFD Surrogate"
                 "run_biorector_cfd_surrogate" (PyBool hpc) a0 w2
                 (or_intror eq_refl) eq_refl) in H;
        [|repeat (rewrite lookup_insert_ne by discriminate);
          first [apply lookup_insert_eq|apply lookup_empty] ..]
  end.
  cbn [String.eqb Ascii.eqb Bool.eqb andb] in H.
  injection H as <- _.
  split; [apply lookup_insert_eq|].
  repeat (rewrite lookup_insert_ne by discriminate). apply lookup_insert_eq.
Qed.

Lemma new_ret (c : class_id) (init : M St unit) (w : World) (ob : Obj)
  (w1 : World) :
  new c init w = (Ret ob, w1) ->
  cls ob = c /\ init (∅, w) = (Ret tt, (attrs ob, w1)).
Proof.
  unfold new. destruct (init (∅, w)) as [[[]|e] [a w']]; [|discriminate].
  intros [= <- <-]. now split.
Qed.

(** X16: the stage models of a driver are a feedstock and a pretreatment
    object, followed by an enzymatic hydrolysis object when more than one
    model is wanted and by a bioreactor object when more than two are.
    The construction succeeds only if the model type of each of the latter
    two is 'CFD Surrogate', and their [run] is then the surrogate of their
    class: an optimisation never starts a CFD simulation. *)
Theorem init_models_builds_surrogates (ext : Externals)
  (fs pt eh br : WidgetCollection) (hpc : bool) (nb pf : string) (n : Z)
  (w : World) (models : list Obj) (w1 : World) :
  init_models ext fs pt eh br hpc nb pf n w = (Ret models, w1) ->
  map cls models
  = [CFeedstock; CPretreatment]
    ++ (if 1 <? n then [CEnzymaticHydrolysis] else [])
    ++ (if 2 <? n then [CBioreactor] else [])
  /\ (1 < n -> dot_value eh "model_type" = Ret (PyStr "CFD Surrogate"))
  /\ (2 < n -> dot_value br "model_type" = Ret (PyStr "CFD Surrogate"))
  /\ forall ob : Obj,
       In ob models ->
       cls ob = CEnzymaticHydrolysis \/ cls ob = CBioreactor ->
       attrs ob !! "_model_type" = Some (PyStr "CFD Surrogate")
       /\ exists m : string,
            run_variant (cls ob) "CFD Surrogate" = Some m
            /\ attrs ob !! "run" = Some (PyMethod m).
Proof.
  assert (Hstr : forall v, py_eq_str v "CFD Surrogate" = true ->
                           v = PyStr "CFD Surrogate").
  { intros [] Hv; try discriminate. cbn [py_eq_str] in Hv.
    apply String.eqb_eq in Hv. now subst. }
  unfold init_models. intros H.
  unfold bind at 1 in H.
  destruct (new CFeedstock _ w) as [[FS|e] w2] eqn:Efs; [|discriminate].
  unfold bind at 1 in H.
  destruct (new CPretreatment _ w2) as [[PT|e] w3] eqn:Ept; [|discriminate].
  apply new_ret in Efs as (Hfs & _). apply new_ret in Ept as (Hpt & _).
  unfold bind at 1 in H.
  destruct (1 <? n) eqn:E1.
  - unfold bind at 1 in H.
    destruct (dot_value eh "model_type") as [mte|e] eqn:Emte;
      cbn [lift] in H; [|discriminate].
    destruct (py_eq_str mte "CFD Surrogate") eqn:Ee; [|discriminate].
    apply Hstr in Ee. subst mte.
    unfold bind at 1 in H.
    destruct (new CEnzymaticHydrolysis _ w3) as [[EH|e] w4] eqn:Eeh;
      [|discriminate].
    apply new_ret in Eeh as (Heh & Ieh).
    apply (EnzymaticHydrolysis_init_binds _ _ _ _ _ _ _ Emte) in Ieh
      as (Reh & Meh).
    unfold ret at 1 in H.
    destruct (2 <? n) eqn:E2.
    + unfold bind at 1 in H.
      destruct (dot_value br "model_type") as [mtb|e] eqn:Emtb;
        cbn [lift] in H; [|discriminate].
      destruct (py_eq_str mtb "CFD Surrogate") eqn:Eb; [|discriminate].
      apply Hstr in Eb. subst mtb.
      unfold bind at 1 in H.
      destruct (new CBioreactor _ w4) as [[BR|e] w5] eqn:Ebr; [|discriminate].
      apply new_ret in Ebr as (Hbr & Ibr).
      apply (Bioreactor_init_binds _ _ _ _ _ _ _ Emtb) in Ibr as (Rbr & Mbr).
      injection H as <- <-. cbn [map app]. rewrite Hfs, Hpt, Heh, Hbr.
      split; [reflexivity|]. split; [reflexivity|]. split; [reflexivity|].
      intros ob Hin Hc.
      destruct Hin as [<-|[<-|[<-|[<-|[]]]]]; destruct Hc; try congruence.
      * split; [exact Meh|]. rewrite Heh. eexists.
        split; [reflexivity|exact Reh].
      * split; [exact Mbr|]. rewrite Hbr. eexists.
        split; [reflexivity|exact Rbr].
    + injection H as <- <-. cbn [map app]. rewrite Hfs, Hpt, Heh.
      apply Z.ltb_ge in E2.
      split; [reflexivity|]. split; [reflexivity|]. split; [lia|].
      intros ob Hin Hc.
      destruct Hin as [<-|[<-|[<-|[]]]]; destruct Hc; try congruence.
      split; [exact Meh|]. rewrite Heh. eexists.
      split; [reflexivity|exact Reh].
  - unfold ret at 1 in H.
    assert (E2 : (2 <? n) = false)
      by (apply Z.ltb_ge; apply Z.ltb_ge in E1; lia).
    rewrite E2 in H |- *. injection H as <- <-. cbn [map app].
    rewrite Hfs, Hpt. apply Z.ltb_ge in E1.
    split; [reflexivity|]. split; [lia|]. split; [lia|].
    intros ob Hin Hc.
    destruct Hin as [<-|[<-|[]]]; destruct Hc; congruence.
Qed.

Lemma init_models_builds_surrogates_witness :
  let ext := Session.stub (Session.constant (of_Z 0)) in
  let fs := Session.fs_options true in
  let pt := Session.pt_options false true 10 20 in
  let run := init_models ext fs pt eh_options [] false "/nb" "params.yaml" 2
               Session.w0 in
  let models := match fst run with Ret m => m | Raise _ => [] end in
  map cls models
  = [CFeedstock; CPretreatment]
    ++ (if 1 <? 2 then [CEnzymaticHydrolysis] else [])
    ++ (if 2 <? 2 then [CBioreactor] else [])
  /\ (1 < 2 -> dot_value eh_options "model_type"
               = Ret (PyStr "CFD Surrogate"))
  /\ (2 < 2 -> dot_value [] "model_type" = Ret (PyStr "CFD Surrogate"))
  /\ forall ob : Obj,
       In ob models ->
       cls ob = CEnzymaticHydrolysis \/ cls ob = CBioreactor ->
       attrs ob !! "_model_type" = Some (PyStr "CFD Surrogate")
       /\ exists m : string,
            run_variant (cls ob) "CFD Surrogate" = Some m
            /\ attrs ob !! "run" = Some (PyMethod m).
Proof.
  intros ext fs pt run models.
  apply (init_models_builds_surrogates ext fs pt eh_options [] false "/nb"
           "params.yaml" 2 Session.w0 models (snd run)).
  reflexivity.
Defined.

(* --------------------------------------------------------------------- *)
(** ** The pipeline and the values of the controls *)

Lemma on_model_keeps_length {A} (k : nat) (c : class_id -> M St A) (s : OS) :
  length (models_list (fst (snd (on_model k c s))))
  = length (models_list (fst s)).
Proof.
  destruct s as [o w]. unfold on_model. cbn [fst snd].
  destruct (models_list o !! k) as [ob|]; [|reflexivity].
  destruct (c (cls ob) (attrs ob, w)) as [r [a' w']]. cbn [fst snd].
  cbn [models_list set_models_list]. apply length_insert.
Qed.

Lemma assign_keeps_config names dims n :
  keeps_config (assign_new_values names dims n).
Proof.
  unfold assign_new_values.
  apply keeps_for_each. intros [var_name value].
  apply keeps_for_each. intros k. apply keeps_on_model.
Qed.

Lemma assign_keeps_length names dims n (s : OS) :
  length (models_list (fst (snd (assign_new_values names dims n s))))
  = length (models_list (fst s)).
Proof.
  unfold assign_new_values.
  apply (for_each_invariant
           (fun s' => length (models_list (fst s'))
                      = length (models_list (fst s)))); [|reflexivity].
  intros [var_name value] s1 H1.
  apply (for_each_invariant
           (fun s' => length (models_list (fst s'))
                      = length (models_list (fst s)))); [|exact H1].
  intros k s2 H2. now rewrite on_model_keeps_length.
Qed.

(** An evaluation without new values: the stages after the feedstock run
    in the notebook directory, then the objective is read. *)
Lemma run_models_no_values (ext : Externals) (verbose : bool) (s : OS) :
  run_models_with_new_values ext [] verbose s
  = (world (chdir (notebookDir (fst s))) ;;;
     for_each (skipn 1 (seq 0 (length (models_list (fst s)))))
       (fun k => on_model k (fun c => call_run ext c (PyBool verbose)) ;;;
                 ret tt) ;;;
     output_dict <- world (yaml_to_dict (params_filename (fst s))) ;;
     out <- lift (py_getitem output_dict (output_name (fst s))) ;;
     obj <- lift (py_getitem out (objective_name (fst s))) ;;
     ret obj) s.
Proof.
  unfold run_models_with_new_values.
  unfold bind at 1. unfold gets at 1. cbn [fst snd].
  now rewrite combine_nil.
Qed.

(** The values are assigned before anything runs: an evaluation is the
    assignment followed by an evaluation without new values. *)
Lemma run_models_after_assignment (ext : Externals) (dims : list float)
  (verbose : bool) (s : OS) :
  run_models_with_new_values ext dims verbose s
  = match assign_new_values (var_names (fst s)) dims
            (length (models_list (fst s))) s with
    | (Ret _, s1) => run_models_with_new_values ext [] verbose s1
    | (Raise e, s1) => (Raise e, s1)
    end.
Proof.
  pose proof (assign_keeps_config (var_names (fst s)) dims
                (length (models_list (fst s))) s) as Hk.
  pose proof (assign_keeps_length (var_names (fst s)) dims
                (length (models_list (fst s))) s) as Hl.
  unfold run_models_with_new_values at 1.
  unfold bind at 1. unfold gets at 1. cbn [fst snd].
  fold (assign_new_values (var_names (fst s)) dims
          (length (models_list (fst s)))).
  unfold bind at 1.
  destruct (assign_new_values _ _ _ s) as [[[]|e] s1]; [|reflexivity].
  cbn [fst snd] in Hk, Hl.
  rewrite run_models_no_values, Hl.
  pose proof (f_equal notebookDir Hk) as H1.
  pose proof (f_equal params_filename Hk) as H2.
  pose proof (f_equal output_name Hk) as H3.
  pose proof (f_equal objective_name Hk) as H4.
  cbn in H1, H2, H3, H4. now rewrite H1, H2, H3, H4.
Qed.

Lemma for_each_fixed {S A} (l : list A) (body : A -> M S unit) (s : S) :
  (forall x, In x l -> body x s = (Ret tt, s)) ->
  for_each l body s = (Ret tt, s).
Proof.
  induction l as [|x l IH]; intros H; [reflexivity|].
  cbn [for_each]. unfold bind. rewrite (H x (or_introl eq_refl)).
  apply IH. intros y Hy. apply H. now right.
Qed.

(** What [on_model] does when the method ends in the given state. *)
Lemma on_model_step {A} (k : nat) (c : class_id -> M St A) (o : Optimization)
  (w : World) (ob : Obj) (r : outcome A) (a' : gmap string pyval)
  (w' : World) :
  models_list o !! k = Some ob ->
  c (cls ob) (attrs ob, w) = (r, (a', w')) ->
  on_model k c (o, w)
  = (r, (set_models_list (<[k := {| cls := cls ob; attrs := a' |}]>) o, w')).
Proof.
  intros Hk Hc. unfold on_model. cbn [fst snd]. now rewrite Hk, Hc.
Qed.

Lemma set_models_list_same (k : nat) (ob : Obj) (o : Optimization) :
  models_list o !! k = Some ob ->
  set_models_list (<[k := {| cls := cls ob; attrs := attrs ob |}]>) o = o.
Proof.
  intros Hk. destruct o, ob. cbn in *. unfold set_models_list. cbn.
  f_equal. now apply list_insert_id.
Qed.

(** An object without a member or an attribute of a name does not have
    the name. *)
Lemma hasattr_unknown (c : class_id) (name : string) (s : St) :
  ns_lookup (class_ns c) name = None -> fst s !! name = None ->
  hasattr (class_ns c) name s = (Ret false, s).
Proof.
  intros Hns Ha. unfold hasattr, getattr. rewrite Hns.
  unfold self_get. now rewrite Ha.
Qed.

(** X17: a control whose name is neither a member of the class nor an
    attribute of any stage model is ignored without a word: the pipeline
    runs and returns exactly as it does without new values. *)
Theorem controls_no_model_has_are_ignored (ext : Externals)
  (dims : list float) (verbose : bool) (o : Optimization) (w : World) :
  (forall (name : string) (ob : Obj),
      In name (var_names o) -> In ob (models_list o) ->
      ns_lookup (class_ns (cls ob)) name = None
      /\ attrs ob !! name = None) ->
  run_models_with_new_values ext dims verbose (o, w)
  = run_models_with_new_values ext [] verbose (o, w).
Proof.
  intros H. rewrite run_models_after_assignment. cbn [fst].
  assert (Ha : assign_new_values (var_names o) dims (length (models_list o))
                 (o, w) = (Ret tt, (o, w))).
  { unfold assign_new_values. apply for_each_fixed.
    intros [name value] Hin. apply in_combine_l in Hin.
    apply for_each_fixed. intros k Hk. apply in_seq in Hk.
    destruct (lookup_lt_is_Some_2 (models_list o) k ltac:(lia)) as (ob & Hob).
    destruct (H name ob Hin) as (Hns & Hat).
    { apply list_elem_of_In. eapply list_elem_of_lookup_2. exact Hob. }
    rewrite (on_model_step k _ o w ob (Ret tt) (attrs ob) w Hob).
    - now rewrite (set_models_list_same k ob o Hob).
    - unfold bind. now rewrite (hasattr_unknown _ _ (attrs ob, w) Hns Hat). }
  now rewrite Ha.
Qed.

Lemma controls_no_model_has_are_ignored_witness :
  let ext := Session.stub (Session.constant (of_Z 2)) in
  run_models_with_new_values ext [of_Z 100] true pretreatment_only
  = run_models_with_new_values ext [] true pretreatment_only.
Proof.
  intros ext.
  apply (controls_no_model_has_are_ignored ext [of_Z 100] true
           (fst pretreatment_only) (snd pretreatment_only)).
  intros name ob [<-|[]] [<-|[<-|[]]]; split; reflexivity.
Defined.

(** The assignment of an accepted value to a stored property of a stage
    whose parameter file is there. *)
Lemma setattr_stored (c : class_id) (name : string)
  (check : pyval -> outcome bool) (attr : string) (conv back : float -> float)
  (f : float) (a : gmap string pyval) (w : World) (fname : string)
  (doc block : gmap string pyval) :
  In (c, name, check, attr, conv, back) stored_by_setter ->
  check (PyFloat f) = Ret true ->
  a !! "params_filename" = Some (PyStr fname) ->
  yamls w !! fname = Some doc ->
  block_of c (<[attr := PyFloat (conv f)]> a) = Some block ->
  setattr (class_ns c) name (PyFloat f) (a, w)
  = (Ret tt,
     (<[attr := PyFloat (conv f)]> a,
      set_yamls (insert fname (<[block_section c := PyDict block]> doc)) w))
  /\ block !! name = Some (PyFloat (conv f)).
Proof.
  intros Hin Hc Hp Hy Hb.
  destruct (setter_runs c name check attr conv back (PyFloat f) f (a, w)
              Hin Hc eq_refl) as (Hset & Hne & Hkey & _).
  cbn [fst snd] in Hset. rewrite Hset.
  rewrite (input2yaml_rewrite c _ w fname block); [| |exact Hb].
  - rewrite Hy. split; [reflexivity|].
    rewrite (block_from_lookup _ _ block name attr (block_keys_distinct c)
               Hb Hkey).
    apply lookup_insert_eq.
  - now rewrite lookup_insert_ne.
Qed.

(** X18: the values go to every stage model that has the name, not only
    to the stage whose widget was flagged: in a driver over the four
    stages, a control named [t_final] with a value both setters accept
    sets the final time of the enzymatic hydrolysis and the final time of
    the bioreactor, writes both to the parameter file, and the pipeline
    then runs as without new values. *)
Theorem t_final_goes_to_both_stages (ext : Externals) (verbose : bool)
  (f : float) (o : Optimization) (w : World)
  (afs apt aeh abr : gmap string pyval) (fname : string)
  (doc eh_block br_block : gmap string pyval) :
  var_names o = ["t_final"] ->
  models_list o = [ {| cls := CFeedstock; attrs := afs |};
                    {| cls := CPretreatment; attrs := apt |};
                    {| cls := CEnzymaticHydrolysis; attrs := aeh |};
                    {| cls := CBioreactor; attrs := abr |} ] ->
  afs !! "t_final" = None ->
  apt !! "t_final" = None ->
  is_Some (aeh !! "_t_final") ->
  is_Some (abr !! "_t_final") ->
  in_closed (PyInt 1) (PyInt 24) (PyFloat f) = Ret true ->
  in_closed (PyInt 1) (PyFloat (of_Z (10 ^ 16))) (PyFloat f) = Ret true ->
  aeh !! "params_filename" = Some (PyStr fname) ->
  abr !! "params_filename" = Some (PyStr fname) ->
  yamls w !! fname = Some doc ->
  block_of CEnzymaticHydrolysis (<["_t_final" := PyFloat f]> aeh)
  = Some eh_block ->
  block_of CBioreactor (<["_t_final" := PyFloat f]> abr) = Some br_block ->
  let o' :=
    set_models_list
      (fun _ => [ {| cls := CFeedstock; attrs := afs |};
                  {| cls := CPretreatment; attrs := apt |};
                  {| cls := CEnzymaticHydrolysis;
                     attrs := <["_t_final" := PyFloat f]> aeh |};
                  {| cls := CBioreactor;
                     attrs := <["_t_final" := PyFloat f]> abr |} ]) o in
  let w' :=
    set_yamls
      (insert fname
         (<["bioreactor_input" := PyDict br_block]>
            (<["enzymatic_input" := PyDict eh_block]> doc))) w in
  run_models_with_new_values ext [f] verbose (o, w)
  = run_models_with_new_values ext [] verbose (o', w')
  /\ persisted w' fname "enzymatic_input" "t_final" = Some (PyFloat f)
  /\ persisted w' fname "bioreactor_input" "t_final" = Some (PyFloat f).
Proof.
  intros Hnames Hmodels Hfs Hpt [veh Heh] [vbr Hbr] Hceh Hcbr Hpeh Hpbr Hy
    Hbeh Hbbr o' w'.
  destruct (setattr_stored CEnzymaticHydrolysis "t_final" _ "_t_final"
              (fun x => x) (fun x => x) f aeh w fname doc eh_block
              ltac:(cbn; tauto) Hceh Hpeh Hy Hbeh) as (Hseh & Hkeh).
  set (w1 := set_yamls
               (insert fname (<["enzymatic_input" := PyDict eh_block]> doc))
               w) in *.
  assert (Hy1 : yamls w1 !! fname
                = Some (<["enzymatic_input" := PyDict eh_block]> doc))
    by apply lookup_insert_eq.
  destruct (setattr_stored CBioreactor "t_final" _ "_t_final"
              (fun x => x) (fun x => x) f abr w1 fname _ br_block
              ltac:(cbn; tauto) Hcbr Hpbr Hy1 Hbbr) as (Hsbr & Hkbr).
  cbn [block_section] in Hseh, Hsbr.
  assert (Hw : set_yamls
                 (insert fname
                    (<["bioreactor_input" := PyDict br_block]>
                       (<["enzymatic_input" := PyDict eh_block]> doc))) w1
               = w').
  { unfold w', w1, set_yamls. cbn [yamls logs cwd]. f_equal.
    apply insert_insert_eq. }
  rewrite Hw in Hsbr.
  split; [|split].
  - rewrite run_models_after_assignment. cbn [fst]. rewrite Hnames, Hmodels.
    unfold assign_new_values. cbn [combine length seq for_each].
    (* the feedstock *)
    unfold bind at 1. unfold bind at 1. unfold bind at 1.
    rewrite (on_model_step 0 _ o w {| cls := CFeedstock; attrs := afs |}
               (Ret tt) afs w);
      [|now rewrite Hmodels
       |cbn [cls attrs]; unfold bind;
        now rewrite (hasattr_unknown CFeedstock "t_final" (afs, w) eq_refl
                       Hfs)].
    (* the pretreatment *)
    unfold bind at 1.
    rewrite (on_model_step 1 _ _ w {| cls := CPretreatment; attrs := apt |}
               (Ret tt) apt w);
      [|cbn [models_list set_models_list]; now rewrite Hmodels
       |cbn [cls attrs]; unfold bind;
        now rewrite (hasattr_unknown CPretreatment "t_final" (apt, w) eq_refl
                       Hpt)].
    (* the enzymatic hydrolysis *)
    unfold bind at 1.
    rewrite (on_model_step 2 _ _ w
               {| cls := CEnzymaticHydrolysis; attrs := aeh |}
               (Ret tt) (<["_t_final" := PyFloat f]> aeh) w1);
      [|cbn [models_list set_models_list]; now rewrite Hmodels
       |cbn [cls attrs]; unfold bind, hasattr;
        change (getattr (class_ns CEnzymaticHydrolysis) "t_final")
          with (self_get "_t_final");
        rewrite (self_get_some "_t_final" veh (aeh, w) Heh); exact Hseh].
    (* the bioreactor *)
    unfold bind at 1.
    rewrite (on_model_step 3 _ _ w1 {| cls := CBioreactor; attrs := abr |}
               (Ret tt) (<["_t_final" := PyFloat f]> abr) w');
      [|cbn [models_list set_models_list]; now rewrite Hmodels
       |cbn [cls attrs]; unfold bind, hasattr;
        change (getattr (class_ns CBioreactor) "t_final")
          with (self_get "_t_final");
        rewrite (self_get_some "_t_final" vbr (abr, w1) Hbr); exact Hsbr].
    unfold ret at 1. unfold ret at 1.
    f_equal. f_equal. unfold o'. destruct o. cbn in Hmodels. subst.
    reflexivity.
  - unfold persisted, w'. cbn [yamls set_yamls].
    rewrite lookup_insert_eq, lookup_insert_ne by discriminate.
    now rewrite lookup_insert_eq.
  - unfold persisted, w'. cbn [yamls set_yamls].
    now rewrite !lookup_insert_eq.
Qed.

Lemma t_final_goes_to_both_stages_witness :
  let ext := Session.stub (Session.constant (of_Z 2)) in
  let f := of_Z 12 in
  let eh_block :=
    default ∅ (block_of CEnzymaticHydrolysis
                 (<["_t_final" := PyFloat f]> session_eh)) in
  let br_block :=
    default ∅ (block_of CBioreactor
                 (<["_t_final" := PyFloat f]> Session.br_attrs)) in
  let o' :=
    set_models_list
      (fun _ => [ {| cls := CFeedstock; attrs := session_fs |};
                  {| cls := CPretreatment; attrs := session_pt |};
                  {| cls := CEnzymaticHydrolysis;
                     attrs := <["_t_final" := PyFloat f]> session_eh |};
                  {| cls := CBioreactor;
                     attrs := <["_t_final" := PyFloat f]> Session.br_attrs |} ])
      (fst four_stages) in
  let w' :=
    set_yamls
      (insert "params.yaml"
         (<["bioreactor_input" := PyDict br_block]>
            (<["enzymatic_input" := PyDict eh_block]>
               (default ∅ (yamls session_world !! "params.yaml")))))
      session_world in
  run_models_with_new_values ext [f] true (fst four_stages, session_world)
  = run_models_with_new_values ext [] true (o', w')
  /\ persisted w' "params.yaml" "enzymatic_input" "t_final" = Some (PyFloat f)
  /\ persisted w' "params.yaml" "bioreactor_input" "t_final"
     = Some (PyFloat f).
Proof.
  intros ext f eh_block br_block.
  apply (t_final_goes_to_both_stages ext true f (fst four_stages)
           session_world session_fs session_pt session_eh Session.br_attrs
           "params.yaml" (default ∅ (yamls session_world !! "params.yaml"))
           eh_block br_block).
  - reflexivity.
  - reflexivity.
  - reflexivity.
  - reflexivity.
  - eexists; reflexivity.
  - eexists; reflexivity.
  - reflexivity.
  - reflexivity.
  - reflexivity.
  - reflexivity.
  - reflexivity.
  - reflexivity.
  - reflexivity.
Defined.

(* --------------------------------------------------------------------- *)
(** ** What a grid sweep leaves alone *)

Section Preserves.

Context {X : Type} (g : Optimization -> X).

Lemma preserves_bind {A B} (m : M OS A) (k : A -> M OS B) :
  preserves g m -> (forall a, preserves g (k a)) -> preserves g (bind m k).
Proof.
  intros Hm Hk s. unfold bind. specialize (Hm s).
  destruct (m s) as [[a|e] s1]; cbn [fst snd] in *; [|exact Hm].
  now rewrite Hk.
Qed.

Lemma preserves_for_each {A} (l : list A) (body : A -> M OS unit) :
  (forall x, preserves g (body x)) -> preserves g (for_each l body).
Proof.
  intros Hb. induction l as [|x l IH]; cbn [for_each].
  - now intros s.
  - apply preserves_bind; [apply Hb | intros _; exact IH].
Qed.

Lemma preserves_world {A} (c : M World A) : preserves g (world c).
Proof. intros [o w]. now rewrite world_run. Qed.

Lemma preserves_lift {A} (x : outcome A) : preserves g (lift x).
Proof. now intros s. Qed.

Lemma preserves_gets {A} (f : OS -> A) : preserves g (gets f).
Proof. now intros s. Qed.

End Preserves.

Lemma on_model_preserves_stages {A} (k : nat) (c : class_id -> M St A) :
  preserves stages (on_model k c).
Proof.
  intros [o w]. unfold on_model. cbn [fst snd].
  destruct (models_list o !! k) as [ob|] eqn:Hk; [|reflexivity].
  destruct (c (cls ob) (attrs ob, w)) as [r [a' w']]. cbn [fst snd].
  unfold stages. cbn [models_list set_models_list].
  rewrite list_fmap_insert. cbn [cls].
  apply list_insert_id. now rewrite list_lookup_fmap, Hk.
Qed.

Lemma run_models_preserves_stages ext dims verbose :
  preserves stages (run_models_with_new_values ext dims verbose).
Proof.
  unfold run_models_with_new_values.
  apply preserves_bind; [apply preserves_gets|intros o].
  apply preserves_bind.
  { apply preserves_for_each. intros [var_name value].
    apply preserves_for_each. intros k. apply on_model_preserves_stages. }
  intros _. apply preserves_bind; [apply preserves_world|intros _].
  apply preserves_bind.
  { apply preserves_for_each. intros k.
    apply preserves_bind; [apply on_model_preserves_stages|intros _].
    now intros s. }
  intros _. apply preserves_bind; [apply preserves_world|intros d].
  apply preserves_bind; [apply preserves_lift|intros out].
  apply preserves_bind; [apply preserves_lift|intros obj].
  now intros s.
Qed.

Lemma sweep_preserves {X} (g : Optimization -> X) ext nn results_file :
  (forall dims, preserves g (run_models_with_new_values ext dims false)) ->
  preserves g (parameter_grid_sweep ext nn results_file).
Proof.
  intros Hrun. unfold parameter_grid_sweep.
  apply preserves_bind; [apply preserves_gets|intros o].
  apply preserves_bind; [apply preserves_world|intros _].
  apply preserves_bind; [apply preserves_lift|intros grid].
  apply preserves_bind; [apply preserves_world|intros _].
  apply preserves_for_each. intros [i dims]. unfold sweep_step.
  apply preserves_bind; [apply Hrun|intros obj].
  apply preserves_bind; [apply preserves_lift|intros f].
  apply preserves_world.
Qed.

(** X19: a grid sweep, whether it ends or raises, leaves the bookkeeping
    of the optimisation alone: the count of evaluations, the scaling of the
    objective, the starting point, the controls and their bounds, and the
    name of the result file of the optimisation (the sweep writes to its
    own file and never names it in the driver).  The stage models stay
    objects of the same classes in the same order. *)
Theorem parameter_grid_sweep_keeps_the_bookkeeping (ext : Externals)
  (nn : Z) (results_file : string) (s : OS) :
  let o := fst s in
  let o' := fst (snd (parameter_grid_sweep ext nn results_file s)) in
  fn_evals o' = fn_evals o
  /\ objective_scaling o' = objective_scaling o
  /\ opt_results_file o' = opt_results_file o
  /\ opt_result o' = opt_result o
  /\ x_0 o' = x_0 o
  /\ var_names o' = var_names o
  /\ var_bounds o' = var_bounds o
  /\ var_real_bounds o' = var_real_bounds o
  /\ stages o' = stages o.
Proof.
  pose proof (sweep_preserves config ext nn results_file
                (fun dims => run_models_keeps_config ext dims false) s) as Hk.
  pose proof (sweep_preserves stages ext nn results_file
                (fun dims => run_models_preserves_stages ext dims false) s)
    as Hs.
  cbn zeta.
  pose proof (f_equal fn_evals Hk). pose proof (f_equal objective_scaling Hk).
  pose proof (f_equal opt_results_file Hk). pose proof (f_equal opt_result Hk).
  pose proof (f_equal x_0 Hk). pose proof (f_equal var_names Hk).
  pose proof (f_equal var_bounds Hk). pose proof (f_equal var_real_bounds Hk).
  now repeat split.
Qed.

(* --------------------------------------------------------------------- *)
(** ** Sweeps without points *)

Lemma make_grid_x_zero (bounds : list (float * float)) :
  make_grid_x bounds 0 = Ret (map (fun _ => []) bounds).
Proof.
  induction bounds as [|b bounds IH]; [reflexivity|].
  cbn [make_grid_x map]. now rewrite IH.
Qed.

Lemma fill_grid_ravel_empty (grid_mesh : list numpy.ndarray)
  (rows : list nat) :
  (forall i, In i rows ->
     exists a, grid_mesh !! i = Some a /\ numpy.data a = []) ->
  fill_grid_ravel grid_mesh 0 rows = Ret (map (fun _ => []) rows).
Proof.
  induction rows as [|i rows IH]; intros H; [reflexivity|].
  cbn [fill_grid_ravel map].
  destruct (H i (or_introl eq_refl)) as (a & -> & Ha).
  unfold numpy.ravel. rewrite Ha. cbn [numpy.assign_row length Nat.eqb].
  rewrite IH; [reflexivity|]. intros j Hj. apply H. now right.
Qed.

Lemma make_grid_zero (bounds : list (float * float)) (dimension : nat) :
  (0 < dimension <= length bounds)%nat ->
  make_grid bounds dimension 0 = Ret [].
Proof.
  intros Hd. unfold make_grid. rewrite make_grid_x_zero.
  assert (Hp : 0 ^ Z.of_nat dimension = 0) by (apply Z.pow_0_l; lia).
  rewrite Hp. cbn [Z.ltb Z.compare Z.to_nat].
  rewrite fill_grid_ravel_empty; [reflexivity|].
  intros i Hi. apply in_seq in Hi.
  unfold numpy.meshgrid_ij. rewrite !length_map.
  assert (Hsz : numpy.size_of (map (@length float)
                                 (map (fun _ : float * float => []) bounds))
                = 0%nat).
  { destruct bounds; [cbn in Hd; lia|reflexivity]. }
  rewrite list_lookup_fmap, lookup_seq_lt by lia. cbn [fmap option_fmap option_map].
  eexists. split; [reflexivity|]. cbn [numpy.data]. now rewrite Hsz.
Qed.

Lemma make_grid_negative (b : float * float) (bounds : list (float * float))
  (dimension : nat) (nn : Z) :
  nn < 0 ->
  make_grid (b :: bounds) dimension nn
  = Raise (ValueError [Lit "Number of samples, "; Val (PyInt nn);
                       Lit ", must be non-negative."]).
Proof.
  intros Hn. unfold make_grid. cbn [make_grid_x]. unfold numpy.linspace.
  apply Z.ltb_lt in Hn. now rewrite Hn.
Qed.

(** X20: a sweep with no point per control runs no model: the result file
    is replaced by the header line alone.  With zero points the sweep then
    moves to the notebook directory and returns; with a negative number
    [np.linspace] raises [ValueError] after the file has been replaced. *)
Theorem sweep_without_points_leaves_the_header (ext : Externals) (nn : Z)
  (results_file : string) (o : Optimization) (w : World) :
  nn <= 0 ->
  (0 < length (var_names o) <= length (var_real_bounds o))%nat ->
  let header :=
    Text ("# Iteration, "
          +:+ String.concat "" (map (fun name => name +:+ ", ")
                                  (nice_var_names o))
          +:+ objective_name o) in
  let w1 := set_logs (insert results_file [header]) w in
  parameter_grid_sweep ext nn results_file (o, w)
  = if nn <? 0 then
      (Raise (ValueError [Lit "Number of samples, "; Val (PyInt nn);
                          Lit ", must be non-negative."]),
       (o, w1))
    else
      (Ret tt, (o, {| yamls := yamls w1; logs := logs w1;
                      cwd := notebookDir o |})).
Proof.
  intros Hn Hd header w1.
  unfold parameter_grid_sweep.
  unfold bind at 1. unfold gets at 1. cbn [fst snd].
  unfold bind at 1. rewrite world_run. cbn [fst snd write_log modify].
  fold header. fold w1.
  destruct (nn <? 0) eqn:E.
  - apply Z.ltb_lt in E.
    destruct (var_real_bounds o) as [|b bounds] eqn:Eb; [cbn in Hd; lia|].
    now rewrite (make_grid_negative b bounds _ nn E).
  - apply Z.ltb_ge in E. assert (nn = 0) as -> by lia.
    rewrite (make_grid_zero _ _ Hd), bind_lift_ret.
    unfold bind at 1. rewrite world_run. reflexivity.
Qed.

Lemma sweep_without_points_leaves_the_header_witness :
  let o := fst Session.two_controls in
  let w := snd Session.two_controls in
  let w1 :=
    set_logs (insert "sweep.csv"
                [Text ("# Iteration, "
                       +:+ String.concat ""
                             (map (fun name => name +:+ ", ")
                                (nice_var_names o))
                       +:+ objective_name o)]) w in
  parameter_grid_sweep (Session.stub (Session.constant (of_Z 2))) (-1)
    "sweep.csv" (o, w)
  = (Raise (ValueError [Lit "Number of samples, "; Val (PyInt (-1));
                        Lit ", must be non-negative."]),
     (o, w1)).
Proof.
  intros o w.
  apply (sweep_without_points_leaves_the_header
           (Session.stub (Session.constant (of_Z 2))) (-1) "sweep.csv" o w).
  - lia.
  - vm_compute. lia.
Defined.

(* --------------------------------------------------------------------- *)
(** ** The runs of the stages *)

Local Ltac innermost_case :=
  match goal with
  | |- context [match ?x with _ => _ end] =>
      lazymatch x with
      | context [match _ with _ => _ end] => fail
      | _ => destruct x eqn:?
      end
  end.

Local Ltac run_cases :=
  unfold bind, self_get, world, zoom, lift, ret, raise, chdir, modify;
  cbn [fst snd];
  repeat (innermost_case; cbn [fst snd cwd]).

Lemma as_str_ret (v : pyval) (s : string) : as_str v = Ret s -> v = PyStr s.
Proof. destruct v; try discriminate. now intros [= ->]. Qed.

Local Ltac returned_bool :=
  let v := fresh "v" in
  let Hv := fresh "Hv" in
  intros v Hv;
  first [ discriminate
        | injection Hv as <-;
          (split; [eauto|]);
          repeat match goal with
            | H : as_str _ = Ret _ |- _ => apply as_str_ret in H; subst
            end;
          reflexivity ].

Local Ltac run_shape := run_cases; (split; [reflexivity|returned_bool]).

Lemma Pretreatment_run_shape ext verbose a w :
  let res := Pretreatment.run ext verbose (a, w) in
  fst (snd res) = a
  /\ forall v, fst res = Ret v ->
               (exists b : bool, v = PyBool b)
               /\ a !! "notebookDir" = Some (PyStr (cwd (snd (snd res)))).
Proof.
  cbn zeta. unfold Pretreatment.run, os_path_join, run_script. run_shape.
Qed.

Lemma run_eh_cfd_surrogate_shape ext verbose a w :
  let res := EnzymaticHydrolysis.run_eh_cfd_surrogate ext verbose (a, w) in
  fst (snd res) = a
  /\ forall v, fst res = Ret v ->
               (exists b : bool, v = PyBool b)
               /\ a !! "notebookDir" = Some (PyStr (cwd (snd (snd res)))).
Proof.
  cbn zeta. unfold EnzymaticHydrolysis.run_eh_cfd_surrogate, os_path_join.
  run_shape.
Qed.

Lemma run_eh_lignocellulose_model_shape ext verbose a w :
  let res :=
    EnzymaticHydrolysis.run_eh_lignocellulose_model ext verbose (a, w) in
  fst (snd res) = a
  /\ forall v, fst res = Ret v ->
               (exists b : bool, v = PyBool b)
               /\ a !! "notebookDir" = Some (PyStr (cwd (snd (snd res)))).
Proof.
  cbn zeta.
  unfold EnzymaticHydrolysis.run_eh_lignocellulose_model, os_path_join.
  run_shape.
Qed.

Lemma run_biorector_cfd_surrogate_shape ext verbose a w :
  let res := Bioreactor.run_biorector_cfd_surrogate ext verbose (a, w) in
  fst (snd res) = a
  /\ forall v, fst res = Ret v ->
               ((exists b : bool, v = PyBool b)
                /\ a !! "notebookDir" = Some (PyStr (cwd (snd (snd res)))))
               \/ (v = PyNone /\ snd (snd res) = w).
Proof.
  cbn zeta. unfold Bioreactor.run_biorector_cfd_surrogate, os_path_join.
  run_cases.
  all: split; [reflexivity|intros v' Hv; try discriminate].
  all: injection Hv as <-.
  all: try (right; split; [reflexivity|]).
  all: try (left; split; [eauto|]).
  all: unfold yaml_to_dict in *.
  all: repeat match goal with
         | H : as_str _ = Ret _ |- _ => apply as_str_ret in H; subst
         | H : context [match ?x with _ => _ end] |- _ => destruct x
         | H : (_, _) = (_, _) |- _ => injection H as <- <-
         end; try reflexivity; try discriminate.
Qed.

(** X21: a run of a stage written in Python never changes the attributes
    of the stage.  When it returns, it returns a boolean and the working
    directory is the notebook directory of the stage; the one exception is
    the bioreactor surrogate that finds no enzymatic hydrolysis result yet,
    which returns [None] and has changed nothing at all. *)
Theorem runs_leave_the_stage_alone (ext : Externals) (c : class_id)
  (m : string) (verbose : pyval) (a : gmap string pyval) (w : World) :
  In (c, m) python_runs ->
  let res := invoke ext c m verbose (a, w) in
  fst (snd res) = a
  /\ forall v : pyval,
       fst res = Ret v ->
       ((exists b : bool, v = PyBool b)
        /\ a !! "notebookDir" = Some (PyStr (cwd (snd (snd res)))))
       \/ (c = CBioreactor /\ v = PyNone /\ snd (snd res) = w).
Proof.
  intros Hin. cbn [python_runs In] in Hin.
  destruct Hin as [H|[H|[H|[H|[]]]]]; injection H as <- <-; cbn zeta.
  - destruct (Pretreatment_run_shape ext verbose a w) as (Ha & Hv).
    split; [exact Ha|]. intros v E. left. exact (Hv v E).
  - destruct (run_eh_cfd_surrogate_shape ext verbose a w) as (Ha & Hv).
    split; [exact Ha|]. intros v E. left. exact (Hv v E).
  - destruct (run_eh_lignocellulose_model_shape ext verbose a w) as (Ha & Hv).
    split; [exact Ha|]. intros v E. left. exact (Hv v E).
  - destruct (run_biorector_cfd_surrogate_shape ext verbose a w) as (Ha & Hv).
    split; [exact Ha|]. intros v E.
    destruct (Hv v E) as [H|[H1 H2]]; [now left|right; now repeat split].
Qed.

Lemma runs_leave_the_stage_alone_witness :
  let res := invoke (Session.stub (Session.constant (of_Z 2))) CBioreactor
               "run_biorector_cfd_surrogate" (PyBool true)
               (Session.br_attrs, Session.waiting_world) in
  fst (snd res) = Session.br_attrs
  /\ forall v : pyval,
       fst res = Ret v ->
       ((exists b : bool, v = PyBool b)
        /\ Session.br_attrs !! "notebookDir"
           = Some (PyStr (cwd (snd (snd res)))))
       \/ (CBioreactor = CBioreactor /\ v = PyNone
           /\ snd (snd res) = Session.waiting_world).
Proof.
  apply (runs_leave_the_stage_alone (Session.stub (Session.constant (of_Z 2)))
           CBioreactor "run_biorector_cfd_surrogate" (PyBool true)
           Session.br_attrs Session.waiting_world).
  cbn [python_runs In]. tauto.
Defined.

(* --------------------------------------------------------------------- *)
(** ** The inputs of the CFD simulation of the enzymatic hydrolysis *)

Section Leaves.

Variable k : string.

Lemma leaves_bind {A B} (m : M St A) (f : A -> M St B) :
  leaves_attribute k m -> (forall a, leaves_attribute k (f a)) ->
  leaves_attribute k (bind m f).
Proof.
  intros Hm Hf s. unfold bind. specialize (Hm s).
  destruct (m s) as [[a|e] s1]; cbn [fst snd] in *; [|exact Hm].
  now rewrite Hf.
Qed.

Lemma leaves_self_set (name : string) (v : pyval) :
  name <> k -> leaves_attribute k (self_set name v).
Proof. intros Hne s. cbn. now rewrite lookup_insert_ne. Qed.

Lemma leaves_self_get (name : string) : leaves_attribute k (self_get name).
Proof. intros s. unfold self_get. now destruct (fst s !! name). Qed.

Lemma leaves_self_method (name : string) :
  leaves_attribute k (self_method name).
Proof. now intros s. Qed.

Lemma leaves_world {A} (c : M World A) : leaves_attribute k (world c).
Proof. intros [a w]. now rewrite world_run. Qed.

Lemma leaves_lift {A} (x : outcome A) : leaves_attribute k (lift x).
Proof. now intros s. Qed.

Lemma leaves_ret {A} (a : A) : leaves_attribute k (@ret St A a).
Proof. now intros s. Qed.

Lemma leaves_raise {A} (e : exn) : leaves_attribute k (@raise St A e).
Proof. now intros s. Qed.

Lemma leaves_input2yaml (c : class_id) (rewrite : bool) :
  leaves_attribute k (class_input2yaml c rewrite).
Proof. intros s. now rewrite input2yaml_keeps_attrs. Qed.

End Leaves.

Local Ltac leaves_alone k :=
  repeat first
    [ apply leaves_bind; [|intros ?]
    | apply leaves_self_set; discriminate
    | apply leaves_self_get
    | apply leaves_self_method
    | apply leaves_world
    | apply leaves_lift
    | apply leaves_ret
    | apply leaves_raise
    | exact (leaves_input2yaml k CEnzymaticHydrolysis false)
    | match goal with
      | |- leaves_attribute _ (if ?b then _ else _) => destruct b
      end ].

(** What the constructor of an enzymatic hydrolysis object leaves in the
    attributes [fix_0] and [params_filename]. *)
Lemma EnzymaticHydrolysis_init_attributes nb pf eh hpc w0 a w1 :
  EnzymaticHydrolysis.__init__ nb pf eh hpc (∅, w0) = (Ret tt, (a, w1)) ->
  a !! "fix_0" = None /\ a !! "params_filename" = Some (PyStr pf).
Proof.
  intros Hinit. split.
  - assert (H : leaves_attribute "fix_0"
                  (EnzymaticHydrolysis.__init__ nb pf eh hpc)).
    { unfold EnzymaticHydrolysis.__init__,
        EnzymaticHydrolysis.select_run_function.
      leaves_alone "fix_0". }
    specialize (H (∅, w0)). now rewrite Hinit in H.
  - unfold EnzymaticHydrolysis.__init__ in Hinit.
    rewrite !bind_self_set in Hinit. cbn [fst snd] in Hinit.
    match type of Hinit with
    | ?m ?s = _ =>
        assert (H : leaves_attribute "params_filename" m);
          [|specialize (H s); rewrite Hinit in H]
    end.
    { unfold EnzymaticHydrolysis.select_run_function.
      leaves_alone "params_filename". }
    cbn [fst snd] in H. rewrite H.
    repeat (rewrite lookup_insert_ne by discriminate).
    apply lookup_insert_eq.
Qed.

(** X22: [get_globalVars] reads [self.fix_0], an attribute that the class
    does not define and that its constructor never sets (the solid
    fraction is [_fis_0]): on every enzymatic hydrolysis object as
    constructed the call raises and returns no dictionary; when the
    parameter file can be read the exception is [AttributeError] for
    [fix_0], raised after [ve_params] was replaced by the contents of the
    file. *)
Theorem get_globalVars_raises_on_constructed_objects
  (nb pf : string) (eh : WidgetCollection) (hpc : bool) (w0 : World)
  (a : gmap string pyval) (w1 w : World) :
  EnzymaticHydrolysis.__init__ nb pf eh hpc (∅, w0) = (Ret tt, (a, w1)) ->
  (exists (e : exn) (s' : St), get_globalVars (a, w) = (Raise e, s'))
  /\ forall doc : gmap string pyval,
       yamls w !! pf = Some doc ->
       get_globalVars (a, w)
       = (Raise (AttributeError "fix_0"),
          (<["ve_params" := PyDict doc]> a, w)).
Proof.
  intros Hinit.
  destruct (EnzymaticHydrolysis_init_attributes _ _ _ _ _ _ _ Hinit)
    as (Hfix & Hpf).
  assert (Hgo : forall doc, yamls w !! pf = Some doc ->
                  get_globalVars (a, w)
                  = (Raise (AttributeError "fix_0"),
                     (<["ve_params" := PyDict doc]> a, w))).
  { intros doc Hdoc. unfold get_globalVars.
    unfold bind at 1. unfold self_get at 1. cbn [fst snd]. rewrite Hpf.
    unfold bind at 1. cbn [lift as_str].
    unfold bind at 1. rewrite world_run. unfold yaml_to_dict.
    rewrite Hdoc. cbn [fst snd].
    rewrite bind_self_set. cbn [fst snd].
    change (getattr (class_ns CEnzymaticHydrolysis) "fix_0")
      with (self_get "fix_0").
    unfold bind at 1. unfold self_get at 1. cbn [fst snd].
    rewrite lookup_insert_ne by discriminate. now rewrite Hfix. }
  split; [|exact Hgo].
  destruct (yamls w !! pf) as [doc|] eqn:Hdoc; [rewrite (Hgo doc); eauto|].
  unfold get_globalVars.
  unfold bind at 1. unfold self_get at 1. cbn [fst snd]. rewrite Hpf.
  unfold bind at 1. cbn [lift as_str].
  unfold bind at 1. rewrite world_run. unfold yaml_to_dict.
  rewrite Hdoc. cbn [fst snd]. eauto.
Qed.

Lemma get_globalVars_raises_on_constructed_objects_witness :
  let init := EnzymaticHydrolysis.__init__ "/nb" "params.yaml" eh_options
                false (∅, session_world) in
  let a := fst (snd init) in
  (exists (e : exn) (s' : St),
      get_globalVars (a, session_world) = (Raise e, s'))
  /\ forall doc : gmap string pyval,
       yamls session_world !! "params.yaml" = Some doc ->
       get_globalVars (a, session_world)
       = (Raise (AttributeError "fix_0"),
          (<["ve_params" := PyDict doc]> a, session_world)).
Proof.
  intros init a.
  apply (get_globalVars_raises_on_constructed_objects "/nb" "params.yaml"
           eh_options false session_world a (snd (snd init)) session_world).
  reflexivity.
Defined.

(* --------------------------------------------------------------------- *)
(** ** The NaN flags of the stages *)

Lemma same_effect_refl {S A} (r : outcome A * S) : same_effect r r.
Proof. split; [reflexivity|]. now destruct (fst r). Qed.

Lemma same_effect_then {S A B} (m1 m2 : M S A) (k : M S B) (s : S) :
  same_effect (m1 s) (m2 s) ->
  bind m1 (fun _ => k) s = bind m2 (fun _ => k) s.
Proof.
  unfold same_effect, bind.
  destruct (m1 s) as [[a1|e1] s1], (m2 s) as [[a2|e2] s2]; cbn [fst snd];
    intros [-> H]; try contradiction; congruence.
Qed.

Section Flags.

Variables (f g : pyval -> outcome bool) (ext : Externals).
Hypothesis f_total : forall d, exists b, f d = Ret b.
Hypothesis g_total : forall d, exists b, g d = Ret b.

Local Ltac flags :=
  unfold bind, self_get, world, zoom, lift, ret, raise, chdir, modify;
  cbn [fst snd check_dict_for_nans with_nan_check interp_steam import_pt
       ptrun_main exec_file EH_surrogate_main lignocell_EH_main
       bcolumn_surrogate_main];
  repeat (innermost_case;
          cbn [fst snd check_dict_for_nans with_nan_check interp_steam
               import_pt ptrun_main exec_file EH_surrogate_main
               lignocell_EH_main bcolumn_surrogate_main]);
  try apply same_effect_refl;
  try (split; [reflexivity|exact I]);
  repeat match goal with
    | H : f ?d = Raise _ |- _ =>
        destruct (f_total d) as [? ?]; congruence
    | H : g ?d = Raise _ |- _ =>
        destruct (g_total d) as [? ?]; congruence
    end.

Lemma invoke_ignores_the_check (c : class_id) (m : string) (verbose : pyval)
  (s : St) :
  same_effect (invoke (with_nan_check f ext) c m verbose s)
    (invoke (with_nan_check g ext) c m verbose s).
Proof.
  destruct s as [a w]. destruct c; cbn [invoke].
  - apply same_effect_refl.
  - destruct (m =? "run")%string; [|apply same_effect_refl].
    unfold Pretreatment.run, os_path_join, run_script. flags.
  - destruct (m =? "run_eh_cfd_simulation")%string;
      [apply same_effect_refl|].
    destruct (m =? "run_eh_cfd_surrogate")%string.
    { unfold EnzymaticHydrolysis.run_eh_cfd_surrogate, os_path_join. flags. }
    destruct (m =? "run_eh_lignocellulose_model")%string;
      [|apply same_effect_refl].
    unfold EnzymaticHydrolysis.run_eh_lignocellulose_model, os_path_join.
    flags.
  - destruct (m =? "run_biorector_cfd_simulation")%string;
      [apply same_effect_refl|].
    destruct (m =? "run_biorector_cfd_surrogate")%string;
      [|apply same_effect_refl].
    unfold Bioreactor.run_biorector_cfd_surrogate, os_path_join. flags.
Qed.

End Flags.

Lemma for_each_ext {S A} (l : list A) (b1 b2 : A -> M S unit) :
  (forall x s, b1 x s = b2 x s) ->
  forall s, for_each l b1 s = for_each l b2 s.
Proof.
  intros H. induction l as [|x l IH]; intros s; [reflexivity|].
  cbn [for_each]. unfold bind. rewrite H.
  destruct (b2 x s) as [[[]|e] s1]; [apply IH|reflexivity].
Qed.

Lemma on_model_same_effect {A} (k : nat) (c1 c2 : class_id -> M St A)
  (s : OS) :
  (forall c s', same_effect (c1 c s') (c2 c s')) ->
  same_effect (on_model k c1 s) (on_model k c2 s).
Proof.
  intros H. destruct s as [o w]. unfold on_model. cbn [fst snd].
  destruct (models_list o !! k) as [ob|]; [|apply same_effect_refl].
  specialize (H (cls ob) (attrs ob, w)). unfold same_effect in *.
  destruct (c1 (cls ob) (attrs ob, w)) as [r1 [a1 w1]],
           (c2 (cls ob) (attrs ob, w)) as [r2 [a2 w2]].
  cbn [fst snd] in *. destruct H as [[= -> ->] H]. now split.
Qed.

Lemma bind_ext {S A B} (m : M S A) (k1 k2 : A -> M S B) (s : S) :
  (forall a s', k1 a s' = k2 a s') -> bind m k1 s = bind m k2 s.
Proof. intros H. unfold bind. destruct (m s) as [[a|e] s1]; auto. Qed.

Lemma bind_cong {S A B} (m1 m2 : M S A) (k : A -> M S B) (s : S) :
  m1 s = m2 s -> bind m1 k s = bind m2 k s.
Proof. intros H. unfold bind. now rewrite H. Qed.

(** X23: the pipeline never looks at the NaN flag the run of a stage
    returns: with any two NaN checks that return a boolean in the place of
    [check_dict_for_nans], an evaluation ends in the same state with the
    same value or the same exception.  So a run that reports NaNs does not
    stop the stages after it by its flag; what the later stages do with
    the values they read is another matter. *)
Theorem pipeline_ignores_the_nan_flags (f g : pyval -> outcome bool)
  (ext : Externals) (dims : list float) (verbose : bool) (s : OS) :
  (forall d, exists b, f d = Ret b) ->
  (forall d, exists b, g d = Ret b) ->
  run_models_with_new_values (with_nan_check f ext) dims verbose s
  = run_models_with_new_values (with_nan_check g ext) dims verbose s.
Proof.
  intros Hf Hg. rewrite !run_models_after_assignment.
  destruct (assign_new_values _ _ _ s) as [[[]|e] s1]; [|reflexivity].
  rewrite !run_models_no_values.
  apply bind_ext. intros _ s2. apply bind_cong. apply for_each_ext.
  intros k s3. apply same_effect_then. apply on_model_same_effect.
  intros c [a w]. unfold call_run, bind.
  destruct (getattr (class_ns c) "run" (a, w)) as [[r|e] s4];
    [|apply same_effect_refl].
  destruct r; try apply same_effect_refl.
  now apply invoke_ignores_the_check.
Qed.

Lemma pipeline_ignores_the_nan_flags_witness :
  let ext := Session.stub (Session.constant (of_Z 2)) in
  run_models_with_new_values (with_nan_check (fun _ => Ret true) ext)
    [of_Z 100] true pretreatment_only
  = run_models_with_new_values (with_nan_check (fun _ => Ret false) ext)
      [of_Z 100] true pretreatment_only.
Proof.
  intros ext.
  apply (pipeline_ignores_the_nan_flags (fun _ => Ret true)
           (fun _ => Ret false) ext [of_Z 100] true pretreatment_only).
  - intros d. exists true. reflexivity.
  - intros d. exists false. reflexivity.
Defined.

(** X24: the value an evaluation returns is the one the parameter file
    holds under the output category and the name of the objective when
    the last stage has run; the evaluation reads it and changes nothing
    afterwards. *)
Theorem objective_is_read_from_the_file (ext : Externals)
  (dims : list float) (verbose : bool) (s : OS) (r : pyval) (s' : OS) :
  run_models_with_new_values ext dims verbose s = (Ret r, s') ->
  persisted (snd s') (params_filename (fst s)) (output_name (fst s))
    (objective_name (fst s)) = Some r.
Proof.
  intros H.
  pose proof (run_models_keeps_config ext dims verbose s) as Hk.
  rewrite H in Hk. cbn [fst snd] in Hk.
  pose proof (f_equal params_filename Hk) as H1.
  pose proof (f_equal output_name Hk) as H2.
  pose proof (f_equal objective_name Hk) as H3.
  cbn in H1, H2, H3. rewrite <- H1, <- H2, <- H3. clear Hk H1 H2 H3.
  rewrite run_models_after_assignment in H.
  pose proof (assign_keeps_config (var_names (fst s)) dims
                (length (models_list (fst s))) s) as Ha.
  destruct (assign_new_values _ _ _ s) as [[[]|e] s1]; [|discriminate].
  rewrite run_models_no_values in H.
  pose proof (run_models_keeps_config ext [] verbose s1) as Hk.
  rewrite run_models_no_values, H in Hk. cbn [fst snd] in Hk.
  pose proof (f_equal params_filename Hk) as H1.
  pose proof (f_equal output_name Hk) as H2.
  pose proof (f_equal objective_name Hk) as H3.
  cbn in H1, H2, H3. rewrite H1, H2, H3. clear Hk H1 H2 H3 Ha.
  unfold bind at 1 in H.
  destruct (world (chdir (notebookDir (fst s1))) s1) as [[[]|e] s2];
    [|discriminate].
  unfold bind at 1 in H.
  match type of H with
  | context [for_each ?l ?b s2] =>
      destruct (for_each l b s2) as [[[]|e] [o3 w3]]; [|discriminate]
  end.
  unfold bind at 1 in H. rewrite world_run in H. unfold yaml_to_dict in H.
  cbn [fst snd] in H. unfold persisted.
  destruct (yamls w3 !! params_filename (fst s1)) as [doc|] eqn:E1;
    cbn [fst snd] in H; [|discriminate].
  unfold bind at 1 in H. cbn [lift py_getitem] in H.
  destruct (doc !! output_name (fst s1)) as [out|] eqn:E2; [|discriminate].
  unfold bind at 1 in H. cbn [lift] in H.
  destruct out; try discriminate. cbn [py_getitem] in H.
  match type of H with
  | context [?d !! objective_name (fst s1)] =>
      destruct (d !! objective_name (fst s1)) as [v|] eqn:E3; [|discriminate]
  end.
  injection H as <- <-. cbn [snd]. now rewrite E1, E2.
Qed.

Lemma objective_is_read_from_the_file_witness :
  let ext := Session.stub (Session.constant (of_Z 2)) in
  let s := Session.two_controls in
  let run := run_models_with_new_values ext [dec 1 2; of_Z 15] true s in
  persisted (snd (snd run)) (params_filename (fst s)) (output_name (fst s))
    (objective_name (fst s)) = Some (PyFloat (of_Z 2)).
Proof.
  intros ext s run.
  apply (objective_is_read_from_the_file ext [dec 1 2; of_Z 15] true s
           (PyFloat (of_Z 2)) (snd run)).
  vm_compute. reflexivity.
Defined.

(* --------------------------------------------------------------------- *)
(** ** What the constructors do not check *)

(** X25: an objective widget without a value raises [IndexError], and one
    whose output category is not one of the three known names raises the
    [ValueError] of [define_n_models]; both before any stage model is
    built, so that no file is written and nothing else has changed. *)
Theorem init_refuses_the_category_first (ext : Externals)
  (fs pt eh br : WidgetCollection) (objw : list string) (hpc : bool)
  (nb pf : string) (w : World) :
  match objw with
  | [] => True
  | out :: _ => py_in out the_output_names = false
  end ->
  __init__ ext fs pt eh br objw hpc nb pf w
  = (Raise match objw with
           | [] => IndexError
           | out :: _ =>
               ValueError
                 [Lit "Error: Output dictionary '"; Val (PyStr out);
                  Lit "' doesn't exist. Check the widget definition"]
           end,
     w).
Proof.
  intros Hout. rewrite init_stages. destruct objw as [|out rest];
    [reflexivity|].
  unfold define_n_models. now rewrite Hout.
Qed.

Lemma init_refuses_the_category_first_witness :
  __init__ (Session.stub (Session.constant (of_Z 2)))
    (Session.fs_options true) (Session.pt_options false true 10 20) [] []
    ["fermentation_output"; "X_G"] false "/nb" "params.yaml" Session.w0
  = (Raise (ValueError
              [Lit "Error: Output dictionary '";
               Val (PyStr "fermentation_output");
               Lit "' doesn't exist. Check the widget definition"]),
     Session.w0).
Proof.
  apply (init_refuses_the_category_first
           (Session.stub (Session.constant (of_Z 2)))
           (Session.fs_options true) (Session.pt_options false true 10 20)
           [] [] ["fermentation_output"; "X_G"] false "/nb" "params.yaml"
           Session.w0).
  reflexivity.
Defined.

Lemma call_run_unbound (ext : Externals) (c : class_id) (verbose : pyval)
  (a : gmap string pyval) (w : World) :
  c = CEnzymaticHydrolysis \/ c = CBioreactor ->
  a !! "run" = None ->
  call_run ext c verbose (a, w) = (Raise (AttributeError "run"), (a, w)).
Proof.
  intros [-> | ->] Hr; unfold call_run;
    (replace (getattr (class_ns _) "run") with (self_get "run")
      by reflexivity);
    unfold bind, self_get; cbn [fst snd]; now rewrite Hr.
Qed.

Lemma select_run_function_skips (c : class_id) (mt : pyval)
  (a : gmap string pyval) (w : World) :
  c = CEnzymaticHydrolysis \/ c = CBioreactor ->
  (forall name, mt = PyStr name -> run_variant c name = None) ->
  a !! "_model_type" = Some mt ->
  match c with
  | CEnzymaticHydrolysis => EnzymaticHydrolysis.select_run_function
  | _ => Bioreactor.select_run_function
  end (a, w) = (Ret tt, (a, w)).
Proof.
  intros Hc Hno Hmt.
  assert (Hf : forall name : string,
             (exists m, run_variant c name = Some m) ->
             py_eq_str mt name = false).
  { intros name (m & Hm). destruct mt; try reflexivity. cbn [py_eq_str].
    destruct (String.eqb_spec s name) as [-> |]; [|reflexivity].
    rewrite (Hno name eq_refl) in Hm. discriminate. }
  destruct Hc as [-> | ->].
  - unfold EnzymaticHydrolysis.select_run_function.
    rewrite (bind_ret _ _ _ _ _ (self_get_some "_model_type" _ (a, w) Hmt)).
    now rewrite !Hf by (eexists; reflexivity).
  - unfold Bioreactor.select_run_function, Bioreactor.get_model_type.
    rewrite (bind_ret _ _ _ _ _ (self_get_some "_model_type" _ (a, w) Hmt)).
    rewrite Hf by (eexists; reflexivity).
    rewrite (bind_ret _ _ _ _ _ (self_get_some "_model_type" _ (a, w) Hmt)).
    now rewrite Hf by (eexists; reflexivity).
Qed.

(** X26: the constructors of the enzymatic hydrolysis and of the bioreactor
    take any model type, also one the setter of [model_type] refuses: the
    object is built and reports that model type, but no run function has
    been chosen, so that [model.run(verbose)] raises [AttributeError]. *)
Theorem constructor_takes_any_model_type (ext : Externals) (c : class_id)
  (nb pf : string) (options : WidgetCollection) (hpc : bool) (mt : pyval)
  (w0 : World) (a : gmap string pyval) (w1 : World) :
  c = CEnzymaticHydrolysis \/ c = CBioreactor ->
  dot_value options "model_type" = Ret mt ->
  (forall name, mt = PyStr name -> run_variant c name = None) ->
  match c with
  | CEnzymaticHydrolysis => EnzymaticHydrolysis.__init__ nb pf options hpc
  | _ => Bioreactor.__init__ nb pf options hpc
  end (∅, w0) = (Ret tt, (a, w1)) ->
  (forall w, getattr (class_ns c) "model_type" (a, w) = (Ret mt, (a, w)))
  /\ (exists msg, forall w,
        setattr (class_ns c) "model_type" mt (a, w)
        = (Raise (ValueError msg), (a, w)))
  /\ forall verbose w,
       call_run ext c verbose (a, w) = (Raise (AttributeError "run"), (a, w)).
Proof.
  intros Hc Hmt Hno H.
  assert (Ha : a !! "_model_type" = Some mt /\ a !! "run" = None).
  { destruct Hc as [-> | ->].
    - unfold EnzymaticHydrolysis.__init__ in H.
      rewrite !bind_self_set in H. cbn [fst snd] in H.
      unfold bind at 1 in H.
      destruct (dot_value options "show_plots") as [sp|e]; cbn [lift] in H;
        [|discriminate].
      rewrite bind_self_set in H. cbn [fst snd] in H.
      unfold bind at 1 in H.
      destruct (dot_widget_value options "lambda_e") as [l|e];
        cbn [lift] in H; [|discriminate].
      rewrite bind_self_set in H. cbn [fst snd] in H.
      unfold bind at 1 in H.
      destruct (dot_value options "fis_0") as [f|e]; cbn [lift] in H;
        [|discriminate].
      rewrite bind_self_set in H. cbn [fst snd] in H.
      unfold bind at 1 in H.
      destruct (dot_value options "t_final") as [t|e]; cbn [lift] in H;
        [|discriminate].
      rewrite bind_self_set in H. cbn [fst snd] in H.
      rewrite Hmt, bind_lift_ret in H.
      rewrite bind_self_set in H. cbn [fst snd] in H.
      unfold bind at 1 in H. rewrite world_run in H. cbn [fst snd] in H.
      destruct (yaml_to_dict pf w0) as [[ve|e] w'] eqn:Ey;
        cbn [fst snd] in H; [|discriminate].
      rewrite bind_self_set in H. cbn [fst snd] in H.
      unfold bind at 1 in H.
      match type of H with
      | context [EnzymaticHydrolysis.select_run_function (?a0, _)] =>
          rewrite (select_run_function_skips CEnzymaticHydrolysis mt a0 w'
                     (or_introl eq_refl) Hno) in H;
            [|repeat (rewrite lookup_insert_ne by discriminate);
              apply lookup_insert_eq]
      end.
      match type of H with
      | context [EnzymaticHydrolysis.input2yaml false ?s0] =>
          pose proof (input2yaml_keeps_attrs CEnzymaticHydrolysis false s0)
            as Hk;
            cbn [class_input2yaml fst] in Hk;
            destruct (EnzymaticHydrolysis.input2yaml false s0)
              as [r [a' w2]]
      end.
      cbn [fst snd] in Hk. injection H as _ <- _. subst a'.
      split; repeat (rewrite lookup_insert_ne by discriminate);
        [apply lookup_insert_eq|apply lookup_empty].
    - unfold Bioreactor.__init__ in H.
      rewrite !bind_self_set in H. cbn [fst snd] in H.
      rewrite Hmt, bind_lift_ret in H.
      rewrite bind_self_set in H. cbn [fst snd] in H.
      unfold bind at 1 in H.
      destruct (dot_value options "gas_velocity") as [g|e]; cbn [lift] in H;
        [|discriminate].
      rewrite bind_self_set in H. cbn [fst snd] in H.
      unfold bind at 1 in H.
      destruct (dot_value options "column_height") as [h|e]; cbn [lift] in H;
        [|discriminate].
      rewrite bind_self_set in H. cbn [fst snd] in H.
      unfold bind at 1 in H.
      destruct (dot_value options "column_diameter") as [d|e];
        cbn [lift] in H; [|discriminate].
      rewrite bind_self_set in H. cbn [fst snd] in H.
      unfold bind at 1 in H.
      destruct (dot_value options "bubble_diameter") as [b|e];
        cbn [lift] in H; [|discriminate].
      rewrite bind_self_set in H. cbn [fst snd] in H.
      unfold bind at 1 in H.
      destruct (dot_value options "t_final") as [t|e]; cbn [lift] in H;
        [|discriminate].
      rewrite bind_self_set in H. cbn [fst snd] in H.
      unfold bind at 1 in H.
      match type of H with
      | context [Bioreactor.input2yaml false ?s0] =>
          pose proof (input2yaml_keeps_attrs CBioreactor false s0) as Hk;
            cbn [class_input2yaml fst] in Hk;
            destruct (Bioreactor.input2yaml false s0) as [[[]|e] [a' w2]];
            [|discriminate]
      end.
      cbn [fst snd] in Hk. subst a'.
      match type of H with
      | context [Bioreactor.select_run_function (?a0, _)] =>
          rewrite (select_run_function_skips CBioreactor mt a0 w2
                     (or_intror eq_refl) Hno) in H;
            [|repeat (rewrite lookup_insert_ne by discriminate);
              apply lookup_insert_eq]
      end.
      injection H as <- _.
      split; repeat (rewrite lookup_insert_ne by discriminate);
        [apply lookup_insert_eq|apply lookup_empty]. }
  destruct Ha as (Hm & Hr). split; [|split].
  - intros w. destruct Hc as [-> | ->];
      exact (self_get_some "_model_type" mt (a, w) Hm).
  - assert (Hf : forall name : string,
               (exists m, run_variant c name = Some m) ->
               py_eq_str mt name = false).
    { intros name (m & Hn). destruct mt; try reflexivity. cbn [py_eq_str].
      destruct (String.eqb_spec s name) as [-> |]; [|reflexivity].
      rewrite (Hno name eq_refl) in Hn. discriminate. }
    destruct Hc as [-> | ->]; eexists; intros w.
    + change (setattr (class_ns CEnzymaticHydrolysis) "model_type" mt (a, w))
        with (EnzymaticHydrolysis.set_model_type mt (a, w)).
      unfold EnzymaticHydrolysis.set_model_type.
      rewrite !Hf by (eexists; reflexivity). reflexivity.
    + change (setattr (class_ns CBioreactor) "model_type" mt (a, w))
        with (Bioreactor.set_model_type mt (a, w)).
      unfold Bioreactor.set_model_type.
      rewrite !Hf by (eexists; reflexivity). reflexivity.
  - intros verbose w. now apply call_run_unbound.
Qed.

Lemma constructor_takes_any_model_type_witness :
  let ext := Session.stub (Session.constant (of_Z 2)) in
  let options :=
    [("model_type", Plain (PyStr "Two-Phase Model"));
     ("lambda_e", Session.ctl false (of_Z 5) (of_Z 300) (of_Z 30)
                    "Enzymatic Load");
     ("fis_0", Plain (PyFloat (dec 5 100)));
     ("t_final", Plain (PyFloat (of_Z 24)));
     ("show_plots", Plain (PyBool false))] in
  let init := EnzymaticHydrolysis.__init__ "/nb" "params.yaml" options false
                (∅, session_world) in
  let a := fst (snd init) in
  (forall w, getattr (class_ns CEnzymaticHydrolysis) "model_type" (a, w)
             = (Ret (PyStr "Two-Phase Model"), (a, w)))
  /\ (exists msg, forall w,
        setattr (class_ns CEnzymaticHydrolysis) "model_type"
          (PyStr "Two-Phase Model") (a, w)
        = (Raise (ValueError msg), (a, w)))
  /\ forall verbose w,
       call_run ext CEnzymaticHydrolysis verbose (a, w)
       = (Raise (AttributeError "run"), (a, w)).
Proof.
  intros ext options init a.
  apply (constructor_takes_any_model_type ext CEnzymaticHydrolysis "/nb"
           "params.yaml" options false (PyStr "Two-Phase Model")
           session_world a (snd (snd init))).
  - now left.
  - reflexivity.
  - intros name [= <-]. reflexivity.
  - reflexivity.
Defined.
